(** * Tumepok strategy core: rise tracker, engine, risk manager, position ledger

    A shallow embedding of the decision layer of the repository
    (src/strategy/rise_tracker.py, tumepok_engine.py, risk_manager.py,
    position_manager.py, support_analyzer.py) and the properties of its
    specification.

    Conventions of the embedding.
    - A Python [float] is a rational [Q]; every formula of the source is
      taken with exact arithmetic, and equalities between computed values
      are stated with [==].  Where a decision compares a float that the
      call has just computed with a line, as the tier choice of
      [TrackingInfo.get_buy_stage] does, the rounding of each operation is
      an argument [rnd] of the function and the property holds for every
      rounding, that of doubles included.  A Python [int] is a [Z].
    - A Python [dict] with a fixed set of literal keys is a record; a key
      that some creation site omits and the code reads with [.get] or
      [setdefault] is an [option] field.  The per-symbol maps of the engine
      and the ratio tables of the risk manager are [gmap]s; a [set] of stage
      names is a [gset string].
    - An operation that can raise returns a [result]; an exception swallowed
      by a [try/except] of the source is modelled where it is swallowed.
    - Wall-clock reads ([datetime.now()]) are an explicit day number
      [today : Z]; logging and UI refresh calls are dropped.
    - Code of the repository that is not among these files (the matrix
      and status tables of config.constants, the calculator, the
      configuration object, the order transport) is a parameter of the
      functions that use it.

    The definitions come first: the modules of the embedding, the
    specification-level notions, runs and concrete data.  The properties
    follow, grouped by the part of the program they are about. *)

From Stdlib Require Import ZArith QArith Qabs Qround Qminmax Lqa Lia List Sorted String Bool.
From stdpp Require Import base gmap sets list strings.
Import ListNotations.
Open Scope Q_scope.

(** ** Python values *)

Module Py.

Inductive exn : Type :=
| ZeroDivisionError
| IndexError
| KeyError
| AttributeError.

Inductive result (A : Type) : Type :=
| Ok (a : A)
| Raise (e : exn).
Arguments Ok {A} a.
Arguments Raise {A} e.

Definition bind {A B : Type} (r : result A) (k : A -> result B) : result B :=
  match r with
  | Ok a => k a
  | Raise e => Raise e
  end.

Definition is_ok {A : Type} (r : result A) : bool :=
  match r with Ok _ => true | Raise _ => false end.

(** Comparisons of floats, as booleans. *)
Definition leb (a b : Q) : bool := Qle_bool a b.
Definition ltb (a b : Q) : bool := negb (Qle_bool b a).
Definition geb (a b : Q) : bool := Qle_bool b a.
Definition gtb (a b : Q) : bool := negb (Qle_bool a b).
Definition eqb (a b : Q) : bool := Qeq_bool a b.

(** [a / b]: raises on a zero divisor. *)
Definition div (a b : Q) : result Q :=
  if Qeq_bool b 0 then Raise ZeroDivisionError else Ok (a / b).

(** [int(x)] of a float: truncation toward zero. *)
Definition int (x : Q) : Z :=
  if Qle_bool 0 x then Qfloor x else Qceiling x.

(** [abs(x)]. *)
Definition abs (x : Q) : Q := Qabs x.

(** [xs[-1]]: raises on the empty list. *)
Definition last_item {A : Type} (xs : list A) : result A :=
  match List.rev xs with
  | [] => Raise IndexError
  | x :: _ => Ok x
  end.

(** [sorted(keys)] on integers: insertion sort, ascending. *)
Fixpoint insert_sorted (k : Z) (ks : list Z) : list Z :=
  match ks with
  | [] => [k]
  | k' :: rest => if (k <=? k')%Z then k :: ks else k' :: insert_sorted k rest
  end.

Definition sorted (ks : list Z) : list Z :=
  List.fold_right insert_sorted [] ks.

(** [min(values)] on floats: raises nothing on the tables used here, the
    empty case is a [ValueError] of Python, rendered as [None]. *)
Definition min_list (vs : list Q) : option Q :=
  match vs with
  | [] => None
  | v :: rest => Some (List.fold_left (fun m x => if ltb x m then x else m) rest v)
  end.

(** Float arithmetic where a decision of the source turns on the last bit.
    An operation on two floats yields the exact result rounded to a float;
    [rnd] is that rounding, and a function that takes it is proved for every
    rounding.  [exact] rounds nothing; [binary64] rounds to the nearest
    double, ties to even, as CPython does (overflow, subnormal numbers and
    NaN apart).  Comparisons of floats are exact. *)
Definition fadd (rnd : Q -> Q) (a b : Q) : Q := rnd (a + b).
Definition fsub (rnd : Q -> Q) (a b : Q) : Q := rnd (a - b).
Definition fmul (rnd : Q -> Q) (a b : Q) : Q := rnd (a * b).
Definition fdiv (rnd : Q -> Q) (a b : Q) : result Q :=
  if Qeq_bool b 0 then Raise ZeroDivisionError else Ok (rnd (a / b)).

Definition exact (q : Q) : Q := q.

(** The integer nearest to [n / d], ties to even, for [0 <= n] and [0 < d]. *)
Definition round_half_even (n d : Z) : Z :=
  let q := (n / d)%Z in
  match (2 * (n mod d) ?= d)%Z with
  | Lt => q
  | Gt => (q + 1)%Z
  | Eq => if Z.even q then q else (q + 1)%Z
  end.

(** [2 ^ e <= n / d], for [0 < n] and [0 < d]. *)
Definition reaches_power (n d e : Z) : bool :=
  if (0 <=? e)%Z then (d * 2 ^ e <=? n)%Z else (d <=? n * 2 ^ (- e))%Z.

Definition binary64 (x : Q) : Q :=
  let n := Z.abs (Qnum x) in
  let d := Zpos (Qden x) in
  if (n =? 0)%Z then 0
  else
    let e0 := (Z.log2 n - Z.log2 d)%Z in
    let e := ((if reaches_power n d e0 then e0 else e0 - 1) - 52)%Z in
    let m :=
      if (0 <=? e)%Z then round_half_even n (d * 2 ^ e)
      else round_half_even (n * 2 ^ (- e)) d in
    let v :=
      if (0 <=? e)%Z then inject_Z (m * 2 ^ e)
      else Qred (Qmake m (Z.to_pos (2 ^ (- e)))) in
    if (Qnum x <? 0)%Z then - v else v.

End Py.

#[global] Instance result_ret : MRet Py.result := @Py.Ok.
#[global] Instance result_bind : MBind Py.result := fun A B k r => Py.bind r k.

(** Stage names, as the source spells them. *)
Definition STAGE_1 : string := "1차".
Definition STAGE_2 : string := "2차".
Definition STAGE_3 : string := "3차".
Definition WAIT : string := "WAIT".

(** ** The rise matrix (config.constants.TUMEPOK_MATRIX)

    The table itself is not part of the sources at hand; every function that
    reads it takes it as its first argument. *)

Record MatrixRow : Type := {
  rise_min : Q;
  rise_max : Q;
  drop_min : Q;
  drop_max : Q
}.

(** [row['rise_min'] <= rate <= row['rise_max']] *)
Definition row_contains (matrix_row : MatrixRow) (rate : Q) : bool :=
  Py.leb (rise_min matrix_row) rate && Py.leb rate (rise_max matrix_row).

(** The [for matrix_row in TUMEPOK_MATRIX: if ... ] header shared by
    [update_tumepok_calculation], [_get_min_drop_rate] and
    [_get_target_drop_rates]: the first row that passes the test, or [None]
    when the loop runs to its end. *)
Fixpoint matrix_scan (TUMEPOK_MATRIX : list MatrixRow) (rate : Q) : option MatrixRow :=
  match TUMEPOK_MATRIX with
  | [] => None
  | matrix_row :: rest =>
      if row_contains matrix_row rate then Some matrix_row
      else matrix_scan rest rate
  end.

(** ** rise_tracker.py: TrackingInfo *)

Module RiseTracker.

(** One entry of [daily_prices]; dates are day numbers. *)
Record DailyPrice : Type := {
  dp_date : Z;
  dp_price : Q;
  dp_is_high : bool
}.

(** The attributes of a [TrackingInfo] object ([stock_name] and
    [last_update] take no part in any decision and are left out);
    [start_date] is the day number of the registration date. *)
Record TrackingInfo : Type := {
  stock_code : string;
  start_date : Z;
  start_price : Q;
  high_price : Q;
  current_price : Q;
  rise_days : Z;
  rise_rate : Q;
  daily_change_rate : Q;
  drop_rate : Q;
  target_drop_min : Q;
  target_drop_max : Q;
  target_drop_1st : Q;
  target_drop_2nd : Q;
  target_drop_3rd : Q;
  status : string;
  waiting_days : Z;
  bought_stages : gset string;
  daily_prices : list DailyPrice
}.

(** Attribute assignment, [self.x = v]. *)
Definition set_current_price (v : Q) (self : TrackingInfo) : TrackingInfo :=
  {| stock_code := stock_code self; start_date := start_date self;
     start_price := start_price self; high_price := high_price self;
     current_price := v; rise_days := rise_days self; rise_rate :=
     rise_rate self; daily_change_rate := daily_change_rate self;
     drop_rate := drop_rate self; target_drop_min := target_drop_min self;
     target_drop_max := target_drop_max self; target_drop_1st :=
     target_drop_1st self; target_drop_2nd := target_drop_2nd self;
     target_drop_3rd := target_drop_3rd self; status := status self;
     waiting_days := waiting_days self; bought_stages := bought_stages
     self; daily_prices := daily_prices self |}.
Definition set_daily_change_rate (v : Q) (self : TrackingInfo) : TrackingInfo :=
  {| stock_code := stock_code self; start_date := start_date self;
     start_price := start_price self; high_price := high_price self;
     current_price := current_price self; rise_days := rise_days self;
     rise_rate := rise_rate self; daily_change_rate := v; drop_rate :=
     drop_rate self; target_drop_min := target_drop_min self;
     target_drop_max := target_drop_max self; target_drop_1st :=
     target_drop_1st self; target_drop_2nd := target_drop_2nd self;
     target_drop_3rd := target_drop_3rd self; status := status self;
     waiting_days := waiting_days self; bought_stages := bought_stages
     self; daily_prices := daily_prices self |}.
Definition set_rise_days (v : Z) (self : TrackingInfo) : TrackingInfo :=
  {| stock_code := stock_code self; start_date := start_date self;
     start_price := start_price self; high_price := high_price self;
     current_price := current_price self; rise_days := v; rise_rate :=
     rise_rate self; daily_change_rate := daily_change_rate self;
     drop_rate := drop_rate self; target_drop_min := target_drop_min self;
     target_drop_max := target_drop_max self; target_drop_1st :=
     target_drop_1st self; target_drop_2nd := target_drop_2nd self;
     target_drop_3rd := target_drop_3rd self; status := status self;
     waiting_days := waiting_days self; bought_stages := bought_stages
     self; daily_prices := daily_prices self |}.
Definition set_high_price (v : Q) (self : TrackingInfo) : TrackingInfo :=
  {| stock_code := stock_code self; start_date := start_date self;
     start_price := start_price self; high_price := v; current_price :=
     current_price self; rise_days := rise_days self; rise_rate :=
     rise_rate self; daily_change_rate := daily_change_rate self;
     drop_rate := drop_rate self; target_drop_min := target_drop_min self;
     target_drop_max := target_drop_max self; target_drop_1st :=
     target_drop_1st self; target_drop_2nd := target_drop_2nd self;
     target_drop_3rd := target_drop_3rd self; status := status self;
     waiting_days := waiting_days self; bought_stages := bought_stages
     self; daily_prices := daily_prices self |}.
Definition set_rise_rate (v : Q) (self : TrackingInfo) : TrackingInfo :=
  {| stock_code := stock_code self; start_date := start_date self;
     start_price := start_price self; high_price := high_price self;
     current_price := current_price self; rise_days := rise_days self;
     rise_rate := v; daily_change_rate := daily_change_rate self;
     drop_rate := drop_rate self; target_drop_min := target_drop_min self;
     target_drop_max := target_drop_max self; target_drop_1st :=
     target_drop_1st self; target_drop_2nd := target_drop_2nd self;
     target_drop_3rd := target_drop_3rd self; status := status self;
     waiting_days := waiting_days self; bought_stages := bought_stages
     self; daily_prices := daily_prices self |}.
Definition set_drop_rate (v : Q) (self : TrackingInfo) : TrackingInfo :=
  {| stock_code := stock_code self; start_date := start_date self;
     start_price := start_price self; high_price := high_price self;
     current_price := current_price self; rise_days := rise_days self;
     rise_rate := rise_rate self; daily_change_rate := daily_change_rate
     self; drop_rate := v; target_drop_min := target_drop_min self;
     target_drop_max := target_drop_max self; target_drop_1st :=
     target_drop_1st self; target_drop_2nd := target_drop_2nd self;
     target_drop_3rd := target_drop_3rd self; status := status self;
     waiting_days := waiting_days self; bought_stages := bought_stages
     self; daily_prices := daily_prices self |}.
Definition set_target_drop_min (v : Q) (self : TrackingInfo) : TrackingInfo :=
  {| stock_code := stock_code self; start_date := start_date self;
     start_price := start_price self; high_price := high_price self;
     current_price := current_price self; rise_days := rise_days self;
     rise_rate := rise_rate self; daily_change_rate := daily_change_rate
     self; drop_rate := drop_rate self; target_drop_min := v;
     target_drop_max := target_drop_max self; target_drop_1st :=
     target_drop_1st self; target_drop_2nd := target_drop_2nd self;
     target_drop_3rd := target_drop_3rd self; status := status self;
     waiting_days := waiting_days self; bought_stages := bought_stages
     self; daily_prices := daily_prices self |}.
Definition set_target_drop_max (v : Q) (self : TrackingInfo) : TrackingInfo :=
  {| stock_code := stock_code self; start_date := start_date self;
     start_price := start_price self; high_price := high_price self;
     current_price := current_price self; rise_days := rise_days self;
     rise_rate := rise_rate self; daily_change_rate := daily_change_rate
     self; drop_rate := drop_rate self; target_drop_min := target_drop_min
     self; target_drop_max := v; target_drop_1st := target_drop_1st self;
     target_drop_2nd := target_drop_2nd self; target_drop_3rd :=
     target_drop_3rd self; status := status self; waiting_days :=
     waiting_days self; bought_stages := bought_stages self; daily_prices
     := daily_prices self |}.
Definition set_target_drop_1st (v : Q) (self : TrackingInfo) : TrackingInfo :=
  {| stock_code := stock_code self; start_date := start_date self;
     start_price := start_price self; high_price := high_price self;
     current_price := current_price self; rise_days := rise_days self;
     rise_rate := rise_rate self; daily_change_rate := daily_change_rate
     self; drop_rate := drop_rate self; target_drop_min := target_drop_min
     self; target_drop_max := target_drop_max self; target_drop_1st := v;
     target_drop_2nd := target_drop_2nd self; target_drop_3rd :=
     target_drop_3rd self; status := status self; waiting_days :=
     waiting_days self; bought_stages := bought_stages self; daily_prices
     := daily_prices self |}.
Definition set_target_drop_2nd (v : Q) (self : TrackingInfo) : TrackingInfo :=
  {| stock_code := stock_code self; start_date := start_date self;
     start_price := start_price self; high_price := high_price self;
     current_price := current_price self; rise_days := rise_days self;
     rise_rate := rise_rate self; daily_change_rate := daily_change_rate
     self; drop_rate := drop_rate self; target_drop_min := target_drop_min
     self; target_drop_max := target_drop_max self; target_drop_1st :=
     target_drop_1st self; target_drop_2nd := v; target_drop_3rd :=
     target_drop_3rd self; status := status self; waiting_days :=
     waiting_days self; bought_stages := bought_stages self; daily_prices
     := daily_prices self |}.
Definition set_target_drop_3rd (v : Q) (self : TrackingInfo) : TrackingInfo :=
  {| stock_code := stock_code self; start_date := start_date self;
     start_price := start_price self; high_price := high_price self;
     current_price := current_price self; rise_days := rise_days self;
     rise_rate := rise_rate self; daily_change_rate := daily_change_rate
     self; drop_rate := drop_rate self; target_drop_min := target_drop_min
     self; target_drop_max := target_drop_max self; target_drop_1st :=
     target_drop_1st self; target_drop_2nd := target_drop_2nd self;
     target_drop_3rd := v; status := status self; waiting_days :=
     waiting_days self; bought_stages := bought_stages self; daily_prices
     := daily_prices self |}.
Definition set_status (v : string) (self : TrackingInfo) : TrackingInfo :=
  {| stock_code := stock_code self; start_date := start_date self;
     start_price := start_price self; high_price := high_price self;
     current_price := current_price self; rise_days := rise_days self;
     rise_rate := rise_rate self; daily_change_rate := daily_change_rate
     self; drop_rate := drop_rate self; target_drop_min := target_drop_min
     self; target_drop_max := target_drop_max self; target_drop_1st :=
     target_drop_1st self; target_drop_2nd := target_drop_2nd self;
     target_drop_3rd := target_drop_3rd self; status := v; waiting_days :=
     waiting_days self; bought_stages := bought_stages self; daily_prices
     := daily_prices self |}.
Definition set_waiting_days (v : Z) (self : TrackingInfo) : TrackingInfo :=
  {| stock_code := stock_code self; start_date := start_date self;
     start_price := start_price self; high_price := high_price self;
     current_price := current_price self; rise_days := rise_days self;
     rise_rate := rise_rate self; daily_change_rate := daily_change_rate
     self; drop_rate := drop_rate self; target_drop_min := target_drop_min
     self; target_drop_max := target_drop_max self; target_drop_1st :=
     target_drop_1st self; target_drop_2nd := target_drop_2nd self;
     target_drop_3rd := target_drop_3rd self; status := status self;
     waiting_days := v; bought_stages := bought_stages self; daily_prices
     := daily_prices self |}.
Definition set_bought_stages (v : gset string) (self : TrackingInfo) : TrackingInfo :=
  {| stock_code := stock_code self; start_date := start_date self;
     start_price := start_price self; high_price := high_price self;
     current_price := current_price self; rise_days := rise_days self;
     rise_rate := rise_rate self; daily_change_rate := daily_change_rate
     self; drop_rate := drop_rate self; target_drop_min := target_drop_min
     self; target_drop_max := target_drop_max self; target_drop_1st :=
     target_drop_1st self; target_drop_2nd := target_drop_2nd self;
     target_drop_3rd := target_drop_3rd self; status := status self;
     waiting_days := waiting_days self; bought_stages := v; daily_prices
     := daily_prices self |}.
Definition set_daily_prices (v : list DailyPrice) (self : TrackingInfo) : TrackingInfo :=
  {| stock_code := stock_code self; start_date := start_date self;
     start_price := start_price self; high_price := high_price self;
     current_price := current_price self; rise_days := rise_days self;
     rise_rate := rise_rate self; daily_change_rate := daily_change_rate
     self; drop_rate := drop_rate self; target_drop_min := target_drop_min
     self; target_drop_max := target_drop_max self; target_drop_1st :=
     target_drop_1st self; target_drop_2nd := target_drop_2nd self;
     target_drop_3rd := target_drop_3rd self; status := status self;
     waiting_days := waiting_days self; bought_stages := bought_stages
     self; daily_prices := v |}.

(** [TrackingInfo.add_daily_price(price, date)] *)
Definition add_daily_price (price : Q) (date : Z) (self : TrackingInfo) : TrackingInfo :=
  set_daily_prices
    (daily_prices self ++ [{| dp_date := date; dp_price := price; dp_is_high := false |}])
    self.

(** [self.daily_prices[-1][...] = ...]: the last entry rewritten by [f]. *)
Definition update_last_daily_price (f : DailyPrice -> DailyPrice) (self : TrackingInfo)
  : TrackingInfo :=
  match List.rev (daily_prices self) with
  | [] => self
  | d :: before => set_daily_prices (List.rev (f d :: before)) self
  end.

Definition mark_is_high (d : DailyPrice) : DailyPrice :=
  {| dp_date := dp_date d; dp_price := dp_price d; dp_is_high := true |}.

Definition with_price (price : Q) (d : DailyPrice) : DailyPrice :=
  {| dp_date := dp_date d; dp_price := price; dp_is_high := dp_is_high d |}.

(** The three lines computed from one matrix row, as both branches of
    [update_tumepok_calculation] assign them. *)
Definition assign_target_drops (row : MatrixRow) (self : TrackingInfo) : TrackingInfo :=
  let self := set_target_drop_min (drop_min row) self in
  let self := set_target_drop_max (drop_max row) self in
  let self := set_target_drop_1st (target_drop_min self) self in
  let self := set_target_drop_2nd ((target_drop_min self + target_drop_max self) / 2) self in
  set_target_drop_3rd (target_drop_max self) self.

(** [TrackingInfo.update_tumepok_calculation()] *)
Definition update_tumepok_calculation (TUMEPOK_MATRIX : list MatrixRow)
    (self : TrackingInfo) : Py.result TrackingInfo :=
  q ← Py.div (high_price self - start_price self) (start_price self);
  let self := set_rise_rate (q * 100) self in
  match matrix_scan TUMEPOK_MATRIX (rise_rate self) with
  | Some matrix_row => Py.Ok (assign_target_drops matrix_row self)
  | None =>
      last_row ← Py.last_item TUMEPOK_MATRIX;
      Py.Ok (assign_target_drops last_row self)
  end.

(** [TrackingInfo.__init__(stock_code, start_price, start_date)] *)
Definition init (TUMEPOK_MATRIX : list MatrixRow)
    (stock_code : string) (start_price : Q) (start_date : Z) : Py.result TrackingInfo :=
  let self :=
    {| stock_code := stock_code; start_date := start_date; start_price := start_price;
       high_price := start_price; current_price := start_price; rise_days := 1;
       rise_rate := 0; daily_change_rate := 0; drop_rate := 0;
       target_drop_min := 0; target_drop_max := 0; target_drop_1st := 0;
       target_drop_2nd := 0; target_drop_3rd := 0; status := "TRACKING";
       waiting_days := 0; bought_stages := ∅; daily_prices := [] |} in
  let self := add_daily_price start_price (start_date) self in
  update_tumepok_calculation TUMEPOK_MATRIX self.

(** [TrackingInfo.should_start_waiting()] *)
Fixpoint today_is_high (today : Z) (reversed_prices : list DailyPrice) : option bool :=
  match reversed_prices with
  | [] => None
  | price_info :: rest =>
      if (dp_date price_info =? today)%Z then Some (dp_is_high price_info)
      else today_is_high today rest
  end.

Definition should_start_waiting (today : Z) (self : TrackingInfo) : bool :=
  if (Z.of_nat (List.length (daily_prices self)) <? 2)%Z then false
  else
    match today_is_high today (List.rev (daily_prices self)) with
    | Some is_high => negb is_high
    | None => true
    end.

(** [TrackingInfo.check_tumepok_entry()] *)
Definition check_tumepok_entry (today : Z) (self : TrackingInfo) : TrackingInfo * string :=
  if (rise_days self >? 7)%Z then
    (set_status "COMPLETED" self, "MAX_DAYS_EXCEEDED")
  else if Py.geb (drop_rate self) (target_drop_min self) then
    (set_status "READY" self, "TUMEPOK_READY")
  else if should_start_waiting today self then
    (set_waiting_days 1 (set_status "WAITING" self), "WAITING_STARTED")
  else
    (self, "CONTINUE").

(** [TrackingInfo.check_waiting_period()] *)
Definition check_waiting_period (self : TrackingInfo) : TrackingInfo * string :=
  if Py.gtb (current_price self) (high_price self) then
    (set_waiting_days 0 (set_status "TRACKING" self), "TRACKING_RESUMED")
  else if Py.geb (drop_rate self) (target_drop_min self) then
    (set_status "READY" self, "TUMEPOK_READY")
  else if (waiting_days self >=? 3)%Z then
    (set_status "READY" self, "WAITING_COMPLETED")
  else
    (self, "WAITING").

(** The high-water-mark block of [update_price]: the object after the
    block and the local [high_updated]. *)
Definition update_high (current_price : Q) (high_price_arg : option Q)
    (self : TrackingInfo) : TrackingInfo * bool :=
  match high_price_arg with
  | Some high_price_v =>
      if Py.gtb high_price_v 0 then
        if Py.gtb high_price_v (high_price self) then
          (set_high_price high_price_v self, true)
        else if Py.eqb high_price_v current_price
                && Py.gtb current_price (high_price self) then
          (set_high_price current_price self, true)
        else (self, false)
      else if Py.gtb current_price (high_price self) then
        (set_high_price current_price self, true)
      else (self, false)
  | None =>
      if Py.gtb current_price (high_price self) then
        (set_high_price current_price self, true)
      else (self, false)
  end.

(** The daily-record block of [update_price]. *)
Definition record_daily_price (today : Z) (current_price : Q) (high_updated : bool)
    (self : TrackingInfo) : TrackingInfo :=
  let is_new_day :=
    match List.rev (daily_prices self) with
    | [] => true
    | d :: _ => negb (dp_date d =? today)%Z
    end in
  let self :=
    if is_new_day then add_daily_price current_price today self
    else update_last_daily_price (with_price current_price) self in
  if high_updated then update_last_daily_price mark_is_high self else self.

(** The drop-rate block of [update_price]. *)
Definition update_drop_rate (current_price : Q) (self : TrackingInfo) : TrackingInfo :=
  if Py.gtb (start_price self) 0 then
    let current_rise_from_start :=
      ((current_price - start_price self) / start_price self) * 100 in
    let self := set_drop_rate (rise_rate self - current_rise_from_start) self in
    if Py.ltb (drop_rate self) 0 then set_drop_rate 0 self else self
  else set_drop_rate 0 self.

(** [TrackingInfo.update_price(current_price, daily_change_rate, high_price)]
    on day [today]. *)
Definition update_price (TUMEPOK_MATRIX : list MatrixRow) (today : Z)
    (current_price : Q) (daily_change_rate : option Q) (high_price_arg : option Q)
    (self : TrackingInfo) : Py.result (TrackingInfo * string) :=
  let self := set_current_price current_price self in
  let self :=
    match daily_change_rate with
    | Some r => set_daily_change_rate r self
    | None => self
    end in
  let self := set_rise_days (today - start_date self + 1)%Z self in
  let '(self, high_updated) := update_high current_price high_price_arg self in
  let self := record_daily_price today current_price high_updated self in
  if high_updated then
    self ← update_tumepok_calculation TUMEPOK_MATRIX self;
    Py.Ok (self, "HIGH_UPDATED")
  else
    let self := update_drop_rate current_price self in
    if String.eqb (status self) "TRACKING" then Py.Ok (check_tumepok_entry today self)
    else if String.eqb (status self) "WAITING" then Py.Ok (check_waiting_period self)
    else if String.eqb (status self) "READY" then Py.Ok (self, "READY")
    else Py.Ok (self, "CONTINUE").

(** The local [drop_rate] of [get_buy_stage]:
    [self.rise_rate - ((current_price - self.start_price) / self.start_price) * 100],
    each operation rounded by [rnd]. *)
Definition buy_stage_drop_rate (rnd : Q -> Q) (current_price : Q) (self : TrackingInfo)
  : Py.result Q :=
  q ← Py.fdiv rnd (Py.fsub rnd current_price (start_price self)) (start_price self);
  let current_change_rate := Py.fmul rnd q 100 in
  Py.Ok (Py.fsub rnd (rise_rate self) current_change_rate).

(** The local [mid_drop] of [get_buy_stage]:
    [(self.target_drop_min + self.target_drop_max) / 2]. *)
Definition mid_drop (rnd : Q -> Q) (self : TrackingInfo) : Q :=
  rnd (Py.fadd rnd (target_drop_min self) (target_drop_max self) / 2).

(** [TrackingInfo.get_buy_stage(current_price)], in the float arithmetic
    given by [rnd]: the comparisons with the three lines are sensitive to
    the rounding of the pullback. *)
Definition get_buy_stage (rnd : Q -> Q) (current_price : Q) (self : TrackingInfo)
  : Py.result string :=
  if negb (String.eqb (status self) "READY") then Py.Ok WAIT
  else
    drop_rate ← buy_stage_drop_rate rnd current_price self;
    if Py.geb drop_rate (target_drop_max self)
       && negb (bool_decide (STAGE_3 ∈ bought_stages self)) then Py.Ok STAGE_3
    else
      if Py.geb drop_rate (mid_drop rnd self)
         && negb (bool_decide (STAGE_2 ∈ bought_stages self)) then Py.Ok STAGE_2
      else if Py.geb drop_rate (target_drop_min self)
              && negb (bool_decide (STAGE_1 ∈ bought_stages self)) then Py.Ok STAGE_1
      else Py.Ok WAIT.

(** [TrackingInfo.add_bought_stage(stage)] *)
Definition add_bought_stage (stage : string) (self : TrackingInfo) : TrackingInfo :=
  set_bought_stages (bought_stages self ∪ {[ stage ]}) self.

End RiseTracker.

(** ** tumepok_engine.py: TumepokEngine *)

Module Engine.

(** Modelled from the spec: the [TRACKING_STATUS] table of
    config.constants, which is not part of the sources at hand; its
    entries are the five states of the rise tracker, taken as five
    distinct values. *)
Inductive Status : Type :=
| TRACKING
| WAITING
| READY
| COMPLETED
| STOPPED.

Definition Status_eqb (a b : Status) : bool :=
  match a, b with
  | TRACKING, TRACKING | WAITING, WAITING | READY, READY
  | COMPLETED, COMPLETED | STOPPED, STOPPED => true
  | _, _ => false
  end.

(** Modelled from the spec: the [SELL_REASONS] table of config.constants,
    restricted to the two entries read by [check_sell_conditions]. *)
Inductive SellReason : Type :=
| STOP_LOSS
| TRAILING_SELL.

(** The per-symbol tracking record, a [dict] in the source.  A key that
    every creation site writes and the code reads with [d[key]] is a plain
    field; a key that some creation site omits and the code reads with
    [.get] or [setdefault] is an [option] field, [None] when absent. *)
Module TrackingDict.
Record t : Type := {
  current_price : Q;
  daily_change_rate : option Q;
  base_price : option Q;
  start_price : option Q;
  high_price : Q;
  rise_days : Z;
  waiting_days : option Z;
  status : Status;
  drop_rate : option Q;
  cumulative_rise_rate : option Q;
  rise_rate : option Q;
  bought_stages : option (gset string);
  rise_start_price : option Q
}.

Definition set_current_price (v : Q) (d : t) : t :=
  {| current_price := v; daily_change_rate := daily_change_rate d;
     base_price := base_price d; start_price := start_price d; high_price
     := high_price d; rise_days := rise_days d; waiting_days :=
     waiting_days d; status := status d; drop_rate := drop_rate d;
     cumulative_rise_rate := cumulative_rise_rate d; rise_rate :=
     rise_rate d; bought_stages := bought_stages d; rise_start_price :=
     rise_start_price d |}.
Definition set_daily_change_rate (v : option Q) (d : t) : t :=
  {| current_price := current_price d; daily_change_rate := v; base_price
     := base_price d; start_price := start_price d; high_price :=
     high_price d; rise_days := rise_days d; waiting_days := waiting_days
     d; status := status d; drop_rate := drop_rate d; cumulative_rise_rate
     := cumulative_rise_rate d; rise_rate := rise_rate d; bought_stages :=
     bought_stages d; rise_start_price := rise_start_price d |}.
Definition set_high_price (v : Q) (d : t) : t :=
  {| current_price := current_price d; daily_change_rate :=
     daily_change_rate d; base_price := base_price d; start_price :=
     start_price d; high_price := v; rise_days := rise_days d;
     waiting_days := waiting_days d; status := status d; drop_rate :=
     drop_rate d; cumulative_rise_rate := cumulative_rise_rate d;
     rise_rate := rise_rate d; bought_stages := bought_stages d;
     rise_start_price := rise_start_price d |}.
Definition set_rise_days (v : Z) (d : t) : t :=
  {| current_price := current_price d; daily_change_rate :=
     daily_change_rate d; base_price := base_price d; start_price :=
     start_price d; high_price := high_price d; rise_days := v;
     waiting_days := waiting_days d; status := status d; drop_rate :=
     drop_rate d; cumulative_rise_rate := cumulative_rise_rate d;
     rise_rate := rise_rate d; bought_stages := bought_stages d;
     rise_start_price := rise_start_price d |}.
Definition set_waiting_days (v : option Z) (d : t) : t :=
  {| current_price := current_price d; daily_change_rate :=
     daily_change_rate d; base_price := base_price d; start_price :=
     start_price d; high_price := high_price d; rise_days := rise_days d;
     waiting_days := v; status := status d; drop_rate := drop_rate d;
     cumulative_rise_rate := cumulative_rise_rate d; rise_rate :=
     rise_rate d; bought_stages := bought_stages d; rise_start_price :=
     rise_start_price d |}.
Definition set_status (v : Status) (d : t) : t :=
  {| current_price := current_price d; daily_change_rate :=
     daily_change_rate d; base_price := base_price d; start_price :=
     start_price d; high_price := high_price d; rise_days := rise_days d;
     waiting_days := waiting_days d; status := v; drop_rate := drop_rate
     d; cumulative_rise_rate := cumulative_rise_rate d; rise_rate :=
     rise_rate d; bought_stages := bought_stages d; rise_start_price :=
     rise_start_price d |}.
Definition set_drop_rate (v : option Q) (d : t) : t :=
  {| current_price := current_price d; daily_change_rate :=
     daily_change_rate d; base_price := base_price d; start_price :=
     start_price d; high_price := high_price d; rise_days := rise_days d;
     waiting_days := waiting_days d; status := status d; drop_rate := v;
     cumulative_rise_rate := cumulative_rise_rate d; rise_rate :=
     rise_rate d; bought_stages := bought_stages d; rise_start_price :=
     rise_start_price d |}.
Definition set_cumulative_rise_rate (v : option Q) (d : t) : t :=
  {| current_price := current_price d; daily_change_rate :=
     daily_change_rate d; base_price := base_price d; start_price :=
     start_price d; high_price := high_price d; rise_days := rise_days d;
     waiting_days := waiting_days d; status := status d; drop_rate :=
     drop_rate d; cumulative_rise_rate := v; rise_rate := rise_rate d;
     bought_stages := bought_stages d; rise_start_price :=
     rise_start_price d |}.
Definition set_bought_stages (v : option (gset string)) (d : t) : t :=
  {| current_price := current_price d; daily_change_rate :=
     daily_change_rate d; base_price := base_price d; start_price :=
     start_price d; high_price := high_price d; rise_days := rise_days d;
     waiting_days := waiting_days d; status := status d; drop_rate :=
     drop_rate d; cumulative_rise_rate := cumulative_rise_rate d;
     rise_rate := rise_rate d; bought_stages := v; rise_start_price :=
     rise_start_price d |}.
End TrackingDict.

(** One entry of [position['buy_orders']]. *)
Record BuyOrder : Type := {
  price : Q;
  quantity : Z;
  stage : string
}.

(** The per-symbol position record, a [dict] in the source.
    [stop_loss_executed] is read with [.get(key, False)] only: the field
    is [false] when the key is absent.  [trailing_activated],
    [trailing_high] and [total_quantity] are written by every site that
    creates a position. *)
Module PositionDict.
Record t : Type := {
  total_quantity : Z;
  weighted_avg_price : Q;
  current_price : Q;
  profit_rate : Q;
  trailing_activated : bool;
  trailing_high : Q;
  buy_orders : list BuyOrder;
  stop_loss_executed : bool;
  status : option string;
  first_buy_price : option Q
}.

Definition set_current_price (v : Q) (d : t) : t :=
  {| total_quantity := total_quantity d; weighted_avg_price :=
     weighted_avg_price d; current_price := v; profit_rate := profit_rate
     d; trailing_activated := trailing_activated d; trailing_high :=
     trailing_high d; buy_orders := buy_orders d; stop_loss_executed :=
     stop_loss_executed d; status := status d; first_buy_price :=
     first_buy_price d |}.
Definition set_profit_rate (v : Q) (d : t) : t :=
  {| total_quantity := total_quantity d; weighted_avg_price :=
     weighted_avg_price d; current_price := current_price d; profit_rate
     := v; trailing_activated := trailing_activated d; trailing_high :=
     trailing_high d; buy_orders := buy_orders d; stop_loss_executed :=
     stop_loss_executed d; status := status d; first_buy_price :=
     first_buy_price d |}.
Definition set_trailing_activated (v : bool) (d : t) : t :=
  {| total_quantity := total_quantity d; weighted_avg_price :=
     weighted_avg_price d; current_price := current_price d; profit_rate
     := profit_rate d; trailing_activated := v; trailing_high :=
     trailing_high d; buy_orders := buy_orders d; stop_loss_executed :=
     stop_loss_executed d; status := status d; first_buy_price :=
     first_buy_price d |}.
Definition set_trailing_high (v : Q) (d : t) : t :=
  {| total_quantity := total_quantity d; weighted_avg_price :=
     weighted_avg_price d; current_price := current_price d; profit_rate
     := profit_rate d; trailing_activated := trailing_activated d;
     trailing_high := v; buy_orders := buy_orders d; stop_loss_executed :=
     stop_loss_executed d; status := status d; first_buy_price :=
     first_buy_price d |}.
Definition set_stop_loss_executed (v : bool) (d : t) : t :=
  {| total_quantity := total_quantity d; weighted_avg_price :=
     weighted_avg_price d; current_price := current_price d; profit_rate
     := profit_rate d; trailing_activated := trailing_activated d;
     trailing_high := trailing_high d; buy_orders := buy_orders d;
     stop_loss_executed := v; status := status d; first_buy_price :=
     first_buy_price d |}.
Definition set_status (v : option string) (d : t) : t :=
  {| total_quantity := total_quantity d; weighted_avg_price :=
     weighted_avg_price d; current_price := current_price d; profit_rate
     := profit_rate d; trailing_activated := trailing_activated d;
     trailing_high := trailing_high d; buy_orders := buy_orders d;
     stop_loss_executed := stop_loss_executed d; status := v;
     first_buy_price := first_buy_price d |}.
End PositionDict.

(** Outbound sell requests of [execute_stop_loss]: through the order
    queue ([order_tr_req_queue.put]) or directly through the queue
    manager ([send_order_request]). *)
Inductive Order : Type :=
| StopLossQueued (stock_code : string) (quantity : Z)
| StopLossDirect (stock_code : string) (quantity : Z)
| BuyRequested (stock_code : string) (stage : string).

(** The engine object: the two per-symbol maps and the requests sent so
    far, oldest first. *)
Record TumepokEngine : Type := {
  tracking_stocks : gmap string TrackingDict.t;
  positions : gmap string PositionDict.t;
  sent : list Order
}.

Definition set_tracking_stocks (v : gmap string TrackingDict.t) (self : TumepokEngine)
  : TumepokEngine :=
  {| tracking_stocks := v; positions := positions self; sent := sent self |}.
Definition set_positions (v : gmap string PositionDict.t) (self : TumepokEngine)
  : TumepokEngine :=
  {| tracking_stocks := tracking_stocks self; positions := v; sent := sent self |}.
Definition send (o : Order) (self : TumepokEngine) : TumepokEngine :=
  {| tracking_stocks := tracking_stocks self; positions := positions self;
     sent := sent self ++ [o] |}.

(** What [check_buy_conditions] ends in: nothing, or a buy request for a
    stage, which [execute_buy_order] records in [bought_stages] unless it
    raises after the request is out. *)
Inductive BuyOutcome : Type :=
| NoBuy
| Bought (stage : string) (recorded : bool).

(** The configuration object ([self.config]). *)
Record Config : Type := {
  (** [calculate_target_drop_range(rise_rate).get('max_drop')] *)
  calculate_target_drop_range : Q -> option Q;
  get_trailing_trigger_rate : Q;
  get_trailing_sell_rate : Q
}.

(** The collaborators of the engine that are not part of the sources at
    hand. *)
Record Env : Type := {
  TUMEPOK_MATRIX : list MatrixRow;
  (** [self.order_tr_req_queue] is set *)
  has_order_queue : bool;
  (** [self.main_window.queue_manager] is set *)
  has_queue_manager : bool;
  (** [queue_manager.send_order_request] returns rather than raises *)
  manager_delivers : bool;
  (** the decision of [check_buy_conditions], which consults the
      calculator, the support analyzer, the rebuy ledger, the
      configuration and the order transport *)
  buy_decision : string -> TumepokEngine -> BuyOutcome;
  config : option Config
}.

(** The lines of one matrix row, as [_get_target_drop_rates] returns
    them: the dict with keys 1st, 2nd, 3rd tier and stop-loss. *)
Record TargetDrops : Type := {
  tier_1st : Q;
  tier_2nd : Q;
  tier_3rd : Q;
  tier_stop_loss : Q
}.

(** [TumepokEngine._get_min_drop_rate(cumulative_rise_rate)] *)
Definition _get_min_drop_rate (env : Env) (cumulative_rise_rate : Q) : Py.result Q :=
  match matrix_scan (TUMEPOK_MATRIX env) cumulative_rise_rate with
  | Some matrix_row => Py.Ok (drop_min matrix_row)
  | None =>
      last_row ← Py.last_item (TUMEPOK_MATRIX env);
      Py.Ok (drop_min last_row)
  end.

(** [TumepokEngine._get_target_drop_rates(cumulative_rise_rate)] *)
Definition _get_target_drop_rates (env : Env) (cumulative_rise_rate : Q)
  : Py.result TargetDrops :=
  match matrix_scan (TUMEPOK_MATRIX env) cumulative_rise_rate with
  | Some matrix_row =>
      let drop_min := drop_min matrix_row in
      let drop_max := drop_max matrix_row in
      let drop_mid := drop_min + (drop_max - drop_min) * 0.5 in
      let drop_3rd := drop_min + (drop_max - drop_min) * 0.9 in
      Py.Ok {| tier_1st := drop_min; tier_2nd := drop_mid; tier_3rd := drop_3rd;
               tier_stop_loss := drop_max |}
  | None =>
      last_row ← Py.last_item (TUMEPOK_MATRIX env);
      let drop_min := drop_min last_row in
      let drop_max := drop_max last_row in
      let drop_mid := drop_min + (drop_max - drop_min) * 0.5 in
      let drop_3rd := drop_min + (drop_max - drop_min) * 0.9 in
      Py.Ok {| tier_1st := drop_min; tier_2nd := drop_mid; tier_3rd := drop_3rd;
               tier_stop_loss := drop_max |}
  end.

(** [self.tracking_stocks[stock_code]] seen through its alias
    [tracking_info]: a write to the dict is a write to the map. *)
Definition store (stock_code : string) (tracking_info : TrackingDict.t)
    (self : TumepokEngine) : TumepokEngine :=
  set_tracking_stocks (<[stock_code := tracking_info]> (tracking_stocks self)) self.

(** [TumepokEngine._get_buy_stage(stock_code, current_price)] *)
Definition _get_buy_stage (env : Env) (stock_code : string) (current_price : Q)
    (self : TumepokEngine) : string :=
  match tracking_stocks self !! stock_code with
  | None => WAIT
  | Some tracking_info =>
      let drop_rate := default 0 (TrackingDict.drop_rate tracking_info) in
      let cumulative_rise_rate :=
        default (default 0 (TrackingDict.rise_rate tracking_info))
                (TrackingDict.cumulative_rise_rate tracking_info) in
      match _get_target_drop_rates env cumulative_rise_rate with
      | Py.Raise _ => WAIT
      | Py.Ok target_drops =>
          let bought_stages := default ∅ (TrackingDict.bought_stages tracking_info) in
          if Py.geb drop_rate (tier_1st target_drops)
             && negb (bool_decide (STAGE_1 ∈ bought_stages)) then STAGE_1
          else if Py.geb drop_rate (tier_2nd target_drops)
                  && negb (bool_decide (STAGE_2 ∈ bought_stages)) then STAGE_2
          else if Py.geb drop_rate (tier_3rd target_drops)
                  && negb (bool_decide (STAGE_3 ∈ bought_stages)) then STAGE_3
          else WAIT
      end
  end.

(** [TumepokEngine._get_buy_stage_from_drop_rate(drop_rate, target_drops)] *)
Definition _get_buy_stage_from_drop_rate (drop_rate : Q) (target_drops : TargetDrops)
  : string :=
  if Py.geb drop_rate (tier_3rd target_drops) then STAGE_3
  else if Py.geb drop_rate (tier_2nd target_drops) then STAGE_2
  else if Py.geb drop_rate (tier_1st target_drops) then STAGE_1
  else WAIT.

(** [TumepokEngine.check_buy_conditions(stock_code)], reduced to its
    effects on the engine: the request sent by [execute_buy_order] and the
    stage it adds to [bought_stages].  Whether it buys, and which stage, is
    the answer of [buy_decision]: any answer is allowed, which covers every
    behaviour of the calculator, the support analyzer and the transport. *)
Definition check_buy_conditions (env : Env) (stock_code : string)
    (self : TumepokEngine) : TumepokEngine :=
  match buy_decision env stock_code self with
  | NoBuy => self
  | Bought buy_stage recorded =>
      let self := send (BuyRequested stock_code buy_stage) self in
      if recorded then
        set_tracking_stocks
          (alter (fun tracking_info =>
                    match TrackingDict.bought_stages tracking_info with
                    | Some stages =>
                        TrackingDict.set_bought_stages (Some (stages ∪ {[ buy_stage ]}))
                                                       tracking_info
                    | None => tracking_info
                    end)
                 stock_code (tracking_stocks self))
          self
      else self
  end.

(** [TumepokEngine.execute_stop_loss(stock_code, reason)] *)
Definition execute_stop_loss (env : Env) (stock_code : string)
    (self : TumepokEngine) : TumepokEngine :=
  match positions self !! stock_code with
  | None => set_tracking_stocks (delete stock_code (tracking_stocks self)) self
  | Some position =>
      let quantity := PositionDict.total_quantity position in
      if (quantity <=? 0)%Z then self
      else if PositionDict.stop_loss_executed position then self
      else
        let position := PositionDict.set_stop_loss_executed true position in
        let self :=
          if has_order_queue env then send (StopLossQueued stock_code quantity) self
          else if has_queue_manager env then
            if manager_delivers env then send (StopLossDirect stock_code quantity) self
            else self
          else self in
        let self :=
          set_tracking_stocks
            (alter (TrackingDict.set_status STOPPED) stock_code (tracking_stocks self))
            self in
        let position := PositionDict.set_status (Some "SELLING") position in
        set_positions (<[stock_code := position]> (positions self)) self
  end.

(** The high-water-mark block of [update_tracking_stock]: the record after
    the block and the local [high_updated]. *)
Definition update_high (current_price : Q) (high_price : option Q)
    (tracking_info : TrackingDict.t) : TrackingDict.t * bool :=
  let by_current_price :=
    if Py.gtb current_price (TrackingDict.high_price tracking_info) then
      (TrackingDict.set_high_price current_price tracking_info, true)
    else (tracking_info, false) in
  match high_price with
  | Some high_price =>
      if Py.gtb high_price 0 then
        if Py.gtb high_price (TrackingDict.high_price tracking_info) then
          (TrackingDict.set_high_price high_price tracking_info, true)
        else if Py.gtb current_price high_price
                && Py.gtb current_price (TrackingDict.high_price tracking_info) then
          (TrackingDict.set_high_price current_price tracking_info, true)
        else (tracking_info, false)
      else by_current_price
  | None => by_current_price
  end.

(** The buy review shared by the two READY branches of
    [update_tracking_stock]. *)
Definition review_buy (env : Env) (stock_code : string) (current_price : Q)
    (self : TumepokEngine) : TumepokEngine :=
  let buy_stage := _get_buy_stage env stock_code current_price self in
  if negb (String.eqb buy_stage WAIT) then check_buy_conditions env stock_code self
  else self.

(** [TumepokEngine.update_tracking_stock(stock_code, current_price,
    change_rate, high_price)].  The body runs inside [try/except]: a
    missing symbol, or an empty matrix, ends the call with the writes made
    so far. *)
Definition update_tracking_stock (env : Env) (stock_code : string) (current_price : Q)
    (change_rate : option Q) (high_price : option Q) (self : TumepokEngine)
  : TumepokEngine :=
  match tracking_stocks self !! stock_code with
  | None => self
  | Some tracking_info =>
      let tracking_info := TrackingDict.set_current_price current_price tracking_info in
      let tracking_info :=
        match change_rate with
        | Some r => TrackingDict.set_daily_change_rate (Some r) tracking_info
        | None => tracking_info
        end in
      let base_price :=
        default (default 0 (TrackingDict.start_price tracking_info))
                (TrackingDict.base_price tracking_info) in
      let '(tracking_info, high_updated) :=
        update_high current_price high_price tracking_info in
      let tracking_info :=
        if high_updated then
          let tracking_info :=
            TrackingDict.set_rise_days (TrackingDict.rise_days tracking_info + 1)%Z
                                       tracking_info in
          let tracking_info := TrackingDict.set_waiting_days (Some 0%Z) tracking_info in
          TrackingDict.set_status TRACKING tracking_info
        else tracking_info in
      let final_high_price := TrackingDict.high_price tracking_info in
      let drop_rate :=
        if Py.gtb final_high_price 0 then
          (final_high_price - current_price) / final_high_price * 100
        else 0 in
      let tracking_info := TrackingDict.set_drop_rate (Some drop_rate) tracking_info in
      let current_rise_rate :=
        if Py.gtb base_price 0 then (final_high_price - base_price) / base_price * 100
        else 0 in
      let cumulative_rise_rate := current_rise_rate in
      let tracking_info :=
        TrackingDict.set_cumulative_rise_rate (Some cumulative_rise_rate) tracking_info in
      match _get_target_drop_rates env cumulative_rise_rate with
      | Py.Raise _ => store stock_code tracking_info self
      | Py.Ok target_drops =>
          let min_drop_rate := tier_1st target_drops in
          let stop_loss_rate := tier_stop_loss target_drops in
          if Py.gtb drop_rate stop_loss_rate then
            if bool_decide (default ∅ (TrackingDict.bought_stages tracking_info) ≠ ∅) then
              let self := store stock_code tracking_info self in
              let executed :=
                match positions self !! stock_code with
                | Some position => PositionDict.stop_loss_executed position
                | None => false
                end in
              if negb executed then execute_stop_loss env stock_code self else self
            else
              store stock_code (TrackingDict.set_status STOPPED tracking_info) self
          else if Py.leb min_drop_rate drop_rate && Py.leb drop_rate stop_loss_rate then
            let tracking_info := TrackingDict.set_status READY tracking_info in
            review_buy env stock_code current_price (store stock_code tracking_info self)
          else if Status_eqb (TrackingDict.status tracking_info) TRACKING then
            let tracking_info := TrackingDict.set_status WAITING tracking_info in
            let waiting_days := (default 0 (TrackingDict.waiting_days tracking_info) + 1)%Z in
            let tracking_info :=
              TrackingDict.set_waiting_days (Some waiting_days) tracking_info in
            if (waiting_days >=? 3)%Z then
              let tracking_info := TrackingDict.set_status READY tracking_info in
              review_buy env stock_code current_price (store stock_code tracking_info self)
            else store stock_code tracking_info self
          else store stock_code tracking_info self
      end
  end.

(** Lines 1744-1788 of [check_sell_conditions]: trailing activation, the
    trailing high and the trailing exit.  A zero [trailing_high] makes the
    division raise; [check_sell_conditions] swallows it and answers
    [None], the writes made so far stay. *)
Definition trailing_stop_block (cfg : Config) (position : PositionDict.t)
  : PositionDict.t * option SellReason :=
  let current_price := PositionDict.current_price position in
  let overall_profit_rate := PositionDict.profit_rate position in
  let trailing_trigger := get_trailing_trigger_rate cfg in
  let trailing_sell_rate := get_trailing_sell_rate cfg in
  let position :=
    if negb (PositionDict.trailing_activated position)
       && Py.geb overall_profit_rate trailing_trigger then
      PositionDict.set_trailing_high current_price
        (PositionDict.set_trailing_activated true position)
    else position in
  if PositionDict.trailing_activated position then
    let trailing_high := PositionDict.trailing_high position in
    let '(position, trailing_high) :=
      if Py.gtb current_price trailing_high then
        (PositionDict.set_trailing_high current_price position, current_price)
      else (position, trailing_high) in
    match Py.div (trailing_high - current_price) trailing_high with
    | Py.Raise _ => (position, None)
    | Py.Ok q =>
        let high_drop_rate := q * 100 in
        let trailing_sell_threshold := Py.abs trailing_sell_rate in
        if Py.geb high_drop_rate trailing_sell_threshold then (position, Some TRAILING_SELL)
        else (position, None)
    end
  else (position, None).

(** Lines 1712-1742 of [check_sell_conditions]: the stop-loss test. *)
Definition stop_loss_signal (env : Env) (stock_code : string) (position : PositionDict.t)
    (self : TumepokEngine) : bool :=
  let current_price := PositionDict.current_price position in
  let overall_profit_rate := PositionDict.profit_rate position in
  let current_stage := Z.of_nat (List.length (PositionDict.buy_orders position)) in
  match tracking_stocks self !! stock_code with
  | Some tracking_info =>
      let rise_rate := default 0 (TrackingDict.cumulative_rise_rate tracking_info) in
      let max_drop_rate :=
        match config env with
        | Some cfg => default 25.0 (calculate_target_drop_range cfg rise_rate)
        | None => 25.0
        end in
      let rise_start_price :=
        default (default current_price (PositionDict.first_buy_price position))
                (TrackingDict.rise_start_price tracking_info) in
      if Py.gtb rise_start_price 0 then
        let current_drop_rate :=
          ((rise_start_price - current_price) / rise_start_price) * 100 in
        Py.gtb current_drop_rate max_drop_rate
      else false
  | None => (current_stage >=? 3)%Z && Py.leb overall_profit_rate (-2.0)
  end.

(** [TumepokEngine.check_sell_conditions(stock_code, position)]: the
    position after the call and the signal returned. *)
Definition check_sell_conditions (env : Env) (stock_code : string)
    (position : PositionDict.t) (self : TumepokEngine)
  : PositionDict.t * option SellReason :=
  if stop_loss_signal env stock_code position self then (position, Some STOP_LOSS)
  else
    match config env with
    | None => (position, None)
    | Some cfg => trailing_stop_block cfg position
    end.

End Engine.

(** ** risk_manager.py: RiskManager *)

Module RiskManager.

(** The attributes of a [RiskManager] object that take part in sizing and
    admission; of [daily_stats] only [total_profit] is read there. *)
Record t : Type := {
  daily_loss_limit : Q;
  max_tracking_stocks : Z;
  max_position_stocks : Z;
  max_single_position : Z;
  position_ratios : gmap Z Q;
  rise_rate_ratios : gmap Z Q;
  daily_stats_total_profit : Q
}.

(** [RiskManager.__init__()] *)
Definition init : t :=
  {| daily_loss_limit := -200000;
     max_tracking_stocks := 100;
     max_position_stocks := 30;
     max_single_position := 500000;
     position_ratios :=
       <[1%Z := 1.0]> (<[2%Z := 1.0]> (<[3%Z := 0.8]> (<[4%Z := 0.5]> (<[5%Z := 0.0]> ∅))));
     rise_rate_ratios :=
       <[50%Z := 1.0]> (<[70%Z := 0.8]> (<[100%Z := 0.5]> (<[999%Z := 0.3]> ∅)));
     daily_stats_total_profit := 0.0 |}.

(** [sorted(d.keys())] *)
Definition sorted_keys (d : gmap Z Q) : list Z :=
  Py.sorted ((map_to_list d).*1).

(** [d.values()] *)
Definition values (d : gmap Z Q) : list Q := (map_to_list d).*2.

(** The loop of [get_day_ratio] over the sorted keys. *)
Fixpoint day_ratio_loop (d : gmap Z Q) (keys : list Z) (rise_days : Z) : option Q :=
  match keys with
  | [] => None
  | max_days :: rest =>
      if (rise_days <=? max_days)%Z then d !! max_days
      else day_ratio_loop d rest rise_days
  end.

(** [RiskManager.get_day_ratio(rise_days)] *)
Definition get_day_ratio (self : t) (rise_days : Z) : Q :=
  default 0.0
    (day_ratio_loop (position_ratios self) (sorted_keys (position_ratios self)) rise_days).

(** The loop of [get_rise_rate_ratio] over the sorted keys. *)
Fixpoint rise_ratio_loop (d : gmap Z Q) (keys : list Z) (rise_rate : Q) : option Q :=
  match keys with
  | [] => None
  | max_rate :: rest =>
      if Py.ltb rise_rate (inject_Z max_rate) then d !! max_rate
      else rise_ratio_loop d rest rise_rate
  end.

(** [RiskManager.get_rise_rate_ratio(rise_rate)]; the [except] branch,
    taken when [min] is applied to an empty table, answers 1.0. *)
Definition get_rise_rate_ratio (self : t) (rise_rate : Q) : Q :=
  match rise_ratio_loop (rise_rate_ratios self) (sorted_keys (rise_rate_ratios self))
                        rise_rate with
  | Some ratio => ratio
  | None => default 1.0 (Py.min_list (values (rise_rate_ratios self)))
  end.

(** [RiskManager.get_position_ratio(current_positions)] *)
Definition get_position_ratio (current_positions : Z) : Q :=
  if (current_positions >=? 8)%Z then 0.5
  else if (current_positions >=? 5)%Z then 0.7
  else if (current_positions >=? 3)%Z then 0.9
  else 1.0.

Inductive RiskLevel : Type := HIGH | MEDIUM | LOW.

(** [RiskManager.get_risk_level(rise_days, rise_rate, final_ratio)] *)
Definition get_risk_level (rise_days : Z) (rise_rate final_ratio : Q) : RiskLevel :=
  if (rise_days >=? 5)%Z || Py.geb rise_rate 100 || Py.leb final_ratio 0.3 then HIGH
  else if (rise_days >=? 3)%Z || Py.geb rise_rate 70 || Py.leb final_ratio 0.6 then MEDIUM
  else LOW.

(** The reason texts of [check_entry_allowed], each with the values it
    interpolates. *)
Inductive Reason : Type :=
| RiseDaysExceeded (rise_days : Z)
| MaxPositionsExceeded (current_positions max_position_stocks : Z)
| MaxSinglePositionExceeded (amount max_single_position : Z)
| DailyLossLimitReached (total_profit daily_loss_limit : Q)
| BelowMinimumAmount (amount : Z)
| EntryAllowed.

(** [RiskManager.check_entry_allowed(rise_days, rise_rate, amount,
    current_positions)] *)
Definition check_entry_allowed (self : t) (rise_days : Z) (rise_rate : Q)
    (amount : Z) (current_positions : Z) : bool * Reason :=
  if (rise_days >=? 5)%Z then
    (false, RiseDaysExceeded rise_days)
  else if (current_positions >=? max_position_stocks self)%Z then
    (false, MaxPositionsExceeded current_positions (max_position_stocks self))
  else if (amount >? max_single_position self)%Z then
    (false, MaxSinglePositionExceeded amount (max_single_position self))
  else if Py.leb (daily_stats_total_profit self) (daily_loss_limit self) then
    (false, DailyLossLimitReached (daily_stats_total_profit self) (daily_loss_limit self))
  else if (amount <? 50000)%Z then
    (false, BelowMinimumAmount amount)
  else
    (true, EntryAllowed).

(** The dict returned by [calculate_position_size]. *)
Record PositionSize : Type := {
  base_amount : Q;
  day_ratio : Q;
  rise_ratio : Q;
  position_ratio : Q;
  final_ratio : Q;
  final_amount : Z;
  risk_level : RiskLevel;
  allowed : bool;
  reason : Reason
}.

(** [RiskManager.calculate_position_size(base_amount, rise_days, rise_rate,
    current_positions)] *)
Definition calculate_position_size (self : t) (base_amount : Q) (rise_days : Z)
    (rise_rate : Q) (current_positions : Z) : PositionSize :=
  let day_ratio := get_day_ratio self rise_days in
  let rise_ratio := get_rise_rate_ratio self rise_rate in
  let position_ratio := get_position_ratio current_positions in
  let final_ratio := day_ratio * rise_ratio * position_ratio in
  let final_amount := Py.int (base_amount * final_ratio) in
  let '(allowed, reason) :=
    check_entry_allowed self rise_days rise_rate final_amount current_positions in
  {| base_amount := base_amount; day_ratio := day_ratio; rise_ratio := rise_ratio;
     position_ratio := position_ratio; final_ratio := final_ratio;
     final_amount := final_amount;
     risk_level := get_risk_level rise_days rise_rate final_ratio;
     allowed := allowed; reason := reason |}.

End RiskManager.

(** ** position_manager.py: PositionInfo and PositionManager *)

Module PositionManager.

(** [BuyStageInfo] *)
Record BuyStageInfo : Type := {
  stage : string;
  price : Q;
  quantity : Z;
  amount : Q
}.

(** [PositionInfo]; the two timestamps are left out. *)
Record PositionInfo : Type := {
  stock_code : string;
  buy_stages : list BuyStageInfo;
  total_quantity : Z;
  total_amount : Q;
  weighted_avg_price : Q;
  current_price : Q;
  profit_rate : Q;
  profit_amount : Q;
  trailing_activated : bool;
  trailing_high : Q;
  trailing_trigger_rate : Q;
  trailing_sell_rate : Q;
  stop_loss_rate : Q;
  status : string
}.

(** [PositionInfo.__init__(stock_code)] *)
Definition init (stock_code : string) : PositionInfo :=
  {| stock_code := stock_code; buy_stages := []; total_quantity := 0;
     total_amount := 0.0; weighted_avg_price := 0.0; current_price := 0.0;
     profit_rate := 0.0; profit_amount := 0.0; trailing_activated := false;
     trailing_high := 0.0; trailing_trigger_rate := 2.0; trailing_sell_rate := -1.0;
     stop_loss_rate := -2.0; status := "HOLDING" |}.

(** [PositionInfo.calculate_weighted_avg_price()] *)
Definition calculate_weighted_avg_price (self : PositionInfo) : Py.result PositionInfo :=
  let '(Build_PositionInfo stock_code buy_stages total_quantity total_amount
          weighted_avg_price current_price profit_rate profit_amount trailing_activated
          trailing_high trailing_trigger_rate trailing_sell_rate stop_loss_rate status)
    := self in
  if Py.gtb total_amount 0 then
    q ← Py.div total_amount (inject_Z total_quantity);
    Py.Ok (Build_PositionInfo stock_code buy_stages total_quantity total_amount
             q current_price profit_rate profit_amount trailing_activated
             trailing_high trailing_trigger_rate trailing_sell_rate stop_loss_rate status)
  else
    Py.Ok (Build_PositionInfo stock_code buy_stages total_quantity total_amount
             0.0 current_price profit_rate profit_amount trailing_activated
             trailing_high trailing_trigger_rate trailing_sell_rate stop_loss_rate status).

(** [PositionInfo.add_buy_stage(stage_info)] *)
Definition add_buy_stage (stage_info : BuyStageInfo) (self : PositionInfo)
  : Py.result PositionInfo :=
  let '(Build_PositionInfo stock_code buy_stages total_quantity total_amount
          weighted_avg_price current_price profit_rate profit_amount trailing_activated
          trailing_high trailing_trigger_rate trailing_sell_rate stop_loss_rate status)
    := self in
  calculate_weighted_avg_price
    (Build_PositionInfo stock_code (buy_stages ++ [stage_info])
       (total_quantity + quantity stage_info)%Z (total_amount + amount stage_info)
       weighted_avg_price current_price profit_rate profit_amount trailing_activated
       trailing_high trailing_trigger_rate trailing_sell_rate stop_loss_rate status).

(** [PositionInfo.update_trailing_stop()] *)
Definition update_trailing_stop (self : PositionInfo) : PositionInfo :=
  let '(Build_PositionInfo stock_code buy_stages total_quantity total_amount
          weighted_avg_price current_price profit_rate profit_amount trailing_activated
          trailing_high trailing_trigger_rate trailing_sell_rate stop_loss_rate status)
    := self in
  let '(trailing_activated, trailing_high) :=
    if negb trailing_activated && Py.geb profit_rate trailing_trigger_rate
    then (true, current_price) else (trailing_activated, trailing_high) in
  let trailing_high :=
    if trailing_activated && Py.gtb current_price trailing_high
    then current_price else trailing_high in
  Build_PositionInfo stock_code buy_stages total_quantity total_amount
    weighted_avg_price current_price profit_rate profit_amount trailing_activated
    trailing_high trailing_trigger_rate trailing_sell_rate stop_loss_rate status.

(** [PositionInfo.update_current_price(current_price)].  The profit rate
    comes from [TumepokCalculator.calculate_profit_rate] of
    utils.calculator, which is not part of the sources at hand: it is the
    argument [calculate_profit_rate]. *)
Definition update_current_price (calculate_profit_rate : Q -> Q -> Q)
    (new_price : Q) (self : PositionInfo) : PositionInfo :=
  let '(Build_PositionInfo stock_code buy_stages total_quantity total_amount
          weighted_avg_price current_price profit_rate profit_amount trailing_activated
          trailing_high trailing_trigger_rate trailing_sell_rate stop_loss_rate status)
    := self in
  let current_price := new_price in
  let '(profit_rate, profit_amount) :=
    if Py.gtb weighted_avg_price 0 then
      (calculate_profit_rate weighted_avg_price current_price,
       (current_price - weighted_avg_price) * inject_Z total_quantity)
    else (profit_rate, profit_amount) in
  update_trailing_stop
    (Build_PositionInfo stock_code buy_stages total_quantity total_amount
       weighted_avg_price current_price profit_rate profit_amount trailing_activated
       trailing_high trailing_trigger_rate trailing_sell_rate stop_loss_rate status).

Definition STOP_LOSS : string := "STOP_LOSS".
Definition TRAILING_SELL : string := "TRAILING_SELL".

(** [PositionInfo.check_sell_conditions()] *)
Definition check_sell_conditions (self : PositionInfo) : Py.result (option string) :=
  if Py.leb (profit_rate self) (stop_loss_rate self) then Py.Ok (Some STOP_LOSS)
  else if trailing_activated self then
    q ← Py.div (trailing_high self - current_price self) (trailing_high self);
    let trailing_drop_rate := q * 100 in
    if Py.geb trailing_drop_rate (Py.abs (trailing_sell_rate self))
    then Py.Ok (Some TRAILING_SELL)
    else Py.Ok None
  else Py.Ok None.

(** One tick of [PositionManager.update_position] on the position of a
    symbol: the position after [update_current_price] and the signal; an
    exception of [check_sell_conditions] is caught there and answered with
    [None]. *)
Definition update_position (calculate_profit_rate : Q -> Q -> Q) (current_price : Q)
    (position : PositionInfo) : PositionInfo * option string :=
  let position := update_current_price calculate_profit_rate current_price position in
  match check_sell_conditions position with
  | Py.Ok sell_signal => (position, sell_signal)
  | Py.Raise _ => (position, None)
  end.

End PositionManager.

(** ** Specification-level notions

    The definitions below follow the words of the specification; the
    theorems compare them with the functions embedded above. *)

Module Spec.

(** [risePct] lies in the closed range of the row. *)
Definition in_range (rate : Q) (row : MatrixRow) : Prop :=
  rise_min row <= rate /\ rate <= rise_max row.

(** "Returns the first row whose range contains the rise percentage; if
    none matches, returns the last row." *)
Definition lookup (matrix : list MatrixRow) (rate : Q) (row : MatrixRow) : Prop :=
  (exists before after,
      matrix = before ++ row :: after
      /\ in_range rate row
      /\ Forall (fun r => ~ in_range rate r) before)
  \/ (Forall (fun r => ~ in_range rate r) matrix
      /\ exists before, matrix = before ++ [row]).

(** "dropRatePct = max(0, cumulativeRisePct - currentRiseFromStart)" with
    "currentRiseFromStart = (currentPrice - startPrice)/startPrice * 100". *)
Definition current_rise_from_start (start_price current_price : Q) : Q :=
  (current_price - start_price) / start_price * 100.

Definition pullback (cumulative_rise start_price current_price : Q) : Q :=
  Qmax 0 (cumulative_rise - current_rise_from_start start_price current_price).

(** The naive pullback "(highPrice - currentPrice)/highPrice", in percent. *)
Definition naive_pullback (high_price current_price : Q) : Q :=
  (high_price - current_price) / high_price * 100.

(** A tier is a candidate when its threshold is met and it is not taken. *)
Definition candidate (drop_rate threshold : Q) (tier : string) (taken : gset string)
  : Prop :=
  threshold <= drop_rate /\ tier ∉ taken.

(** Modelled from the spec: [TumepokCalculator.calculate_profit_rate] of
    utils.calculator, which is not part of the sources at hand:
    "profitRatePct = (currentPrice - weightedAvgPrice)/weightedAvgPrice * 100". *)
Definition calculate_profit_rate (buy_price current_price : Q) : Q :=
  (current_price - buy_price) / buy_price * 100.

(** Sums over a sequence of buy stages. *)
Definition sum_amount (stages : list PositionManager.BuyStageInfo) : Q :=
  List.fold_right (fun s acc => PositionManager.amount s + acc) 0 stages.

Definition sum_quantity (stages : list PositionManager.BuyStageInfo) : Z :=
  List.fold_right (fun s acc => (PositionManager.quantity s + acc)%Z) 0%Z stages.

End Spec.

(** ** Runs: sequences of calls *)

(** A sequence of [add_buy_stage] calls on one position. *)
Fixpoint add_buy_stages (stages : list PositionManager.BuyStageInfo)
    (position : PositionManager.PositionInfo) : Py.result PositionManager.PositionInfo :=
  match stages with
  | [] => Py.Ok position
  | stage_info :: rest =>
      position ← PositionManager.add_buy_stage stage_info position;
      add_buy_stages rest position
  end.

(** A sequence of price updates on one position. *)
Definition price_updates (calculate_profit_rate : Q -> Q -> Q) (prices : list Q)
    (position : PositionManager.PositionInfo) : PositionManager.PositionInfo :=
  List.fold_left
    (fun position price =>
       PositionManager.update_current_price calculate_profit_rate price position)
    prices position.

(** Some update of the sequence brings the profit rate to the trigger of
    the position. *)
Definition reaches_trigger (calculate_profit_rate : Q -> Q -> Q) (prices : list Q)
    (position : PositionManager.PositionInfo) : Prop :=
  exists earlier price later,
    prices = earlier ++ price :: later
    /\ PositionManager.trailing_trigger_rate position
       <= PositionManager.profit_rate
            (price_updates calculate_profit_rate (earlier ++ [price]) position).

(** Calls received by the engine, each for a symbol. *)
Inductive EngineCall : Type :=
| Tick (stock_code : string) (current_price : Q) (change_rate high_price : option Q)
| StopLoss (stock_code : string).

Definition engine_step (env : Engine.Env) (self : Engine.TumepokEngine) (call : EngineCall)
  : Engine.TumepokEngine :=
  match call with
  | Tick stock_code current_price change_rate high_price =>
      Engine.update_tracking_stock env stock_code current_price change_rate high_price self
  | StopLoss stock_code => Engine.execute_stop_loss env stock_code self
  end.

Definition engine_run (env : Engine.Env) (calls : list EngineCall)
    (self : Engine.TumepokEngine) : Engine.TumepokEngine :=
  List.fold_left (engine_step env) calls self.

(** The stop-loss requests sent for a symbol. *)
Definition is_stop_loss_for (stock_code : string) (o : Engine.Order) : bool :=
  match o with
  | Engine.StopLossQueued c _ | Engine.StopLossDirect c _ => String.eqb c stock_code
  | Engine.BuyRequested _ _ => false
  end.

Definition stop_loss_requests (stock_code : string) (self : Engine.TumepokEngine) : nat :=
  List.length (List.filter (is_stop_loss_for stock_code) (Engine.sent self)).

(** [position.get('stop_loss_executed', False)] of the position of a symbol,
    [false] when there is no position. *)
Definition stop_loss_guard (stock_code : string) (self : Engine.TumepokEngine) : bool :=
  match Engine.positions self !! stock_code with
  | Some position => Engine.PositionDict.stop_loss_executed position
  | None => false
  end.

(** Between two states of the engine, for one symbol: the stop-loss guard
    and the number of stop-loss requests are as before, or the guard went
    from unset to set with at most one request sent. *)
Definition stop_loss_unchanged (stock_code : string) (e e' : Engine.TumepokEngine) : Prop :=
  stop_loss_guard stock_code e' = stop_loss_guard stock_code e
  /\ stop_loss_requests stock_code e' = stop_loss_requests stock_code e.

Definition stop_loss_fired (stock_code : string) (e e' : Engine.TumepokEngine) : Prop :=
  stop_loss_guard stock_code e = false
  /\ stop_loss_guard stock_code e' = true
  /\ (stop_loss_requests stock_code e' = stop_loss_requests stock_code e
      \/ stop_loss_requests stock_code e' = S (stop_loss_requests stock_code e)).

(** ** Concrete data for the examples

    A matrix whose second row is the row of scenario A of the
    specification. *)

Definition scenario_matrix : list MatrixRow :=
  [ {| rise_min := 0; rise_max := 40; drop_min := 5; drop_max := 10 |};
    {| rise_min := 40; rise_max := 60; drop_min := 8; drop_max := 15 |} ].

(** A tracked symbol of scenario A: start price 10,000, high 14,500. *)
Definition scenario_tracking : RiseTracker.TrackingInfo :=
  {| RiseTracker.stock_code := "005930"; RiseTracker.start_date := 1;
     RiseTracker.start_price := 10000; RiseTracker.high_price := 14500;
     RiseTracker.current_price := 14500; RiseTracker.rise_days := 2;
     RiseTracker.rise_rate := 45; RiseTracker.daily_change_rate := 0;
     RiseTracker.drop_rate := 0; RiseTracker.target_drop_min := 8;
     RiseTracker.target_drop_max := 15; RiseTracker.target_drop_1st := 8;
     RiseTracker.target_drop_2nd := 11.5; RiseTracker.target_drop_3rd := 15;
     RiseTracker.status := "TRACKING"; RiseTracker.waiting_days := 0;
     RiseTracker.bought_stages := ∅;
     RiseTracker.daily_prices :=
       [ {| RiseTracker.dp_date := 1; RiseTracker.dp_price := 10000;
            RiseTracker.dp_is_high := false |};
         {| RiseTracker.dp_date := 2; RiseTracker.dp_price := 14500;
            RiseTracker.dp_is_high := true |} ] |}.

(** A configuration with the default trailing rates. *)
Definition scenario_config : Engine.Config :=
  {| Engine.calculate_target_drop_range := fun _ => Some 25.0;
     Engine.get_trailing_trigger_rate := 2.0;
     Engine.get_trailing_sell_rate := -1.0 |}.

(** An engine environment over the same matrix: order queue present, no
    buy ever decided. *)
Definition scenario_env : Engine.Env :=
  {| Engine.TUMEPOK_MATRIX := scenario_matrix;
     Engine.has_order_queue := true;
     Engine.has_queue_manager := true;
     Engine.manager_delivers := true;
     Engine.buy_decision := fun _ _ => Engine.NoBuy;
     Engine.config := Some scenario_config |}.

(** The same symbol as the engine keeps it. *)
Definition scenario_dict : Engine.TrackingDict.t :=
  {| Engine.TrackingDict.current_price := 14500;
     Engine.TrackingDict.daily_change_rate := None;
     Engine.TrackingDict.base_price := None;
     Engine.TrackingDict.start_price := Some 10000;
     Engine.TrackingDict.high_price := 14500;
     Engine.TrackingDict.rise_days := 2;
     Engine.TrackingDict.waiting_days := Some 0%Z;
     Engine.TrackingDict.status := Engine.TRACKING;
     Engine.TrackingDict.drop_rate := Some 0;
     Engine.TrackingDict.cumulative_rise_rate := Some 45;
     Engine.TrackingDict.rise_rate := Some 45;
     Engine.TrackingDict.bought_stages := Some ∅;
     Engine.TrackingDict.rise_start_price := None |}.

Definition scenario_engine : Engine.TumepokEngine :=
  {| Engine.tracking_stocks := {[ "005930" := scenario_dict ]};
     Engine.positions := ∅;
     Engine.sent := [] |}.

(** The symbol once READY, for the tracker and for the engine, with a
    pullback past the third line and no tier bought. *)
Definition scenario_ready_tracking : RiseTracker.TrackingInfo :=
  RiseTracker.set_status "READY" scenario_tracking.

(** A READY symbol of the first matrix row: start price 10,000, high 12,400,
    a rise of 24%, lines 5 / 7.5 / 10. *)
Definition scenario_line_tracking : RiseTracker.TrackingInfo :=
  {| RiseTracker.stock_code := "000660"; RiseTracker.start_date := 1;
     RiseTracker.start_price := 10000; RiseTracker.high_price := 12400;
     RiseTracker.current_price := 12400; RiseTracker.rise_days := 2;
     RiseTracker.rise_rate := 24; RiseTracker.daily_change_rate := 0;
     RiseTracker.drop_rate := 0; RiseTracker.target_drop_min := 5;
     RiseTracker.target_drop_max := 10; RiseTracker.target_drop_1st := 5;
     RiseTracker.target_drop_2nd := 7.5; RiseTracker.target_drop_3rd := 10;
     RiseTracker.status := "READY"; RiseTracker.waiting_days := 0;
     RiseTracker.bought_stages := ∅;
     RiseTracker.daily_prices :=
       [ {| RiseTracker.dp_date := 1; RiseTracker.dp_price := 10000;
            RiseTracker.dp_is_high := false |};
         {| RiseTracker.dp_date := 2; RiseTracker.dp_price := 12400;
            RiseTracker.dp_is_high := true |} ] |}.

Definition scenario_ready_dict : Engine.TrackingDict.t :=
  Engine.TrackingDict.set_drop_rate (Some 14.5)
    (Engine.TrackingDict.set_status Engine.READY scenario_dict).

Definition scenario_ready_engine : Engine.TumepokEngine :=
  {| Engine.tracking_stocks := {[ "005930" := scenario_ready_dict ]};
     Engine.positions := ∅;
     Engine.sent := [] |}.

(** The symbol while WAITING, with two waiting days counted, for the tracker
    and for the engine. *)
Definition scenario_waiting_tracking : RiseTracker.TrackingInfo :=
  RiseTracker.set_waiting_days 2 (RiseTracker.set_status "WAITING" scenario_tracking).

Definition scenario_waiting_engine : Engine.TumepokEngine :=
  {| Engine.tracking_stocks :=
       {[ "005930" :=
            Engine.TrackingDict.set_waiting_days (Some 2%Z)
              (Engine.TrackingDict.set_status Engine.WAITING scenario_dict) ]};
     Engine.positions := ∅;
     Engine.sent := [] |}.

(** A position of ten shares bought at 10,000. *)
Definition scenario_position : PositionManager.PositionInfo :=
  {| PositionManager.stock_code := "005930";
     PositionManager.buy_stages :=
       [ {| PositionManager.stage := STAGE_1; PositionManager.price := 10000;
            PositionManager.quantity := 10; PositionManager.amount := 100000 |} ];
     PositionManager.total_quantity := 10;
     PositionManager.total_amount := 100000;
     PositionManager.weighted_avg_price := 10000;
     PositionManager.current_price := 10000;
     PositionManager.profit_rate := 0;
     PositionManager.profit_amount := 0;
     PositionManager.trailing_activated := false;
     PositionManager.trailing_high := 0;
     PositionManager.trailing_trigger_rate := 2.0;
     PositionManager.trailing_sell_rate := -1.0;
     PositionManager.stop_loss_rate := -2.0;
     PositionManager.status := "HOLDING" |}.

(** The engine with the first tier bought and a position of ten shares. *)
Definition scenario_held_position : Engine.PositionDict.t :=
  {| Engine.PositionDict.total_quantity := 10;
     Engine.PositionDict.weighted_avg_price := 13000;
     Engine.PositionDict.current_price := 13000;
     Engine.PositionDict.profit_rate := 0;
     Engine.PositionDict.trailing_activated := false;
     Engine.PositionDict.trailing_high := 13000;
     Engine.PositionDict.buy_orders :=
       [ {| Engine.price := 13000; Engine.quantity := 10; Engine.stage := STAGE_1 |} ];
     Engine.PositionDict.stop_loss_executed := false;
     Engine.PositionDict.status := None;
     Engine.PositionDict.first_buy_price := None |}.

Definition scenario_held_engine : Engine.TumepokEngine :=
  {| Engine.tracking_stocks :=
       {[ "005930" :=
            Engine.TrackingDict.set_bought_stages (Some {[ STAGE_1 ]}) scenario_ready_dict ]};
     Engine.positions := {[ "005930" := scenario_held_position ]};
     Engine.sent := [] |}.

(** ** rise_tracker.py: the RiseTracker class *)

Module RiseTrackerClass.

(** The attributes of a [RiseTracker] object. *)
Record t : Type := {
  tracking_stocks : gmap string RiseTracker.TrackingInfo;
  max_tracking_stocks : Z
}.

Definition set_tracking_stocks (v : gmap string RiseTracker.TrackingInfo) (self : t) : t :=
  {| tracking_stocks := v; max_tracking_stocks := max_tracking_stocks self |}.

(** [RiseTracker.__init__()]; [max_tracking_stocks] is read from the
    configuration file, which is not part of the sources at hand. *)
Definition init (max_tracking_stocks : Z) : t :=
  {| tracking_stocks := ∅; max_tracking_stocks := max_tracking_stocks |}.

(** [RiseTracker.add_stock(stock_code, start_price, start_date, stock_name,
    daily_change_rate)] on day [today]: the tracker after the call and the
    flag returned.  The constructor of [TrackingInfo] runs inside the
    [try]: when it raises nothing is stored. *)
Definition add_stock (TUMEPOK_MATRIX : list MatrixRow) (today : Z) (stock_code : string)
    (start_price : Q) (start_date : option Z) (daily_change_rate : Q) (self : t)
  : t * bool :=
  if (Z.of_nat (size (tracking_stocks self)) >=? max_tracking_stocks self)%Z then
    (self, false)
  else if bool_decide (is_Some (tracking_stocks self !! stock_code)) then
    (self, false)
  else
    match RiseTracker.init TUMEPOK_MATRIX stock_code start_price
                           (default today start_date) with
    | Py.Ok tracking_info =>
        let tracking_info :=
          RiseTracker.set_daily_change_rate daily_change_rate tracking_info in
        (set_tracking_stocks (<[stock_code := tracking_info]> (tracking_stocks self)) self,
         true)
    | Py.Raise _ => (self, false)
    end.

(** [RiseTracker.remove_stock(stock_code)] *)
Definition remove_stock (stock_code : string) (self : t) : t * bool :=
  if bool_decide (is_Some (tracking_stocks self !! stock_code)) then
    (set_tracking_stocks (delete stock_code (tracking_stocks self)) self, true)
  else (self, false).

(** The object as a call of [TrackingInfo.update_price] that raises leaves
    it: the writes made up to the statement of [update_tumepok_calculation]
    that raised, the division or the read of the last matrix row. *)
Definition update_price_raised (today : Z) (current_price : Q)
    (daily_change_rate : option Q) (high_price_arg : option Q)
    (self : RiseTracker.TrackingInfo) : RiseTracker.TrackingInfo :=
  let self := RiseTracker.set_current_price current_price self in
  let self :=
    match daily_change_rate with
    | Some r => RiseTracker.set_daily_change_rate r self
    | None => self
    end in
  let self :=
    RiseTracker.set_rise_days (today - RiseTracker.start_date self + 1)%Z self in
  let '(self, high_updated) :=
    RiseTracker.update_high current_price high_price_arg self in
  let self := RiseTracker.record_daily_price today current_price high_updated self in
  match Py.div (RiseTracker.high_price self - RiseTracker.start_price self)
               (RiseTracker.start_price self) with
  | Py.Raise _ => self
  | Py.Ok q => RiseTracker.set_rise_rate (q * 100) self
  end.

(** [RiseTracker.update_price(stock_code, current_price, daily_change_rate,
    high_price)] on day [today]: the tracker after the call and the answer.
    A symbol that ends the call COMPLETED is removed; an exception of
    [TrackingInfo.update_price] is answered with ERROR, the object staying
    in the map as the call left it. *)
Definition update_price (TUMEPOK_MATRIX : list MatrixRow) (today : Z)
    (stock_code : string) (current_price : Q) (daily_change_rate : option Q)
    (high_price : option Q) (self : t) : t * string :=
  match tracking_stocks self !! stock_code with
  | None => (self, "NOT_TRACKING")
  | Some tracking_info =>
      match RiseTracker.update_price TUMEPOK_MATRIX today current_price
                                     daily_change_rate high_price tracking_info with
      | Py.Ok (tracking_info, result) =>
          let self :=
            set_tracking_stocks (<[stock_code := tracking_info]> (tracking_stocks self))
                                self in
          if String.eqb (RiseTracker.status tracking_info) "COMPLETED" then
            (fst (remove_stock stock_code self), result)
          else (self, result)
      | Py.Raise _ =>
          (set_tracking_stocks
             (<[stock_code := update_price_raised today current_price daily_change_rate
                                                  high_price tracking_info]>
                (tracking_stocks self))
             self,
           "ERROR")
      end
  end.

(** [RiseTracker.get_tracking_info(stock_code)] *)
Definition get_tracking_info (stock_code : string) (self : t)
  : option RiseTracker.TrackingInfo :=
  tracking_stocks self !! stock_code.

(** [RiseTracker.get_ready_stocks()]; the order of the list is the order
    of the dict, which the map does not keep. *)
Definition get_ready_stocks (self : t) : list string :=
  (List.filter (fun entry => String.eqb (RiseTracker.status (snd entry)) "READY")
               (map_to_list (tracking_stocks self))).*1.

(** [RiseTracker.get_buy_stage(stock_code, current_price)]; an exception of
    [TrackingInfo.get_buy_stage] is not caught here. *)
Definition get_buy_stage (rnd : Q -> Q) (stock_code : string) (current_price : Q)
    (self : t) : Py.result string :=
  match tracking_stocks self !! stock_code with
  | None => Py.Ok "NOT_TRACKING"
  | Some tracking_info => RiseTracker.get_buy_stage rnd current_price tracking_info
  end.

(** [RiseTracker.add_bought_stage(stock_code, stage)] *)
Definition add_bought_stage (stock_code stage : string) (self : t) : t * bool :=
  match tracking_stocks self !! stock_code with
  | Some tracking_info =>
      (set_tracking_stocks
         (<[stock_code := RiseTracker.add_bought_stage stage tracking_info]>
            (tracking_stocks self))
         self,
       true)
  | None => (self, false)
  end.

(** [RiseTracker.update_bought_stages(stock_code, stage)]: the stage is
    added to the record, then [self.save_data()] is called, a method that
    [RiseTracker] does not have: the call raises [AttributeError], which is
    caught, and the answer is [False] with the stage recorded. *)
Definition update_bought_stages (stock_code stage : string) (self : t) : t * bool :=
  match tracking_stocks self !! stock_code with
  | Some tracking_info =>
      (set_tracking_stocks
         (<[stock_code := RiseTracker.add_bought_stage stage tracking_info]>
            (tracking_stocks self))
         self,
       false)
  | None => (self, false)
  end.

(** [RiseTracker.update_config(new_config)]:
    [self.max_tracking_stocks = new_config.get('max_tracking_stocks', 20)],
    the argument being the value of the key, [None] without it.  No record
    is removed when the limit comes down. *)
Definition update_config (max_tracking_stocks_arg : option Z) (self : t) : t :=
  {| tracking_stocks := tracking_stocks self;
     max_tracking_stocks := default 20%Z max_tracking_stocks_arg |}.

(** [RiseTracker.get_statistics()['total_tracking']] *)
Definition total_tracking (self : t) : nat := size (tracking_stocks self).

(** [RiseTracker.get_statistics()['status_counts'].get(status, 0)]; the
    keys [ready_count], [tracking_count] and [waiting_count] are this count
    for READY, TRACKING and WAITING. *)
Definition status_count (status : string) (self : t) : nat :=
  List.length
    (List.filter (fun entry => String.eqb (RiseTracker.status (snd entry)) status)
                 (map_to_list (tracking_stocks self))).

End RiseTrackerClass.

(** ** rise_tracker.py: TrackingInfo.to_dict and from_dict

    The dict that [to_dict] builds and [from_dict] reads: a key is [None]
    when the dict lacks it.  [stock_name], which no decision reads, is left
    out as in [TrackingInfo]; [last_update] is kept as a key only, since
    [from_dict] fails without it. *)

Module TrackingData.

Record t : Type := {
  stock_code : option string;
  start_date : option Z;
  start_price : option Q;
  high_price : option Q;
  current_price : option Q;
  rise_days : option Z;
  rise_rate : option Q;
  daily_change_rate : option Q;
  drop_rate : option Q;
  target_drop_min : option Q;
  target_drop_max : option Q;
  target_drop_1st : option Q;
  target_drop_2nd : option Q;
  target_drop_3rd : option Q;
  status : option string;
  waiting_days : option Z;
  bought_stages : option (list string);
  last_update : option Z;
  daily_prices : option (list RiseTracker.DailyPrice)
}.

(** [data[key]]: raises when the key is missing. *)
Definition item {A : Type} (v : option A) : Py.result A :=
  match v with
  | Some a => Py.Ok a
  | None => Py.Raise Py.KeyError
  end.

(** [TrackingInfo.to_dict()]; [last_update] is the time stamp of the
    object. *)
Definition to_dict (last_update : Z) (self : RiseTracker.TrackingInfo) : t :=
  {| stock_code := Some (RiseTracker.stock_code self);
     start_date := Some (RiseTracker.start_date self);
     start_price := Some (RiseTracker.start_price self);
     high_price := Some (RiseTracker.high_price self);
     current_price := Some (RiseTracker.current_price self);
     rise_days := Some (RiseTracker.rise_days self);
     rise_rate := Some (RiseTracker.rise_rate self);
     daily_change_rate := Some (RiseTracker.daily_change_rate self);
     drop_rate := Some (RiseTracker.drop_rate self);
     target_drop_min := Some (RiseTracker.target_drop_min self);
     target_drop_max := Some (RiseTracker.target_drop_max self);
     target_drop_1st := Some (RiseTracker.target_drop_1st self);
     target_drop_2nd := Some (RiseTracker.target_drop_2nd self);
     target_drop_3rd := Some (RiseTracker.target_drop_3rd self);
     status := Some (RiseTracker.status self);
     waiting_days := Some (RiseTracker.waiting_days self);
     bought_stages := Some (elements (RiseTracker.bought_stages self));
     last_update := Some last_update;
     daily_prices := Some (RiseTracker.daily_prices self) |}.

(** [TrackingInfo.from_dict(data)]: the constructor runs first, on the
    symbol, the start price and the start date of the dict, and every
    attribute is then overwritten from the dict. *)
Definition from_dict (TUMEPOK_MATRIX : list MatrixRow) (data : t)
  : Py.result RiseTracker.TrackingInfo :=
  stock_code_v ← item (stock_code data);
  start_price_v ← item (start_price data);
  start_date_v ← item (start_date data);
  tracking_info ← RiseTracker.init TUMEPOK_MATRIX stock_code_v start_price_v start_date_v;
  v ← item (high_price data);
  let tracking_info := RiseTracker.set_high_price v tracking_info in
  v ← item (current_price data);
  let tracking_info := RiseTracker.set_current_price v tracking_info in
  v ← item (rise_days data);
  let tracking_info := RiseTracker.set_rise_days v tracking_info in
  v ← item (rise_rate data);
  let tracking_info := RiseTracker.set_rise_rate v tracking_info in
  let tracking_info :=
    RiseTracker.set_daily_change_rate (default 0.0 (daily_change_rate data))
                                      tracking_info in
  v ← item (drop_rate data);
  let tracking_info := RiseTracker.set_drop_rate v tracking_info in
  drop_min_v ← item (target_drop_min data);
  let tracking_info := RiseTracker.set_target_drop_min drop_min_v tracking_info in
  drop_max_v ← item (target_drop_max data);
  let tracking_info := RiseTracker.set_target_drop_max drop_max_v tracking_info in
  let tracking_info :=
    RiseTracker.set_target_drop_1st (default drop_min_v (target_drop_1st data))
                                    tracking_info in
  let tracking_info :=
    RiseTracker.set_target_drop_2nd
      (default ((drop_min_v + drop_max_v) / 2) (target_drop_2nd data)) tracking_info in
  let tracking_info :=
    RiseTracker.set_target_drop_3rd (default drop_max_v (target_drop_3rd data))
                                    tracking_info in
  v ← item (status data);
  let tracking_info := RiseTracker.set_status v tracking_info in
  v ← item (waiting_days data);
  let tracking_info := RiseTracker.set_waiting_days v tracking_info in
  v ← item (bought_stages data);
  let tracking_info := RiseTracker.set_bought_stages (list_to_set v) tracking_info in
  _ ← item (last_update data);
  Py.Ok (RiseTracker.set_daily_prices (default [] (daily_prices data)) tracking_info).

End TrackingData.


(** ** position_manager.py: the PositionManager class *)

Module PositionManagerClass.

(** The attributes of a [PositionManager] object. *)
Record t : Type := {
  positions : gmap string PositionManager.PositionInfo;
  stop_loss_rate : Q;
  trailing_trigger_rate : Q;
  trailing_sell_rate : Q
}.

Definition set_positions (v : gmap string PositionManager.PositionInfo) (self : t) : t :=
  {| positions := v; stop_loss_rate := stop_loss_rate self;
     trailing_trigger_rate := trailing_trigger_rate self;
     trailing_sell_rate := trailing_sell_rate self |}.

(** [PositionManager.__init__()] *)
Definition init : t :=
  {| positions := ∅; stop_loss_rate := -2.0; trailing_trigger_rate := 2.0;
     trailing_sell_rate := -1.0 |}.

(** Attribute assignment on a position, [position.x = v]. *)
Definition set_stop_loss_rate (v : Q) (position : PositionManager.PositionInfo)
  : PositionManager.PositionInfo :=
  let '(PositionManager.Build_PositionInfo stock_code buy_stages total_quantity
          total_amount weighted_avg_price current_price profit_rate profit_amount
          trailing_activated trailing_high trailing_trigger_rate trailing_sell_rate
          stop_loss_rate status) := position in
  PositionManager.Build_PositionInfo stock_code buy_stages total_quantity
    total_amount weighted_avg_price current_price profit_rate profit_amount
    trailing_activated trailing_high trailing_trigger_rate trailing_sell_rate
    v status.

Definition set_trailing_trigger_rate (v : Q) (position : PositionManager.PositionInfo)
  : PositionManager.PositionInfo :=
  let '(PositionManager.Build_PositionInfo stock_code buy_stages total_quantity
          total_amount weighted_avg_price current_price profit_rate profit_amount
          trailing_activated trailing_high trailing_trigger_rate trailing_sell_rate
          stop_loss_rate status) := position in
  PositionManager.Build_PositionInfo stock_code buy_stages total_quantity
    total_amount weighted_avg_price current_price profit_rate profit_amount
    trailing_activated trailing_high v trailing_sell_rate
    stop_loss_rate status.

Definition set_trailing_sell_rate (v : Q) (position : PositionManager.PositionInfo)
  : PositionManager.PositionInfo :=
  let '(PositionManager.Build_PositionInfo stock_code buy_stages total_quantity
          total_amount weighted_avg_price current_price profit_rate profit_amount
          trailing_activated trailing_high trailing_trigger_rate trailing_sell_rate
          stop_loss_rate status) := position in
  PositionManager.Build_PositionInfo stock_code buy_stages total_quantity
    total_amount weighted_avg_price current_price profit_rate profit_amount
    trailing_activated trailing_high trailing_trigger_rate v
    stop_loss_rate status.

(** The position as a call of [PositionInfo.add_buy_stage] that raises
    leaves it: the stage appended and the totals raised, the average price
    as before. *)
Definition add_buy_stage_raised (stage_info : PositionManager.BuyStageInfo)
    (position : PositionManager.PositionInfo) : PositionManager.PositionInfo :=
  let '(PositionManager.Build_PositionInfo stock_code buy_stages total_quantity
          total_amount weighted_avg_price current_price profit_rate profit_amount
          trailing_activated trailing_high trailing_trigger_rate trailing_sell_rate
          stop_loss_rate status) := position in
  PositionManager.Build_PositionInfo stock_code (buy_stages ++ [stage_info])
    (total_quantity + PositionManager.quantity stage_info)%Z
    (total_amount + PositionManager.amount stage_info)
    weighted_avg_price current_price profit_rate profit_amount
    trailing_activated trailing_high trailing_trigger_rate trailing_sell_rate
    stop_loss_rate status.

(** [PositionManager.add_position(stock_code, stage, price, quantity,
    amount)]: the manager after the call and the flag returned.  An
    exception of [add_buy_stage] is caught; the position stays in the map
    as the call left it. *)
Definition add_position (stock_code stage : string) (price : Q) (quantity : Z)
    (amount : Q) (self : t) : t * bool :=
  let position :=
    match positions self !! stock_code with
    | Some position => position
    | None => PositionManager.init stock_code
    end in
  let position := set_stop_loss_rate (stop_loss_rate self) position in
  let position := set_trailing_trigger_rate (trailing_trigger_rate self) position in
  let position := set_trailing_sell_rate (trailing_sell_rate self) position in
  let stage_info :=
    {| PositionManager.stage := stage; PositionManager.price := price;
       PositionManager.quantity := quantity; PositionManager.amount := amount |} in
  match PositionManager.add_buy_stage stage_info position with
  | Py.Ok position =>
      (set_positions (<[stock_code := position]> (positions self)) self, true)
  | Py.Raise _ =>
      (set_positions
         (<[stock_code := add_buy_stage_raised stage_info position]> (positions self))
         self,
       false)
  end.

(** [PositionManager.update_position(stock_code, current_price)]: the
    manager after the call and the signal returned. *)
Definition update_position (calculate_profit_rate : Q -> Q -> Q) (stock_code : string)
    (current_price : Q) (self : t) : t * option string :=
  match positions self !! stock_code with
  | None => (self, None)
  | Some position =>
      let '(position, sell_signal) :=
        PositionManager.update_position calculate_profit_rate current_price position in
      (set_positions (<[stock_code := position]> (positions self)) self, sell_signal)
  end.

(** [PositionManager.remove_position(stock_code, reason)] *)
Definition remove_position (stock_code : string) (self : t) : t * bool :=
  if bool_decide (is_Some (positions self !! stock_code)) then
    (set_positions (delete stock_code (positions self)) self, true)
  else (self, false).

(** [PositionManager.force_sell_position(stock_code, reason)] *)
Definition force_sell_position (stock_code : string) (self : t) : t * bool :=
  if bool_decide (is_Some (positions self !! stock_code)) then
    (fst (remove_position stock_code self), true)
  else (self, false).

(** [PositionManager.get_position(stock_code)] *)
Definition get_position (stock_code : string) (self : t)
  : option PositionManager.PositionInfo :=
  positions self !! stock_code.

(** [PositionManager.update_settings(stop_loss_rate, trailing_trigger_rate,
    trailing_sell_rate)]; an argument left out is [None]. *)
Definition update_settings (stop_loss_rate_arg trailing_trigger_rate_arg
                              trailing_sell_rate_arg : option Q) (self : t) : t :=
  let on_position (position : PositionManager.PositionInfo) :=
    let position :=
      match stop_loss_rate_arg with
      | Some v => set_stop_loss_rate v position
      | None => position
      end in
    let position :=
      match trailing_trigger_rate_arg with
      | Some v => set_trailing_trigger_rate v position
      | None => position
      end in
    match trailing_sell_rate_arg with
    | Some v => set_trailing_sell_rate v position
    | None => position
    end in
  {| positions := on_position <$> positions self;
     stop_loss_rate := default (stop_loss_rate self) stop_loss_rate_arg;
     trailing_trigger_rate := default (trailing_trigger_rate self) trailing_trigger_rate_arg;
     trailing_sell_rate := default (trailing_sell_rate self) trailing_sell_rate_arg |}.

(** The loop of [check_all_positions] over the entries of the dict. *)
Fixpoint check_all_loop (entries : list (string * PositionManager.PositionInfo))
  : Py.result (list (string * string)) :=
  match entries with
  | [] => Py.Ok []
  | (stock_code, position) :: rest =>
      sell_signal ← PositionManager.check_sell_conditions position;
      sell_signals ← check_all_loop rest;
      match sell_signal with
      | Some sell_signal => Py.Ok ((stock_code, sell_signal) :: sell_signals)
      | None => Py.Ok sell_signals
      end
  end.

(** [PositionManager.check_all_positions()]; an exception raised by the
    check of any position is answered with the empty list.  The order of
    the list is the order of the dict, which the map does not keep. *)
Definition check_all_positions (self : t) : list (string * string) :=
  match check_all_loop (map_to_list (positions self)) with
  | Py.Ok sell_signals => sell_signals
  | Py.Raise _ => []
  end.

End PositionManagerClass.

(** Calls received by a [PositionManager]. *)
Inductive PositionCall : Type :=
| AddPosition (stock_code stage : string) (price : Q) (quantity : Z) (amount : Q)
| UpdatePosition (stock_code : string) (current_price : Q)
| RemovePosition (stock_code : string)
| ForceSellPosition (stock_code : string)
| UpdateSettings (stop_loss_rate trailing_trigger_rate trailing_sell_rate : option Q).

Definition position_step (calculate_profit_rate : Q -> Q -> Q)
    (self : PositionManagerClass.t) (call : PositionCall) : PositionManagerClass.t :=
  match call with
  | AddPosition stock_code stage price quantity amount =>
      fst (PositionManagerClass.add_position stock_code stage price quantity amount self)
  | UpdatePosition stock_code current_price =>
      fst (PositionManagerClass.update_position calculate_profit_rate stock_code
                                                current_price self)
  | RemovePosition stock_code => fst (PositionManagerClass.remove_position stock_code self)
  | ForceSellPosition stock_code =>
      fst (PositionManagerClass.force_sell_position stock_code self)
  | UpdateSettings stop_loss_rate trailing_trigger_rate trailing_sell_rate =>
      PositionManagerClass.update_settings stop_loss_rate trailing_trigger_rate
                                           trailing_sell_rate self
  end.

Definition position_run (calculate_profit_rate : Q -> Q -> Q) (calls : list PositionCall)
    (self : PositionManagerClass.t) : PositionManagerClass.t :=
  List.fold_left (position_step calculate_profit_rate) calls self.

(** The three rates of a position are those of its manager. *)
Definition settings_applied (self : PositionManagerClass.t)
    (position : PositionManager.PositionInfo) : Prop :=
  PositionManager.stop_loss_rate position = PositionManagerClass.stop_loss_rate self
  /\ PositionManager.trailing_trigger_rate position
     = PositionManagerClass.trailing_trigger_rate self
  /\ PositionManager.trailing_sell_rate position
     = PositionManagerClass.trailing_sell_rate self.


(** The price of a call that updates a position is positive. *)
Definition positive_price (call : PositionCall) : bool :=
  match call with
  | UpdatePosition _ current_price => Py.gtb current_price 0
  | _ => true
  end.

(** An active trailing stop has a positive high. *)
Definition trailing_high_positive (position : PositionManager.PositionInfo) : Prop :=
  PositionManager.trailing_activated position = true ->
  0 < PositionManager.trailing_high position.


(** ** risk_manager.py: the daily statistics and the trade history *)

Module RiskManagerClass.

(** One entry of [trade_history], as [record_trade] writes it without
    extra keyword arguments; the time stamp is left out, the date is a day
    number. *)
Record Trade : Type := {
  date : Z;
  type : string;
  stock_code : string;
  amount : Q;
  profit : Q
}.

(** A [RiskManager] object with the part of its state that
    [RiskManager.t] leaves out: the other keys of [daily_stats] and the
    trade history, oldest first.  [daily_stats['total_profit']] is the
    field of [manager]. *)
Record t : Type := {
  manager : RiskManager.t;
  daily_stats_date : Z;
  daily_stats_total_loss : Q;
  daily_stats_trade_count : Z;
  daily_stats_buy_count : Z;
  daily_stats_sell_count : Z;
  trade_history : list Trade
}.

Definition set_total_profit (v : Q) (self : RiskManager.t) : RiskManager.t :=
  {| RiskManager.daily_loss_limit := RiskManager.daily_loss_limit self;
     RiskManager.max_tracking_stocks := RiskManager.max_tracking_stocks self;
     RiskManager.max_position_stocks := RiskManager.max_position_stocks self;
     RiskManager.max_single_position := RiskManager.max_single_position self;
     RiskManager.position_ratios := RiskManager.position_ratios self;
     RiskManager.rise_rate_ratios := RiskManager.rise_rate_ratios self;
     RiskManager.daily_stats_total_profit := v |}.

(** [RiskManager.__init__()] on day [today]. *)
Definition init (today : Z) : t :=
  {| manager := RiskManager.init;
     daily_stats_date := today;
     daily_stats_total_loss := 0.0;
     daily_stats_trade_count := 0;
     daily_stats_buy_count := 0;
     daily_stats_sell_count := 0;
     trade_history := [] |}.

(** [RiskManager.reset_daily_stats()] on day [today]. *)
Definition reset_daily_stats (today : Z) (self : t) : t :=
  {| manager := set_total_profit 0.0 (manager self);
     daily_stats_date := today;
     daily_stats_total_loss := 0.0;
     daily_stats_trade_count := 0;
     daily_stats_buy_count := 0;
     daily_stats_sell_count := 0;
     trade_history := trade_history self |}.

(** [RiskManager.update_daily_stats(trade_type, amount, profit)] on day
    [today].  The two totals are added up exactly; the code adds floats,
    and a total that it holds can differ in its last bit from the sum taken
    here.  What is proved of a comparison of the total with the loss limit
    is therefore stated on the total that the manager holds. *)
Definition update_daily_stats (today : Z) (trade_type : string) (amount profit : Q)
    (self : t) : t :=
  let self :=
    if negb (daily_stats_date self =? today)%Z then reset_daily_stats today self
    else self in
  let trade_count := (daily_stats_trade_count self + 1)%Z in
  let total_profit := RiskManager.daily_stats_total_profit (manager self) in
  if String.eqb trade_type "BUY" then
    {| manager := manager self;
       daily_stats_date := daily_stats_date self;
       daily_stats_total_loss := daily_stats_total_loss self;
       daily_stats_trade_count := trade_count;
       daily_stats_buy_count := (daily_stats_buy_count self + 1)%Z;
       daily_stats_sell_count := daily_stats_sell_count self;
       trade_history := trade_history self |}
  else if String.eqb trade_type "SELL" then
    if Py.gtb profit 0 then
      {| manager := set_total_profit (total_profit + profit) (manager self);
         daily_stats_date := daily_stats_date self;
         daily_stats_total_loss := daily_stats_total_loss self;
         daily_stats_trade_count := trade_count;
         daily_stats_buy_count := daily_stats_buy_count self;
         daily_stats_sell_count := (daily_stats_sell_count self + 1)%Z;
         trade_history := trade_history self |}
    else
      {| manager := set_total_profit (total_profit + profit) (manager self);
         daily_stats_date := daily_stats_date self;
         daily_stats_total_loss := daily_stats_total_loss self + Py.abs profit;
         daily_stats_trade_count := trade_count;
         daily_stats_buy_count := daily_stats_buy_count self;
         daily_stats_sell_count := (daily_stats_sell_count self + 1)%Z;
         trade_history := trade_history self |}
  else
    {| manager := manager self;
       daily_stats_date := daily_stats_date self;
       daily_stats_total_loss := daily_stats_total_loss self;
       daily_stats_trade_count := trade_count;
       daily_stats_buy_count := daily_stats_buy_count self;
       daily_stats_sell_count := daily_stats_sell_count self;
       trade_history := trade_history self |}.

(** [RiskManager.record_trade(trade_type, stock_code, amount, profit)] on
    day [today], without extra keyword arguments. *)
Definition record_trade (today : Z) (trade_type stock_code : string) (amount profit : Q)
    (self : t) : t :=
  let trade_record :=
    {| date := today; type := trade_type; stock_code := stock_code; amount := amount;
       profit := profit |} in
  let self :=
    {| manager := manager self;
       daily_stats_date := daily_stats_date self;
       daily_stats_total_loss := daily_stats_total_loss self;
       daily_stats_trade_count := daily_stats_trade_count self;
       daily_stats_buy_count := daily_stats_buy_count self;
       daily_stats_sell_count := daily_stats_sell_count self;
       trade_history := trade_history self ++ [trade_record] |} in
  update_daily_stats today trade_type amount profit self.

(** [xs[-n:] if len(xs) >= n else xs] *)
Definition last_n {A : Type} (n : nat) (xs : list A) : list A :=
  if (n <=? List.length xs)%nat then List.skipn (List.length xs - n) xs else xs.

(** The reasons of [should_stop_trading]. *)
Inductive StopReason : Type :=
| LossLimitReached (total_profit : Q)
| RepeatedLosses
| MarketClosing
| KeepTrading.

(** [RiskManager.should_stop_trading()] at the hour [hour] of the clock. *)
Definition should_stop_trading (hour : Z) (self : t) : bool * StopReason :=
  if Py.leb (RiskManager.daily_stats_total_profit (manager self))
            (RiskManager.daily_loss_limit (manager self)) then
    (true, LossLimitReached (RiskManager.daily_stats_total_profit (manager self)))
  else
    let recent_trades := last_n 5 (trade_history self) in
    let recent_losses := List.filter (fun trade => Py.ltb (profit trade) 0) recent_trades in
    if (3 <=? List.length recent_trades)%nat && (3 <=? List.length recent_losses)%nat then
      (true, RepeatedLosses)
    else if (hour =? 15)%Z then (true, MarketClosing)
    else (false, KeepTrading).

(** [RiskManager.cleanup_old_trades(days)] on day [today]: the manager
    after the call and the number of trades removed. *)
Definition cleanup_old_trades (today : Z) (days : Z) (self : t) : t * Z :=
  let cutoff_date := (today - days)%Z in
  let original_count := Z.of_nat (List.length (trade_history self)) in
  let kept := List.filter (fun trade => (date trade >=? cutoff_date)%Z) (trade_history self) in
  let self :=
    {| manager := manager self;
       daily_stats_date := daily_stats_date self;
       daily_stats_total_loss := daily_stats_total_loss self;
       daily_stats_trade_count := daily_stats_trade_count self;
       daily_stats_buy_count := daily_stats_buy_count self;
       daily_stats_sell_count := daily_stats_sell_count self;
       trade_history := kept |} in
  (self, (original_count - Z.of_nat (List.length (trade_history self)))%Z).

(** [RiskManager.calculate_risk_score(rise_days, rise_rate,
    current_positions)]; the division by a zero loss limit raises, and the
    [except] branch answers 100. *)
Definition calculate_risk_score (self : RiskManager.t) (rise_days : Z) (rise_rate : Q)
    (current_positions : Z) : Q :=
  let score := 0 in
  let score := score + inject_Z (Z.min (rise_days * 8) 40) in
  let score :=
    if Py.geb rise_rate 100 then score + 30
    else if Py.geb rise_rate 70 then score + 20
    else if Py.geb rise_rate 50 then score + 10
    else score in
  let score := score + inject_Z (Z.min (current_positions * 2) 20) in
  if Py.ltb (RiskManager.daily_stats_total_profit self) 0 then
    match Py.div (RiskManager.daily_stats_total_profit self)
                 (RiskManager.daily_loss_limit self) with
    | Py.Raise _ => 100
    | Py.Ok q =>
        let loss_ratio := Py.abs q in
        let score := score + Qmin (loss_ratio * 10) 10 in
        Qmin score 100
    end
  else Qmin score 100.

End RiskManagerClass.

(** A trade as the arguments of [record_trade]. *)
Record TradeArgs : Type := {
  trade_type : string;
  trade_stock_code : string;
  trade_amount : Q;
  trade_profit : Q
}.

(** A sequence of [record_trade] calls on one day. *)
Definition record_trades (today : Z) (trades : list TradeArgs)
    (self : RiskManagerClass.t) : RiskManagerClass.t :=
  List.fold_left
    (fun self trade =>
       RiskManagerClass.record_trade today (trade_type trade) (trade_stock_code trade)
                                     (trade_amount trade) (trade_profit trade) self)
    trades self.

(** The sums that the daily statistics are meant to keep. *)
Definition is_sell (trade : TradeArgs) : bool := String.eqb (trade_type trade) "SELL".
Definition is_buy (trade : TradeArgs) : bool := String.eqb (trade_type trade) "BUY".

Definition sum_profit (trades : list TradeArgs) : Q :=
  List.fold_right (fun trade acc => trade_profit trade + acc) 0 trades.

Definition sum_loss (trades : list TradeArgs) : Q :=
  List.fold_right
    (fun trade acc => (if Py.gtb (trade_profit trade) 0 then 0 else Qabs (trade_profit trade))
                      + acc)
    0 trades.


(** Every ratio of a table lies between 0 and 1. *)
Definition ratios_in_unit (d : gmap Z Q) : bool :=
  forallb (fun v => Py.leb 0 v && Py.leb v 1) (RiskManager.values d).


(** The waiting counter of a tracking record of the engine, as the source
    reads it ([0] when the key is absent), is at most 1, and is 0 while
    the record is TRACKING: what holds of every record when it is created. *)
Definition waiting_days_fresh (tracking_info : Engine.TrackingDict.t) : bool :=
  let waiting_days := default 0%Z (Engine.TrackingDict.waiting_days tracking_info) in
  (waiting_days <=? 1)%Z
  && (if Engine.Status_eqb (Engine.TrackingDict.status tracking_info) Engine.TRACKING
      then (waiting_days =? 0)%Z else true).

Definition all_waiting_days_fresh (self : Engine.TumepokEngine) : bool :=
  forallb (fun entry => waiting_days_fresh (snd entry))
          (map_to_list (Engine.tracking_stocks self)).


(** ** tumepok_engine.py: the signal path over the records of the rise tracker *)

Module EngineTracker.

(** [TumepokEngine.process_tumepok_signal(stock_code, tracking_info)] on a
    record of the rise tracker: the record and the engine after the call.
    [check_and_execute_buy] consults the support analyzer, the
    configuration and the order transport; it is the argument
    [check_and_execute_buy], which answers the engine it leaves and its
    success flag.  An empty matrix makes the lookup raise; the [except]
    branch ends the call. *)
Definition process_tumepok_signal (env : Engine.Env)
    (check_and_execute_buy :
       string -> string -> RiseTracker.TrackingInfo -> Engine.TumepokEngine ->
       Engine.TumepokEngine * bool)
    (stock_code : string) (tracking_info : RiseTracker.TrackingInfo)
    (self : Engine.TumepokEngine) : RiseTracker.TrackingInfo * Engine.TumepokEngine :=
  let drop_rate := RiseTracker.drop_rate tracking_info in
  let rise_rate := RiseTracker.rise_rate tracking_info in
  match Engine._get_target_drop_rates env rise_rate with
  | Py.Raise _ => (tracking_info, self)
  | Py.Ok target_drops =>
      let min_drop_rate := Engine.tier_1st target_drops in
      let max_drop_rate := Engine.tier_stop_loss target_drops in
      if Py.gtb drop_rate max_drop_rate then
        if bool_decide (RiseTracker.bought_stages tracking_info ≠ ∅) then
          let executed :=
            match Engine.positions self !! stock_code with
            | Some position => Engine.PositionDict.stop_loss_executed position
            | None => false
            end in
          if negb executed then
            (tracking_info, Engine.execute_stop_loss env stock_code self)
          else (tracking_info, self)
        else (RiseTracker.set_status "STOPPED" tracking_info, self)
      else if Py.leb min_drop_rate drop_rate && Py.leb drop_rate max_drop_rate then
        let buy_stage := Engine._get_buy_stage_from_drop_rate drop_rate target_drops in
        if bool_decide (buy_stage ∈ RiseTracker.bought_stages tracking_info) then
          (tracking_info, self)
        else if negb (String.eqb buy_stage WAIT) then
          let '(self, success) :=
            check_and_execute_buy stock_code buy_stage tracking_info self in
          if success then (RiseTracker.add_bought_stage buy_stage tracking_info, self)
          else (tracking_info, self)
        else (tracking_info, self)
      else (tracking_info, self)
  end.

End EngineTracker.

(** Lines 270-297 of [TumepokEngine.on_realtime_data], which follow the
    price update of a symbol of the rise tracker: the engine takes the
    record with [get_tracking_info] and, when it is READY or WAITING, hands
    it to [process_tumepok_signal].  The record is the object that the
    tracker stores, so what the engine writes on it, the status STOPPED or a
    bought stage, is written in the tracker. *)
Definition on_realtime_data_signal (env : Engine.Env)
    (check_and_execute_buy :
       string -> string -> RiseTracker.TrackingInfo -> Engine.TumepokEngine ->
       Engine.TumepokEngine * bool)
    (stock_code : string) (rise_tracker : RiseTrackerClass.t)
    (self : Engine.TumepokEngine) : RiseTrackerClass.t * Engine.TumepokEngine :=
  match RiseTrackerClass.get_tracking_info stock_code rise_tracker with
  | Some tracking_info =>
      if String.eqb (RiseTracker.status tracking_info) "READY"
         || String.eqb (RiseTracker.status tracking_info) "WAITING" then
        let '(tracking_info, self) :=
          EngineTracker.process_tumepok_signal env check_and_execute_buy stock_code
                                               tracking_info self in
        (RiseTrackerClass.set_tracking_stocks
           (<[stock_code := tracking_info]> (RiseTrackerClass.tracking_stocks rise_tracker))
           rise_tracker,
         self)
      else (rise_tracker, self)
  | None => (rise_tracker, self)
  end.

(** Calls received by a [RiseTracker], each on its day: its own methods,
    and the writes of the engine on its records.  A tick of
    [on_realtime_data] on a symbol of the tracker is an [UpdatePrice]
    followed by a [ProcessTumepokSignal]; the engine of that call, its
    environment and the outcome of its purchases are arguments of the call,
    any engine in any state. *)
Inductive TrackerCall : Type :=
| AddStock (today : Z) (stock_code : string) (start_price : Q) (start_date : option Z)
           (daily_change_rate : Q)
| RemoveStock (stock_code : string)
| UpdatePrice (today : Z) (stock_code : string) (current_price : Q)
              (daily_change_rate high_price : option Q)
| AddBoughtStage (stock_code stage : string)
| UpdateBoughtStages (stock_code stage : string)
| UpdateConfig (max_tracking_stocks : option Z)
| ProcessTumepokSignal
    (env : Engine.Env)
    (check_and_execute_buy :
       string -> string -> RiseTracker.TrackingInfo -> Engine.TumepokEngine ->
       Engine.TumepokEngine * bool)
    (engine : Engine.TumepokEngine) (stock_code : string).

Definition tracker_step (matrix : list MatrixRow) (self : RiseTrackerClass.t)
    (call : TrackerCall) : RiseTrackerClass.t :=
  match call with
  | AddStock today stock_code start_price start_date daily_change_rate =>
      fst (RiseTrackerClass.add_stock matrix today stock_code start_price start_date
                                      daily_change_rate self)
  | RemoveStock stock_code => fst (RiseTrackerClass.remove_stock stock_code self)
  | UpdatePrice today stock_code current_price daily_change_rate high_price =>
      fst (RiseTrackerClass.update_price matrix today stock_code current_price
                                         daily_change_rate high_price self)
  | AddBoughtStage stock_code stage =>
      fst (RiseTrackerClass.add_bought_stage stock_code stage self)
  | UpdateBoughtStages stock_code stage =>
      fst (RiseTrackerClass.update_bought_stages stock_code stage self)
  | UpdateConfig max_tracking_stocks =>
      RiseTrackerClass.update_config max_tracking_stocks self
  | ProcessTumepokSignal env check_and_execute_buy engine stock_code =>
      fst (on_realtime_data_signal env check_and_execute_buy stock_code self engine)
  end.

Definition tracker_run (matrix : list MatrixRow) (calls : list TrackerCall)
    (self : RiseTrackerClass.t) : RiseTrackerClass.t :=
  List.fold_left (tracker_step matrix) calls self.

(** The limit that a call puts in force, if it is a call of
    [update_config]. *)
Definition limit_within (bound : Z) (call : TrackerCall) : bool :=
  match call with
  | UpdateConfig max_tracking_stocks => (default 20 max_tracking_stocks <=? bound)%Z
  | _ => true
  end.


(** What holds of every record that a tracker filled through [add_stock]
    keeps under the symbol [stock_code]. *)
Definition well_tracked (matrix : list MatrixRow) (stock_code : string)
    (self : RiseTracker.TrackingInfo) : Prop :=
  RiseTracker.stock_code self = stock_code
  /\ ~ RiseTracker.start_price self == 0
  /\ RiseTracker.start_price self <= RiseTracker.high_price self
  /\ RiseTracker.rise_rate self
     = (RiseTracker.high_price self - RiseTracker.start_price self)
       / RiseTracker.start_price self * 100
  /\ 0 <= RiseTracker.drop_rate self
  /\ (0 <= RiseTracker.waiting_days self <= 1)%Z
  /\ (RiseTracker.status self = "TRACKING" \/ RiseTracker.status self = "WAITING"
      \/ RiseTracker.status self = "READY" \/ RiseTracker.status self = "STOPPED")
  /\ exists row,
      Spec.lookup matrix (RiseTracker.rise_rate self) row
      /\ RiseTracker.target_drop_min self = drop_min row
      /\ RiseTracker.target_drop_max self = drop_max row
      /\ RiseTracker.target_drop_1st self = drop_min row
      /\ RiseTracker.target_drop_2nd self = (drop_min row + drop_max row) / 2
      /\ RiseTracker.target_drop_3rd self = drop_max row.


(** Every record of a tracker is well-tracked under its key. *)
Definition tracker_ok (matrix : list MatrixRow) (self : RiseTrackerClass.t) : Prop :=
  forall stock_code tracking_info,
    RiseTrackerClass.tracking_stocks self !! stock_code = Some tracking_info ->
    well_tracked matrix stock_code tracking_info.


(** The answers of [TrackingInfo.update_price] on a well-tracked record. *)
Definition tracked_answers : list string :=
  ["HIGH_UPDATED"; "MAX_DAYS_EXCEEDED"; "TUMEPOK_READY"; "WAITING_STARTED"; "CONTINUE";
   "TRACKING_RESUMED"; "WAITING"; "READY"].


(** ** support_analyzer.py: SupportAnalyzer

    Conventions of this module.  A pandas [DataFrame] of minute bars is a
    list of bars, oldest first, and a [Series] is a list.  The bars come
    from the chart requests and the volumes from the real-time feed, which
    the source replaces by random mock data: they are the fields of
    [Market].  The three caches keep the result of a check for the minute in
    which it was made; the checks below are the checks on a cache miss.
    Prices of a bar are numpy floats: a division by zero raises nothing
    there and yields an infinity or a NaN, every comparison with a NaN being
    false; the definitions spell these cases out. *)

Module SupportAnalyzer.

(** The settings of a [SupportAnalyzer] object. *)
Record t : Type := {
  rsi_threshold : Q;
  volume_ratio_threshold : Q;
  support_tolerance : Q
}.

(** [SupportAnalyzer.__init__(main_window)] *)
Definition init : t :=
  {| rsi_threshold := 30.0; volume_ratio_threshold := 0.25; support_tolerance := 0.01 |}.

(** One row of the minute data. *)
Record Bar : Type := {
  open : Q;
  high : Q;
  low : Q;
  close : Q;
  volume : Z
}.

(** The data sources: [get_minute_data(stock_code, period, interval)],
    [get_current_volume(stock_code)] and
    [get_max_volume_during_rise(stock_code, tracking_info)]. *)
Record Market : Type := {
  get_minute_data : string -> Z -> Z -> option (list Bar);
  get_current_volume : string -> option Z;
  get_max_volume_during_rise : string -> option Z
}.

(** [prices.diff()] without its leading NaN. *)
Fixpoint diff (prices : list Q) : list Q :=
  match prices with
  | [] => []
  | previous :: rest =>
      match rest with
      | [] => []
      | price :: _ => (price - previous) :: diff rest
      end
  end.

Definition sum (xs : list Q) : Q := List.fold_right Qplus 0 xs.

(** The last value of [xs.rolling(window=period).mean()] for a series of
    at least [period] values. *)
Definition rolling_mean_last (period : nat) (xs : list Q) : Q :=
  sum (List.skipn (List.length xs - period) xs) / inject_Z (Z.of_nat period).

(** [SupportAnalyzer.calculate_rsi(prices, period)].  With no loss in the
    window the quotient [avg_gain / avg_loss] is an infinity and the RSI is
    100, or a NaN when there is no gain either, and the RSI is then the
    default 50. *)
Definition calculate_rsi (prices : list Q) (period : nat) : Q :=
  if (List.length prices <? period + 1)%nat then 50.0
  else
    let delta := diff prices in
    let gain := List.map (fun d => if Py.gtb d 0 then d else 0) delta in
    let loss := List.map (fun d => - (if Py.ltb d 0 then d else 0)) delta in
    let avg_gain := rolling_mean_last period gain in
    let avg_loss := rolling_mean_last period loss in
    if Py.eqb avg_loss 0 then
      if Py.eqb avg_gain 0 then 50.0 else 100
    else
      let rs := avg_gain / avg_loss in
      100 - (100 / (1 + rs)).

(** [check_rsi_oversold(stock_code)['is_oversold']] *)
Definition check_rsi_oversold (market : Market) (self : t) (stock_code : string) : bool :=
  match get_minute_data market stock_code 30 1 with
  | None => false
  | Some minute_data =>
      if (List.length minute_data <? 14)%nat then false
      else Py.leb (calculate_rsi (List.map close minute_data) 14) (rsi_threshold self)
  end.

(** [data.iloc[a:b]] *)
Definition slice {A : Type} (a b : nat) (xs : list A) : list A :=
  List.firstn (b - a) (List.skipn a xs).

(** [max(values)] of a non-empty series. *)
Definition max_list (vs : list Q) : option Q :=
  match vs with
  | [] => None
  | v :: rest => Some (List.fold_left (fun m x => if Py.gtb x m then x else m) rest v)
  end.

(** [SupportAnalyzer.is_valid_support_level(data, index, lookback)]; an
    index past the data raises and is answered with [False]. *)
Definition is_valid_support_level (data : list Bar) (index lookback : nat) : bool :=
  match List.nth_error data index with
  | None => false
  | Some bar =>
      let support_price := low bar in
      let future_data := slice (index + 1) (index + lookback + 1) data in
      match max_list (List.map high future_data) with
      | None => false
      | Some max_bounce =>
          if Py.eqb support_price 0 then Py.gtb max_bounce 0
          else Py.geb ((max_bounce - support_price) / support_price) 0.02
      end
  end.

(** The loop of [find_support_levels] from index [i], for [count] steps.
    [min] of an empty slice raises. *)
Fixpoint support_loop (data : list Bar) (lookback : nat) (count i : nat)
  : Py.result (list Q) :=
  match count with
  | O => Py.Ok []
  | S count =>
      let lows := List.map low data in
      match Py.min_list (slice (i - lookback) i lows),
            Py.min_list (slice (i + 1) (i + lookback + 1) lows),
            List.nth_error lows i with
      | Some left_min, Some right_min, Some current_low =>
          rest ← support_loop data lookback count (S i);
          if Py.leb current_low left_min && Py.leb current_low right_min
             && is_valid_support_level data i lookback
          then Py.Ok (current_low :: rest)
          else Py.Ok rest
      | _, _, _ => Py.Raise Py.IndexError
      end
  end.

(** [SupportAnalyzer.find_support_levels(data, lookback)]; an exception
    is answered with the empty list. *)
Definition find_support_levels (data : list Bar) (lookback : nat) : list Q :=
  if (List.length data <? lookback)%nat then []
  else
    match support_loop data lookback (List.length data - lookback - lookback) lookback with
    | Py.Ok support_levels => support_levels
    | Py.Raise _ => []
    end.

(** [SupportAnalyzer.is_near_support_level(current_price, support_levels)]
    on levels taken from the bars; the distance to a zero level is an
    infinity or a NaN and is not within the tolerance. *)
Definition is_near_support_level (self : t) (current_price : Q) (support_levels : list Q)
  : bool :=
  List.existsb
    (fun support_level =>
       if Py.eqb support_level 0 then false
       else Py.leb (Py.abs (current_price - support_level) / support_level)
                   (support_tolerance self))
    support_levels.

(** [sorted(list(set(levels)))] on floats. *)
Fixpoint insert_level (x : Q) (xs : list Q) : list Q :=
  match xs with
  | [] => [x]
  | y :: rest =>
      if Py.eqb x y then xs
      else if Py.ltb x y then x :: xs
      else y :: insert_level x rest
  end.

Definition sorted_levels (xs : list Q) : list Q := List.fold_right insert_level [] xs.

(** [check_support_level(stock_code, current_price)]: the keys
    [has_support] and [support_levels] of the result. *)
Definition check_support_level (market : Market) (self : t) (stock_code : string)
    (current_price : Q) : bool * list Q :=
  let minute5_data := get_minute_data market stock_code 100 5 in
  let minute15_data := get_minute_data market stock_code 50 15 in
  let support5 :=
    match minute5_data with
    | Some data =>
        if (20 <? List.length data)%nat then find_support_levels data 20 else []
    | None => []
    end in
  let support15 :=
    match minute15_data with
    | Some data =>
        if (20 <? List.length data)%nat then find_support_levels data 20 else []
    | None => []
    end in
  let support_levels := sorted_levels (support5 ++ support15) in
  (is_near_support_level self current_price support_levels, support_levels).

(** [check_volume_dried(stock_code, tracking_info)['is_dried']] *)
Definition check_volume_dried (market : Market) (self : t) (stock_code : string) : bool :=
  match get_current_volume market stock_code with
  | None => false
  | Some current_volume =>
      let max_volume := get_max_volume_during_rise market stock_code in
      let volume_ratio :=
        match max_volume with
        | None => 0
        | Some max_volume =>
            if (max_volume =? 0)%Z then 0
            else inject_Z current_volume / inject_Z max_volume
        end in
      Py.leb volume_ratio (volume_ratio_threshold self)
  end.

(** The keys of the result of [check_all_conditions] that the engine
    reads. *)
Record Conditions : Type := {
  rsi_oversold : bool;
  support_level : bool;
  volume_dried : bool;
  satisfied_count : Q
}.

(** [sum([a, b, c])] on booleans. *)
Definition count_true (flags : list bool) : Z :=
  Z.of_nat (List.length (List.filter id flags)).

(** [SupportAnalyzer.check_all_conditions(stock_code, tracking_info,
    condition_confirmed)]; [current_price] is
    [tracking_info.get('current_price', 0)]. *)
Definition check_all_conditions (market : Market) (self : t) (stock_code : string)
    (current_price : Q) (condition_confirmed : bool) : Conditions :=
  let rsi_oversold := check_rsi_oversold market self stock_code in
  let support_level := fst (check_support_level market self stock_code current_price) in
  let volume_dried := check_volume_dried market self stock_code in
  let satisfied_count :=
    inject_Z (count_true [rsi_oversold; support_level; volume_dried]) in
  {| rsi_oversold := rsi_oversold; support_level := support_level;
     volume_dried := volume_dried;
     satisfied_count :=
       if condition_confirmed then Qmin 3 (satisfied_count + 0.5) else satisfied_count |}.

End SupportAnalyzer.


(** Three bars with a dip in the middle and a bounce after it. *)
Definition scenario_bars : list SupportAnalyzer.Bar :=
  [ {| SupportAnalyzer.open := 10000; SupportAnalyzer.high := 10100;
       SupportAnalyzer.low := 9900; SupportAnalyzer.close := 9950;
       SupportAnalyzer.volume := 5000 |};
    {| SupportAnalyzer.open := 9950; SupportAnalyzer.high := 9960;
       SupportAnalyzer.low := 9700; SupportAnalyzer.close := 9800;
       SupportAnalyzer.volume := 7000 |};
    {| SupportAnalyzer.open := 9800; SupportAnalyzer.high := 10000;
       SupportAnalyzer.low := 9790; SupportAnalyzer.close := 9990;
       SupportAnalyzer.volume := 3000 |} ].


(** ** tumepok_engine.py: the sell orders of the engine *)

Module EngineSell.

(** The keys [sell_order_sent], [sell_order_time] and [sell_reason] of a
    position dict, which [Engine.PositionDict.t] leaves out; times are in
    seconds.  A position without the keys reads as [no_flags]. *)
Record SellFlags : Type := {
  sell_order_sent : bool;
  sell_order_time : option Q;
  sell_reason : option Engine.SellReason
}.

Definition no_flags : SellFlags :=
  {| sell_order_sent := false; sell_order_time := None; sell_reason := None |}.

(** What happens to a sell request handed to
    [main_window.queue_manager.send_order_request]: it is accepted,
    refused (a false answer), or an exception is raised before the request
    is out or, by the bookkeeping that follows, after it. *)
Inductive Transport : Type :=
| Delivered
| Refused
| Raised
| DeliveredThenRaised.

(** The engine with the sell flags of its positions, by symbol, and the
    sell requests that went out, oldest first. *)
Record t : Type := {
  engine : Engine.TumepokEngine;
  flags : gmap string SellFlags;
  sell_orders : list (string * Z * Engine.SellReason)
}.

Definition flags_of (stock_code : string) (self : t) : SellFlags :=
  default no_flags (flags self !! stock_code).

Definition set_flags (stock_code : string) (v : SellFlags) (self : t) : t :=
  {| engine := engine self; flags := <[stock_code := v]> (flags self);
     sell_orders := sell_orders self |}.

Definition set_engine (v : Engine.TumepokEngine) (self : t) : t :=
  {| engine := v; flags := flags self; sell_orders := sell_orders self |}.

Definition send_sell (stock_code : string) (quantity : Z) (reason : Engine.SellReason)
    (self : t) : t :=
  {| engine := engine self; flags := flags self;
     sell_orders := sell_orders self ++ [(stock_code, quantity, reason)] |}.

(** [TumepokEngine.execute_sell_order(stock_code, sell_reason)] at the
    time [now]. *)
Definition execute_sell_order (transport : Transport) (now : Q) (stock_code : string)
    (reason : Engine.SellReason) (self : t) : t :=
  match Engine.positions (engine self) !! stock_code with
  | None => self
  | Some position =>
      let quantity := Engine.PositionDict.total_quantity position in
      if (quantity <=? 0)%Z then self
      else if sell_order_sent (flags_of stock_code self) then self
      else
        let self :=
          set_flags stock_code
            {| sell_order_sent := true; sell_order_time := Some now;
               sell_reason := Some reason |} self in
        match transport with
        | Delivered => send_sell stock_code quantity reason self
        | Refused => set_flags stock_code no_flags self
        | Raised => set_flags stock_code no_flags self
        | DeliveredThenRaised =>
            set_flags stock_code no_flags (send_sell stock_code quantity reason self)
        end
  end.

(** [TumepokEngine.update_position(stock_code, current_price)] at the
    time [now].  The profit rate comes from the calculator, the argument
    [calculate_profit_rate]. *)
Definition update_position (env : Engine.Env) (calculate_profit_rate : Q -> Q -> Q)
    (transport : Transport) (now : Q) (stock_code : string) (current_price : Q)
    (self : t) : t :=
  match Engine.positions (engine self) !! stock_code with
  | None => self
  | Some position =>
      let self :=
        if sell_order_sent (flags_of stock_code self) then
          match sell_order_time (flags_of stock_code self) with
          | Some sent_time =>
              if Py.gtb (now - sent_time) 30 then set_flags stock_code no_flags self
              else self
          | None => self
          end
        else self in
      let position := Engine.PositionDict.set_current_price current_price position in
      let buy_price := Engine.PositionDict.weighted_avg_price position in
      let profit_rate := calculate_profit_rate buy_price current_price in
      let position := Engine.PositionDict.set_profit_rate profit_rate position in
      let '(position, sell_signal) :=
        Engine.check_sell_conditions env stock_code position (engine self) in
      let self :=
        set_engine
          (Engine.set_positions (<[stock_code := position]> (Engine.positions (engine self)))
                                (engine self))
          self in
      match sell_signal with
      | Some reason =>
          if negb (sell_order_sent (flags_of stock_code self)) then
            execute_sell_order transport now stock_code reason self
          else self
      | None => self
      end
  end.

(** [TumepokEngine.add_to_tracking(stock_code, current_price, change_rate)]:
    the engine after the call and the flag returned.  The tests on the
    price range, the re-buy restriction and the number of tracked symbols
    read the configuration and the sold-stocks manager, which are not at
    hand: [admitted] is their outcome.  Without a configuration the call
    raises at [self.config.get_max_tracking_stocks()] and answers
    [False]. *)
Definition add_to_tracking (env : Engine.Env) (admitted : bool) (stock_code : string)
    (current_price : Q) (change_rate : Q) (self : Engine.TumepokEngine)
  : Engine.TumepokEngine * bool :=
  if bool_decide (is_Some (Engine.tracking_stocks self !! stock_code)) then (self, false)
  else
    match Engine.config env with
    | None => (self, false)
    | Some _ =>
        if admitted then
          (Engine.set_tracking_stocks
             (<[stock_code :=
                  {| Engine.TrackingDict.current_price := current_price;
                     Engine.TrackingDict.daily_change_rate := Some change_rate;
                     Engine.TrackingDict.base_price := None;
                     Engine.TrackingDict.start_price := Some current_price;
                     Engine.TrackingDict.high_price := current_price;
                     Engine.TrackingDict.rise_days := 1;
                     Engine.TrackingDict.waiting_days := None;
                     Engine.TrackingDict.status := Engine.TRACKING;
                     Engine.TrackingDict.drop_rate := Some 0.0;
                     Engine.TrackingDict.cumulative_rise_rate := None;
                     Engine.TrackingDict.rise_rate := Some 0.0;
                     Engine.TrackingDict.bought_stages := Some ∅;
                     Engine.TrackingDict.rise_start_price := None |}]>
                (Engine.tracking_stocks self))
             self,
           true)
        else (self, false)
    end.

(** The tracking half of [TumepokEngine.on_realtime_price_update], on an
    active engine: a symbol that is not tracked and is up by 15% or more is
    handed to [add_to_tracking]; a tracked symbol is then updated by
    [update_tracking_stock], which is where a stop-loss sale can start. *)
Definition track_price_update (env : Engine.Env) (admitted : bool) (stock_code : string)
    (current_price change_rate high_price : Q) (self : Engine.TumepokEngine)
  : Engine.TumepokEngine :=
  let self :=
    if negb (bool_decide (is_Some (Engine.tracking_stocks self !! stock_code)))
       && Py.geb change_rate 15.0
    then fst (add_to_tracking env admitted stock_code current_price change_rate self)
    else self in
  if bool_decide (is_Some (Engine.tracking_stocks self !! stock_code)) then
    Engine.update_tracking_stock env stock_code current_price (Some change_rate)
                                 (Some high_price) self
  else self.

(** [TumepokEngine.on_realtime_price_update(stock_code, price_data)] at the
    time [now], on an active engine, with the price, the change rate and the
    high of [price_data]: the tracking half, then [update_position] when the
    symbol is held. *)
Definition on_realtime_price_update (env : Engine.Env)
    (calculate_profit_rate : Q -> Q -> Q) (transport : Transport) (admitted : bool)
    (now : Q) (stock_code : string) (current_price change_rate high_price : Q)
    (self : t) : t :=
  let self :=
    set_engine
      (track_price_update env admitted stock_code current_price change_rate high_price
                          (engine self))
      self in
  if bool_decide (is_Some (Engine.positions (engine self) !! stock_code)) then
    update_position env calculate_profit_rate transport now stock_code current_price self
  else self.

End EngineSell.

(** A call of [on_realtime_price_update]: its time, its symbol, the
    price, the change rate and the high of its data, what the transport does
    with a sell request of [execute_sell_order], and the outcome of the
    tests of [add_to_tracking]. *)
Record SellTick : Type := {
  tick_time : Q;
  tick_stock_code : string;
  tick_price : Q;
  tick_change_rate : Q;
  tick_high_price : Q;
  tick_transport : EngineSell.Transport;
  tick_admitted : bool
}.

Definition sell_step (env : Engine.Env) (calculate_profit_rate : Q -> Q -> Q)
    (self : EngineSell.t) (tick : SellTick) : EngineSell.t :=
  EngineSell.on_realtime_price_update env calculate_profit_rate (tick_transport tick)
    (tick_admitted tick) (tick_time tick) (tick_stock_code tick) (tick_price tick)
    (tick_change_rate tick) (tick_high_price tick) self.

Definition sell_run (env : Engine.Env) (calculate_profit_rate : Q -> Q -> Q)
    (ticks : list SellTick) (self : EngineSell.t) : EngineSell.t :=
  List.fold_left (sell_step env calculate_profit_rate) ticks self.




(** The engine of the held scenario with its trailing stop active at a
    high of 13,500, no sell order out. *)
Definition scenario_selling : EngineSell.t :=
  {| EngineSell.engine :=
       Engine.set_positions
         {[ "005930" :=
              Engine.PositionDict.set_trailing_high 13500
                (Engine.PositionDict.set_trailing_activated true scenario_held_position) ]}
         scenario_held_engine;
     EngineSell.flags := ∅;
     EngineSell.sell_orders := [] |}.

(** A run of the tracker that ends with a record the engine has marked
    STOPPED: tracked from 10,000, a high of 14,500, READY at 13,500, then a
    pullback of 16% at 12,900, past the 15% of the row, with nothing
    bought. *)
Definition scenario_stopped_calls : list TrackerCall :=
  [ AddStock 1 "005930" 10000 None 0;
    UpdatePrice 2 "005930" 14500 None None;
    UpdatePrice 2 "005930" 13500 None None;
    UpdatePrice 2 "005930" 12900 None None;
    ProcessTumepokSignal scenario_env (fun _ _ _ engine => (engine, false))
                         scenario_engine "005930" ].

(** Two symbols tracked under a limit of two, then the limit lowered to
    one. *)
Definition scenario_lowered_limit_calls : list TrackerCall :=
  [ AddStock 1 "005930" 10000 None 0;
    AddStock 1 "000660" 20000 None 0;
    UpdateConfig (Some 1%Z) ].

(** The calls of the 25 seconds after a sell order sent at time 100: the
    price falls to 12,300, then to 12,000. *)
Definition scenario_later_ticks : list SellTick :=
  [ {| tick_time := 110; tick_stock_code := "005930"; tick_price := 12300;
       tick_change_rate := 0; tick_high_price := 0;
       tick_transport := EngineSell.Delivered; tick_admitted := false |};
    {| tick_time := 125; tick_stock_code := "005930"; tick_price := 12000;
       tick_change_rate := 0; tick_high_price := 0;
       tick_transport := EngineSell.Delivered; tick_admitted := false |} ].

(** * Properties *)

(** ** Comparisons *)

Lemma leb_iff (a b : Q) : Py.leb a b = true <-> a <= b.
Proof. apply Qle_bool_iff. Qed.

Lemma geb_iff (a b : Q) : Py.geb a b = true <-> b <= a.
Proof. apply Qle_bool_iff. Qed.

Lemma gtb_iff (a b : Q) : Py.gtb a b = true <-> b < a.
Proof.
  unfold Py.gtb. rewrite negb_true_iff, <- not_true_iff_false, Qle_bool_iff.
  split; [apply Qnot_le_lt | apply Qlt_not_le].
Qed.

Lemma ltb_iff (a b : Q) : Py.ltb a b = true <-> a < b.
Proof. apply (gtb_iff b a). Qed.

Lemma leb_false_iff (a b : Q) : Py.leb a b = false <-> b < a.
Proof.
  unfold Py.leb. rewrite <- not_true_iff_false, Qle_bool_iff.
  split; [apply Qnot_le_lt | apply Qlt_not_le].
Qed.


Lemma gtb_false_iff (a b : Q) : Py.gtb a b = false <-> a <= b.
Proof.
  unfold Py.gtb. rewrite negb_false_iff. apply Qle_bool_iff.
Qed.

Lemma ltb_false_iff (a b : Q) : Py.ltb a b = false <-> b <= a.
Proof. apply (gtb_false_iff b a). Qed.

Lemma div_ok (a b : Q) : ~ b == 0 -> Py.div a b = Py.Ok (a / b).
Proof.
  intros Hb. unfold Py.div.
  destruct (Qeq_bool b 0) eqn:E; [|reflexivity].
  apply Qeq_bool_iff in E. contradiction.
Qed.

(** ** The matrix scan *)

Lemma row_contains_iff (row : MatrixRow) (rate : Q) :
  row_contains row rate = true <-> Spec.in_range rate row.
Proof.
  unfold row_contains, Spec.in_range.
  rewrite andb_true_iff, !leb_iff. reflexivity.
Qed.

Lemma row_contains_false_iff (row : MatrixRow) (rate : Q) :
  row_contains row rate = false <-> ~ Spec.in_range rate row.
Proof.
  rewrite <- row_contains_iff. symmetry. apply not_true_iff_false.
Qed.

Lemma matrix_scan_Some (matrix : list MatrixRow) (rate : Q) (row : MatrixRow) :
  matrix_scan matrix rate = Some row ->
  exists before after,
    matrix = before ++ row :: after
    /\ Spec.in_range rate row
    /\ Forall (fun r => ~ Spec.in_range rate r) before.
Proof.
  induction matrix as [|r rest IH]; simpl; [discriminate|].
  destruct (row_contains r rate) eqn:E.
  - intros [= ->]. exists [], rest. repeat split.
    + now apply row_contains_iff.
    + now apply row_contains_iff.
    + constructor.
  - intros H. destruct (IH H) as (before & after & -> & Hin & Hbefore).
    exists (r :: before), after. repeat split; try apply Hin.
    constructor; [now apply row_contains_false_iff | exact Hbefore].
Qed.

Lemma matrix_scan_None (matrix : list MatrixRow) (rate : Q) :
  matrix_scan matrix rate = None ->
  Forall (fun r => ~ Spec.in_range rate r) matrix.
Proof.
  induction matrix as [|r rest IH]; simpl; [constructor|].
  destruct (row_contains r rate) eqn:E; [discriminate|].
  intros H. constructor; [now apply row_contains_false_iff | auto].
Qed.

Lemma last_item_nonempty {A : Type} (xs : list A) :
  xs <> [] -> exists before x, xs = before ++ [x] /\ Py.last_item xs = Py.Ok x.
Proof.
  intros Hne. destruct (exists_last Hne) as (before & x & ->).
  exists before, x. split; [reflexivity|].
  unfold Py.last_item. now rewrite rev_unit.
Qed.

(** The row picked by the scan-then-fallback of the source is the row of the
    specification's lookup. *)
Lemma scan_or_last_lookup (matrix : list MatrixRow) (rate : Q) :
  matrix <> [] ->
  exists row,
    Spec.lookup matrix rate row
    /\ match matrix_scan matrix rate with
       | Some matrix_row => matrix_row = row
       | None => Py.last_item matrix = Py.Ok row
       end.
Proof.
  intros Hne. destruct (matrix_scan matrix rate) as [row|] eqn:E.
  - exists row. split; [|reflexivity]. left. now apply matrix_scan_Some.
  - destruct (last_item_nonempty matrix Hne) as (before & x & Hx & Hlast).
    exists x. split; [|exact Hlast]. right. split.
    + now apply matrix_scan_None.
    + now exists before.
Qed.

(** The lookup of the specification picks one row only. *)
Lemma lookup_functional (matrix : list MatrixRow) (rate : Q) (row1 row2 : MatrixRow) :
  Spec.lookup matrix rate row1 -> Spec.lookup matrix rate row2 -> row1 = row2.
Proof.
  assert (Hfirst : forall b1 a1 b2 a2 (x y : MatrixRow) (P : MatrixRow -> Prop),
             b1 ++ x :: a1 = b2 ++ y :: a2 ->
             P x -> P y -> Forall (fun r => ~ P r) b1 -> Forall (fun r => ~ P r) b2 ->
             x = y).
  { induction b1 as [|h b1 IH]; intros a1 b2 a2 x y P Heq Px Py H1 H2.
    - destruct b2 as [|h2 b2]; simpl in Heq.
      + now injection Heq.
      + injection Heq as -> _. inversion H2; subst. contradiction.
    - destruct b2 as [|h2 b2]; simpl in Heq.
      + injection Heq as -> _. inversion H1; subst. contradiction.
      + injection Heq as -> Heq. inversion H1; inversion H2; subst.
        eapply IH; eauto. }
  intros [(b1 & a1 & E1 & In1 & F1) | (N1 & b1 & E1)]
         [(b2 & a2 & E2 & In2 & F2) | (N2 & b2 & E2)].
  - rewrite E1 in E2. eapply (Hfirst _ _ _ _ _ _ (Spec.in_range rate)); eauto.
  - exfalso. rewrite E1 in N2. apply Forall_app in N2 as [_ N2].
    inversion N2; subst. contradiction.
  - exfalso. rewrite E2 in N1. apply Forall_app in N1 as [_ N1].
    inversion N1; subst. contradiction.
  - rewrite E1 in E2. apply app_inj_tail in E2. tauto.
Qed.

Lemma lookup_nonempty (matrix : list MatrixRow) (rate : Q) (row : MatrixRow) :
  Spec.lookup matrix rate row -> matrix <> [].
Proof.
  intros [(b & a & -> & _) | (_ & b & ->)]; intros H;
    apply app_eq_nil in H as [_ H]; discriminate.
Qed.

Lemma lookup_scan (matrix : list MatrixRow) (rate : Q) (row : MatrixRow) :
  Spec.lookup matrix rate row ->
  match matrix_scan matrix rate with
  | Some matrix_row => matrix_row = row
  | None => Py.last_item matrix = Py.Ok row
  end.
Proof.
  intros Hrow.
  destruct (scan_or_last_lookup matrix rate (lookup_nonempty _ _ _ Hrow))
    as (row0 & Hrow0 & Hscan).
  now rewrite <- (lookup_functional _ _ _ _ Hrow0 Hrow).
Qed.

(** What the engine returns once the row is known. *)
Lemma get_target_drop_rates_row (env : Engine.Env) (rate : Q) (row : MatrixRow) :
  Spec.lookup (Engine.TUMEPOK_MATRIX env) rate row ->
  Engine._get_target_drop_rates env rate =
  Py.Ok {| Engine.tier_1st := drop_min row;
           Engine.tier_2nd := drop_min row + (drop_max row - drop_min row) * 0.5;
           Engine.tier_3rd := drop_min row + (drop_max row - drop_min row) * 0.9;
           Engine.tier_stop_loss := drop_max row |}.
Proof.
  intros Hrow. apply lookup_scan in Hrow. unfold Engine._get_target_drop_rates.
  destruct (matrix_scan _ _) as [r|].
  - now subst.
  - now rewrite Hrow.
Qed.

Lemma get_min_drop_rate_row (env : Engine.Env) (rate : Q) (row : MatrixRow) :
  Spec.lookup (Engine.TUMEPOK_MATRIX env) rate row ->
  Engine._get_min_drop_rate env rate = Py.Ok (drop_min row).
Proof.
  intros Hrow. apply lookup_scan in Hrow. unfold Engine._get_min_drop_rate.
  destruct (matrix_scan _ _) as [r|].
  - now subst.
  - now rewrite Hrow.
Qed.

(** What the tracker assigns once the row is known. *)
Lemma update_tumepok_calculation_row (matrix : list MatrixRow)
    (self : RiseTracker.TrackingInfo) (row : MatrixRow) :
  ~ RiseTracker.start_price self == 0 ->
  Spec.lookup matrix
    ((RiseTracker.high_price self - RiseTracker.start_price self)
     / RiseTracker.start_price self * 100) row ->
  RiseTracker.update_tumepok_calculation matrix self =
  Py.Ok (RiseTracker.assign_target_drops row
           (RiseTracker.set_rise_rate
              ((RiseTracker.high_price self - RiseTracker.start_price self)
               / RiseTracker.start_price self * 100) self)).
Proof.
  intros Hstart Hrow. apply lookup_scan in Hrow.
  unfold RiseTracker.update_tumepok_calculation.
  rewrite (div_ok _ _ Hstart). cbn [mbind result_bind Py.bind].
  cbn [RiseTracker.rise_rate RiseTracker.set_rise_rate].
  destruct (matrix_scan _ _) as [r|].
  - now subst.
  - now rewrite Hrow.
Qed.

(** C9. The matrix lookup is total on a non-empty matrix, on both code
    paths: the engine's [_get_target_drop_rates] (and [_get_min_drop_rate])
    and the tracker's [update_tumepok_calculation] return normally, with the
    lines of the first row whose range contains the rise percentage, or of
    the last row of the matrix when no range contains it.  (The tracker
    computes the rise percentage itself and divides by the start price, which
    must not be zero.) *)
Theorem C9_matrix_lookup_total (env : Engine.Env) (rate : Q)
    (self : RiseTracker.TrackingInfo) :
  Engine.TUMEPOK_MATRIX env <> [] ->
  ~ RiseTracker.start_price self == 0 ->
  (exists row lines,
      Spec.lookup (Engine.TUMEPOK_MATRIX env) rate row
      /\ Engine._get_min_drop_rate env rate = Py.Ok (drop_min row)
      /\ Engine._get_target_drop_rates env rate = Py.Ok lines
      /\ Engine.tier_1st lines = drop_min row
      /\ Engine.tier_stop_loss lines = drop_max row)
  /\ (exists row self',
         RiseTracker.update_tumepok_calculation (Engine.TUMEPOK_MATRIX env) self
         = Py.Ok self'
         /\ RiseTracker.rise_rate self'
            = (RiseTracker.high_price self - RiseTracker.start_price self)
              / RiseTracker.start_price self * 100
         /\ Spec.lookup (Engine.TUMEPOK_MATRIX env) (RiseTracker.rise_rate self') row
         /\ RiseTracker.target_drop_min self' = drop_min row
         /\ RiseTracker.target_drop_max self' = drop_max row).
Proof.
  intros Hne Hstart. split.
  - destruct (scan_or_last_lookup _ rate Hne) as (row & Hrow & _).
    exists row. eexists. split; [exact Hrow|].
    split; [apply get_min_drop_rate_row, Hrow|].
    split; [apply get_target_drop_rates_row, Hrow|].
    split; reflexivity.
  - destruct (scan_or_last_lookup _
                ((RiseTracker.high_price self - RiseTracker.start_price self)
                 / RiseTracker.start_price self * 100) Hne) as (row & Hrow & _).
    exists row. eexists.
    split; [apply update_tumepok_calculation_row; [exact Hstart | exact Hrow]|].
    repeat split. exact Hrow.
Qed.

Lemma C9_matrix_lookup_total_witness :
  (exists row lines,
      Spec.lookup scenario_matrix 45 row
      /\ Engine._get_min_drop_rate scenario_env 45 = Py.Ok (drop_min row)
      /\ Engine._get_target_drop_rates scenario_env 45 = Py.Ok lines
      /\ Engine.tier_1st lines = drop_min row
      /\ Engine.tier_stop_loss lines = drop_max row)
  /\ (exists row self',
         RiseTracker.update_tumepok_calculation scenario_matrix scenario_tracking
         = Py.Ok self'
         /\ RiseTracker.rise_rate self' = (14500 - 10000) / 10000 * 100
         /\ Spec.lookup scenario_matrix (RiseTracker.rise_rate self') row
         /\ RiseTracker.target_drop_min self' = drop_min row
         /\ RiseTracker.target_drop_max self' = drop_max row).
Proof.
  apply (C9_matrix_lookup_total scenario_env 45 scenario_tracking).
  - discriminate.
  - intros H. vm_compute in H. discriminate.
Defined.

(** With an empty matrix the fallback [TUMEPOK_MATRIX[-1]] raises. *)
Example empty_matrix_raises (env : Engine.Env) (rate : Q) :
  Engine.TUMEPOK_MATRIX env = [] ->
  Engine._get_target_drop_rates env rate = Py.Raise Py.IndexError.
Proof.
  intros H. unfold Engine._get_target_drop_rates. now rewrite H.
Qed.

Lemma lookup_by_scan (matrix : list MatrixRow) (rate : Q) (row : MatrixRow) :
  matrix_scan matrix rate = Some row -> Spec.lookup matrix rate row.
Proof. intros H. left. now apply matrix_scan_Some. Qed.

(** C1, as stated, fails on the tracker: on the row (8, 15) of scenario A
    [update_tumepok_calculation] puts the third line on 15, the row's
    [drop_max], not on 8 + 0.9 * (15 - 8) = 14.3, and not strictly below
    [drop_max]. *)
Lemma C1_tracker_third_line_counterexample :
  exists self',
    RiseTracker.update_tumepok_calculation scenario_matrix scenario_tracking = Py.Ok self'
    /\ RiseTracker.target_drop_min self' == 8
    /\ RiseTracker.target_drop_max self' == 15
    /\ ~ RiseTracker.target_drop_3rd self' == 8 + 0.9 * (15 - 8)
    /\ ~ RiseTracker.target_drop_3rd self' < RiseTracker.target_drop_max self'.
Proof.
  eexists. split; [reflexivity|].
  repeat split; try reflexivity; intros H; vm_compute in H; discriminate.
Qed.

(** C1, amended. For the row selected by the lookup, the engine's
    [_get_target_drop_rates] returns tier1 = dropMin,
    tier2 = dropMin + 0.5 * (dropMax - dropMin),
    tier3 = dropMin + 0.9 * (dropMax - dropMin) and stopLoss = dropMax, in
    this order when dropMax >= dropMin, and with tier3 < stopLoss exactly
    when dropMax > dropMin.  The tracker's [update_tumepok_calculation]
    assigns the first line dropMin, the second line
    dropMin + 0.5 * (dropMax - dropMin) and the third line dropMax itself:
    it keeps no line at 90% of the range. *)
Theorem C1_tier_lines (env : Engine.Env) (rate : Q) (row : MatrixRow)
    (self : RiseTracker.TrackingInfo) (row' : MatrixRow) :
  Spec.lookup (Engine.TUMEPOK_MATRIX env) rate row ->
  drop_min row <= drop_max row ->
  ~ RiseTracker.start_price self == 0 ->
  Spec.lookup (Engine.TUMEPOK_MATRIX env)
    ((RiseTracker.high_price self - RiseTracker.start_price self)
     / RiseTracker.start_price self * 100) row' ->
  (exists lines,
      Engine._get_target_drop_rates env rate = Py.Ok lines
      /\ Engine.tier_1st lines == drop_min row
      /\ Engine.tier_2nd lines == drop_min row + 0.5 * (drop_max row - drop_min row)
      /\ Engine.tier_3rd lines == drop_min row + 0.9 * (drop_max row - drop_min row)
      /\ Engine.tier_stop_loss lines == drop_max row
      /\ Engine.tier_1st lines <= Engine.tier_2nd lines
      /\ Engine.tier_2nd lines <= Engine.tier_3rd lines
      /\ Engine.tier_3rd lines <= Engine.tier_stop_loss lines
      /\ (Engine.tier_3rd lines < Engine.tier_stop_loss lines
          <-> drop_min row < drop_max row))
  /\ (exists self',
         RiseTracker.update_tumepok_calculation (Engine.TUMEPOK_MATRIX env) self
         = Py.Ok self'
         /\ RiseTracker.target_drop_1st self' == drop_min row'
         /\ RiseTracker.target_drop_2nd self'
            == drop_min row' + 0.5 * (drop_max row' - drop_min row')
         /\ RiseTracker.target_drop_3rd self' == drop_max row').
Proof.
  intros Hrow Hle Hstart Hrow'. split.
  - eexists. split; [apply get_target_drop_rates_row, Hrow|].
    cbn [Engine.tier_1st Engine.tier_2nd Engine.tier_3rd Engine.tier_stop_loss].
    repeat split; try lra.
  - eexists. split; [apply update_tumepok_calculation_row; eassumption|].
    unfold RiseTracker.assign_target_drops. cbn.
    repeat split; try reflexivity. field.
Qed.

Lemma C1_tier_lines_witness :
  (exists lines,
      Engine._get_target_drop_rates scenario_env 45 = Py.Ok lines
      /\ Engine.tier_1st lines == 8
      /\ Engine.tier_2nd lines == 8 + 0.5 * (15 - 8)
      /\ Engine.tier_3rd lines == 8 + 0.9 * (15 - 8)
      /\ Engine.tier_stop_loss lines == 15
      /\ Engine.tier_1st lines <= Engine.tier_2nd lines
      /\ Engine.tier_2nd lines <= Engine.tier_3rd lines
      /\ Engine.tier_3rd lines <= Engine.tier_stop_loss lines
      /\ (Engine.tier_3rd lines < Engine.tier_stop_loss lines <-> 8 < 15))
  /\ (exists self',
         RiseTracker.update_tumepok_calculation scenario_matrix scenario_tracking
         = Py.Ok self'
         /\ RiseTracker.target_drop_1st self' == 8
         /\ RiseTracker.target_drop_2nd self' == 8 + 0.5 * (15 - 8)
         /\ RiseTracker.target_drop_3rd self' == 15).
Proof.
  apply (C1_tier_lines scenario_env 45
           {| rise_min := 40; rise_max := 60; drop_min := 8; drop_max := 15 |}
           scenario_tracking
           {| rise_min := 40; rise_max := 60; drop_min := 8; drop_max := 15 |}).
  - apply lookup_by_scan. reflexivity.
  - simpl. lra.
  - intros H. vm_compute in H. discriminate.
  - apply lookup_by_scan. reflexivity.
Defined.

(** ** The tracker's price update *)

Lemma update_high_false (current_price : Q) (high_price_arg : option Q)
    (self self' : RiseTracker.TrackingInfo) :
  RiseTracker.update_high current_price high_price_arg self = (self', false) ->
  self' = self.
Proof.
  unfold RiseTracker.update_high.
  repeat match goal with
         | |- context [match ?x with _ => _ end] => destruct x
         end; intros [=]; congruence.
Qed.

Lemma update_high_true (current_price : Q) (high_price_arg : option Q)
    (self self' : RiseTracker.TrackingInfo) :
  RiseTracker.update_high current_price high_price_arg self = (self', true) ->
  exists v, self' = RiseTracker.set_high_price v self /\ RiseTracker.high_price self < v.
Proof.
  unfold RiseTracker.update_high.
  repeat match goal with
         | |- context [if ?x then _ else _] => destruct x eqn:?
         | |- context [match ?x with _ => _ end] => destruct x eqn:?
         end; intros [=]; subst;
    repeat match goal with
           | H : (_ && _)%bool = true |- _ => apply andb_true_iff in H as [? ?]
           | H : Py.gtb _ _ = true |- _ => apply gtb_iff in H
           end;
    try discriminate;
    eexists; (split; [reflexivity | assumption]).
Qed.

(** The daily record touches [daily_prices] only. *)
Lemma record_daily_price_frame (today : Z) (current_price : Q) (high_updated : bool)
    (self : RiseTracker.TrackingInfo) :
  exists prices,
    RiseTracker.record_daily_price today current_price high_updated self
    = RiseTracker.set_daily_prices prices self.
Proof.
  assert (Hid : forall s, s = RiseTracker.set_daily_prices (RiseTracker.daily_prices s) s)
    by (now intros []).
  assert (Hlast : forall f s, exists prices,
               RiseTracker.update_last_daily_price f s = RiseTracker.set_daily_prices prices s).
  { intros f s. unfold RiseTracker.update_last_daily_price.
    destruct (rev _); eexists; [apply Hid | reflexivity]. }
  assert (Hset : forall p q s,
             RiseTracker.set_daily_prices p (RiseTracker.set_daily_prices q s)
             = RiseTracker.set_daily_prices p s) by reflexivity.
  unfold RiseTracker.record_daily_price.
  set (s1 := if _ : bool then RiseTracker.add_daily_price _ _ _ else _).
  assert (H1 : exists prices, s1 = RiseTracker.set_daily_prices prices self).
  { subst s1. destruct (match rev _ with [] => _ | _ => _ end).
    - eexists. reflexivity.
    - apply Hlast. }
  destruct H1 as (p1 & ->). destruct high_updated.
  - destruct (Hlast RiseTracker.mark_is_high (RiseTracker.set_daily_prices p1 self))
      as (p2 & ->). exists p2. apply Hset.
  - now exists p1.
Qed.

(** The state dispatch at the end of [update_price] touches [status] and
    [waiting_days] only. *)
Lemma check_tumepok_entry_frame (today : Z) (self : RiseTracker.TrackingInfo) :
  exists st wd,
    fst (RiseTracker.check_tumepok_entry today self)
    = RiseTracker.set_waiting_days wd (RiseTracker.set_status st self).
Proof.
  unfold RiseTracker.check_tumepok_entry.
  repeat match goal with
         | |- context [if ?x then _ else _] => destruct x
         end; cbn [fst].
  - exists "COMPLETED", (RiseTracker.waiting_days self). now destruct self.
  - exists "READY", (RiseTracker.waiting_days self). now destruct self.
  - now exists "WAITING", 1%Z.
  - exists (RiseTracker.status self), (RiseTracker.waiting_days self). now destruct self.
Qed.

Lemma check_waiting_period_frame (self : RiseTracker.TrackingInfo) :
  exists st wd,
    fst (RiseTracker.check_waiting_period self)
    = RiseTracker.set_waiting_days wd (RiseTracker.set_status st self).
Proof.
  unfold RiseTracker.check_waiting_period.
  repeat match goal with
         | |- context [if ?x then _ else _] => destruct x
         end; cbn [fst].
  - now exists "TRACKING", 0%Z.
  - exists "READY", (RiseTracker.waiting_days self). now destruct self.
  - exists "READY", (RiseTracker.waiting_days self). now destruct self.
  - exists (RiseTracker.status self), (RiseTracker.waiting_days self). now destruct self.
Qed.

(** The drop-rate block, against the formula of the specification. *)
Lemma update_drop_rate_pullback (current_price : Q) (self : RiseTracker.TrackingInfo) :
  0 < RiseTracker.start_price self ->
  RiseTracker.drop_rate (RiseTracker.update_drop_rate current_price self)
  == Spec.pullback (RiseTracker.rise_rate self) (RiseTracker.start_price self)
                   current_price.
Proof.
  intros Hstart. unfold RiseTracker.update_drop_rate, Spec.pullback,
                   Spec.current_rise_from_start.
  apply gtb_iff in Hstart. rewrite Hstart.
  cbn [RiseTracker.drop_rate RiseTracker.set_drop_rate].
  destruct (Py.ltb _ 0) eqn:E; cbn [RiseTracker.drop_rate RiseTracker.set_drop_rate].
  - apply ltb_iff in E. symmetry. apply Q.max_l. now apply Qlt_le_weak.
  - apply ltb_false_iff in E. symmetry. now apply Q.max_r.
Qed.

Lemma update_drop_rate_frame (current_price : Q) (self : RiseTracker.TrackingInfo) :
  exists d,
    RiseTracker.update_drop_rate current_price self = RiseTracker.set_drop_rate d self.
Proof.
  unfold RiseTracker.update_drop_rate.
  repeat match goal with
         | |- context [if ?x then _ else _] => destruct x
         end; eexists; reflexivity.
Qed.

(** A tick that raises the high answers HIGH_UPDATED right after the
    recalculation of the lines; any other tick runs the drop-rate block and
    the state dispatch. *)
Lemma update_price_cases (matrix : list MatrixRow) (today : Z) (current_price : Q)
    (daily_change_rate high_price_arg : option Q)
    (self self' : RiseTracker.TrackingInfo) (r : string) :
  RiseTracker.update_price matrix today current_price daily_change_rate high_price_arg self
  = Py.Ok (self', r) ->
  (r = "HIGH_UPDATED"
   /\ RiseTracker.high_price self < RiseTracker.high_price self'
   /\ RiseTracker.status self' = RiseTracker.status self
   /\ RiseTracker.waiting_days self' = RiseTracker.waiting_days self
   /\ RiseTracker.drop_rate self' = RiseTracker.drop_rate self)
  \/ (r <> "HIGH_UPDATED"
      /\ RiseTracker.high_price self' = RiseTracker.high_price self
      /\ RiseTracker.rise_rate self' = RiseTracker.rise_rate self
      /\ RiseTracker.start_price self' = RiseTracker.start_price self
      /\ exists s,
          RiseTracker.rise_rate s = RiseTracker.rise_rate self
          /\ RiseTracker.start_price s = RiseTracker.start_price self
          /\ RiseTracker.drop_rate self'
             = RiseTracker.drop_rate (RiseTracker.update_drop_rate current_price s)).
Proof.
  unfold RiseTracker.update_price.
  set (s0 := RiseTracker.set_rise_days _ _).
  assert (Hs0 : RiseTracker.high_price s0 = RiseTracker.high_price self
                /\ RiseTracker.status s0 = RiseTracker.status self
                /\ RiseTracker.waiting_days s0 = RiseTracker.waiting_days self
                /\ RiseTracker.drop_rate s0 = RiseTracker.drop_rate self
                /\ RiseTracker.rise_rate s0 = RiseTracker.rise_rate self
                /\ RiseTracker.start_price s0 = RiseTracker.start_price self).
  { subst s0. destruct daily_change_rate; repeat split. }
  destruct Hs0 as (Hh & Hst & Hwd & Hdr & Hrr & Hsp). clearbody s0.
  destruct (RiseTracker.update_high current_price high_price_arg s0) as [s1 hu] eqn:E.
  destruct (record_daily_price_frame today current_price hu s1) as (prices & ->).
  destruct hu.
  - apply update_high_true in E as (v & -> & Hv).
    unfold RiseTracker.update_tumepok_calculation.
    destruct (Py.div _ _); [|discriminate]. cbn [mbind result_bind Py.bind].
    destruct (matrix_scan _ _);
      [|destruct (Py.last_item matrix); [|discriminate]];
      cbn [mbind result_bind Py.bind]; intros [= <- <-]; left;
      (split; [reflexivity|]); cbn; rewrite <- ?Hh, <- ?Hst, <- ?Hwd, <- ?Hdr;
      repeat split; exact Hv.
  - apply update_high_false in E as ->. intros H. right.
    set (s2 := RiseTracker.set_daily_prices prices s0) in *.
    destruct (update_drop_rate_frame current_price s2) as (d & Hd).
    assert (Hs' : exists st wd,
               self' = RiseTracker.set_waiting_days wd
                         (RiseTracker.set_status st
                            (RiseTracker.update_drop_rate current_price s2))
               /\ r <> "HIGH_UPDATED").
    { destruct (String.eqb _ "TRACKING").
      - destruct (check_tumepok_entry_frame today
                    (RiseTracker.update_drop_rate current_price s2)) as (st & wd & Hf).
        injection H as H. exists st, wd. split.
        + rewrite <- Hf, H. destruct (RiseTracker.check_tumepok_entry _ _); now inversion H.
        + unfold RiseTracker.check_tumepok_entry in H.
          repeat match type of H with
                 | context [if ?x then _ else _] => destruct x
                 end; injection H as _ <-; discriminate.
      - destruct (String.eqb _ "WAITING").
        + destruct (check_waiting_period_frame
                      (RiseTracker.update_drop_rate current_price s2)) as (st & wd & Hf).
          injection H as H. exists st, wd. split.
          * rewrite <- Hf, H. reflexivity.
          * unfold RiseTracker.check_waiting_period in H.
            repeat match type of H with
                   | context [if ?x then _ else _] => destruct x
                   end; injection H as _ <-; discriminate.
        + set (s3 := RiseTracker.update_drop_rate current_price s2) in *.
          exists (RiseTracker.status s3), (RiseTracker.waiting_days s3).
          destruct (String.eqb _ "READY"); injection H as <- <-;
            (split; [now destruct s3 | discriminate]). }
    destruct Hs' as (st & wd & -> & Hr).
    split; [exact Hr|]. rewrite Hd. cbn. rewrite Hh, Hrr, Hsp.
    repeat split. exists s2. subst s2. cbn. rewrite Hrr, Hsp, Hd. repeat split.
Qed.

(** ** The engine's tracking update *)

Lemma store_lookup (stock_code : string) (tracking_info : Engine.TrackingDict.t)
    (self : Engine.TumepokEngine) :
  Engine.tracking_stocks (Engine.store stock_code tracking_info self) !! stock_code
  = Some tracking_info.
Proof. unfold Engine.store. cbn. apply lookup_insert_eq. Qed.

(** On the record of its own symbol [execute_stop_loss] writes the status
    only (or removes the record). *)
Lemma execute_stop_loss_same (env : Engine.Env) (stock_code : string)
    (self : Engine.TumepokEngine) (tracking_info' : Engine.TrackingDict.t) :
  Engine.tracking_stocks (Engine.execute_stop_loss env stock_code self) !! stock_code
  = Some tracking_info' ->
  exists tracking_info,
    Engine.tracking_stocks self !! stock_code = Some tracking_info
    /\ (tracking_info' = tracking_info
        \/ tracking_info' = Engine.TrackingDict.set_status Engine.STOPPED tracking_info).
Proof.
  unfold Engine.execute_stop_loss.
  destruct (Engine.positions self !! stock_code) as [position|].
  - destruct (_ <=? _)%Z; [eauto|].
    destruct (Engine.PositionDict.stop_loss_executed position); [eauto|].
    cbn [Engine.tracking_stocks Engine.set_positions Engine.set_tracking_stocks].
    rewrite lookup_alter_eq.
    assert (Hsent : forall b o, Engine.tracking_stocks
                             (if b : bool then Engine.send o self else self)
                           = Engine.tracking_stocks self) by (now intros []).
    destruct (Engine.has_order_queue env);
      [|destruct (Engine.has_queue_manager env)];
      rewrite ?Hsent; cbn [Engine.tracking_stocks Engine.send];
      destruct (Engine.tracking_stocks self !! stock_code) as [ti|];
      cbn; intros [= <-]; eauto.
  - cbn. rewrite lookup_delete_eq. discriminate.
Qed.

(** On the record of its symbol [check_buy_conditions] writes
    [bought_stages] only. *)
Lemma check_buy_conditions_same (env : Engine.Env) (stock_code : string)
    (self : Engine.TumepokEngine) (tracking_info' : Engine.TrackingDict.t) :
  Engine.tracking_stocks (Engine.check_buy_conditions env stock_code self) !! stock_code
  = Some tracking_info' ->
  exists tracking_info,
    Engine.tracking_stocks self !! stock_code = Some tracking_info
    /\ (tracking_info' = tracking_info
        \/ exists stages,
            tracking_info' = Engine.TrackingDict.set_bought_stages stages tracking_info).
Proof.
  unfold Engine.check_buy_conditions.
  destruct (Engine.buy_decision env stock_code self) as [|buy_stage recorded]; [eauto|].
  destruct recorded; cbn; [|eauto].
  rewrite lookup_alter_eq.
  destruct (Engine.tracking_stocks self !! stock_code) as [ti|]; cbn; [|discriminate].
  intros [= <-]. exists ti. split; [reflexivity|].
  destruct (Engine.TrackingDict.bought_stages ti); eauto.
Qed.

Lemma review_buy_same (env : Engine.Env) (stock_code : string) (current_price : Q)
    (self : Engine.TumepokEngine) (tracking_info' : Engine.TrackingDict.t) :
  Engine.tracking_stocks (Engine.review_buy env stock_code current_price self) !! stock_code
  = Some tracking_info' ->
  exists tracking_info,
    Engine.tracking_stocks self !! stock_code = Some tracking_info
    /\ (tracking_info' = tracking_info
        \/ exists stages,
            tracking_info' = Engine.TrackingDict.set_bought_stages stages tracking_info).
Proof.
  unfold Engine.review_buy. destruct (negb _); [apply check_buy_conditions_same | eauto].
Qed.

(** The drop rate that [update_tracking_stock] leaves in the record is the
    pullback relative to the high. *)
Lemma update_tracking_stock_drop_rate (env : Engine.Env) (stock_code : string)
    (current_price : Q) (change_rate high_price : option Q)
    (self : Engine.TumepokEngine) (tracking_info' : Engine.TrackingDict.t) :
  Engine.tracking_stocks
    (Engine.update_tracking_stock env stock_code current_price change_rate high_price self)
  !! stock_code = Some tracking_info' ->
  Engine.TrackingDict.drop_rate tracking_info'
  = Some (if Py.gtb (Engine.TrackingDict.high_price tracking_info') 0
          then Spec.naive_pullback (Engine.TrackingDict.high_price tracking_info')
                                   current_price
          else 0).
Proof.
  unfold Engine.update_tracking_stock, Spec.naive_pullback.
  destruct (Engine.tracking_stocks self !! stock_code) as [ti|] eqn:Hti;
    [|now rewrite Hti].
  set (ti1 := match change_rate with Some _ => _ | None => _ end).
  destruct (Engine.update_high current_price high_price ti1) as [ti2 high_updated].
  set (ti3 := if high_updated then _ else ti2).
  set (drop_rate := if Py.gtb (Engine.TrackingDict.high_price ti3) 0 then _ else 0).
  set (ti4 := Engine.TrackingDict.set_cumulative_rise_rate _ _).
  set (P := fun t =>
              Engine.TrackingDict.drop_rate t
              = Some (if Py.gtb (Engine.TrackingDict.high_price t) 0
                      then (Engine.TrackingDict.high_price t - current_price)
                           / Engine.TrackingDict.high_price t * 100
                      else 0)).
  intros H; change (P tracking_info'); revert H.
  assert (H4 : P ti4) by reflexivity.
  assert (Hkeep : forall t st, P t -> P (Engine.TrackingDict.set_status st t))
    by (intros [] ?; auto).
  assert (Hkeep' : forall t st, P t -> P (Engine.TrackingDict.set_bought_stages st t))
    by (intros [] ?; auto).
  assert (Hkeep'' : forall t wd, P t -> P (Engine.TrackingDict.set_waiting_days wd t))
    by (intros [] ?; auto).
  clearbody ti4 drop_rate P. clearbody ti3 ti1.
  destruct (Engine._get_target_drop_rates env _) as [target_drops|].
  2:{ rewrite store_lookup. intros [= <-]; auto. }
  destruct (Py.gtb drop_rate _).
  { destruct (bool_decide _).
    - destruct (negb _).
      + intros H. apply execute_stop_loss_same in H as (t & Ht & [-> | ->]);
          rewrite store_lookup in Ht; injection Ht as <-; auto.
      + rewrite store_lookup. intros [= <-]; auto.
    - rewrite store_lookup. intros [= <-]; auto. }
  destruct (_ && _).
  { intros H. apply review_buy_same in H as (t & Ht & [-> | (stages & ->)]);
      rewrite store_lookup in Ht; injection Ht as <-; auto. }
  destruct (Engine.Status_eqb _ _).
  - destruct (_ >=? 3)%Z.
    + intros H. apply review_buy_same in H as (t & Ht & [-> | (stages & ->)]);
        rewrite store_lookup in Ht; injection Ht as <-; auto.
    + rewrite store_lookup. intros [= <-]; auto.
  - rewrite store_lookup. intros [= <-]; auto.
Qed.

(** C2, as stated, fails on the engine: with start price 10,000 and high
    14,500 (a rise of 45%), a tick at 13,000 (a rise of 30% over the start)
    makes [update_tracking_stock] store (14,500 - 13,000)/14,500 * 100, the
    naive pullback from the high, and not max(0, 45 - 30) = 15. *)
Lemma C2_engine_naive_pullback_counterexample :
  exists tracking_info drop_rate cumulative,
    Engine.tracking_stocks
      (Engine.update_tracking_stock scenario_env "005930" 13000 None None scenario_engine)
    !! "005930" = Some tracking_info
    /\ Engine.TrackingDict.start_price tracking_info = Some 10000
    /\ Engine.TrackingDict.cumulative_rise_rate tracking_info = Some cumulative
    /\ cumulative == 45
    /\ Engine.TrackingDict.drop_rate tracking_info = Some drop_rate
    /\ drop_rate == Spec.naive_pullback 14500 13000
    /\ ~ drop_rate == Spec.pullback cumulative 10000 13000.
Proof.
  eexists _, _, _. split; [vm_compute; reflexivity|].
  repeat split; try reflexivity.
  intros H. vm_compute in H. discriminate.
Qed.

(** C2, amended. With startPrice > 0, every [TrackingInfo.update_price] that
    does not raise the high (it answers something else than HIGH_UPDATED)
    leaves dropRatePct = max(0, cumulativeRisePct - currentRiseFromStart),
    with currentRiseFromStart = (currentPrice - startPrice)/startPrice * 100.
    [TumepokEngine.update_tracking_stock] leaves in the record the pullback
    relative to the high, (highPrice - currentPrice)/highPrice * 100, and 0
    when highPrice is not positive. *)
Theorem C2_pullback_by_code_path (matrix : list MatrixRow) (today : Z)
    (current_price : Q) (daily_change_rate high_price_arg : option Q)
    (self self' : RiseTracker.TrackingInfo) (r : string)
    (env : Engine.Env) (stock_code : string) (change_rate high_price : option Q)
    (engine : Engine.TumepokEngine) (tracking_info' : Engine.TrackingDict.t) :
  0 < RiseTracker.start_price self ->
  RiseTracker.update_price matrix today current_price daily_change_rate high_price_arg self
  = Py.Ok (self', r) ->
  r <> "HIGH_UPDATED" ->
  Engine.tracking_stocks
    (Engine.update_tracking_stock env stock_code current_price change_rate high_price
                                  engine)
  !! stock_code = Some tracking_info' ->
  (RiseTracker.drop_rate self'
   == Spec.pullback (RiseTracker.rise_rate self') (RiseTracker.start_price self')
                    current_price
   /\ RiseTracker.high_price self' = RiseTracker.high_price self)
  /\ Engine.TrackingDict.drop_rate tracking_info'
     = Some (if Py.gtb (Engine.TrackingDict.high_price tracking_info') 0
             then Spec.naive_pullback (Engine.TrackingDict.high_price tracking_info')
                                      current_price
             else 0).
Proof.
  intros Hstart Hupd Hr Hengine. split.
  - apply update_price_cases in Hupd
      as [(-> & _) | (_ & Hh & Hrr & Hsp & s & Hsr & Hss & Hd)]; [contradiction|].
    split; [|exact Hh].
    rewrite Hd, Hrr, Hsp, <- Hsr, <- Hss.
    apply update_drop_rate_pullback. now rewrite Hss.
  - now apply update_tracking_stock_drop_rate in Hengine.
Qed.

Lemma C2_pullback_by_code_path_witness :
  exists self' r tracking_info',
    RiseTracker.update_price scenario_matrix 2 13000 None None scenario_tracking
    = Py.Ok (self', r)
    /\ r <> "HIGH_UPDATED"
    /\ Engine.tracking_stocks
         (Engine.update_tracking_stock scenario_env "005930" 13000 None None
                                       scenario_engine)
       !! "005930" = Some tracking_info'
    /\ (RiseTracker.drop_rate self'
        == Spec.pullback (RiseTracker.rise_rate self') (RiseTracker.start_price self')
                         13000
        /\ RiseTracker.high_price self' = RiseTracker.high_price scenario_tracking)
    /\ Engine.TrackingDict.drop_rate tracking_info'
       = Some (if Py.gtb (Engine.TrackingDict.high_price tracking_info') 0
               then Spec.naive_pullback (Engine.TrackingDict.high_price tracking_info')
                                        13000
               else 0).
Proof.
  eexists _, _, _.
  split; [vm_compute; reflexivity|].
  split; [discriminate|].
  split; [vm_compute; reflexivity|].
  eapply (C2_pullback_by_code_path scenario_matrix 2 13000 None None scenario_tracking
            _ _ scenario_env "005930" None None scenario_engine).
  - reflexivity.
  - vm_compute. reflexivity.
  - discriminate.
  - vm_compute. reflexivity.
Defined.

(** ** Tier determination *)

Lemma candidate_bool (drop_rate threshold : Q) (tier : string) (taken : gset string) :
  Py.geb drop_rate threshold && negb (bool_decide (tier ∈ taken)) = true
  <-> Spec.candidate drop_rate threshold tier taken.
Proof.
  unfold Spec.candidate.
  rewrite andb_true_iff, geb_iff, negb_true_iff, bool_decide_eq_false. reflexivity.
Qed.

Lemma candidate_bool_false (drop_rate threshold : Q) (tier : string) (taken : gset string) :
  Py.geb drop_rate threshold && negb (bool_decide (tier ∈ taken)) = false
  <-> ~ Spec.candidate drop_rate threshold tier taken.
Proof.
  rewrite <- candidate_bool. symmetry. apply not_true_iff_false.
Qed.

Ltac stage_cases :=
  repeat match goal with
         | H : _ && negb (bool_decide _) = true |- _ => apply candidate_bool in H
         | H : _ && negb (bool_decide _) = false |- _ => apply candidate_bool_false in H
         end;
  unfold STAGE_1, STAGE_2, STAGE_3, WAIT in *;
  repeat split; intros; try discriminate; try tauto;
  unfold Spec.candidate in *; tauto.

(** C3, as stated, fails on the engine: with the lines 8 / 11.5 / 14.3 of
    scenario A, a pullback of 14.5 that meets all three thresholds and no
    tier bought, [_get_buy_stage] answers the first tier, not the third. *)
Lemma C3_engine_lowest_tier_counterexample :
  exists tracking_info lines,
    Engine.tracking_stocks scenario_ready_engine !! "005930" = Some tracking_info
    /\ Engine.TrackingDict.status tracking_info = Engine.READY
    /\ Engine.TrackingDict.drop_rate tracking_info = Some 14.5
    /\ Engine.TrackingDict.bought_stages tracking_info = Some ∅
    /\ Engine._get_target_drop_rates scenario_env 45 = Py.Ok lines
    /\ Engine.tier_3rd lines <= 14.5
    /\ Engine._get_buy_stage scenario_env "005930" 12400 scenario_ready_engine = STAGE_1
    /\ STAGE_1 <> STAGE_3.
Proof.
  eexists _, _. split; [vm_compute; reflexivity|].
  repeat split; try reflexivity; discriminate.
Qed.

(** C3, amended. For a READY symbol, [TrackingInfo.get_buy_stage] checks the
    third, second and first line in this order and answers the highest tier
    that is met and not yet bought, WAIT when there is none.  Its pullback
    is the float value that the code computes for
    cumulativeRisePct - currentRiseFromStart, whatever the rounding of the
    four operations, and the exact difference when nothing is rounded; its
    third line is dropMax and its second line the float value of
    (dropMin + dropMax) / 2.  [TumepokEngine._get_buy_stage] checks the
    first, second and third tier in this order: it answers the lowest tier
    that is met and not yet bought, WAIT when there is none. *)
Theorem C3_buy_stage_order (rnd : Q -> Q) (self : RiseTracker.TrackingInfo)
    (current_price : Q) (env : Engine.Env) (stock_code : string) (price : Q)
    (engine : Engine.TumepokEngine) (tracking_info : Engine.TrackingDict.t)
    (lines : Engine.TargetDrops) :
  RiseTracker.status self = "READY" ->
  ~ RiseTracker.start_price self == 0 ->
  Engine.tracking_stocks engine !! stock_code = Some tracking_info ->
  Engine._get_target_drop_rates env
    (default (default 0 (Engine.TrackingDict.rise_rate tracking_info))
             (Engine.TrackingDict.cumulative_rise_rate tracking_info))
  = Py.Ok lines ->
  let drop :=
    rnd (RiseTracker.rise_rate self
         - rnd (rnd (rnd (current_price - RiseTracker.start_price self)
                     / RiseTracker.start_price self)
                * 100)) in
  let taken := RiseTracker.bought_stages self in
  let c3 := Spec.candidate drop (RiseTracker.target_drop_max self) STAGE_3 taken in
  let c2 := Spec.candidate drop
              (rnd (rnd (RiseTracker.target_drop_min self
                         + RiseTracker.target_drop_max self) / 2))
              STAGE_2 taken in
  let c1 := Spec.candidate drop (RiseTracker.target_drop_min self) STAGE_1 taken in
  let drop' := default 0 (Engine.TrackingDict.drop_rate tracking_info) in
  let taken' := default ∅ (Engine.TrackingDict.bought_stages tracking_info) in
  let e1 := Spec.candidate drop' (Engine.tier_1st lines) STAGE_1 taken' in
  let e2 := Spec.candidate drop' (Engine.tier_2nd lines) STAGE_2 taken' in
  let e3 := Spec.candidate drop' (Engine.tier_3rd lines) STAGE_3 taken' in
  let answer := Engine._get_buy_stage env stock_code price engine in
  RiseTracker.buy_stage_drop_rate rnd current_price self = Py.Ok drop
  /\ (exists exact_drop,
         RiseTracker.buy_stage_drop_rate Py.exact current_price self = Py.Ok exact_drop
         /\ exact_drop
            == RiseTracker.rise_rate self
               - Spec.current_rise_from_start (RiseTracker.start_price self)
                                              current_price)
  /\ (exists stage,
         RiseTracker.get_buy_stage rnd current_price self = Py.Ok stage
         /\ (stage = STAGE_3 <-> c3)
         /\ (stage = STAGE_2 <-> c2 /\ ~ c3)
         /\ (stage = STAGE_1 <-> c1 /\ ~ c2 /\ ~ c3)
         /\ (stage = WAIT <-> ~ c1 /\ ~ c2 /\ ~ c3))
  /\ (answer = STAGE_1 <-> e1)
  /\ (answer = STAGE_2 <-> e2 /\ ~ e1)
  /\ (answer = STAGE_3 <-> e3 /\ ~ e1 /\ ~ e2)
  /\ (answer = WAIT <-> ~ e1 /\ ~ e2 /\ ~ e3).
Proof.
  intros Hready Hstart Hti Hlines drop taken c3 c2 c1 drop' taken' e1 e2 e3 answer.
  assert (Hzero : Qeq_bool (RiseTracker.start_price self) 0 = false).
  { apply not_true_iff_false. intros H. apply Qeq_bool_iff in H. contradiction. }
  assert (Hdrop : RiseTracker.buy_stage_drop_rate rnd current_price self = Py.Ok drop).
  { unfold RiseTracker.buy_stage_drop_rate, Py.fdiv, Py.fsub, Py.fmul.
    rewrite Hzero. reflexivity. }
  split; [exact Hdrop|]. split; [|split].
  - eexists. split.
    + unfold RiseTracker.buy_stage_drop_rate, Py.fdiv, Py.fsub, Py.fmul.
      rewrite Hzero. reflexivity.
    + unfold Py.exact, Spec.current_rise_from_start. reflexivity.
  - unfold RiseTracker.get_buy_stage. rewrite Hready.
    replace ("READY" =? "READY")%string with true by reflexivity. cbn [negb].
    rewrite Hdrop. cbn [mbind result_bind Py.bind].
    unfold RiseTracker.mid_drop, Py.fadd. fold taken.
    destruct (Py.geb drop (RiseTracker.target_drop_max self) && _) eqn:E3;
      [|destruct (Py.geb drop (rnd (_ / 2)) && _) eqn:E2;
        [|destruct (Py.geb drop (RiseTracker.target_drop_min self) && _) eqn:E1]];
      eexists; (split; [reflexivity|]); subst c1 c2 c3; stage_cases.
  - subst answer. unfold Engine._get_buy_stage. rewrite Hti, Hlines.
    fold drop' taken'.
    destruct (Py.geb drop' (Engine.tier_1st lines) && _) eqn:E1;
      [|destruct (Py.geb drop' (Engine.tier_2nd lines) && _) eqn:E2;
        [|destruct (Py.geb drop' (Engine.tier_3rd lines) && _) eqn:E3]];
      subst e1 e2 e3; stage_cases.
Qed.

Lemma C3_buy_stage_order_witness :
  RiseTracker.get_buy_stage Py.binary64 13000 scenario_ready_tracking = Py.Ok STAGE_3
  /\ Engine._get_buy_stage scenario_env "005930" 13000 scenario_ready_engine = STAGE_1.
Proof.
  pose proof (C3_buy_stage_order Py.binary64 scenario_ready_tracking 13000 scenario_env
                "005930" 13000 scenario_ready_engine scenario_ready_dict
                {| Engine.tier_1st := 8; Engine.tier_2nd := 8 + (15 - 8) * 0.5;
                   Engine.tier_3rd := 8 + (15 - 8) * 0.9;
                   Engine.tier_stop_loss := 15 |}) as H.
  cbv zeta in H.
  destruct H as (_ & _ & (stage & Hstage & H3 & _) & H1 & _).
  - reflexivity.
  - intros H. vm_compute in H. discriminate.
  - reflexivity.
  - reflexivity.
  - split.
    + rewrite Hstage. f_equal. apply H3. split.
      * vm_compute. discriminate.
      * apply not_elem_of_empty.
    + apply H1. split.
      * vm_compute. discriminate.
      * apply not_elem_of_empty.
Defined.

(** The tier at a line depends on the last bit of the pullback.  Started
    at 10,000 with a rise of 24% and dropMax at 10, a price of 11,400 gives a
    pullback of exactly 10 in exact arithmetic and of 9.999999999999998 in
    doubles, where (11400 - 10000) / 10000 * 100 is 14.000000000000002: the
    code answers the second tier there, exact arithmetic the third. *)
Example get_buy_stage_at_the_line :
  let self := scenario_line_tracking in
  exists exact_drop float_drop,
    RiseTracker.target_drop_max self = 10
    /\ RiseTracker.buy_stage_drop_rate Py.exact 11400 self = Py.Ok exact_drop
    /\ exact_drop == 10
    /\ RiseTracker.get_buy_stage Py.exact 11400 self = Py.Ok STAGE_3
    /\ RiseTracker.buy_stage_drop_rate Py.binary64 11400 self = Py.Ok float_drop
    /\ float_drop == 5629499534213119 # 562949953421312
    /\ float_drop < 10
    /\ RiseTracker.get_buy_stage Py.binary64 11400 self = Py.Ok STAGE_2.
Proof.
  eexists _, _. split; [reflexivity|].
  split; [vm_compute; reflexivity|]. split; [reflexivity|].
  split; [vm_compute; reflexivity|]. split; [vm_compute; reflexivity|].
  repeat split; vm_compute; reflexivity.
Qed.

(** ** High-water-mark updates *)

(** In [TrackingInfo.update_price] a tick that raises the high leaves the
    status and the waiting days as they were. *)
Lemma update_price_high_keeps_waiting (matrix : list MatrixRow) (today : Z)
    (current_price : Q) (daily_change_rate high_price_arg : option Q)
    (self self' : RiseTracker.TrackingInfo) (r : string) :
  RiseTracker.update_price matrix today current_price daily_change_rate high_price_arg self
  = Py.Ok (self', r) ->
  RiseTracker.high_price self' <> RiseTracker.high_price self ->
  r = "HIGH_UPDATED"
  /\ RiseTracker.status self' = RiseTracker.status self
  /\ RiseTracker.waiting_days self' = RiseTracker.waiting_days self.
Proof.
  intros Hupd Hhigh.
  apply update_price_cases in Hupd as [(-> & _ & Hst & Hwd & _) | (_ & Hh & _)].
  - now repeat split.
  - contradiction.
Qed.

(** C4, evaluated where the code departs from it.  A symbol is WAITING with
    two waiting days and a high of 14,500; a tick at 15,000 raises the high.
    [TrackingInfo.update_price] answers HIGH_UPDATED and leaves the status
    WAITING and the waiting days at 2: the reset written in
    [check_waiting_period] is never reached on such a tick.
    [TumepokEngine.update_tracking_stock] does write the reset, and the
    branch for TRACKING symbols that follows in the same call puts the symbol
    back to WAITING with one waiting day. *)
Theorem C4_high_update_leaves_waiting :
  (exists self',
      RiseTracker.update_price scenario_matrix 4 15000 None None scenario_waiting_tracking
      = Py.Ok (self', "HIGH_UPDATED")
      /\ RiseTracker.high_price scenario_waiting_tracking == 14500
      /\ RiseTracker.high_price self' == 15000
      /\ RiseTracker.status self' = "WAITING"
      /\ RiseTracker.waiting_days self' = 2%Z)
  /\ (exists tracking_info',
         Engine.tracking_stocks
           (Engine.update_tracking_stock scenario_env "005930" 15000 None None
                                         scenario_waiting_engine)
         !! "005930" = Some tracking_info'
         /\ Engine.TrackingDict.high_price tracking_info' == 15000
         /\ Engine.TrackingDict.status tracking_info' = Engine.WAITING
         /\ Engine.TrackingDict.waiting_days tracking_info' = Some 1%Z).
Proof.
  split; eexists; (split; [vm_compute; reflexivity|]); repeat split.
Qed.

(** ** The stop-loss guard of the engine *)

Lemma stop_loss_requests_send (stock_code : string) (o : Engine.Order)
    (self : Engine.TumepokEngine) :
  stop_loss_requests stock_code (Engine.send o self)
  = (stop_loss_requests stock_code self
     + if is_stop_loss_for stock_code o then 1 else 0)%nat.
Proof.
  unfold stop_loss_requests, Engine.send. cbn [Engine.sent].
  rewrite List.filter_app, List.length_app. cbn [List.filter].
  now destruct (is_stop_loss_for stock_code o).
Qed.

Lemma stop_loss_unchanged_refl (k : string) (e : Engine.TumepokEngine) :
  stop_loss_unchanged k e e.
Proof. now split. Qed.

Lemma stop_loss_unchanged_trans (k : string) (e1 e2 e3 : Engine.TumepokEngine) :
  stop_loss_unchanged k e1 e2 -> stop_loss_unchanged k e2 e3 -> stop_loss_unchanged k e1 e3.
Proof. intros [? ?] [? ?]. split; congruence. Qed.

Lemma store_unchanged (k stock_code : string) (tracking_info : Engine.TrackingDict.t)
    (self : Engine.TumepokEngine) :
  stop_loss_unchanged k self (Engine.store stock_code tracking_info self).
Proof. now split. Qed.

Lemma check_buy_conditions_unchanged (env : Engine.Env) (k stock_code : string)
    (self : Engine.TumepokEngine) :
  stop_loss_unchanged k self (Engine.check_buy_conditions env stock_code self).
Proof.
  unfold Engine.check_buy_conditions.
  destruct (Engine.buy_decision env stock_code self) as [|buy_stage recorded];
    [apply stop_loss_unchanged_refl|].
  assert (H : stop_loss_unchanged k self
                (Engine.send (Engine.BuyRequested stock_code buy_stage) self)).
  { split; [reflexivity|]. rewrite stop_loss_requests_send. cbn. lia. }
  destruct recorded; [|exact H].
  eapply stop_loss_unchanged_trans; [exact H|]. now split.
Qed.

Lemma review_buy_unchanged (env : Engine.Env) (k stock_code : string) (current_price : Q)
    (self : Engine.TumepokEngine) :
  stop_loss_unchanged k self (Engine.review_buy env stock_code current_price self).
Proof.
  unfold Engine.review_buy.
  destruct (negb _);
    [apply check_buy_conditions_unchanged | apply stop_loss_unchanged_refl].
Qed.

(** What one call of [execute_stop_loss] does to the guard and the requests
    of a symbol. *)
Lemma execute_stop_loss_step (env : Engine.Env) (k stock_code : string)
    (self : Engine.TumepokEngine) :
  stop_loss_unchanged k self (Engine.execute_stop_loss env stock_code self)
  \/ stop_loss_fired k self (Engine.execute_stop_loss env stock_code self).
Proof.
  unfold Engine.execute_stop_loss.
  destruct (Engine.positions self !! stock_code) as [position|] eqn:Hpos;
    [|left; now split].
  destruct (_ <=? 0)%Z; [left; apply stop_loss_unchanged_refl|].
  destruct (Engine.PositionDict.stop_loss_executed position) eqn:Hguard;
    [left; apply stop_loss_unchanged_refl|].
  set (sent1 := if Engine.has_order_queue env then _ else _).
  assert (Hsent1 : Engine.positions sent1 = Engine.positions self
                   /\ (stop_loss_requests k sent1 = stop_loss_requests k self
                       \/ (stock_code = k
                           /\ stop_loss_requests k sent1 = S (stop_loss_requests k self)))).
  { subst sent1.
    assert (Hone : forall o, (o = Engine.StopLossQueued stock_code
                                     (Engine.PositionDict.total_quantity position)
                              \/ o = Engine.StopLossDirect stock_code
                                       (Engine.PositionDict.total_quantity position)) ->
               stop_loss_requests k (Engine.send o self) = stop_loss_requests k self
               \/ (stock_code = k
                   /\ stop_loss_requests k (Engine.send o self)
                      = S (stop_loss_requests k self))).
    { intros o Ho. rewrite stop_loss_requests_send.
      assert (E : is_stop_loss_for k o = String.eqb stock_code k)
        by (destruct Ho as [-> | ->]; reflexivity).
      rewrite E. destruct (String.eqb_spec stock_code k); [right; split; [assumption|] | left]; lia. }
    destruct (Engine.has_order_queue env); [split; [reflexivity | apply Hone; auto]|].
    destruct (Engine.has_queue_manager env); [|split; auto].
    destruct (Engine.manager_delivers env); [split; [reflexivity | apply Hone; auto]|].
    split; auto. }
  destruct Hsent1 as (Hp1 & Hn1). clearbody sent1.
  match goal with
  | |- context [Engine.set_positions ?m ?e] => set (e' := Engine.set_positions m e)
  end.
  assert (Hn : stop_loss_requests k e' = stop_loss_requests k sent1) by reflexivity.
  assert (Hp : Engine.positions e'
               = <[stock_code:=Engine.PositionDict.set_status (Some "SELLING")
                                 (Engine.PositionDict.set_stop_loss_executed true position)]>
                   (Engine.positions self))
    by (subst e'; cbn; now rewrite Hp1).
  clearbody e'.
  unfold stop_loss_unchanged, stop_loss_fired, stop_loss_guard.
  rewrite Hn, Hp.
  destruct (decide (stock_code = k)) as [-> | Hne].
  - right. rewrite Hpos, Hguard, lookup_insert_eq. cbn.
    repeat split. destruct Hn1 as [-> | (_ & ->)]; auto.
  - left. rewrite lookup_insert_ne by exact Hne.
    split; [reflexivity|]. destruct Hn1 as [-> | (? & _)]; [reflexivity | contradiction].
Qed.

Lemma stop_loss_unchanged_fired (k : string) (e1 e2 e3 : Engine.TumepokEngine) :
  stop_loss_unchanged k e1 e2 -> stop_loss_fired k e2 e3 -> stop_loss_fired k e1 e3.
Proof.
  intros (Hg & Hn) (Hg2 & Hg3 & Hn3). unfold stop_loss_fired.
  rewrite <- Hg, <- Hn. auto.
Qed.

Lemma stop_loss_fired_unchanged (k : string) (e1 e2 e3 : Engine.TumepokEngine) :
  stop_loss_fired k e1 e2 -> stop_loss_unchanged k e2 e3 -> stop_loss_fired k e1 e3.
Proof.
  intros (Hg1 & Hg2 & Hn2) (Hg & Hn). unfold stop_loss_fired.
  rewrite Hg, Hn. auto.
Qed.

(** What one tick does to the guard and the requests of a symbol. *)
Lemma update_tracking_stock_step (env : Engine.Env) (k stock_code : string)
    (current_price : Q) (change_rate high_price : option Q) (self : Engine.TumepokEngine) :
  let self' :=
    Engine.update_tracking_stock env stock_code current_price change_rate high_price self in
  stop_loss_unchanged k self self' \/ stop_loss_fired k self self'.
Proof.
  cbv zeta. unfold Engine.update_tracking_stock.
  destruct (Engine.tracking_stocks self !! stock_code) as [ti|];
    [|left; apply stop_loss_unchanged_refl].
  destruct (Engine.update_high _ _ _) as [ti2 high_updated].
  destruct (Engine._get_target_drop_rates env _) as [target_drops|];
    [|left; apply store_unchanged].
  destruct (Py.gtb _ _).
  { destruct (bool_decide _); [|left; apply store_unchanged].
    destruct (negb _); [|left; apply store_unchanged].
    match goal with
    | |- context [Engine.execute_stop_loss env stock_code (Engine.store ?c ?t self)] =>
        destruct (execute_stop_loss_step env k stock_code (Engine.store c t self))
          as [H | H];
        [left; eapply stop_loss_unchanged_trans; [apply store_unchanged | exact H]
        |right; eapply stop_loss_unchanged_fired; [apply store_unchanged | exact H]]
    end. }
  left.
  destruct (_ && _).
  { eapply stop_loss_unchanged_trans; [apply store_unchanged | apply review_buy_unchanged]. }
  destruct (Engine.Status_eqb _ _); [|apply store_unchanged].
  destruct (_ >=? 3)%Z; [|apply store_unchanged].
  eapply stop_loss_unchanged_trans; [apply store_unchanged | apply review_buy_unchanged].
Qed.

Lemma engine_step_stop_loss (env : Engine.Env) (k : string) (call : EngineCall)
    (self : Engine.TumepokEngine) :
  stop_loss_unchanged k self (engine_step env self call)
  \/ stop_loss_fired k self (engine_step env self call).
Proof.
  destruct call as [c p cr hp | c]; cbn [engine_step].
  - apply update_tracking_stock_step.
  - apply execute_stop_loss_step.
Qed.

(** Over a run: once the guard of a symbol is set nothing more happens to
    it, and from any state the guard is set at most once, with at most one
    request. *)
Lemma engine_run_stop_loss (env : Engine.Env) (k : string) (calls : list EngineCall) :
  forall self : Engine.TumepokEngine,
    (stop_loss_guard k self = true ->
     stop_loss_unchanged k self (engine_run env calls self))
    /\ (stop_loss_unchanged k self (engine_run env calls self)
        \/ stop_loss_fired k self (engine_run env calls self)).
Proof.
  induction calls as [|call rest IH]; intros self.
  - split; [intros _|left]; apply stop_loss_unchanged_refl.
  - change (engine_run env (call :: rest) self)
      with (engine_run env rest (engine_step env self call)).
    destruct (IH (engine_step env self call)) as (IHset & IHany).
    destruct (engine_step_stop_loss env k call self) as [Hstep | Hstep].
    + split.
      * intros Hg. eapply stop_loss_unchanged_trans; [exact Hstep|].
        apply IHset. destruct Hstep as (-> & _). exact Hg.
      * destruct IHany as [H | H].
        -- left. eapply stop_loss_unchanged_trans; eassumption.
        -- right. eapply stop_loss_unchanged_fired; eassumption.
    + split.
      * intros Hg. destruct Hstep as (Hg' & _). congruence.
      * right. eapply stop_loss_fired_unchanged; [exact Hstep|].
        apply IHset. now destruct Hstep as (_ & ? & _).
Qed.

Lemma engine_run_app (env : Engine.Env) (before after : list EngineCall)
    (self : Engine.TumepokEngine) :
  engine_run env (before ++ after) self
  = engine_run env after (engine_run env before self).
Proof. apply List.fold_left_app. Qed.

(** C5, as stated, fails on [PositionInfo.check_sell_conditions]: bought at
    10,000 with the stop-loss at -2%, the position signals STOP_LOSS on a
    tick at 9,700 and signals STOP_LOSS again on the next, deeper tick at
    9,600; nothing records that the stop-loss fired. *)
Lemma C5_position_repeats_stop_loss_counterexample :
  exists p1 p2,
    PositionManager.update_position Spec.calculate_profit_rate 9700 scenario_position
    = (p1, Some PositionManager.STOP_LOSS)
    /\ PositionManager.update_position Spec.calculate_profit_rate 9600 p1
       = (p2, Some PositionManager.STOP_LOSS).
Proof.
  eexists _, _. split; vm_compute; reflexivity.
Qed.

(** C5, amended. [TumepokEngine.execute_stop_loss], behind its
    [stop_loss_executed] guard, fires at most once for a position: over any
    sequence of ticks ([update_tracking_stock]) and calls of
    [execute_stop_loss], for any symbols and from any state of the engine, it
    sends at most one stop-loss request for a symbol; a request is only sent
    in a run that takes the guard of the position from unset to set; and once
    the guard is set it stays set and no further stop-loss request is sent
    for the symbol, whatever the later pullback.
    [PositionInfo.check_sell_conditions] keeps no such guard: it answers
    STOP_LOSS on every call in which profit_rate <= stop_loss_rate, and only
    then. *)
Theorem C5_stop_loss_at_most_once (env : Engine.Env) (stock_code : string)
    (calls : list EngineCall) (engine : Engine.TumepokEngine)
    (position : PositionManager.PositionInfo) :
  let engine' := engine_run env calls engine in
  (stop_loss_requests stock_code engine' <= S (stop_loss_requests stock_code engine))%nat
  /\ (stop_loss_requests stock_code engine <= stop_loss_requests stock_code engine')%nat
  /\ (stop_loss_requests stock_code engine' <> stop_loss_requests stock_code engine ->
      stop_loss_guard stock_code engine = false
      /\ stop_loss_guard stock_code engine' = true)
  /\ (stop_loss_guard stock_code engine = true ->
      stop_loss_guard stock_code engine' = true
      /\ stop_loss_requests stock_code engine' = stop_loss_requests stock_code engine)
  /\ (PositionManager.check_sell_conditions position
      = Py.Ok (Some PositionManager.STOP_LOSS)
      <-> PositionManager.profit_rate position <= PositionManager.stop_loss_rate position).
Proof.
  cbv zeta.
  destruct (engine_run_stop_loss env stock_code calls engine) as (Hset & Hany).
  split; [|split; [|split; [|split]]].
  - destruct Hany as [(_ & ->) | (_ & _ & [-> | ->])]; lia.
  - destruct Hany as [(_ & ->) | (_ & _ & [-> | ->])]; lia.
  - intros Hne. destruct Hany as [(_ & E) | (Hg & Hg' & _)];
      [now contradiction Hne | now split].
  - intros Hguard. destruct (Hset Hguard) as (Hg & Hn).
    split; [now rewrite Hg | exact Hn].
  - unfold PositionManager.check_sell_conditions. split.
    + destruct (Py.leb _ _) eqn:E; [intros _; now apply leb_iff in E|].
      destruct (PositionManager.trailing_activated position); [|discriminate].
      destruct (Py.div _ _); cbn; [|discriminate].
      destruct (Py.geb _ _); discriminate.
    + intros H. apply leb_iff in H. now rewrite H.
Qed.

Lemma C5_stop_loss_at_most_once_witness :
  stop_loss_guard "005930" scenario_held_engine = false
  /\ stop_loss_guard "005930"
       (engine_run scenario_env
          [Tick "005930" 12300 None None; Tick "005930" 12000 None None]
          scenario_held_engine) = true
  /\ stop_loss_requests "005930"
       (engine_run scenario_env
          [Tick "005930" 12300 None None; Tick "005930" 12000 None None]
          scenario_held_engine)
     = S (stop_loss_requests "005930" scenario_held_engine).
Proof.
  pose proof (C5_stop_loss_at_most_once scenario_env "005930"
                [Tick "005930" 12300 None None; Tick "005930" 12000 None None]
                scenario_held_engine scenario_position) as H.
  cbv zeta in H. destruct H as (Hle & Hge & Hfired & _).
  assert (Hne : stop_loss_requests "005930"
                  (engine_run scenario_env
                     [Tick "005930" 12300 None None; Tick "005930" 12000 None None]
                     scenario_held_engine)
                <> stop_loss_requests "005930" scenario_held_engine)
    by (vm_compute; discriminate).
  destruct (Hfired Hne) as (Hg & Hg').
  split; [exact Hg|]. split; [exact Hg'|].
  apply Nat.le_antisymm; [exact Hle|].
  apply Nat.le_neq. split; [exact Hge|]. intros E. apply Hne. now symmetry.
Defined.

(** The run of the witness does send one request, on the first of its two
    ticks. *)
Example stop_loss_fires_once_in_scenario :
  stop_loss_requests "005930" scenario_held_engine = 0%nat
  /\ stop_loss_requests "005930"
       (engine_run scenario_env [Tick "005930" 12300 None None] scenario_held_engine)
     = 1%nat
  /\ stop_loss_requests "005930"
       (engine_run scenario_env
          [Tick "005930" 12300 None None; Tick "005930" 12000 None None]
          scenario_held_engine)
     = 1%nat.
Proof. repeat split; vm_compute; reflexivity. Qed.

(** ** The trailing stop *)

Lemma check_sell_trailing_active (position : PositionManager.PositionInfo) :
  PositionManager.check_sell_conditions position
  = Py.Ok (Some PositionManager.TRAILING_SELL) ->
  PositionManager.trailing_activated position = true.
Proof.
  unfold PositionManager.check_sell_conditions.
  destruct (Py.leb _ _); [discriminate|].
  destruct (PositionManager.trailing_activated position); [reflexivity | discriminate].
Qed.

Section PriceUpdates.

(** The profit-rate formula of the calculator, whatever it is. *)
Variable calculate_profit_rate : Q -> Q -> Q.

Lemma update_position_trailing_active (price : Q)
    (position : PositionManager.PositionInfo) :
  snd (PositionManager.update_position calculate_profit_rate price position)
  = Some PositionManager.TRAILING_SELL ->
  PositionManager.trailing_activated
    (fst (PositionManager.update_position calculate_profit_rate price position)) = true.
Proof.
  unfold PositionManager.update_position.
  destruct (PositionManager.check_sell_conditions _) as [signal|] eqn:E; cbn [fst snd].
  - intros ->. now apply check_sell_trailing_active.
  - discriminate.
Qed.

(** One price update, on the trailing fields. *)
Lemma update_current_price_trailing (price : Q)
    (position : PositionManager.PositionInfo) :
  let position' :=
    PositionManager.update_current_price calculate_profit_rate price position in
  PositionManager.trailing_trigger_rate position'
  = PositionManager.trailing_trigger_rate position
  /\ PositionManager.current_price position' = price
  /\ PositionManager.trailing_activated position'
     = PositionManager.trailing_activated position
       || Py.geb (PositionManager.profit_rate position')
                 (PositionManager.trailing_trigger_rate position)
  /\ (PositionManager.trailing_activated position = false ->
      PositionManager.trailing_activated position' = true ->
      PositionManager.trailing_high position' = price)
  /\ (PositionManager.trailing_activated position = true ->
      PositionManager.trailing_high position
      <= PositionManager.trailing_high position').
Proof.
  destruct position as [code stages tq ta avg cur pr pa act high trig sell stop st].
  unfold PositionManager.update_current_price, PositionManager.update_trailing_stop.
  destruct (Py.gtb avg 0); cbn -[Py.geb Py.gtb];
    (destruct act; cbn -[Py.geb Py.gtb];
     [destruct (Py.gtb price high) eqn:E; cbn -[Py.geb Py.gtb];
      repeat split; try discriminate; intros _;
      [apply gtb_iff in E; now apply Qlt_le_weak | apply Qle_refl]
     |match goal with
      | |- context [Py.geb ?x trig] => destruct (Py.geb x trig) eqn:E
      end; cbn -[Py.geb Py.gtb]; rewrite ?E;
      repeat split; try discriminate; intros _ _;
      match goal with
      | |- context [Py.gtb price price] =>
          replace (Py.gtb price price) with false
            by (symmetry; apply gtb_false_iff, Qle_refl)
      end; reflexivity]).
Qed.

(** Over a sequence of price updates the trigger does not change. *)
Lemma price_updates_trigger (prices : list Q) :
  forall position,
    PositionManager.trailing_trigger_rate
      (price_updates calculate_profit_rate prices position)
    = PositionManager.trailing_trigger_rate position.
Proof.
  induction prices as [|price rest IH]; intros position; [reflexivity|].
  unfold price_updates in *. cbn [List.fold_left]. rewrite IH.
  apply update_current_price_trailing.
Qed.

(** Once active, the trailing stop stays active and its high never comes
    down. *)
Lemma price_updates_monotone (prices : list Q) :
  forall position,
    PositionManager.trailing_activated position = true ->
    PositionManager.trailing_activated
      (price_updates calculate_profit_rate prices position) = true
    /\ PositionManager.trailing_high position
       <= PositionManager.trailing_high
            (price_updates calculate_profit_rate prices position).
Proof.
  induction prices as [|price rest IH]; intros position Hactive.
  - split; [exact Hactive | apply Qle_refl].
  - unfold price_updates in *. cbn [List.fold_left].
    destruct (update_current_price_trailing price position)
      as (_ & _ & Hact & _ & Hhigh).
    rewrite Hactive in Hact. cbn in Hact.
    destruct (IH _ Hact) as (IHact & IHhigh).
    split; [exact IHact|].
    eapply Qle_trans; [apply Hhigh, Hactive | exact IHhigh].
Qed.

(** From an inactive position, the trailing stop is active after a sequence
    of updates exactly when some update of the sequence brought the profit
    rate to the trigger. *)
Lemma price_updates_activation (prices : list Q) :
  forall position,
    PositionManager.trailing_activated position = false ->
    PositionManager.trailing_activated
      (price_updates calculate_profit_rate prices position) = true
    <-> reaches_trigger calculate_profit_rate prices position.
Proof.
  induction prices as [|price rest IH]; intros position Hinactive.
  - cbn. rewrite Hinactive. split; [discriminate|].
    intros (earlier & p & later & H & _). now destruct earlier.
  - change (price_updates calculate_profit_rate (price :: rest) position)
      with (price_updates calculate_profit_rate rest
              (PositionManager.update_current_price calculate_profit_rate price position)).
    destruct (update_current_price_trailing price position)
      as (Htrig & _ & Hact & _ & _).
    rewrite Hinactive in Hact. cbn [orb] in Hact.
    set (position' := PositionManager.update_current_price _ price position) in *.
    destruct (Py.geb (PositionManager.profit_rate position') _) eqn:E.
    + split.
      * intros _. exists [], price, rest. split; [reflexivity|].
        cbn. now apply geb_iff in E.
      * intros _. now apply price_updates_monotone.
    + rewrite (IH position' Hact). unfold reaches_trigger, price_updates. split.
      * intros (earlier & p & later & -> & H).
        exists (price :: earlier), p, later. split; [reflexivity|].
        cbn [app List.fold_left]. fold position'. now rewrite <- Htrig.
      * intros (earlier & p & later & Hsplit & H).
        destruct earlier as [|e earlier]; cbn in Hsplit; injection Hsplit as <- ->.
        -- cbn in H. fold position' in H. apply geb_iff in H. congruence.
        -- exists earlier, p, later. split; [reflexivity|].
           cbn [app List.fold_left] in H. fold position' in H. now rewrite Htrig.
Qed.

Lemma fst_update_position (price : Q)
    (position : PositionManager.PositionInfo) :
  fst (PositionManager.update_position calculate_profit_rate price position)
  = PositionManager.update_current_price calculate_profit_rate price position.
Proof.
  unfold PositionManager.update_position.
  now destruct (PositionManager.check_sell_conditions _).
Qed.

End PriceUpdates.

(** The trailing block of the engine's [check_sell_conditions]. *)
Lemma trailing_stop_block_spec (cfg : Engine.Config) (position : Engine.PositionDict.t) :
  let position' := fst (Engine.trailing_stop_block cfg position) in
  (snd (Engine.trailing_stop_block cfg position) = Some Engine.TRAILING_SELL ->
   Engine.PositionDict.trailing_activated position' = true)
  /\ Engine.PositionDict.trailing_activated position'
     = Engine.PositionDict.trailing_activated position
       || Py.geb (Engine.PositionDict.profit_rate position)
                 (Engine.get_trailing_trigger_rate cfg)
  /\ (Engine.PositionDict.trailing_activated position = false ->
      Engine.PositionDict.trailing_activated position' = true ->
      Engine.PositionDict.trailing_high position'
      = Engine.PositionDict.current_price position)
  /\ (Engine.PositionDict.trailing_activated position = true ->
      Engine.PositionDict.trailing_high position
      <= Engine.PositionDict.trailing_high position').
Proof.
  destruct position as [tq avg cur pr act high orders guard st fbp].
  unfold Engine.trailing_stop_block.
  cbn -[Py.geb Py.gtb Py.div Py.abs].
  destruct act; cbn -[Py.geb Py.gtb Py.div Py.abs].
  - destruct (Py.gtb cur high) eqn:E; cbn -[Py.geb Py.gtb Py.div Py.abs];
      destruct (Py.div _ _); cbn -[Py.geb Py.gtb Py.div Py.abs];
      try destruct (Py.geb (_ * 100) _); cbn -[Py.geb Py.gtb Py.div Py.abs];
      repeat split; try discriminate; intros _;
      first [apply gtb_iff in E; now apply Qlt_le_weak | apply Qle_refl].
  - destruct (Py.geb pr _) eqn:E; cbn -[Py.geb Py.gtb Py.div Py.abs].
    + replace (Py.gtb cur cur) with false by (symmetry; apply gtb_false_iff, Qle_refl).
      destruct (Py.div _ _); cbn -[Py.geb Py.gtb Py.div Py.abs];
        try destruct (Py.geb (_ * 100) _); cbn -[Py.geb Py.gtb Py.div Py.abs];
        repeat split; discriminate.
    + repeat split; discriminate.
Qed.

Lemma check_sell_conditions_trailing (env : Engine.Env) (stock_code : string)
    (position : Engine.PositionDict.t) (engine : Engine.TumepokEngine) :
  let out := Engine.check_sell_conditions env stock_code position engine in
  (snd out = Some Engine.TRAILING_SELL ->
   Engine.PositionDict.trailing_activated (fst out) = true)
  /\ (Engine.PositionDict.trailing_activated position = true ->
      Engine.PositionDict.trailing_activated (fst out) = true
      /\ Engine.PositionDict.trailing_high position
         <= Engine.PositionDict.trailing_high (fst out)).
Proof.
  cbv zeta. unfold Engine.check_sell_conditions.
  destruct (Engine.stop_loss_signal _ _ _ _); cbn [fst snd].
  { split; [discriminate | intros ->; split; [reflexivity | apply Qle_refl]]. }
  destruct (Engine.config env) as [cfg|]; cbn [fst snd].
  2:{ split; [discriminate | intros ->; split; [reflexivity | apply Qle_refl]]. }
  destruct (trailing_stop_block_spec cfg position) as (Hsig & Hact & _ & Hhigh).
  split; [exact Hsig|].
  intros Hactive. split; [|now apply Hhigh].
  rewrite Hact, Hactive. reflexivity.
Qed.

(** A call of the engine's [check_sell_conditions] that does not answer
    STOP_LOSS has gone through the trailing block, when there is a
    configuration; a call that answers STOP_LOSS, or that finds no
    configuration, leaves the position as it was. *)
Lemma check_sell_conditions_reaches_block (env : Engine.Env) (stock_code : string)
    (position : Engine.PositionDict.t) (engine : Engine.TumepokEngine) :
  let out := Engine.check_sell_conditions env stock_code position engine in
  (forall cfg,
      Engine.config env = Some cfg -> snd out <> Some Engine.STOP_LOSS ->
      out = Engine.trailing_stop_block cfg position)
  /\ (snd out = Some Engine.STOP_LOSS \/ Engine.config env = None -> fst out = position)
  /\ (snd out = Some Engine.STOP_LOSS
      <-> Engine.stop_loss_signal env stock_code position engine = true).
Proof.
  cbv zeta. unfold Engine.check_sell_conditions.
  destruct (Engine.stop_loss_signal _ _ _ _) eqn:Esl; cbn [fst snd].
  - split; [intros cfg _ H; now contradiction H|]. split; [reflexivity|]. now split.
  - assert (Hblock : forall cfg,
               snd (Engine.trailing_stop_block cfg position) <> Some Engine.STOP_LOSS).
    { intros cfg. unfold Engine.trailing_stop_block.
      repeat match goal with
             | |- context [if ?x then _ else _] => destruct x
             | |- context [match Py.div ?x ?y with _ => _ end] => destruct (Py.div x y)
             end; cbn; discriminate. }
    destruct (Engine.config env) as [cfg|]; cbn [fst snd].
    + split; [intros cfg' [= <-] _; reflexivity|]. split.
      * intros [H | H]; [now apply Hblock in H | discriminate].
      * split; [intros H; now apply Hblock in H | discriminate].
    + split; [discriminate|]. split; [reflexivity|]. split; discriminate.
Qed.

(** C6. A position starts with the trailing stop inactive; take any
    sequence of price updates of it and the update that follows.  A
    TRAILING_SELL signal of that update comes with the trailing stop active.
    If the trailing stop was still inactive before the update, it is active
    after it exactly when the profit rate of the update reaches the trigger,
    and it is then armed with trailingHigh = the current price.  After the
    sequence the trailing stop is active exactly when some update of the
    sequence reached the trigger.  Once active it stays active and
    trailingHigh never decreases over further updates.  The engine's
    [check_sell_conditions] obeys the same rules on every call that reaches
    its trailing block (lines 1744-1788), that is, with a configuration and
    when the stop-loss test of the call does not answer STOP_LOSS: it never
    answers TRAILING_SELL with the stop inactive, it arms the stop exactly
    when the profit rate has reached the trigger, with trailingHigh = the
    current price, and an active stop stays active with a trailingHigh that
    does not decrease; a call that answers STOP_LOSS, or finds no
    configuration, leaves the position as it was. *)
Theorem C6_trailing_stop (calculate_profit_rate : Q -> Q -> Q) (price : Q)
    (prices later : list Q) (position : PositionManager.PositionInfo)
    (env : Engine.Env) (cfg : Engine.Config) (stock_code : string)
    (held : Engine.PositionDict.t) (engine : Engine.TumepokEngine) :
  PositionManager.trailing_activated position = false ->
  let run := price_updates calculate_profit_rate prices position in
  let tick := PositionManager.update_position calculate_profit_rate price run in
  let longer_run := price_updates calculate_profit_rate (prices ++ later) position in
  let check := Engine.check_sell_conditions env stock_code held engine in
  (snd tick = Some PositionManager.TRAILING_SELL ->
   PositionManager.trailing_activated (fst tick) = true)
  /\ (PositionManager.trailing_activated run = false ->
      (PositionManager.trailing_activated (fst tick) = true
       <-> PositionManager.trailing_trigger_rate position
           <= PositionManager.profit_rate (fst tick))
      /\ (PositionManager.trailing_activated (fst tick) = true ->
          PositionManager.trailing_high (fst tick) = price
          /\ PositionManager.current_price (fst tick) = price))
  /\ (PositionManager.trailing_activated run = true
      <-> reaches_trigger calculate_profit_rate prices position)
  /\ (PositionManager.trailing_activated run = true ->
      PositionManager.trailing_activated longer_run = true
      /\ PositionManager.trailing_high run <= PositionManager.trailing_high longer_run)
  /\ (snd check = Some Engine.TRAILING_SELL ->
      Engine.PositionDict.trailing_activated (fst check) = true)
  /\ (Engine.config env = Some cfg -> snd check <> Some Engine.STOP_LOSS ->
      (Engine.PositionDict.trailing_activated (fst check) = true
       <-> Engine.PositionDict.trailing_activated held = true
           \/ Engine.get_trailing_trigger_rate cfg <= Engine.PositionDict.profit_rate held)
      /\ (Engine.PositionDict.trailing_activated held = false ->
          Engine.PositionDict.trailing_activated (fst check) = true ->
          Engine.PositionDict.trailing_high (fst check)
          = Engine.PositionDict.current_price held))
  /\ (snd check = Some Engine.STOP_LOSS \/ Engine.config env = None -> fst check = held)
  /\ (Engine.PositionDict.trailing_activated held = true ->
      Engine.PositionDict.trailing_activated (fst check) = true
      /\ Engine.PositionDict.trailing_high held
         <= Engine.PositionDict.trailing_high (fst check)).
Proof.
  intros Hinactive run tick longer_run check.
  destruct (update_current_price_trailing calculate_profit_rate price run)
    as (_ & Hcur & Hact & Hhigh & _).
  assert (Hfst : fst tick
                 = PositionManager.update_current_price calculate_profit_rate price run)
    by apply fst_update_position.
  assert (Htrig : PositionManager.trailing_trigger_rate run
                  = PositionManager.trailing_trigger_rate position)
    by apply price_updates_trigger.
  destruct (check_sell_conditions_trailing env stock_code held engine) as (K1 & K2).
  destruct (check_sell_conditions_reaches_block env stock_code held engine)
    as (R1 & R2 & _).
  split; [apply update_position_trailing_active|].
  split.
  { intros Hrun. rewrite Hrun, Htrig in Hact. cbn [orb] in Hact. split.
    - rewrite Hfst, Hact. apply geb_iff.
    - rewrite Hfst. intros H. split; [now apply Hhigh | exact Hcur]. }
  split; [now apply price_updates_activation|].
  split.
  { intros Hrun. subst longer_run. unfold price_updates. rewrite List.fold_left_app.
    now apply price_updates_monotone. }
  split; [exact K1|]. split; [|split; [exact R2 | exact K2]].
  intros Hcfg Hsl. subst check. rewrite (R1 cfg Hcfg Hsl).
  destruct (trailing_stop_block_spec cfg held) as (_ & B2 & B3 & _).
  split; [|exact B3].
  rewrite B2, orb_true_iff, geb_iff. reflexivity.
Qed.

Lemma C6_trailing_stop_witness :
  (PositionManager.trailing_activated
     (fst (PositionManager.update_position Spec.calculate_profit_rate 10200
             (price_updates Spec.calculate_profit_rate [10100] scenario_position)))
   = true
   /\ PositionManager.trailing_high
        (fst (PositionManager.update_position Spec.calculate_profit_rate 10200
                (price_updates Spec.calculate_profit_rate [10100] scenario_position)))
      = 10200)
  /\ (PositionManager.trailing_activated
        (price_updates Spec.calculate_profit_rate ([10100; 10200; 10500] ++ [10395])
                       scenario_position) = true
      /\ PositionManager.trailing_high
           (price_updates Spec.calculate_profit_rate [10100; 10200; 10500]
                          scenario_position)
         <= PositionManager.trailing_high
              (price_updates Spec.calculate_profit_rate ([10100; 10200; 10500] ++ [10395])
                             scenario_position))
  /\ Engine.PositionDict.trailing_activated
       (fst (Engine.check_sell_conditions scenario_env "005930"
               (Engine.PositionDict.set_profit_rate 3
                  (Engine.PositionDict.set_current_price 13390 scenario_held_position))
               scenario_held_engine)) = true
  /\ Engine.PositionDict.trailing_high
       (fst (Engine.check_sell_conditions scenario_env "005930"
               (Engine.PositionDict.set_profit_rate 3
                  (Engine.PositionDict.set_current_price 13390 scenario_held_position))
               scenario_held_engine)) = 13390.
Proof.
  split; [|split].
  - pose proof (C6_trailing_stop Spec.calculate_profit_rate 10200 [10100] []
                  scenario_position scenario_env scenario_config "005930"
                  scenario_held_position scenario_held_engine eq_refl) as H.
    cbv zeta in H. destruct H as (_ & H2 & _).
    destruct (H2 eq_refl) as (Hiff & Hhigh).
    assert (Hactive : PositionManager.trailing_activated
                        (fst (PositionManager.update_position
                                Spec.calculate_profit_rate 10200
                                (price_updates Spec.calculate_profit_rate [10100]
                                               scenario_position)))
                      = true).
    { apply Hiff. vm_compute. discriminate. }
    split; [exact Hactive | apply (Hhigh Hactive)].
  - pose proof (C6_trailing_stop Spec.calculate_profit_rate 10395 [10100; 10200; 10500]
                  [10395] scenario_position scenario_env scenario_config "005930"
                  scenario_held_position scenario_held_engine eq_refl) as H.
    cbv zeta in H. destruct H as (_ & _ & _ & H4 & _).
    apply H4. vm_compute. reflexivity.
  - pose proof (C6_trailing_stop Spec.calculate_profit_rate 10200 [] []
                  scenario_position scenario_env scenario_config "005930"
                  (Engine.PositionDict.set_profit_rate 3
                     (Engine.PositionDict.set_current_price 13390 scenario_held_position))
                  scenario_held_engine eq_refl) as H.
    cbv zeta in H. destruct H as (_ & _ & _ & _ & _ & H6 & _).
    destruct H6 as (Hiff & Hhigh); [reflexivity | vm_compute; discriminate|].
    assert (Hactive : Engine.PositionDict.trailing_activated
                        (fst (Engine.check_sell_conditions scenario_env "005930"
                                (Engine.PositionDict.set_profit_rate 3
                                   (Engine.PositionDict.set_current_price 13390
                                      scenario_held_position))
                                scenario_held_engine)) = true).
    { apply Hiff. right. vm_compute. discriminate. }
    split; [exact Hactive | now apply Hhigh].
Defined.

(** Scenario C of the specification on [PositionManager.update_position]:
    the profit reaches 2% at 10,200 and the trailing stop is armed there
    without a signal; 10,500 raises the trailing high; 10,395, one percent
    below that high, gives the TRAILING_SELL signal. *)
Example trailing_stop_scenario :
  exists p1 p2 p3,
    PositionManager.update_position Spec.calculate_profit_rate 10200 scenario_position
    = (p1, None)
    /\ PositionManager.trailing_activated p1 = true
    /\ PositionManager.trailing_high p1 == 10200
    /\ PositionManager.update_position Spec.calculate_profit_rate 10500 p1 = (p2, None)
    /\ PositionManager.trailing_high p2 == 10500
    /\ PositionManager.update_position Spec.calculate_profit_rate 10395 p2
       = (p3, Some PositionManager.TRAILING_SELL)
    /\ PositionManager.trailing_high p3 == 10500.
Proof.
  eexists _, _, _. repeat split; vm_compute; reflexivity.
Qed.

(** ** The admission gate *)

(** [calculate_position_size] reports what the gate answers on the final
    amount. *)
Lemma calculate_position_size_gate (self : RiskManager.t) (base_amount : Q)
    (rise_days : Z) (rise_rate : Q) (current_positions : Z) :
  let size :=
    RiskManager.calculate_position_size self base_amount rise_days rise_rate
                                        current_positions in
  RiskManager.final_amount size = Py.int (base_amount * RiskManager.final_ratio size)
  /\ (RiskManager.allowed size, RiskManager.reason size)
     = RiskManager.check_entry_allowed self rise_days rise_rate
         (RiskManager.final_amount size) current_positions.
Proof.
  cbv zeta. unfold RiskManager.calculate_position_size.
  destruct (RiskManager.check_entry_allowed self rise_days rise_rate (Py.int _)
                                            current_positions) as [a r] eqn:E.
  cbn [RiskManager.final_amount RiskManager.final_ratio RiskManager.allowed
       RiskManager.reason].
  split; [reflexivity | symmetry; exact E].
Qed.

(** C7. [check_entry_allowed] tests, in this order, riseDays >= 5, then
    openPositionCount >= maxPositions, then finalAmount > maxSinglePosition,
    then dailyStats.totalProfit <= dailyLossLimit, then
    finalAmount < 50,000; it answers (false, reason) with the reason of the
    first rule that fails, and allowed = true exactly when none fails.
    [calculate_position_size] hands it the final amount
    int(baseAmount * finalRatio) and reports its answer. *)
Theorem C7_admission_gate_order (self : RiskManager.t) (rise_days : Z) (rise_rate : Q)
    (amount current_positions : Z) (base_amount : Q) :
  let gate :=
    RiskManager.check_entry_allowed self rise_days rise_rate amount current_positions in
  let size :=
    RiskManager.calculate_position_size self base_amount rise_days rise_rate
                                        current_positions in
  let r1 := (5 <= rise_days)%Z in
  let r2 := (RiskManager.max_position_stocks self <= current_positions)%Z in
  let r3 := (RiskManager.max_single_position self < amount)%Z in
  let r4 := RiskManager.daily_stats_total_profit self <= RiskManager.daily_loss_limit self in
  let r5 := (amount < 50000)%Z in
  (r1 -> gate = (false, RiskManager.RiseDaysExceeded rise_days))
  /\ (~ r1 -> r2 ->
      gate = (false, RiskManager.MaxPositionsExceeded
                       current_positions (RiskManager.max_position_stocks self)))
  /\ (~ r1 -> ~ r2 -> r3 ->
      gate = (false, RiskManager.MaxSinglePositionExceeded
                       amount (RiskManager.max_single_position self)))
  /\ (~ r1 -> ~ r2 -> ~ r3 -> r4 ->
      gate = (false, RiskManager.DailyLossLimitReached
                       (RiskManager.daily_stats_total_profit self)
                       (RiskManager.daily_loss_limit self)))
  /\ (~ r1 -> ~ r2 -> ~ r3 -> ~ r4 -> r5 ->
      gate = (false, RiskManager.BelowMinimumAmount amount))
  /\ (fst gate = true <-> ~ r1 /\ ~ r2 /\ ~ r3 /\ ~ r4 /\ ~ r5)
  /\ (fst gate = true -> snd gate = RiskManager.EntryAllowed)
  /\ RiskManager.final_amount size = Py.int (base_amount * RiskManager.final_ratio size)
  /\ (RiskManager.allowed size, RiskManager.reason size)
     = RiskManager.check_entry_allowed self rise_days rise_rate
         (RiskManager.final_amount size) current_positions.
Proof.
  cbv zeta.
  repeat match goal with |- _ /\ _ => split end;
    try apply calculate_position_size_gate;
    unfold RiskManager.check_entry_allowed;
    rewrite Z.geb_leb, Z.geb_leb, Z.gtb_ltb;
    destruct (Z.leb_spec 5 rise_days) as [H1 | H1];
    destruct (Z.leb_spec (RiskManager.max_position_stocks self) current_positions)
      as [H2 | H2];
    destruct (Z.ltb_spec (RiskManager.max_single_position self) amount) as [H3 | H3];
    (destruct (Py.leb (RiskManager.daily_stats_total_profit self)
                      (RiskManager.daily_loss_limit self)) eqn:H4;
     [apply leb_iff in H4 | apply leb_false_iff in H4; apply Qlt_not_le in H4]);
    destruct (Z.ltb_spec amount 50000) as [H5 | H5];
    cbn [fst snd];
    try (split; [intros ? | intros (? & ? & ? & ? & ?)]);
    intros; first [reflexivity | lia | contradiction | discriminate
                   | repeat split; first [lia | assumption]].
Qed.

Lemma C7_admission_gate_order_witness :
  RiskManager.check_entry_allowed RiskManager.init 3 45 600000 30
  = (false, RiskManager.MaxPositionsExceeded 30 30)
  /\ fst (RiskManager.check_entry_allowed RiskManager.init 3 45 72000 4) = true.
Proof.
  split.
  - pose proof (C7_admission_gate_order RiskManager.init 3 45 600000 30 100000) as H.
    cbv zeta in H. destruct H as (_ & H2 & _).
    apply H2; cbn; lia.
  - pose proof (C7_admission_gate_order RiskManager.init 3 45 72000 4 100000) as H.
    cbv zeta in H. destruct H as (_ & _ & _ & _ & _ & H6 & _).
    apply H6. repeat split; cbn; try lia.
    intros H. vm_compute in H. now apply H.
Defined.

(** Scenario D of the specification: three rise days, four open positions
    and a rise below 50% give the ratios 0.8, 1.0 and 0.9, a final ratio of
    0.72 and, from a base amount of 100,000, the amount 72,000, which the
    gate admits. *)
Example sizing_scenario :
  let size := RiskManager.calculate_position_size RiskManager.init 100000 3 45 4 in
  RiskManager.day_ratio size == 0.8
  /\ RiskManager.rise_ratio size == 1.0
  /\ RiskManager.position_ratio size == 0.9
  /\ RiskManager.final_ratio size == 0.72
  /\ RiskManager.final_amount size = 72000%Z
  /\ RiskManager.allowed size = true.
Proof. repeat split; vm_compute; reflexivity. Qed.

(** ** The ratio tables *)

(** *** The rule behind the boundary values, on any table *)

Lemma insert_sorted_In (k x : Z) (ks : list Z) :
  In x (Py.insert_sorted k ks) <-> x = k \/ In x ks.
Proof.
  induction ks as [|k' rest IH]; cbn.
  - intuition.
  - destruct (k <=? k')%Z; cbn; [intuition|]. rewrite IH. intuition.
Qed.

Lemma insert_sorted_sorted (k : Z) (ks : list Z) :
  StronglySorted Z.le ks -> StronglySorted Z.le (Py.insert_sorted k ks).
Proof.
  induction 1 as [|k' rest Hrest IH Hall]; cbn.
  - repeat constructor.
  - destruct (Z.leb_spec k k') as [Hle | Hlt].
    + constructor; [now constructor|].
      constructor; [exact Hle|].
      apply List.Forall_forall. intros x Hx.
      rewrite List.Forall_forall in Hall. specialize (Hall x Hx). lia.
    + constructor; [exact IH|].
      apply List.Forall_forall. intros x Hx. apply insert_sorted_In in Hx as [-> | Hx].
      * lia.
      * rewrite List.Forall_forall in Hall. now apply Hall.
Qed.

Lemma sorted_In (x : Z) (ks : list Z) : In x (Py.sorted ks) <-> In x ks.
Proof.
  induction ks as [|k rest IH]; cbn; [reflexivity|].
  rewrite insert_sorted_In, IH. intuition.
Qed.

Lemma sorted_sorted (ks : list Z) : StronglySorted Z.le (Py.sorted ks).
Proof.
  induction ks as [|k rest IH]; cbn; [constructor | now apply insert_sorted_sorted].
Qed.

Lemma sorted_keys_In (d : gmap Z Q) (k : Z) :
  In k (RiskManager.sorted_keys d) <-> is_Some (d !! k).
Proof.
  unfold RiskManager.sorted_keys. rewrite sorted_In, <- list_elem_of_In.
  rewrite list_elem_of_fmap. split.
  - intros ([k' v] & -> & Hin). apply elem_of_map_to_list in Hin. now exists v.
  - intros (v & Hv). exists (k, v). split; [reflexivity|]. now apply elem_of_map_to_list.
Qed.

(** The loop of [get_day_ratio] stops on the least bound that is met. *)
Lemma day_ratio_loop_first (d : gmap Z Q) (keys : list Z) (rise_days k : Z) :
  StronglySorted Z.le keys ->
  In k keys ->
  (rise_days <= k)%Z ->
  (forall k', In k' keys -> (rise_days <= k')%Z -> (k <= k')%Z) ->
  RiskManager.day_ratio_loop d keys rise_days = d !! k.
Proof.
  induction 1 as [|a rest Hrest IH Hall]; intros Hin Hle Hleast; [destruct Hin|].
  cbn. destruct (Z.leb_spec rise_days a) as [Ha | Ha].
  - assert (k = a); [|now subst].
    assert (k <= a)%Z by (apply Hleast; [now left | exact Ha]).
    destruct Hin as [-> | Hin]; [reflexivity|].
    rewrite List.Forall_forall in Hall. specialize (Hall k Hin). lia.
  - destruct Hin as [-> | Hin]; [lia|].
    apply IH; auto. intros k' Hk'. apply Hleast. now right.
Qed.

Lemma day_ratio_loop_none (d : gmap Z Q) (keys : list Z) (rise_days : Z) :
  (forall k', In k' keys -> (k' < rise_days)%Z) ->
  RiskManager.day_ratio_loop d keys rise_days = None.
Proof.
  induction keys as [|a rest IH]; intros Hall; [reflexivity|].
  cbn. destruct (Z.leb_spec rise_days a) as [Ha | Ha].
  - specialize (Hall a (or_introl eq_refl)). lia.
  - apply IH. intros k' Hk'. apply Hall. now right.
Qed.

(** [get_day_ratio] answers the ratio of the least bound with
    riseDays <= bound, and 0.0 past the last bound. *)
Lemma get_day_ratio_first_bound (self : RiskManager.t) (rise_days k : Z) (ratio : Q) :
  RiskManager.position_ratios self !! k = Some ratio ->
  (rise_days <= k)%Z ->
  (forall k', is_Some (RiskManager.position_ratios self !! k') ->
              (rise_days <= k')%Z -> (k <= k')%Z) ->
  RiskManager.get_day_ratio self rise_days = ratio.
Proof.
  intros Hk Hle Hleast. unfold RiskManager.get_day_ratio.
  rewrite (day_ratio_loop_first _ _ rise_days k).
  - now rewrite Hk.
  - apply sorted_sorted.
  - apply sorted_keys_In. now exists ratio.
  - exact Hle.
  - intros k' Hk'. apply Hleast. now apply sorted_keys_In.
Qed.

Lemma get_day_ratio_past_last (self : RiskManager.t) (rise_days : Z) :
  (forall k', is_Some (RiskManager.position_ratios self !! k') -> (k' < rise_days)%Z) ->
  RiskManager.get_day_ratio self rise_days = 0.0.
Proof.
  intros Hall. unfold RiskManager.get_day_ratio.
  rewrite day_ratio_loop_none; [reflexivity|].
  intros k' Hk'. apply Hall. now apply sorted_keys_In.
Qed.

(** The loop of [get_rise_rate_ratio] stops on the least bound that is
    strictly above the rise. *)
Lemma rise_ratio_loop_first (d : gmap Z Q) (keys : list Z) (rise_rate : Q) (k : Z) :
  StronglySorted Z.le keys ->
  In k keys ->
  rise_rate < inject_Z k ->
  (forall k', In k' keys -> rise_rate < inject_Z k' -> (k <= k')%Z) ->
  RiskManager.rise_ratio_loop d keys rise_rate = d !! k.
Proof.
  induction 1 as [|a rest Hrest IH Hall]; intros Hin Hlt Hleast; [destruct Hin|].
  cbn. destruct (Py.ltb rise_rate (inject_Z a)) eqn:Ha.
  - apply ltb_iff in Ha.
    assert (k = a); [|now subst].
    assert (k <= a)%Z by (apply Hleast; [now left | exact Ha]).
    destruct Hin as [-> | Hin]; [reflexivity|].
    rewrite List.Forall_forall in Hall. specialize (Hall k Hin). lia.
  - apply ltb_false_iff in Ha.
    destruct Hin as [-> | Hin]; [exfalso; eapply Qlt_not_le; eassumption|].
    apply IH; auto. intros k' Hk'. apply Hleast. now right.
Qed.

Lemma rise_ratio_loop_none (d : gmap Z Q) (keys : list Z) (rise_rate : Q) :
  (forall k', In k' keys -> inject_Z k' <= rise_rate) ->
  RiskManager.rise_ratio_loop d keys rise_rate = None.
Proof.
  induction keys as [|a rest IH]; intros Hall; [reflexivity|].
  cbn. destruct (Py.ltb rise_rate (inject_Z a)) eqn:Ha.
  - apply ltb_iff in Ha. specialize (Hall a (or_introl eq_refl)).
    exfalso. eapply Qlt_not_le; eassumption.
  - apply IH. intros k' Hk'. apply Hall. now right.
Qed.

(** [get_rise_rate_ratio] answers the ratio of the least bound with
    risePct < bound, and the least ratio of the table past the last bound. *)
Lemma get_rise_rate_ratio_first_bound (self : RiskManager.t) (rise_rate : Q) (k : Z)
    (ratio : Q) :
  RiskManager.rise_rate_ratios self !! k = Some ratio ->
  rise_rate < inject_Z k ->
  (forall k', is_Some (RiskManager.rise_rate_ratios self !! k') ->
              rise_rate < inject_Z k' -> (k <= k')%Z) ->
  RiskManager.get_rise_rate_ratio self rise_rate = ratio.
Proof.
  intros Hk Hlt Hleast. unfold RiskManager.get_rise_rate_ratio.
  rewrite (rise_ratio_loop_first _ _ rise_rate k).
  - now rewrite Hk.
  - apply sorted_sorted.
  - apply sorted_keys_In. now exists ratio.
  - exact Hlt.
  - intros k' Hk'. apply Hleast. now apply sorted_keys_In.
Qed.

Lemma min_list_least (vs : list Q) (m : Q) :
  Py.min_list vs = Some m -> In m vs /\ forall v, In v vs -> m <= v.
Proof.
  destruct vs as [|v0 rest]; [discriminate|]. cbn. intros [= <-].
  revert v0. induction rest as [|x rest IH]; intros v0; cbn.
  - split; [now left|]. intros v [-> | []]. apply Qle_refl.
  - destruct (IH (if Py.ltb x v0 then x else v0)) as (Hin & Hleast).
    assert (Hstep : (if Py.ltb x v0 then x else v0) <= v0
                    /\ (if Py.ltb x v0 then x else v0) <= x).
    { destruct (Py.ltb x v0) eqn:E.
      - apply ltb_iff in E. split; [now apply Qlt_le_weak | apply Qle_refl].
      - apply ltb_false_iff in E. split; [apply Qle_refl | exact E]. }
    split.
    + destruct Hin as [Hin | Hin]; [|now right; right].
      rewrite <- Hin. destruct (Py.ltb x v0); [right; now left | now left].
    + intros v [-> | [-> | Hv]].
      * eapply Qle_trans; [apply Hleast; now left | apply Hstep].
      * eapply Qle_trans; [apply Hleast; now left | apply Hstep].
      * apply Hleast. now right.
Qed.

Lemma get_rise_rate_ratio_past_last (self : RiskManager.t) (rise_rate : Q) :
  (forall k', is_Some (RiskManager.rise_rate_ratios self !! k') ->
              inject_Z k' <= rise_rate) ->
  RiskManager.get_rise_rate_ratio self rise_rate
  = default 1.0 (Py.min_list (RiskManager.values (RiskManager.rise_rate_ratios self))).
Proof.
  intros Hall. unfold RiskManager.get_rise_rate_ratio.
  rewrite rise_ratio_loop_none; [reflexivity|].
  intros k' Hk'. apply Hall. now apply sorted_keys_In.
Qed.

(** C8. With the default tables, dayRatio(3) = 0.8, dayRatio(4) = 0.5 and
    dayRatio(5) = 0.0 (the first bound, in ascending order, with
    riseDays <= bound), and riseRatio(49) = 1.0, riseRatio(50) = 0.8,
    riseRatio(70) = 0.5 and riseRatio(100) = 0.3 (the first bound, in
    ascending order, with risePct < bound); past the last bound the day
    ratio is 0.0 and the rise ratio is the least ratio of the table. *)
Theorem C8_default_ratio_boundaries :
  RiskManager.get_day_ratio RiskManager.init 3 == 0.8
  /\ RiskManager.get_day_ratio RiskManager.init 4 == 0.5
  /\ RiskManager.get_day_ratio RiskManager.init 5 == 0.0
  /\ RiskManager.get_day_ratio RiskManager.init 6 == 0.0
  /\ RiskManager.get_rise_rate_ratio RiskManager.init 49 == 1.0
  /\ RiskManager.get_rise_rate_ratio RiskManager.init 50 == 0.8
  /\ RiskManager.get_rise_rate_ratio RiskManager.init 70 == 0.5
  /\ RiskManager.get_rise_rate_ratio RiskManager.init 100 == 0.3
  /\ RiskManager.get_rise_rate_ratio RiskManager.init 999 == 0.3
  /\ RiskManager.sorted_keys (RiskManager.position_ratios RiskManager.init)
     = [1; 2; 3; 4; 5]%Z
  /\ RiskManager.sorted_keys (RiskManager.rise_rate_ratios RiskManager.init)
     = [50; 70; 100; 999]%Z.
Proof.
  assert (Hdays : RiskManager.sorted_keys (RiskManager.position_ratios RiskManager.init)
                  = [1; 2; 3; 4; 5]%Z) by (vm_compute; reflexivity).
  assert (Hrates : RiskManager.sorted_keys (RiskManager.rise_rate_ratios RiskManager.init)
                   = [50; 70; 100; 999]%Z) by (vm_compute; reflexivity).
  assert (Hday : forall (k : Z) (ratio : Q),
             RiskManager.position_ratios RiskManager.init !! k = Some ratio ->
             RiskManager.get_day_ratio RiskManager.init k = ratio).
  { intros k ratio Hk. apply (get_day_ratio_first_bound _ k k ratio Hk); [lia | auto]. }
  repeat match goal with |- _ /\ _ => split end; [..|exact Hdays|exact Hrates].
  - now rewrite (Hday 3%Z 0.8).
  - now rewrite (Hday 4%Z 0.5).
  - now rewrite (Hday 5%Z 0.0).
  - rewrite get_day_ratio_past_last; [reflexivity|].
    intros k' Hk'. apply sorted_keys_In in Hk'. rewrite Hdays in Hk'.
    cbn in Hk'. lia.
  - unfold RiskManager.get_rise_rate_ratio. rewrite Hrates. reflexivity.
  - unfold RiskManager.get_rise_rate_ratio. rewrite Hrates. reflexivity.
  - unfold RiskManager.get_rise_rate_ratio. rewrite Hrates. reflexivity.
  - unfold RiskManager.get_rise_rate_ratio. rewrite Hrates. reflexivity.
  - rewrite get_rise_rate_ratio_past_last; [vm_compute; reflexivity|].
    intros k' Hk'. apply sorted_keys_In in Hk'. rewrite Hrates in Hk'.
    cbn in Hk'. destruct Hk' as [<- | [<- | [<- | [<- | []]]]]; vm_compute; discriminate.
Qed.

(** ** The weighted average price *)

Lemma sum_quantity_app (l : list PositionManager.BuyStageInfo)
    (s : PositionManager.BuyStageInfo) :
  Spec.sum_quantity (l ++ [s]) = (Spec.sum_quantity l + PositionManager.quantity s)%Z.
Proof.
  induction l as [|x l IH]; cbn; [lia|]. unfold Spec.sum_quantity in IH. rewrite IH. lia.
Qed.

Lemma sum_amount_app (l : list PositionManager.BuyStageInfo)
    (s : PositionManager.BuyStageInfo) :
  Spec.sum_amount (l ++ [s]) == Spec.sum_amount l + PositionManager.amount s.
Proof.
  induction l as [|x l IH]; cbn; [lra|]. unfold Spec.sum_amount in IH. rewrite IH. lra.
Qed.

Lemma sums_nonnegative (l : list PositionManager.BuyStageInfo) :
  Forall (fun s => (0 < PositionManager.quantity s)%Z /\ 0 < PositionManager.amount s) l ->
  (0 <= Spec.sum_quantity l)%Z /\ 0 <= Spec.sum_amount l.
Proof.
  induction 1 as [|x l (Hq & Ha) Hl (IHq & IHa)]; cbn; [split; [lia | lra]|].
  unfold Spec.sum_quantity, Spec.sum_amount in *. split; [lia | lra].
Qed.

(** One [add_buy_stage] on a position whose totals are the sums over its
    stages. *)
Lemma add_buy_stage_consistent (stage_info : PositionManager.BuyStageInfo)
    (position : PositionManager.PositionInfo) :
  PositionManager.total_quantity position
  = Spec.sum_quantity (PositionManager.buy_stages position) ->
  PositionManager.total_amount position
  == Spec.sum_amount (PositionManager.buy_stages position) ->
  Forall (fun s => (0 < PositionManager.quantity s)%Z /\ 0 < PositionManager.amount s)
         (PositionManager.buy_stages position) ->
  (0 < PositionManager.quantity stage_info)%Z ->
  0 < PositionManager.amount stage_info ->
  exists position',
    PositionManager.add_buy_stage stage_info position = Py.Ok position'
    /\ PositionManager.buy_stages position'
       = PositionManager.buy_stages position ++ [stage_info]
    /\ PositionManager.total_quantity position'
       = Spec.sum_quantity (PositionManager.buy_stages position')
    /\ PositionManager.total_amount position'
       == Spec.sum_amount (PositionManager.buy_stages position')
    /\ PositionManager.weighted_avg_price position'
       = PositionManager.total_amount position'
         / inject_Z (PositionManager.total_quantity position')
    /\ (0 < PositionManager.total_quantity position')%Z.
Proof.
  destruct position as [code stages tq ta avg cur pr pa act high trig sell stop st].
  cbn [PositionManager.total_quantity PositionManager.total_amount
       PositionManager.buy_stages].
  intros Hq Ha Hpos Hsq Hsa.
  destruct (sums_nonnegative stages Hpos) as (Hnq & Hna).
  unfold PositionManager.add_buy_stage, PositionManager.calculate_weighted_avg_price.
  assert (Hgt : Py.gtb (ta + PositionManager.amount stage_info) 0 = true)
    by (apply gtb_iff; lra).
  rewrite Hgt.
  assert (Hdiv : ~ inject_Z (tq + PositionManager.quantity stage_info) == 0).
  { unfold Qeq. cbn. lia. }
  rewrite (div_ok _ _ Hdiv). cbn [mbind result_bind Py.bind].
  eexists. split; [reflexivity|].
  cbn [PositionManager.total_quantity PositionManager.total_amount
       PositionManager.buy_stages PositionManager.weighted_avg_price].
  repeat split.
  - rewrite sum_quantity_app. lia.
  - rewrite sum_amount_app, Ha. reflexivity.
  - lia.
Qed.

(** C10. On a position whose totals are the sums over its stages (a new
    position, or one built by [add_buy_stage] only), every sequence of at
    least one [add_buy_stage] call with positive quantities and positive
    amounts returns without a division by zero and leaves
    weighted_avg_price = (sum of stage amounts) / (sum of stage quantities),
    the sums taken over all the stages of the position. *)
Theorem C10_weighted_avg_price (position : PositionManager.PositionInfo)
    (stage_info : PositionManager.BuyStageInfo)
    (rest : list PositionManager.BuyStageInfo) :
  PositionManager.total_quantity position
  = Spec.sum_quantity (PositionManager.buy_stages position) ->
  PositionManager.total_amount position
  == Spec.sum_amount (PositionManager.buy_stages position) ->
  Forall (fun s => (0 < PositionManager.quantity s)%Z /\ 0 < PositionManager.amount s)
         (PositionManager.buy_stages position ++ stage_info :: rest) ->
  exists position',
    add_buy_stages (stage_info :: rest) position = Py.Ok position'
    /\ PositionManager.buy_stages position'
       = PositionManager.buy_stages position ++ stage_info :: rest
    /\ (0 < Spec.sum_quantity (PositionManager.buy_stages position'))%Z
    /\ PositionManager.weighted_avg_price position'
       == Spec.sum_amount (PositionManager.buy_stages position')
          / inject_Z (Spec.sum_quantity (PositionManager.buy_stages position')).
Proof.
  revert position stage_info.
  induction rest as [|next rest IH]; intros position stage_info Hq Ha Hall.
  - apply Forall_app in Hall as (Hpos & Hnew).
    inversion Hnew as [|? ? (Hsq & Hsa) _]; subst.
    destruct (add_buy_stage_consistent stage_info position Hq Ha Hpos Hsq Hsa)
      as (p' & Hadd & Hstages & Hq' & Ha' & Havg & Hpq).
    exists p'. cbn [add_buy_stages]. rewrite Hadd. cbn [mbind result_bind Py.bind].
    split; [reflexivity|]. split; [exact Hstages|].
    split; [now rewrite <- Hq'|].
    rewrite Havg, Ha', Hq'. reflexivity.
  - assert (Hall' := Hall).
    apply Forall_app in Hall as (Hpos & Hnew).
    inversion Hnew as [|? ? (Hsq & Hsa) Hrest]; subst.
    destruct (add_buy_stage_consistent stage_info position Hq Ha Hpos Hsq Hsa)
      as (p' & Hadd & Hstages & Hq' & Ha' & _).
    destruct (IH p' next Hq' Ha') as (p'' & Hrun & Hstages'' & Hpq & Havg).
    { rewrite Hstages, <- app_assoc. exact Hall'. }
    exists p''. cbn [add_buy_stages]. rewrite Hadd. cbn [mbind result_bind Py.bind].
    split; [exact Hrun|].
    split; [rewrite Hstages'', Hstages, <- app_assoc; reflexivity|].
    split; [exact Hpq | exact Havg].
Qed.

Lemma C10_weighted_avg_price_witness :
  exists position',
    add_buy_stages
      [ {| PositionManager.stage := STAGE_1; PositionManager.price := 13000;
           PositionManager.quantity := 10; PositionManager.amount := 130000 |};
        {| PositionManager.stage := STAGE_2; PositionManager.price := 12000;
           PositionManager.quantity := 20; PositionManager.amount := 240000 |} ]
      (PositionManager.init "005930") = Py.Ok position'
    /\ PositionManager.buy_stages position'
       = PositionManager.buy_stages (PositionManager.init "005930")
         ++ [ {| PositionManager.stage := STAGE_1; PositionManager.price := 13000;
                 PositionManager.quantity := 10; PositionManager.amount := 130000 |};
              {| PositionManager.stage := STAGE_2; PositionManager.price := 12000;
                 PositionManager.quantity := 20; PositionManager.amount := 240000 |} ]
    /\ (0 < Spec.sum_quantity (PositionManager.buy_stages position'))%Z
    /\ PositionManager.weighted_avg_price position'
       == Spec.sum_amount (PositionManager.buy_stages position')
          / inject_Z (Spec.sum_quantity (PositionManager.buy_stages position')).
Proof.
  apply (C10_weighted_avg_price (PositionManager.init "005930")).
  - reflexivity.
  - reflexivity.
  - repeat constructor.
Defined.

(** The guard of [calculate_weighted_avg_price] looks at the amount, not at
    the quantity: a first stage of quantity zero with a positive amount makes
    the division raise. *)
Example zero_quantity_stage_raises :
  PositionManager.add_buy_stage
    {| PositionManager.stage := STAGE_1; PositionManager.price := 13000;
       PositionManager.quantity := 0; PositionManager.amount := 130000 |}
    (PositionManager.init "005930")
  = Py.Raise Py.ZeroDivisionError.
Proof. reflexivity. Qed.

(** The average of the two stages of the witness: 370,000 / 30. *)
Example weighted_avg_price_of_two_stages :
  exists position',
    add_buy_stages
      [ {| PositionManager.stage := STAGE_1; PositionManager.price := 13000;
           PositionManager.quantity := 10; PositionManager.amount := 130000 |};
        {| PositionManager.stage := STAGE_2; PositionManager.price := 12000;
           PositionManager.quantity := 20; PositionManager.amount := 240000 |} ]
      (PositionManager.init "005930") = Py.Ok position'
    /\ PositionManager.weighted_avg_price position' == 370000 / 30.
Proof. eexists. split; vm_compute; reflexivity. Qed.

(** ** The RiseTracker class *)

Lemma update_tumepok_calculation_well_tracked (matrix : list MatrixRow)
    (self : RiseTracker.TrackingInfo) :
  matrix <> [] ->
  ~ RiseTracker.start_price self == 0 ->
  exists row,
    Spec.lookup matrix
      ((RiseTracker.high_price self - RiseTracker.start_price self)
       / RiseTracker.start_price self * 100) row
    /\ RiseTracker.update_tumepok_calculation matrix self =
       Py.Ok (RiseTracker.assign_target_drops row
                (RiseTracker.set_rise_rate
                   ((RiseTracker.high_price self - RiseTracker.start_price self)
                    / RiseTracker.start_price self * 100) self)).
Proof.
  intros Hne Hstart.
  destruct (scan_or_last_lookup matrix
              ((RiseTracker.high_price self - RiseTracker.start_price self)
               / RiseTracker.start_price self * 100) Hne) as (row & Hrow & _).
  exists row. split; [exact Hrow|]. now apply update_tumepok_calculation_row.
Qed.

Lemma init_well_tracked (matrix : list MatrixRow) (stock_code : string) (start_price : Q)
    (start_date : Z) (self : RiseTracker.TrackingInfo) :
  RiseTracker.init matrix stock_code start_price start_date = Py.Ok self ->
  well_tracked matrix stock_code self
  /\ RiseTracker.status self = "TRACKING"
  /\ RiseTracker.start_price self = start_price
  /\ RiseTracker.high_price self = start_price
  /\ RiseTracker.bought_stages self = ∅.
Proof.
  unfold RiseTracker.init.
  set (s := RiseTracker.add_daily_price _ _ _).
  intros H.
  assert (Hs : ~ start_price == 0).
  { intros E. unfold RiseTracker.update_tumepok_calculation, Py.div in H.
    cbn [RiseTracker.start_price s RiseTracker.add_daily_price RiseTracker.set_daily_prices] in H.
    apply Qeq_bool_iff in E. rewrite E in H. discriminate. }
  assert (Hne : matrix <> []).
  { intros ->. unfold RiseTracker.update_tumepok_calculation in H.
    rewrite (div_ok _ _ Hs) in H. cbn in H. discriminate. }
  destruct (update_tumepok_calculation_well_tracked matrix s Hne Hs) as (row & Hrow & E).
  rewrite E in H. injection H as <-.
  unfold well_tracked. cbn. repeat split; try reflexivity; try lia; try exact Hs.
  - apply Qle_refl.
  - apply Qle_refl.
  - now left.
  - exists row. repeat split. exact Hrow.
Qed.

(** One tick on a well-tracked record: it returns, the record stays
    well-tracked unless it is COMPLETED, and the waiting counter never
    reaches the three days of WAITING_COMPLETED. *)
Lemma update_price_well_tracked (matrix : list MatrixRow) (stock_code : string)
    (today : Z) (current_price : Q) (daily_change_rate high_price_arg : option Q)
    (self : RiseTracker.TrackingInfo) :
  well_tracked matrix stock_code self ->
  exists self' r,
    RiseTracker.update_price matrix today current_price daily_change_rate
                             high_price_arg self = Py.Ok (self', r)
    /\ In r tracked_answers
    /\ (RiseTracker.status self' = "COMPLETED" \/ well_tracked matrix stock_code self')
    /\ RiseTracker.high_price self <= RiseTracker.high_price self'
    /\ RiseTracker.start_price self' = RiseTracker.start_price self
    /\ RiseTracker.bought_stages self' = RiseTracker.bought_stages self.
Proof.
  intros (Hc & Hs & Hh & Hr & Hd & Hw & Hst & row & Hrow & Hmin & Hmax & H1 & H2 & H3).
  pose proof (lookup_nonempty _ _ _ Hrow) as Hne.
  unfold RiseTracker.update_price.
  set (s0 := RiseTracker.set_rise_days _ _).
  assert (Hs0 : RiseTracker.stock_code s0 = RiseTracker.stock_code self
                /\ RiseTracker.start_price s0 = RiseTracker.start_price self
                /\ RiseTracker.high_price s0 = RiseTracker.high_price self
                /\ RiseTracker.rise_rate s0 = RiseTracker.rise_rate self
                /\ RiseTracker.drop_rate s0 = RiseTracker.drop_rate self
                /\ RiseTracker.waiting_days s0 = RiseTracker.waiting_days self
                /\ RiseTracker.status s0 = RiseTracker.status self
                /\ RiseTracker.bought_stages s0 = RiseTracker.bought_stages self
                /\ RiseTracker.target_drop_min s0 = RiseTracker.target_drop_min self
                /\ RiseTracker.target_drop_max s0 = RiseTracker.target_drop_max self
                /\ RiseTracker.target_drop_1st s0 = RiseTracker.target_drop_1st self
                /\ RiseTracker.target_drop_2nd s0 = RiseTracker.target_drop_2nd self
                /\ RiseTracker.target_drop_3rd s0 = RiseTracker.target_drop_3rd self).
  { subst s0. destruct daily_change_rate; repeat split. }
  destruct Hs0 as (Ec & Es & Eh & Er & Ed & Ew & Est & Eb & Emin & Emax & E1 & E2 & E3).
  clearbody s0.
  rewrite <- Ec in Hc. rewrite <- Es in *. rewrite <- Eh in *. rewrite <- Er in *.
  rewrite <- Ed in Hd. rewrite <- Ew in Hw. rewrite <- Est in Hst. rewrite <- Eb.
  rewrite <- Emin in Hmin. rewrite <- Emax in Hmax. rewrite <- E1 in H1.
  rewrite <- E2 in H2. rewrite <- E3 in H3.
  clear Ec Es Eh Er Ed Ew Est Eb Emin Emax E1 E2 E3 self.
  destruct (RiseTracker.update_high current_price high_price_arg s0) as [s1 hu] eqn:E.
  destruct (record_daily_price_frame today current_price hu s1) as (prices & ->).
  destruct hu.
  - apply update_high_true in E as (v & -> & Hv).
    set (s2 := RiseTracker.set_daily_prices _ _).
    assert (Hs2 : ~ RiseTracker.start_price s2 == 0) by exact Hs.
    destruct (update_tumepok_calculation_well_tracked matrix s2 Hne Hs2)
      as (row' & Hrow' & ->).
    cbn [mbind result_bind Py.bind]. eexists _, _. split; [reflexivity|].
    split; [cbn; tauto|]. subst s2. cbn.
    split; [|split; [now apply Qlt_le_weak|split; reflexivity]].
    right. unfold well_tracked. cbn.
    repeat match goal with |- _ /\ _ => split end; try assumption; try reflexivity;
      try lia.
    + apply Qle_trans with (RiseTracker.high_price s0); [exact Hh|now apply Qlt_le_weak].
    + exists row'. repeat split. exact Hrow'.
  - apply update_high_false in E as ->.
    set (s2 := RiseTracker.set_daily_prices prices s0).
    destruct (update_drop_rate_frame current_price s2) as (d & Hd').
    assert (Hd0 : 0 <= d).
    { assert (Ed : d = RiseTracker.drop_rate (RiseTracker.update_drop_rate current_price s2))
        by now rewrite Hd'.
      rewrite Ed. unfold RiseTracker.update_drop_rate.
      destruct (Py.gtb _ 0); cbn; [|apply Qle_refl].
      destruct (Py.ltb _ 0) eqn:El; cbn; [apply Qle_refl|].
      now apply ltb_false_iff in El. }
    rewrite Hd'. set (s3 := RiseTracker.set_drop_rate d s2).
    assert (Hwt : forall st wd,
               (st = "TRACKING" \/ st = "WAITING" \/ st = "READY" \/ st = "STOPPED") ->
               (0 <= wd <= 1)%Z ->
               well_tracked matrix stock_code
                 (RiseTracker.set_waiting_days wd (RiseTracker.set_status st s3))).
    { intros st wd Hst' Hwd. unfold well_tracked. subst s3 s2. cbn.
      repeat match goal with |- _ /\ _ => split end; try assumption; try lia.
      exists row. repeat split; assumption. }
    assert (Hid : s3 = RiseTracker.set_waiting_days (RiseTracker.waiting_days s3)
                         (RiseTracker.set_status (RiseTracker.status s3) s3))
      by now destruct s3.
    assert (Hid' : forall st,
               RiseTracker.set_status st s3
               = RiseTracker.set_waiting_days (RiseTracker.waiting_days s3)
                   (RiseTracker.set_status st s3))
      by now destruct s3.
    assert (Hframe : forall st wd,
               RiseTracker.high_price s0
               <= RiseTracker.high_price
                    (RiseTracker.set_waiting_days wd (RiseTracker.set_status st s3))
               /\ RiseTracker.start_price
                    (RiseTracker.set_waiting_days wd (RiseTracker.set_status st s3))
                  = RiseTracker.start_price s0
               /\ RiseTracker.bought_stages
                    (RiseTracker.set_waiting_days wd (RiseTracker.set_status st s3))
                  = RiseTracker.bought_stages s0).
    { intros st wd. subst s3 s2. cbn. split; [apply Qle_refl|split; reflexivity]. }
    assert (Hst3 : RiseTracker.status s3 = RiseTracker.status s0) by reflexivity.
    assert (Hw3 : RiseTracker.waiting_days s3 = RiseTracker.waiting_days s0) by reflexivity.
    clearbody s3.
    destruct Hst as [Hst|[Hst|[Hst|Hst]]]; rewrite Hst3, Hst;
      cbn [String.eqb Ascii.eqb Bool.eqb].
    + unfold RiseTracker.check_tumepok_entry.
      destruct (_ >? 7)%Z.
      { eexists _, _. split; [reflexivity|]. split; [cbn; tauto|].
        split; [now left|]. rewrite (Hid' "COMPLETED"). apply (Hframe "COMPLETED"). }
      destruct (Py.geb _ _).
      { eexists _, _. split; [reflexivity|]. split; [cbn; tauto|].
        rewrite (Hid' "READY").
        split; [right; apply (Hwt "READY"); [tauto|lia]|apply (Hframe "READY")]. }
      destruct (RiseTracker.should_start_waiting _ _).
      { eexists _, _. split; [reflexivity|]. split; [cbn; tauto|].
        split; [right; apply (Hwt "WAITING"); [tauto|lia]|apply (Hframe "WAITING")]. }
      eexists _, _. split; [reflexivity|]. split; [cbn; tauto|].
      rewrite Hid.
      split; [right; apply Hwt; [rewrite Hst3; tauto|lia]|apply Hframe].
    + unfold RiseTracker.check_waiting_period.
      destruct (Py.gtb _ _).
      { eexists _, _. split; [reflexivity|]. split; [cbn; tauto|].
        split; [right; apply (Hwt "TRACKING"); [tauto|lia]|apply (Hframe "TRACKING")]. }
      destruct (Py.geb _ _).
      { eexists _, _. split; [reflexivity|]. split; [cbn; tauto|].
        rewrite (Hid' "READY").
        split; [right; apply (Hwt "READY"); [tauto|lia]|apply (Hframe "READY")]. }
      replace (RiseTracker.waiting_days s3 >=? 3)%Z with false by lia.
      eexists _, _. split; [reflexivity|]. split; [cbn; tauto|].
      rewrite Hid.
      split; [right; apply Hwt; [rewrite Hst3; tauto|lia]|apply Hframe].
    + eexists _, _. split; [reflexivity|]. split; [cbn; tauto|].
      rewrite Hid.
      split; [right; apply Hwt; [rewrite Hst3; tauto|lia]|apply Hframe].
    + eexists _, _. split; [reflexivity|]. split; [cbn; tauto|].
      rewrite Hid.
      split; [right; apply Hwt; [rewrite Hst3; tauto|lia]|apply Hframe].
Qed.

Lemma tracker_ok_insert (matrix : list MatrixRow) (stock_code : string)
    (tracking_info : RiseTracker.TrackingInfo) (self : RiseTrackerClass.t) :
  tracker_ok matrix self ->
  well_tracked matrix stock_code tracking_info ->
  tracker_ok matrix
    (RiseTrackerClass.set_tracking_stocks
       (<[stock_code := tracking_info]> (RiseTrackerClass.tracking_stocks self)) self).
Proof.
  intros Hok Hti k ti. cbn. destruct (decide (k = stock_code)) as [->|Hk].
  - rewrite lookup_insert_eq. now intros [= <-].
  - rewrite lookup_insert_ne by congruence. apply Hok.
Qed.

Lemma tracker_ok_delete (matrix : list MatrixRow) (stock_code : string)
    (self : RiseTrackerClass.t) :
  tracker_ok matrix self ->
  tracker_ok matrix
    (RiseTrackerClass.set_tracking_stocks
       (delete stock_code (RiseTrackerClass.tracking_stocks self)) self).
Proof.
  intros Hok k ti. cbn. intros H. apply lookup_delete_Some in H as [_ H]. now apply Hok.
Qed.

(** On a tracker whose records are well-tracked a price update answers
    with one of the answers of a well-tracked record, or NOT_TRACKING, and
    the records stay well-tracked. *)
Lemma update_price_tracker_ok (matrix : list MatrixRow) (today : Z) (stock_code : string)
    (current_price : Q) (daily_change_rate high_price : option Q)
    (self : RiseTrackerClass.t) :
  tracker_ok matrix self ->
  tracker_ok matrix
    (fst (RiseTrackerClass.update_price matrix today stock_code current_price
                                        daily_change_rate high_price self))
  /\ In (snd (RiseTrackerClass.update_price matrix today stock_code current_price
                                            daily_change_rate high_price self))
        ("NOT_TRACKING" :: tracked_answers).
Proof.
  intros Hok. unfold RiseTrackerClass.update_price.
  destruct (RiseTrackerClass.tracking_stocks self !! stock_code) as [ti|] eqn:E.
  - destruct (update_price_well_tracked matrix stock_code today current_price
                daily_change_rate high_price ti (Hok _ _ E))
      as (ti' & r & -> & Hr & Hwt & _).
    destruct (String.eqb (RiseTracker.status ti') "COMPLETED") eqn:Ec; cbn [fst snd].
    + split; [|now right]. unfold RiseTrackerClass.remove_stock.
      cbn [RiseTrackerClass.tracking_stocks RiseTrackerClass.set_tracking_stocks].
      rewrite bool_decide_eq_true_2 by (rewrite lookup_insert_eq; eauto).
      cbn [fst]. intros k ti0. cbn. intros H.
      apply lookup_delete_Some in H as [Hk H].
      rewrite lookup_insert_ne in H by congruence. now apply Hok.
    + split; [|now right]. apply tracker_ok_insert; [exact Hok|].
      destruct Hwt as [Hc|Hwt]; [|exact Hwt].
      apply String.eqb_neq in Ec. contradiction.
  - cbn. split; [exact Hok|now left].
Qed.

Lemma init_tracker_ok (matrix : list MatrixRow) (max_tracking_stocks : Z) :
  tracker_ok matrix (RiseTrackerClass.init max_tracking_stocks).
Proof. intros k ti. cbn. now rewrite lookup_empty. Qed.

Lemma set_daily_change_rate_well_tracked (matrix : list MatrixRow) (stock_code : string)
    (v : Q) (self : RiseTracker.TrackingInfo) :
  well_tracked matrix stock_code self ->
  well_tracked matrix stock_code (RiseTracker.set_daily_change_rate v self).
Proof. intros H. exact H. Qed.

Lemma add_bought_stage_well_tracked (matrix : list MatrixRow) (stock_code stage : string)
    (self : RiseTracker.TrackingInfo) :
  well_tracked matrix stock_code self ->
  well_tracked matrix stock_code (RiseTracker.add_bought_stage stage self).
Proof. intros H. exact H. Qed.

(** What [process_tumepok_signal] does to the record it is given: nothing,
    the status STOPPED, or one more bought stage. *)
Lemma process_tumepok_signal_record (env : Engine.Env)
    (check_and_execute_buy :
       string -> string -> RiseTracker.TrackingInfo -> Engine.TumepokEngine ->
       Engine.TumepokEngine * bool)
    (stock_code : string) (tracking_info : RiseTracker.TrackingInfo)
    (self : Engine.TumepokEngine) :
  let tracking_info' :=
    fst (EngineTracker.process_tumepok_signal env check_and_execute_buy stock_code
           tracking_info self) in
  tracking_info' = tracking_info
  \/ (tracking_info' = RiseTracker.set_status "STOPPED" tracking_info
      /\ RiseTracker.bought_stages tracking_info = ∅)
  \/ exists stage, tracking_info' = RiseTracker.add_bought_stage stage tracking_info.
Proof.
  cbv zeta. unfold EngineTracker.process_tumepok_signal.
  destruct (Engine._get_target_drop_rates _ _) as [target_drops|]; [|now left].
  destruct (Py.gtb _ _).
  { destruct (bool_decide _) eqn:E.
    - destruct (negb _); now left.
    - right. left. split; [reflexivity|].
      apply bool_decide_eq_false in E.
      destruct (decide (RiseTracker.bought_stages tracking_info = ∅)); [assumption|].
      contradiction. }
  destruct (_ && _); [|now left].
  destruct (bool_decide _); [now left|].
  destruct (negb _); [|now left].
  destruct (check_and_execute_buy _ _ _ _) as [self' success].
  destruct success; [right; right; eexists; reflexivity | now left].
Qed.

Lemma set_status_stopped_well_tracked (matrix : list MatrixRow) (stock_code : string)
    (self : RiseTracker.TrackingInfo) :
  well_tracked matrix stock_code self ->
  well_tracked matrix stock_code (RiseTracker.set_status "STOPPED" self).
Proof.
  intros (Hc & Hs & Hh & Hr & Hd & Hw & Hst & Hrow).
  unfold well_tracked. destruct self; cbn in *.
  repeat match goal with |- _ /\ _ => split end; try assumption; try lia.
  tauto.
Qed.

Lemma on_realtime_data_signal_ok (matrix : list MatrixRow) (env : Engine.Env)
    (check_and_execute_buy :
       string -> string -> RiseTracker.TrackingInfo -> Engine.TumepokEngine ->
       Engine.TumepokEngine * bool)
    (stock_code : string) (rise_tracker : RiseTrackerClass.t)
    (engine : Engine.TumepokEngine) :
  tracker_ok matrix rise_tracker ->
  tracker_ok matrix
    (fst (on_realtime_data_signal env check_and_execute_buy stock_code rise_tracker
            engine)).
Proof.
  intros Hok. unfold on_realtime_data_signal, RiseTrackerClass.get_tracking_info.
  destruct (_ !! stock_code) as [ti|] eqn:E; [|exact Hok].
  destruct (_ || _); [|exact Hok].
  pose proof (process_tumepok_signal_record env check_and_execute_buy stock_code ti engine)
    as Hrec. cbv zeta in Hrec.
  destruct (EngineTracker.process_tumepok_signal _ _ _ _ _) as [ti' engine'].
  cbn [fst] in *. apply tracker_ok_insert; [exact Hok|].
  destruct Hrec as [-> | [(-> & _) | (stage & ->)]].
  - now apply Hok.
  - apply set_status_stopped_well_tracked. now apply Hok.
  - apply add_bought_stage_well_tracked. now apply Hok.
Qed.

Lemma tracker_step_ok (matrix : list MatrixRow) (self : RiseTrackerClass.t)
    (call : TrackerCall) :
  tracker_ok matrix self -> tracker_ok matrix (tracker_step matrix self call).
Proof.
  intros Hok.
  destruct call as [today code sp sd dcr|code|today code cp dcr hp|code stage|code stage
                   |limit|env oracle engine code];
    cbn [tracker_step];
    [| | | | |exact Hok|now apply on_realtime_data_signal_ok].
  - unfold RiseTrackerClass.add_stock.
    destruct (_ >=? _)%Z; [exact Hok|].
    destruct (bool_decide _); [exact Hok|].
    destruct (RiseTracker.init _ _ _ _) as [ti|] eqn:E; [|exact Hok].
    cbn [fst]. apply tracker_ok_insert; [exact Hok|].
    apply set_daily_change_rate_well_tracked.
    now apply init_well_tracked in E as [E _].
  - unfold RiseTrackerClass.remove_stock.
    destruct (bool_decide _); [|exact Hok]. now apply tracker_ok_delete.
  - now apply update_price_tracker_ok.
  - unfold RiseTrackerClass.add_bought_stage.
    destruct (_ !! _) as [ti|] eqn:E; [|exact Hok].
    cbn [fst]. apply tracker_ok_insert; [exact Hok|].
    apply add_bought_stage_well_tracked. now apply Hok.
  - unfold RiseTrackerClass.update_bought_stages.
    destruct (_ !! _) as [ti|] eqn:E; [|exact Hok].
    cbn [fst]. apply tracker_ok_insert; [exact Hok|].
    apply add_bought_stage_well_tracked. now apply Hok.
Qed.

Lemma tracker_run_ok (matrix : list MatrixRow) (calls : list TrackerCall)
    (self : RiseTrackerClass.t) :
  tracker_ok matrix self -> tracker_ok matrix (tracker_run matrix calls self).
Proof.
  revert self. induction calls as [|call calls IH]; intros self Hok; [exact Hok|].
  apply IH. now apply tracker_step_ok.
Qed.

(** X1. A tracker that is filled through [add_stock] never answers ERROR to
    a price update, whatever calls it has served and whatever the engine has
    written on its records: the constructor has already divided by the start
    price and read the matrix, so no later tick of a kept record can
    raise. *)
Theorem tracker_update_never_errors (matrix : list MatrixRow)
    (max_tracking_stocks : Z) (calls : list TrackerCall) (today : Z)
    (stock_code : string) (current_price : Q) (daily_change_rate high_price : option Q) :
  snd (RiseTrackerClass.update_price matrix today stock_code current_price
         daily_change_rate high_price
         (tracker_run matrix calls (RiseTrackerClass.init max_tracking_stocks)))
  <> "ERROR".
Proof.
  pose proof (update_price_tracker_ok matrix today stock_code current_price
                daily_change_rate high_price
                (tracker_run matrix calls (RiseTrackerClass.init max_tracking_stocks))
                (tracker_run_ok _ _ _ (init_tracker_ok _ _))) as [_ H].
  intros E. rewrite E in H. cbn in H.
  repeat destruct H as [H|H]; try discriminate; exact H.
Qed.

(** X2. The waiting counter of a tracked record is set to 1 when waiting
    starts and to 0 when tracking resumes, and nothing else writes it but
    [from_dict], which restores a saved value: on a tracker filled through
    [add_stock] it never reaches 3, so no price update answers
    WAITING_COMPLETED. *)
Theorem tracker_waiting_never_completes (matrix : list MatrixRow)
    (max_tracking_stocks : Z) (calls : list TrackerCall) :
  (forall stock_code tracking_info,
      RiseTrackerClass.tracking_stocks
        (tracker_run matrix calls (RiseTrackerClass.init max_tracking_stocks))
      !! stock_code = Some tracking_info ->
      (0 <= RiseTracker.waiting_days tracking_info <= 1)%Z)
  /\ forall today stock_code current_price daily_change_rate high_price,
      snd (RiseTrackerClass.update_price matrix today stock_code current_price
             daily_change_rate high_price
             (tracker_run matrix calls (RiseTrackerClass.init max_tracking_stocks)))
      <> "WAITING_COMPLETED".
Proof.
  pose proof (tracker_run_ok matrix calls _ (init_tracker_ok matrix max_tracking_stocks))
    as Hok.
  split.
  - intros k ti Hk. apply Hok in Hk. unfold well_tracked in Hk. tauto.
  - intros today stock_code current_price daily_change_rate high_price.
    pose proof (update_price_tracker_ok matrix today stock_code current_price
                  daily_change_rate high_price _ Hok) as [_ H].
    intros E. rewrite E in H. cbn in H.
    repeat destruct H as [H|H]; try discriminate; exact H.
Qed.

(** X3. Every record of a tracker filled through [add_stock], whatever
    calls the tracker has served and whatever the engine has written on its
    records, is stored under its own symbol, has a high at or above its
    start price, carries the rise rate of that high over the start price and
    a pullback that is not negative, and its three lines are those of the
    matrix row of its rise rate; its status is TRACKING, WAITING, READY or
    the STOPPED that [process_tumepok_signal] writes, a COMPLETED record
    being removed by the update that completes it. *)
Theorem tracker_records_well_formed (matrix : list MatrixRow)
    (max_tracking_stocks : Z) (calls : list TrackerCall) (stock_code : string)
    (tracking_info : RiseTracker.TrackingInfo) :
  RiseTrackerClass.get_tracking_info stock_code
    (tracker_run matrix calls (RiseTrackerClass.init max_tracking_stocks))
  = Some tracking_info ->
  RiseTracker.stock_code tracking_info = stock_code
  /\ RiseTracker.start_price tracking_info <= RiseTracker.high_price tracking_info
  /\ RiseTracker.rise_rate tracking_info
     == Spec.current_rise_from_start (RiseTracker.start_price tracking_info)
                                     (RiseTracker.high_price tracking_info)
  /\ 0 <= RiseTracker.drop_rate tracking_info
  /\ In (RiseTracker.status tracking_info) ["TRACKING"; "WAITING"; "READY"; "STOPPED"]
  /\ exists row,
      Spec.lookup matrix (RiseTracker.rise_rate tracking_info) row
      /\ RiseTracker.target_drop_1st tracking_info = drop_min row
      /\ RiseTracker.target_drop_2nd tracking_info = (drop_min row + drop_max row) / 2
      /\ RiseTracker.target_drop_3rd tracking_info = drop_max row.
Proof.
  intros H.
  apply (tracker_run_ok matrix calls _ (init_tracker_ok matrix max_tracking_stocks)) in H.
  destruct H as (Hc & Hs & Hh & Hr & Hd & Hw & Hst & row & Hrow & Hmin & Hmax & H1 & H2 & H3).
  repeat match goal with |- _ /\ _ => split end; try assumption.
  - rewrite Hr. unfold Spec.current_rise_from_start. reflexivity.
  - destruct Hst as [E|[E|[E|E]]]; rewrite E; cbn; auto.
  - exists row. tauto.
Qed.

Lemma tracker_records_well_formed_witness :
  exists tracking_info,
    RiseTrackerClass.get_tracking_info "005930"
      (tracker_run scenario_matrix scenario_stopped_calls (RiseTrackerClass.init 20))
    = Some tracking_info
    /\ RiseTracker.status tracking_info = "STOPPED"
    /\ RiseTracker.target_drop_2nd tracking_info == 11.5
    /\ RiseTracker.start_price tracking_info <= RiseTracker.high_price tracking_info.
Proof.
  eexists. split; [vm_compute; reflexivity|]. split; [reflexivity|].
  split; [vm_compute; reflexivity|].
  eapply (tracker_records_well_formed scenario_matrix 20 scenario_stopped_calls "005930").
  vm_compute. reflexivity.
Defined.

(** One call on the number of tracked symbols: it does not grow, unless
    the call is an [add_stock] that finds the tracker below its limit and
    stores one more symbol. *)
Lemma tracker_step_size (matrix : list MatrixRow) (self : RiseTrackerClass.t)
    (call : TrackerCall) :
  let self' := tracker_step matrix self call in
  (size (RiseTrackerClass.tracking_stocks self')
   <= size (RiseTrackerClass.tracking_stocks self))%nat
  \/ (exists today stock_code start_price start_date daily_change_rate,
         call = AddStock today stock_code start_price start_date daily_change_rate
         /\ RiseTrackerClass.add_stock matrix today stock_code start_price start_date
              daily_change_rate self = (self', true)
         /\ RiseTrackerClass.max_tracking_stocks self'
            = RiseTrackerClass.max_tracking_stocks self
         /\ size (RiseTrackerClass.tracking_stocks self')
            = S (size (RiseTrackerClass.tracking_stocks self))
         /\ (Z.of_nat (size (RiseTrackerClass.tracking_stocks self'))
             <= RiseTrackerClass.max_tracking_stocks self)%Z).
Proof.
  cbv zeta.
  destruct call as [today code sp sd dcr|code|today code cp dcr hp|code stage|code stage
                   |limit|env oracle engine code];
    cbn [tracker_step].
  - unfold RiseTrackerClass.add_stock.
    destruct (_ >=? _)%Z eqn:Efull; [left; reflexivity|].
    destruct (bool_decide _) eqn:Ein; [left; reflexivity|].
    destruct (RiseTracker.init _ _ _ _) as [ti|] eqn:Einit; [|left; reflexivity].
    right. exists today, code, sp, sd, dcr. split; [reflexivity|].
    cbn [fst].
    assert (Hsize : size (<[code := RiseTracker.set_daily_change_rate dcr ti]>
                            (RiseTrackerClass.tracking_stocks self))
                    = S (size (RiseTrackerClass.tracking_stocks self))).
    { apply bool_decide_eq_false in Ein.
      rewrite map_size_insert_None; [reflexivity|].
      destruct (_ !! code) eqn:E; [exfalso; apply Ein; eauto|reflexivity]. }
    split; [rewrite Ein, Einit; reflexivity|]. split; [reflexivity|]. cbn.
    split; [exact Hsize|]. rewrite Hsize. lia.
  - left. unfold RiseTrackerClass.remove_stock.
    destruct (bool_decide _) eqn:Ein; [|reflexivity]. cbn.
    apply bool_decide_eq_true in Ein.
    rewrite (map_size_delete_Some _ _ Ein). lia.
  - left. unfold RiseTrackerClass.update_price.
    destruct (_ !! code) as [ti|] eqn:E; [|reflexivity].
    destruct (RiseTracker.update_price _ _ _ _ _ _) as [[ti' r]|].
    + destruct (String.eqb _ _); cbn.
      * unfold RiseTrackerClass.remove_stock. cbn.
        rewrite bool_decide_eq_true_2 by (rewrite lookup_insert_eq; eauto). cbn.
        rewrite delete_insert_eq, map_size_delete_Some by eauto. lia.
      * now rewrite map_size_insert_Some by eauto.
    + cbn. now rewrite map_size_insert_Some by eauto.
  - left. unfold RiseTrackerClass.add_bought_stage.
    destruct (_ !! code) as [ti|] eqn:E; [|reflexivity].
    cbn. now rewrite map_size_insert_Some by eauto.
  - left. unfold RiseTrackerClass.update_bought_stages.
    destruct (_ !! code) as [ti|] eqn:E; [|reflexivity].
    cbn. now rewrite map_size_insert_Some by eauto.
  - left. reflexivity.
  - left. unfold on_realtime_data_signal, RiseTrackerClass.get_tracking_info.
    destruct (_ !! code) as [ti|] eqn:E; [|reflexivity].
    destruct (_ || _); [|reflexivity].
    destruct (EngineTracker.process_tumepok_signal _ _ _ _ _) as [ti' engine'].
    cbn. now rewrite map_size_insert_Some by eauto.
Qed.

Lemma tracker_step_limit (matrix : list MatrixRow) (self : RiseTrackerClass.t)
    (call : TrackerCall) :
  RiseTrackerClass.max_tracking_stocks (tracker_step matrix self call)
  = match call with
    | UpdateConfig max_tracking_stocks => default 20%Z max_tracking_stocks
    | _ => RiseTrackerClass.max_tracking_stocks self
    end.
Proof.
  destruct call as [today code sp sd dcr|code|today code cp dcr hp|code stage|code stage
                   |limit|env oracle engine code];
    cbn [tracker_step]; try reflexivity.
  - unfold RiseTrackerClass.add_stock.
    destruct (_ >=? _)%Z; [reflexivity|]. destruct (bool_decide _); [reflexivity|].
    now destruct (RiseTracker.init _ _ _ _).
  - unfold RiseTrackerClass.remove_stock. now destruct (bool_decide _).
  - unfold RiseTrackerClass.update_price.
    destruct (_ !! code); [|reflexivity].
    destruct (RiseTracker.update_price _ _ _ _ _ _) as [[ti' r]|]; [|reflexivity].
    destruct (String.eqb _ _); [|reflexivity].
    unfold RiseTrackerClass.remove_stock. now destruct (bool_decide _).
  - unfold RiseTrackerClass.add_bought_stage. now destruct (_ !! code).
  - unfold RiseTrackerClass.update_bought_stages. now destruct (_ !! code).
  - unfold on_realtime_data_signal, RiseTrackerClass.get_tracking_info.
    destruct (_ !! code); [|reflexivity]. destruct (_ || _); [|reflexivity].
    now destruct (EngineTracker.process_tumepok_signal _ _ _ _ _).
Qed.

(** X4. [add_stock] is the only call of a tracker that stores a new symbol,
    and it stores one only while the tracker holds fewer symbols than its
    limit: a call either leaves the number of symbols as it was or lower, or
    it is an [add_stock] that answers [True], adds one symbol and ends at or
    below the limit.  So a tracker that starts empty never holds more
    symbols than the largest limit that was in force, [update_config]
    included; [update_config] itself evicts nothing, and after it has
    lowered the limit the tracker may hold more symbols than the limit
    allows. *)
Theorem tracker_capacity (matrix : list MatrixRow) (max_tracking_stocks bound : Z)
    (calls : list TrackerCall) :
  (max_tracking_stocks <= bound)%Z ->
  forallb (limit_within bound) calls = true ->
  (Z.of_nat (size (RiseTrackerClass.tracking_stocks
                     (tracker_run matrix calls
                        (RiseTrackerClass.init max_tracking_stocks))))
   <= Z.max 0 bound)%Z
  /\ forall (self : RiseTrackerClass.t) (call : TrackerCall),
      let self' := tracker_step matrix self call in
      (size (RiseTrackerClass.tracking_stocks self')
       <= size (RiseTrackerClass.tracking_stocks self))%nat
      \/ (exists today stock_code start_price start_date daily_change_rate,
             call = AddStock today stock_code start_price start_date daily_change_rate
             /\ RiseTrackerClass.add_stock matrix today stock_code start_price start_date
                  daily_change_rate self = (self', true)
             /\ RiseTrackerClass.max_tracking_stocks self'
                = RiseTrackerClass.max_tracking_stocks self
             /\ size (RiseTrackerClass.tracking_stocks self')
                = S (size (RiseTrackerClass.tracking_stocks self))
             /\ (Z.of_nat (size (RiseTrackerClass.tracking_stocks self'))
                 <= RiseTrackerClass.max_tracking_stocks self)%Z).
Proof.
  intros Hmax Hlimits. split; [|apply tracker_step_size].
  assert (H : forall self,
             forallb (limit_within bound) calls = true ->
             (RiseTrackerClass.max_tracking_stocks self <= bound)%Z ->
             (Z.of_nat (size (RiseTrackerClass.tracking_stocks self)) <= Z.max 0 bound)%Z ->
             (Z.of_nat (size (RiseTrackerClass.tracking_stocks
                                (tracker_run matrix calls self)))
              <= Z.max 0 bound)%Z).
  { clear Hlimits. induction calls as [|call calls IH]; intros self Hl Hm Hs; [exact Hs|].
    cbn [forallb] in Hl. apply andb_true_iff in Hl as [Hcall Hl].
    change (tracker_run matrix (call :: calls) self)
      with (tracker_run matrix calls (tracker_step matrix self call)).
    apply IH; [exact Hl| |].
    - rewrite tracker_step_limit. destruct call; try exact Hm.
      cbn in Hcall. lia.
    - destruct (tracker_step_size matrix self call)
        as [Hle | (today & code & sp & sd & dcr & _ & _ & _ & _ & Hle)]; lia. }
  apply H; [exact Hlimits | exact Hmax|]. cbn. rewrite map_size_empty. lia.
Qed.

Lemma tracker_capacity_witness :
  (Z.of_nat (size (RiseTrackerClass.tracking_stocks
                     (tracker_run scenario_matrix scenario_lowered_limit_calls
                        (RiseTrackerClass.init 2))))
   <= Z.max 0 2)%Z.
Proof.
  apply (tracker_capacity scenario_matrix 2 2 scenario_lowered_limit_calls);
    [lia | reflexivity].
Defined.

(** Lowering the limit evicts nothing: with two symbols tracked under a
    limit of two, [update_config] with a limit of one leaves both, and the
    tracker holds more symbols than its limit; the next [add_stock] is
    refused. *)
Example update_config_keeps_records :
  let self :=
    tracker_run scenario_matrix scenario_lowered_limit_calls (RiseTrackerClass.init 2) in
  RiseTrackerClass.max_tracking_stocks self = 1%Z
  /\ size (RiseTrackerClass.tracking_stocks self) = 2%nat
  /\ snd (RiseTrackerClass.add_stock scenario_matrix 3 "035420" 30000 None 0 self) = false.
Proof.
  repeat split; vm_compute; reflexivity.
Qed.

Lemma status_filters_partition (entries : list (string * RiseTracker.TrackingInfo)) :
  List.Forall (fun entry =>
                 RiseTracker.status (snd entry) = "TRACKING"
                 \/ RiseTracker.status (snd entry) = "WAITING"
                 \/ RiseTracker.status (snd entry) = "READY"
                 \/ RiseTracker.status (snd entry) = "STOPPED") entries ->
  (List.length (List.filter (fun entry => String.eqb (RiseTracker.status (snd entry)) "READY")
                            entries)
   + List.length (List.filter (fun entry =>
                                 String.eqb (RiseTracker.status (snd entry)) "TRACKING")
                              entries)
   + List.length (List.filter (fun entry =>
                                 String.eqb (RiseTracker.status (snd entry)) "WAITING")
                              entries)
   + List.length (List.filter (fun entry =>
                                 String.eqb (RiseTracker.status (snd entry)) "STOPPED")
                              entries))%nat
  = List.length entries.
Proof.
  induction 1 as [|entry entries Hst _ IH]; [reflexivity|].
  cbn [List.filter]. destruct Hst as [E|[E|[E|E]]]; rewrite E; cbn; lia.
Qed.

(** X5. The statistics of a tracker filled through [add_stock], whatever
    the engine has written on its records: the READY, TRACKING and WAITING
    counts that [get_statistics] reports, together with the number of
    STOPPED records, add up to [total_tracking], and no record is counted
    under any other status.  A record that [process_tumepok_signal] has
    marked STOPPED stays in the tracker and is counted in [total_tracking]
    and in [status_counts] only: the three named counts then fall short of
    the total. *)
Theorem tracker_statistics_partition (matrix : list MatrixRow)
    (max_tracking_stocks : Z) (calls : list TrackerCall) :
  let self := tracker_run matrix calls (RiseTrackerClass.init max_tracking_stocks) in
  (RiseTrackerClass.status_count "READY" self
   + RiseTrackerClass.status_count "TRACKING" self
   + RiseTrackerClass.status_count "WAITING" self
   + RiseTrackerClass.status_count "STOPPED" self)%nat
  = RiseTrackerClass.total_tracking self
  /\ forall status,
      ~ In status ["READY"; "TRACKING"; "WAITING"; "STOPPED"] ->
      RiseTrackerClass.status_count status self = 0%nat.
Proof.
  cbv zeta.
  pose proof (tracker_run_ok matrix calls _ (init_tracker_ok matrix max_tracking_stocks))
    as Hok.
  set (self := tracker_run matrix calls (RiseTrackerClass.init max_tracking_stocks)) in *.
  assert (Hall : List.Forall
                   (fun entry =>
                      RiseTracker.status (snd entry) = "TRACKING"
                      \/ RiseTracker.status (snd entry) = "WAITING"
                      \/ RiseTracker.status (snd entry) = "READY"
                      \/ RiseTracker.status (snd entry) = "STOPPED")
                   (map_to_list (RiseTrackerClass.tracking_stocks self))).
  { apply List.Forall_forall. intros [k ti] Hin.
    apply list_elem_of_In, elem_of_map_to_list in Hin. apply Hok in Hin.
    unfold well_tracked in Hin. cbn. tauto. }
  split.
  - unfold RiseTrackerClass.status_count, RiseTrackerClass.total_tracking.
    rewrite (status_filters_partition _ Hall). apply length_map_to_list.
  - intros status Hstatus. unfold RiseTrackerClass.status_count.
    induction Hall as [|entry entries Hst _ IH]; [reflexivity|].
    cbn [List.filter].
    destruct (String.eqb_spec (RiseTracker.status (snd entry)) status) as [E|_];
      [|exact IH].
    exfalso. apply Hstatus. rewrite <- E. cbn.
    destruct Hst as [-> | [-> | [-> | ->]]]; tauto.
Qed.

(** The run that ends with a STOPPED record: the three named counts of the
    statistics are all 0 while one symbol is tracked. *)
Example statistics_miss_the_stopped_record :
  let self :=
    tracker_run scenario_matrix scenario_stopped_calls (RiseTrackerClass.init 20) in
  RiseTrackerClass.total_tracking self = 1%nat
  /\ RiseTrackerClass.status_count "STOPPED" self = 1%nat
  /\ (RiseTrackerClass.status_count "READY" self
      + RiseTrackerClass.status_count "TRACKING" self
      + RiseTrackerClass.status_count "WAITING" self)%nat = 0%nat.
Proof.
  repeat split; vm_compute; reflexivity.
Qed.

(** ** The status of a tracked record *)

(** A tick that does not raise the high ends in the state dispatch, run on a
    record with the status and the waiting counter of before. *)
Lemma update_price_dispatch (matrix : list MatrixRow) (today : Z) (current_price : Q)
    (daily_change_rate high_price_arg : option Q)
    (self self' : RiseTracker.TrackingInfo) (r : string) :
  RiseTracker.update_price matrix today current_price daily_change_rate high_price_arg self
  = Py.Ok (self', r) ->
  (r = "HIGH_UPDATED" /\ RiseTracker.status self' = RiseTracker.status self)
  \/ exists s,
      RiseTracker.status s = RiseTracker.status self
      /\ RiseTracker.waiting_days s = RiseTracker.waiting_days self
      /\ (self', r)
         = if String.eqb (RiseTracker.status s) "TRACKING" then
             RiseTracker.check_tumepok_entry today s
           else if String.eqb (RiseTracker.status s) "WAITING" then
             RiseTracker.check_waiting_period s
           else if String.eqb (RiseTracker.status s) "READY" then (s, "READY")
           else (s, "CONTINUE").
Proof.
  intros H.
  destruct (update_price_cases _ _ _ _ _ _ _ _ H) as [(-> & _ & Hst & _)|(Hr & _)];
    [left; now split|].
  right. revert H. unfold RiseTracker.update_price.
  set (s0 := RiseTracker.set_rise_days _ _).
  assert (Hs0 : RiseTracker.status s0 = RiseTracker.status self
                /\ RiseTracker.waiting_days s0 = RiseTracker.waiting_days self)
    by (subst s0; destruct daily_change_rate; split; reflexivity).
  destruct Hs0 as [Hst Hwd]. clearbody s0.
  destruct (RiseTracker.update_high current_price high_price_arg s0) as [s1 hu] eqn:E.
  destruct (record_daily_price_frame today current_price hu s1) as (prices & ->).
  destruct hu.
  - destruct (RiseTracker.update_tumepok_calculation _ _);
      cbn [mbind result_bind Py.bind]; [|discriminate].
    intros H. injection H. intros <- _. now contradiction Hr.
  - apply update_high_false in E as ->.
    destruct (update_drop_rate_frame current_price
                (RiseTracker.set_daily_prices prices s0)) as (d & ->).
    intros H.
    exists (RiseTracker.set_drop_rate d (RiseTracker.set_daily_prices prices s0)).
    split; [exact Hst|]. split; [exact Hwd|]. revert H.
    repeat match goal with
           | |- context [if String.eqb ?x ?y then _ else _] => destruct (String.eqb x y)
           end; intros H;
      apply (f_equal (fun x => match x with Py.Ok v => v | Py.Raise _ => (self', r) end))
        in H; now rewrite H.
Qed.

(** X6. The status of a tracked record moves along the edges of the state
    machine only.  READY is absorbing under price updates, as is any status
    other than TRACKING and WAITING; WAITING goes to TRACKING or READY;
    TRACKING goes to WAITING, READY or COMPLETED. *)
Theorem update_price_status_transitions (matrix : list MatrixRow) (today : Z)
    (current_price : Q) (daily_change_rate high_price_arg : option Q)
    (self self' : RiseTracker.TrackingInfo) (r : string) :
  RiseTracker.update_price matrix today current_price daily_change_rate high_price_arg self
  = Py.Ok (self', r) ->
  (RiseTracker.status self = "TRACKING" ->
   In (RiseTracker.status self') ["TRACKING"; "WAITING"; "READY"; "COMPLETED"])
  /\ (RiseTracker.status self = "WAITING" ->
      In (RiseTracker.status self') ["WAITING"; "TRACKING"; "READY"])
  /\ (RiseTracker.status self <> "TRACKING" -> RiseTracker.status self <> "WAITING" ->
      RiseTracker.status self' = RiseTracker.status self).
Proof.
  intros H. apply update_price_dispatch in H as [[_ ->]|(s & Hst & _ & H)].
  - repeat split; intros E; rewrite ?E; cbn; auto.
  - rewrite <- Hst. clear Hst.
    destruct (String.eqb (RiseTracker.status s) "TRACKING") eqn:E1.
    { apply String.eqb_eq in E1. unfold RiseTracker.check_tumepok_entry in H.
      repeat match type of H with
             | context [if ?x then _ else _] => destruct x
             end; injection H as -> _; cbn;
        repeat split; intros; try congruence; rewrite ?E1; cbn; auto 6. }
    apply String.eqb_neq in E1.
    destruct (String.eqb (RiseTracker.status s) "WAITING") eqn:E2.
    { apply String.eqb_eq in E2. unfold RiseTracker.check_waiting_period in H.
      repeat match type of H with
             | context [if ?x then _ else _] => destruct x
             end; injection H as -> _; cbn;
        repeat split; intros; try congruence; rewrite ?E2; cbn; auto 6. }
    apply String.eqb_neq in E2.
    destruct (String.eqb (RiseTracker.status s) "READY");
      injection H as -> _; repeat split; intros; congruence.
Qed.

Lemma update_price_status_transitions_witness :
  exists self' r,
    RiseTracker.update_price scenario_matrix 2 13300 None None scenario_tracking
    = Py.Ok (self', r)
    /\ In (RiseTracker.status self') ["TRACKING"; "WAITING"; "READY"; "COMPLETED"].
Proof.
  eexists _, _. split; [vm_compute; reflexivity|].
  refine (proj1 (update_price_status_transitions scenario_matrix 2 13300 None None
                   scenario_tracking _ _ _) _); [vm_compute; reflexivity|reflexivity].
Defined.

(** X7. The answer of a price update tells the status the record is left
    in: MAX_DAYS_EXCEEDED leaves it COMPLETED; TUMEPOK_READY,
    WAITING_COMPLETED and READY leave it READY, the first with a pullback at
    or past the first line; WAITING_STARTED and WAITING leave it WAITING, the
    first with the waiting counter on 1; TRACKING_RESUMED leaves it TRACKING
    with the counter on 0; HIGH_UPDATED leaves the status as it was. *)
Theorem update_price_answer_status (matrix : list MatrixRow) (today : Z)
    (current_price : Q) (daily_change_rate high_price_arg : option Q)
    (self self' : RiseTracker.TrackingInfo) (r : string) :
  RiseTracker.update_price matrix today current_price daily_change_rate high_price_arg self
  = Py.Ok (self', r) ->
  (r = "HIGH_UPDATED" -> RiseTracker.status self' = RiseTracker.status self)
  /\ (r = "MAX_DAYS_EXCEEDED" -> RiseTracker.status self' = "COMPLETED")
  /\ (r = "TUMEPOK_READY" ->
      RiseTracker.status self' = "READY"
      /\ RiseTracker.target_drop_min self' <= RiseTracker.drop_rate self')
  /\ (r = "WAITING_COMPLETED" \/ r = "READY" -> RiseTracker.status self' = "READY")
  /\ (r = "WAITING_STARTED" ->
      RiseTracker.status self' = "WAITING" /\ RiseTracker.waiting_days self' = 1%Z)
  /\ (r = "WAITING" -> RiseTracker.status self' = "WAITING")
  /\ (r = "TRACKING_RESUMED" ->
      RiseTracker.status self' = "TRACKING" /\ RiseTracker.waiting_days self' = 0%Z).
Proof.
  intros H. apply update_price_dispatch in H as [[-> ->]|(s & _ & _ & H)].
  - repeat split; solve [reflexivity | discriminate | intros [?|?]; discriminate].
  - assert (Hgeb : forall a b, Py.geb a b = true -> b <= a) by (intros; now apply geb_iff).
    destruct (String.eqb (RiseTracker.status s) "TRACKING") eqn:E1;
      [unfold RiseTracker.check_tumepok_entry in H|
       destruct (String.eqb (RiseTracker.status s) "WAITING") eqn:E2;
       [unfold RiseTracker.check_waiting_period in H|
        destruct (String.eqb (RiseTracker.status s) "READY") eqn:E3]];
      repeat match type of H with
             | context [if ?x then _ else _] => destruct x eqn:?
             end; injection H as -> ->; cbn;
      repeat match goal with |- _ /\ _ => split end;
      try discriminate; try (intros [?|?]; discriminate); intros _;
      try reflexivity; try (split; reflexivity);
      try (split; [reflexivity|now apply Hgeb]);
      now apply String.eqb_eq.
Qed.

Lemma update_price_answer_status_witness :
  exists self' r,
    RiseTracker.update_price scenario_matrix 2 13300 None None scenario_tracking
    = Py.Ok (self', r)
    /\ r = "TUMEPOK_READY"
    /\ RiseTracker.status self' = "READY"
    /\ RiseTracker.target_drop_min self' <= RiseTracker.drop_rate self'.
Proof.
  eexists _, _. split; [vm_compute; reflexivity|]. split; [reflexivity|].
  refine (proj1 (proj2 (proj2 (update_price_answer_status scenario_matrix 2 13300 None
                                 None scenario_tracking _ _ _))) _);
    [vm_compute; reflexivity|reflexivity].
Defined.

(** ** What a tracker call keeps of a record *)

Lemma update_high_keeps (current_price : Q) (high_price_arg : option Q)
    (self : RiseTracker.TrackingInfo) :
  exists v,
    fst (RiseTracker.update_high current_price high_price_arg self)
    = RiseTracker.set_high_price v self
    /\ RiseTracker.high_price self <= v.
Proof.
  destruct (RiseTracker.update_high current_price high_price_arg self) as [s hu] eqn:E.
  destruct hu.
  - apply update_high_true in E as (v & -> & Hv). exists v. split; [reflexivity|].
    now apply Qlt_le_weak.
  - apply update_high_false in E as ->. exists (RiseTracker.high_price self).
    split; [now destruct self|apply Qle_refl].
Qed.

Lemma update_price_keeps (matrix : list MatrixRow) (today : Z) (current_price : Q)
    (daily_change_rate high_price_arg : option Q)
    (self self' : RiseTracker.TrackingInfo) (r : string) :
  RiseTracker.update_price matrix today current_price daily_change_rate high_price_arg self
  = Py.Ok (self', r) ->
  RiseTracker.stock_code self' = RiseTracker.stock_code self
  /\ RiseTracker.start_price self' = RiseTracker.start_price self
  /\ RiseTracker.start_date self' = RiseTracker.start_date self
  /\ RiseTracker.bought_stages self' = RiseTracker.bought_stages self
  /\ RiseTracker.high_price self <= RiseTracker.high_price self'.
Proof.
  unfold RiseTracker.update_price.
  set (s0 := RiseTracker.set_rise_days _ _).
  assert (Hs0 : RiseTracker.stock_code s0 = RiseTracker.stock_code self
                /\ RiseTracker.start_price s0 = RiseTracker.start_price self
                /\ RiseTracker.start_date s0 = RiseTracker.start_date self
                /\ RiseTracker.bought_stages s0 = RiseTracker.bought_stages self
                /\ RiseTracker.high_price s0 = RiseTracker.high_price self)
    by (subst s0; destruct daily_change_rate; repeat split).
  destruct Hs0 as (<- & <- & <- & <- & <-). clearbody s0.
  destruct (update_high_keeps current_price high_price_arg s0) as (v & Ev & Hv).
  destruct (RiseTracker.update_high current_price high_price_arg s0) as [s1 hu].
  cbn [fst] in Ev. subst s1.
  destruct (record_daily_price_frame today current_price hu
              (RiseTracker.set_high_price v s0)) as (prices & ->).
  destruct hu.
  - unfold RiseTracker.update_tumepok_calculation.
    destruct (Py.div _ _); [|discriminate]. cbn [mbind result_bind Py.bind].
    destruct (matrix_scan _ _);
      [|destruct (Py.last_item matrix); [|discriminate]];
      cbn [mbind result_bind Py.bind]; intros H; injection H; intros _ <-; cbn;
      repeat split; exact Hv.
  - destruct (update_drop_rate_frame current_price
                (RiseTracker.set_daily_prices prices (RiseTracker.set_high_price v s0)))
      as (d & ->).
    set (s3 := RiseTracker.set_drop_rate d _).
    assert (Hs3 : RiseTracker.stock_code s3 = RiseTracker.stock_code s0
                  /\ RiseTracker.start_price s3 = RiseTracker.start_price s0
                  /\ RiseTracker.start_date s3 = RiseTracker.start_date s0
                  /\ RiseTracker.bought_stages s3 = RiseTracker.bought_stages s0
                  /\ RiseTracker.high_price s0 <= RiseTracker.high_price s3)
      by (subst s3; cbn; repeat split; exact Hv).
    clearbody s3.
    destruct (check_tumepok_entry_frame today s3) as (st1 & wd1 & E1).
    destruct (check_waiting_period_frame s3) as (st2 & wd2 & E2).
    intros H.
    assert (Hs' : exists st wd,
               self' = RiseTracker.set_waiting_days wd (RiseTracker.set_status st s3)).
    { repeat match type of H with
             | context [if String.eqb ?x ?y then _ else _] => destruct (String.eqb x y)
             end;
        apply (f_equal (fun x => match x with Py.Ok v => fst v | Py.Raise _ => self' end))
          in H; cbn [fst] in H; subst self'; eauto.
      all: exists (RiseTracker.status s3), (RiseTracker.waiting_days s3); now destruct s3. }
    destruct Hs' as (st & wd & ->). exact Hs3.
Qed.

Lemma update_price_raised_keeps (today : Z) (current_price : Q)
    (daily_change_rate high_price_arg : option Q) (self : RiseTracker.TrackingInfo) :
  RiseTracker.start_price
    (RiseTrackerClass.update_price_raised today current_price daily_change_rate
                                          high_price_arg self)
  = RiseTracker.start_price self
  /\ RiseTracker.bought_stages
       (RiseTrackerClass.update_price_raised today current_price daily_change_rate
                                             high_price_arg self)
     = RiseTracker.bought_stages self
  /\ RiseTracker.high_price self
     <= RiseTracker.high_price
          (RiseTrackerClass.update_price_raised today current_price daily_change_rate
                                                high_price_arg self).
Proof.
  unfold RiseTrackerClass.update_price_raised.
  set (s0 := RiseTracker.set_rise_days _ _).
  assert (Hs0 : RiseTracker.start_price s0 = RiseTracker.start_price self
                /\ RiseTracker.bought_stages s0 = RiseTracker.bought_stages self
                /\ RiseTracker.high_price s0 = RiseTracker.high_price self)
    by (subst s0; destruct daily_change_rate; repeat split).
  destruct Hs0 as (<- & <- & <-). clearbody s0.
  destruct (update_high_keeps current_price high_price_arg s0) as (v & Ev & Hv).
  destruct (RiseTracker.update_high current_price high_price_arg s0) as [s1 hu].
  cbn [fst] in Ev. subst s1.
  destruct (record_daily_price_frame today current_price hu
              (RiseTracker.set_high_price v s0)) as (prices & ->).
  destruct (Py.div _ _); cbn; repeat split; exact Hv.
Qed.

(** X8. Whatever call a tracker serves, the signal processing of the
    engine on its records included, a record that is there before and after
    the call keeps its start price and the stages it has bought, and its
    high does not decrease. *)
Theorem tracker_step_keeps (matrix : list MatrixRow) (self : RiseTrackerClass.t)
    (call : TrackerCall) (stock_code : string)
    (tracking_info tracking_info' : RiseTracker.TrackingInfo) :
  RiseTrackerClass.get_tracking_info stock_code self = Some tracking_info ->
  RiseTrackerClass.get_tracking_info stock_code (tracker_step matrix self call)
  = Some tracking_info' ->
  RiseTracker.start_price tracking_info' = RiseTracker.start_price tracking_info
  /\ RiseTracker.bought_stages tracking_info ⊆ RiseTracker.bought_stages tracking_info'
  /\ RiseTracker.high_price tracking_info <= RiseTracker.high_price tracking_info'.
Proof.
  unfold RiseTrackerClass.get_tracking_info. intros Hti.
  assert (Hsame : RiseTrackerClass.tracking_stocks self !! stock_code = Some tracking_info' ->
                  RiseTracker.start_price tracking_info'
                  = RiseTracker.start_price tracking_info
                  /\ RiseTracker.bought_stages tracking_info
                     ⊆ RiseTracker.bought_stages tracking_info'
                  /\ RiseTracker.high_price tracking_info
                     <= RiseTracker.high_price tracking_info').
  { rewrite Hti. intros [= <-]. split; [reflexivity|]. split; [reflexivity|apply Qle_refl]. }
  destruct call as [today code sp sd dcr|code|today code cp dcr hp|code stage|code stage
                   |limit|env oracle engine code];
    cbn [tracker_step]; [| | | | |exact Hsame|].
  - unfold RiseTrackerClass.add_stock.
    destruct (_ >=? _)%Z; [exact Hsame|].
    destruct (bool_decide _) eqn:Ein; [exact Hsame|].
    destruct (RiseTracker.init _ _ _ _); [|exact Hsame].
    cbn. apply bool_decide_eq_false in Ein.
    destruct (decide (stock_code = code)) as [->|Hne].
    + exfalso. apply Ein. eauto.
    + rewrite lookup_insert_ne by congruence. exact Hsame.
  - unfold RiseTrackerClass.remove_stock.
    destruct (bool_decide _); [|exact Hsame]. cbn. intros H.
    apply lookup_delete_Some in H as [_ H]. auto.
  - unfold RiseTrackerClass.update_price.
    destruct (RiseTrackerClass.tracking_stocks self !! code) as [ti|] eqn:E; [|exact Hsame].
    destruct (decide (stock_code = code)) as [->|Hne].
    + rewrite Hti in E. injection E as <-.
      destruct (RiseTracker.update_price _ _ _ _ _ _) as [[ti' r]|] eqn:Eu.
      * apply update_price_keeps in Eu as (_ & Hs & _ & Hb & Hh).
        destruct (String.eqb _ _); cbn.
        -- unfold RiseTrackerClass.remove_stock. cbn.
           rewrite bool_decide_eq_true_2 by (rewrite lookup_insert_eq; eauto). cbn.
           now rewrite lookup_delete_eq.
        -- rewrite lookup_insert_eq. intros [= <-]. rewrite Hb. auto.
      * cbn. rewrite lookup_insert_eq. intros [= <-].
        destruct (update_price_raised_keeps today cp dcr hp tracking_info)
          as (Hs & Hb & Hh).
        rewrite Hb. auto.
    + destruct (RiseTracker.update_price _ _ _ _ _ _) as [[ti' r]|].
      * destruct (String.eqb _ _); cbn.
        -- unfold RiseTrackerClass.remove_stock. cbn.
           rewrite bool_decide_eq_true_2 by (rewrite lookup_insert_eq; eauto). cbn.
           rewrite lookup_delete_ne, lookup_insert_ne by congruence. exact Hsame.
        -- rewrite lookup_insert_ne by congruence. exact Hsame.
      * cbn. rewrite lookup_insert_ne by congruence. exact Hsame.
  - unfold RiseTrackerClass.add_bought_stage.
    destruct (RiseTrackerClass.tracking_stocks self !! code) as [ti|] eqn:E; [|exact Hsame].
    cbn. destruct (decide (stock_code = code)) as [->|Hne].
    + rewrite Hti in E. injection E as <-. rewrite lookup_insert_eq. intros [= <-].
      cbn. split; [reflexivity|]. split; [apply union_subseteq_l|apply Qle_refl].
    + rewrite lookup_insert_ne by congruence. exact Hsame.
  - unfold RiseTrackerClass.update_bought_stages.
    destruct (RiseTrackerClass.tracking_stocks self !! code) as [ti|] eqn:E; [|exact Hsame].
    cbn. destruct (decide (stock_code = code)) as [->|Hne].
    + rewrite Hti in E. injection E as <-. rewrite lookup_insert_eq. intros [= <-].
      cbn. split; [reflexivity|]. split; [apply union_subseteq_l|apply Qle_refl].
    + rewrite lookup_insert_ne by congruence. exact Hsame.
  - unfold on_realtime_data_signal, RiseTrackerClass.get_tracking_info.
    destruct (RiseTrackerClass.tracking_stocks self !! code) as [ti|] eqn:E; [|exact Hsame].
    destruct (_ || _); [|exact Hsame].
    pose proof (process_tumepok_signal_record env oracle code ti engine) as Hrec.
    cbv zeta in Hrec.
    destruct (EngineTracker.process_tumepok_signal _ _ _ _ _) as [ti' engine'].
    cbn [fst] in *. cbn. destruct (decide (stock_code = code)) as [->|Hne].
    + rewrite Hti in E. injection E as <-. rewrite lookup_insert_eq. intros [= <-].
      destruct Hrec as [-> | [(-> & _) | (stage & ->)]]; cbn.
      * split; [reflexivity|]. split; [reflexivity|apply Qle_refl].
      * destruct tracking_info; cbn.
        split; [reflexivity|]. split; [reflexivity|apply Qle_refl].
      * split; [reflexivity|]. split; [apply union_subseteq_l|apply Qle_refl].
    + rewrite lookup_insert_ne by congruence. exact Hsame.
Qed.

Lemma tracker_step_keeps_witness :
  exists tracking_info tracking_info',
    RiseTrackerClass.get_tracking_info "005930"
      (tracker_run scenario_matrix [AddStock 1 "005930" 10000 None 0]
                   (RiseTrackerClass.init 20))
    = Some tracking_info
    /\ RiseTrackerClass.get_tracking_info "005930"
         (tracker_step scenario_matrix
            (tracker_run scenario_matrix [AddStock 1 "005930" 10000 None 0]
                         (RiseTrackerClass.init 20))
            (UpdatePrice 2 "005930" 14500 None None))
       = Some tracking_info'
    /\ RiseTracker.high_price tracking_info <= RiseTracker.high_price tracking_info'.
Proof.
  eexists _, _. split; [vm_compute; reflexivity|]. split; [vm_compute; reflexivity|].
  eapply (tracker_step_keeps scenario_matrix
            (tracker_run scenario_matrix [AddStock 1 "005930" 10000 None 0]
                         (RiseTrackerClass.init 20))
            (UpdatePrice 2 "005930" 14500 None None) "005930");
    vm_compute; reflexivity.
Defined.

(** ** Saving and reloading a tracked record *)

(** X9. [from_dict] gives back the record that [to_dict] was taken from,
    provided the matrix is not empty and the start price is not zero:
    [from_dict] goes through the constructor, which divides by the start
    price and reads the matrix before any attribute is restored.  With a
    zero start price the reload raises instead. *)
Theorem from_dict_to_dict (matrix : list MatrixRow) (last_update : Z)
    (self : RiseTracker.TrackingInfo) :
  (matrix <> [] -> ~ RiseTracker.start_price self == 0 ->
   TrackingData.from_dict matrix (TrackingData.to_dict last_update self) = Py.Ok self)
  /\ (RiseTracker.start_price self == 0 ->
      TrackingData.from_dict matrix (TrackingData.to_dict last_update self)
      = Py.Raise Py.ZeroDivisionError).
Proof.
  split.
  - intros Hne Hs. unfold TrackingData.from_dict, TrackingData.to_dict.
    cbn [TrackingData.item TrackingData.stock_code TrackingData.start_price
         TrackingData.start_date mbind result_bind Py.bind].
    unfold RiseTracker.init.
    set (s := RiseTracker.add_daily_price _ _ _).
    destruct (update_tumepok_calculation_well_tracked matrix s Hne Hs) as (row & _ & ->).
    cbn. rewrite list_to_set_elements_L. now destruct self.
  - intros Hs. unfold TrackingData.from_dict, TrackingData.to_dict.
    cbn [TrackingData.item TrackingData.stock_code TrackingData.start_price
         TrackingData.start_date mbind result_bind Py.bind].
    unfold RiseTracker.init, RiseTracker.update_tumepok_calculation, Py.div.
    cbn [RiseTracker.start_price RiseTracker.add_daily_price RiseTracker.set_daily_prices].
    apply Qeq_bool_iff in Hs. now rewrite Hs.
Qed.

Lemma from_dict_to_dict_witness :
  TrackingData.from_dict scenario_matrix (TrackingData.to_dict 2 scenario_tracking)
  = Py.Ok scenario_tracking.
Proof.
  apply (from_dict_to_dict scenario_matrix 2 scenario_tracking).
  - discriminate.
  - vm_compute. discriminate.
Defined.

(** ** The PositionManager class *)

Lemma update_current_price_rates (calculate_profit_rate : Q -> Q -> Q) (price : Q)
    (position : PositionManager.PositionInfo) :
  PositionManager.stop_loss_rate
    (PositionManager.update_current_price calculate_profit_rate price position)
  = PositionManager.stop_loss_rate position
  /\ PositionManager.trailing_trigger_rate
       (PositionManager.update_current_price calculate_profit_rate price position)
     = PositionManager.trailing_trigger_rate position
  /\ PositionManager.trailing_sell_rate
       (PositionManager.update_current_price calculate_profit_rate price position)
     = PositionManager.trailing_sell_rate position.
Proof.
  destruct position as [code stages tq ta avg cur pr pa act high trig sell stop st].
  unfold PositionManager.update_current_price, PositionManager.update_trailing_stop.
  destruct (Py.gtb avg 0); cbn -[Py.geb Py.gtb];
    repeat match goal with
           | |- context [if ?x then _ else _] => destruct x; cbn -[Py.geb Py.gtb]
           end; repeat split.
Qed.

Lemma add_buy_stage_rates (stage_info : PositionManager.BuyStageInfo)
    (position position' : PositionManager.PositionInfo) :
  PositionManager.add_buy_stage stage_info position = Py.Ok position' ->
  PositionManager.stop_loss_rate position' = PositionManager.stop_loss_rate position
  /\ PositionManager.trailing_trigger_rate position'
     = PositionManager.trailing_trigger_rate position
  /\ PositionManager.trailing_sell_rate position'
     = PositionManager.trailing_sell_rate position.
Proof.
  destruct position as [code stages tq ta avg cur pr pa act high trig sell stop st].
  unfold PositionManager.add_buy_stage, PositionManager.calculate_weighted_avg_price.
  destruct (Py.gtb _ 0).
  - destruct (Py.div _ _); cbn; [|discriminate]. intros [= <-]. repeat split.
  - intros [= <-]. repeat split.
Qed.

Lemma position_step_settings (calculate_profit_rate : Q -> Q -> Q)
    (self : PositionManagerClass.t) (call : PositionCall) :
  (forall stock_code position,
      PositionManagerClass.positions self !! stock_code = Some position ->
      settings_applied self position) ->
  forall stock_code position,
    PositionManagerClass.positions (position_step calculate_profit_rate self call)
    !! stock_code = Some position ->
    settings_applied (position_step calculate_profit_rate self call) position.
Proof.
  intros Hinv.
  destruct call as [code stage price quantity amount|code price|code|code|sl tt ts];
    cbn [position_step].
  - unfold PositionManagerClass.add_position.
    set (p0 := match PositionManagerClass.positions self !! code with
               | Some position => position
               | None => PositionManager.init code
               end).
    set (p1 := PositionManagerClass.set_trailing_sell_rate _ _).
    assert (H1 : settings_applied self p1)
      by (subst p1; destruct p0; repeat split).
    clearbody p1.
    destruct (PositionManager.add_buy_stage _ p1) as [p2|] eqn:E; cbn [fst];
      intros k p; cbn; (destruct (decide (k = code)) as [->|Hne];
        [rewrite lookup_insert_eq; intros [= <-]
        |rewrite lookup_insert_ne by congruence; apply Hinv]).
    + apply add_buy_stage_rates in E as (E1 & E2 & E3).
      unfold settings_applied in *. cbn. rewrite E1, E2, E3. exact H1.
    + unfold settings_applied in *. destruct p1. exact H1.
  - unfold PositionManagerClass.update_position.
    destruct (PositionManagerClass.positions self !! code) as [p|] eqn:E; [|exact Hinv].
    rewrite (surjective_pairing (PositionManager.update_position _ _ _)).
    rewrite fst_update_position. cbn [fst]. intros k p'. cbn.
    destruct (decide (k = code)) as [->|Hne].
    + rewrite lookup_insert_eq. intros [= <-].
      destruct (update_current_price_rates calculate_profit_rate price p)
        as (E1 & E2 & E3).
      unfold settings_applied. cbn. rewrite E1, E2, E3. now apply (Hinv code).
    + rewrite lookup_insert_ne by congruence. apply Hinv.
  - unfold PositionManagerClass.remove_position.
    destruct (bool_decide _); [|exact Hinv]. cbn. intros k p H.
    apply lookup_delete_Some in H as [_ H]. now apply (Hinv k).
  - unfold PositionManagerClass.force_sell_position, PositionManagerClass.remove_position.
    destruct (bool_decide _); [|exact Hinv]. cbn. intros k p H.
    apply lookup_delete_Some in H as [_ H]. now apply (Hinv k).
  - intros k p. cbn. rewrite lookup_fmap.
    destruct (PositionManagerClass.positions self !! k) as [p0|] eqn:E; [|discriminate].
    cbn. intros [= <-]. destruct (Hinv _ _ E) as (H1 & H2 & H3).
    destruct p0. cbn in *. subst.
    destruct sl, tt, ts; repeat split.
Qed.

Lemma position_run_settings (calculate_profit_rate : Q -> Q -> Q)
    (calls : list PositionCall) (self : PositionManagerClass.t) :
  (forall stock_code position,
      PositionManagerClass.positions self !! stock_code = Some position ->
      settings_applied self position) ->
  forall stock_code position,
    PositionManagerClass.positions (position_run calculate_profit_rate calls self)
    !! stock_code = Some position ->
    settings_applied (position_run calculate_profit_rate calls self) position.
Proof.
  revert self. induction calls as [|call calls IH]; intros self Hinv; [exact Hinv|].
  apply IH. now apply position_step_settings.
Qed.

Lemma check_sell_conditions_stop_loss (position : PositionManager.PositionInfo) :
  PositionManager.check_sell_conditions position = Py.Ok (Some PositionManager.STOP_LOSS)
  <-> PositionManager.profit_rate position <= PositionManager.stop_loss_rate position.
Proof.
  unfold PositionManager.check_sell_conditions.
  destruct (Py.leb _ _) eqn:E.
  - apply leb_iff in E. tauto.
  - apply leb_false_iff in E. split.
    + destruct (PositionManager.trailing_activated position); [|discriminate].
      destruct (Py.div _ _); cbn; [|discriminate].
      destruct (Py.geb _ _); discriminate.
    + intros H. exfalso. apply (Qlt_not_le _ _ E H).
Qed.

(** X10. The rates of the manager govern every open position.  Over any
    sequence of [add_position], [update_position], [remove_position],
    [force_sell_position] and [update_settings] calls on a new manager,
    each position carries the stop-loss rate, the trailing trigger and the
    trailing sell rate of the manager as they are now, so that a price
    update signals STOP_LOSS exactly when the profit rate it computes is at
    or below the stop-loss rate last set on the manager. *)
Theorem manager_rates_govern_positions (calculate_profit_rate : Q -> Q -> Q)
    (calls : list PositionCall) (stock_code : string)
    (position : PositionManager.PositionInfo) (current_price : Q) :
  PositionManagerClass.get_position stock_code
    (position_run calculate_profit_rate calls PositionManagerClass.init)
  = Some position ->
  settings_applied (position_run calculate_profit_rate calls PositionManagerClass.init)
                   position
  /\ (snd (PositionManagerClass.update_position calculate_profit_rate stock_code
             current_price
             (position_run calculate_profit_rate calls PositionManagerClass.init))
      = Some PositionManager.STOP_LOSS
      <-> PositionManager.profit_rate
            (PositionManager.update_current_price calculate_profit_rate current_price
                                                  position)
          <= PositionManagerClass.stop_loss_rate
               (position_run calculate_profit_rate calls PositionManagerClass.init)).
Proof.
  unfold PositionManagerClass.get_position. intros Hp.
  assert (Hs : settings_applied
                 (position_run calculate_profit_rate calls PositionManagerClass.init)
                 position).
  { apply (position_run_settings calculate_profit_rate calls PositionManagerClass.init)
      with stock_code; [|exact Hp].
    intros k p. cbn. now rewrite lookup_empty. }
  split; [exact Hs|].
  unfold PositionManagerClass.update_position. rewrite Hp.
  unfold PositionManager.update_position.
  set (p' := PositionManager.update_current_price _ _ _).
  destruct Hs as (Hsl & _).
  rewrite <- Hsl.
  replace (PositionManager.stop_loss_rate position)
    with (PositionManager.stop_loss_rate p')
    by apply update_current_price_rates.
  rewrite <- check_sell_conditions_stop_loss.
  destruct (PositionManager.check_sell_conditions p') as [sig|]; cbn [snd].
  - split; congruence.
  - split; discriminate.
Qed.

Lemma manager_rates_govern_positions_witness :
  exists position,
    PositionManagerClass.get_position "005930"
      (position_run Spec.calculate_profit_rate
         [AddPosition "005930" STAGE_1 10000 10 100000;
          UpdateSettings (Some (-3)) None None]
         PositionManagerClass.init)
    = Some position
    /\ settings_applied
         (position_run Spec.calculate_profit_rate
            [AddPosition "005930" STAGE_1 10000 10 100000;
             UpdateSettings (Some (-3)) None None]
            PositionManagerClass.init)
         position.
Proof.
  eexists. split; [vm_compute; reflexivity|].
  eapply (manager_rates_govern_positions Spec.calculate_profit_rate
            [AddPosition "005930" STAGE_1 10000 10 100000;
             UpdateSettings (Some (-3)) None None] "005930" _ 9750).
  vm_compute. reflexivity.
Defined.

(** ** The sell signal of a price update *)

Lemma update_current_price_high (calculate_profit_rate : Q -> Q -> Q) (price : Q)
    (position : PositionManager.PositionInfo) :
  PositionManager.trailing_activated
    (PositionManager.update_current_price calculate_profit_rate price position) = true ->
  price <= PositionManager.trailing_high
             (PositionManager.update_current_price calculate_profit_rate price position).
Proof.
  destruct position as [code stages tq ta avg cur pr pa act high trig sell stop st].
  unfold PositionManager.update_current_price, PositionManager.update_trailing_stop.
  destruct (Py.gtb avg 0); cbn -[Py.geb Py.gtb];
    (destruct act; cbn -[Py.geb Py.gtb];
     [destruct (Py.gtb price high) eqn:E; cbn -[Py.geb Py.gtb]; intros _;
      [apply Qle_refl | now apply gtb_false_iff in E]
     |match goal with
      | |- context [Py.geb ?x trig] => destruct (Py.geb x trig) eqn:E
      end; cbn -[Py.geb Py.gtb]; [|discriminate];
      destruct (Py.gtb price price); cbn; intros _; apply Qle_refl]).
Qed.



(** ** The check of all positions *)

Lemma check_sell_conditions_ok (position : PositionManager.PositionInfo) :
  trailing_high_positive position ->
  exists sell_signal,
    PositionManager.check_sell_conditions position = Py.Ok sell_signal.
Proof.
  intros Hpos. unfold PositionManager.check_sell_conditions.
  destruct (Py.leb _ _); [eauto|].
  destruct (PositionManager.trailing_activated position) eqn:E; [|eauto].
  rewrite div_ok.
  - cbn. destruct (Py.geb _ _); eauto.
  - intros H. specialize (Hpos E). rewrite H in Hpos. now apply Qlt_irrefl in Hpos.
Qed.

Lemma check_all_loop_ok (entries : list (string * PositionManager.PositionInfo)) :
  List.Forall (fun entry => trailing_high_positive (snd entry)) entries ->
  exists sell_signals,
    PositionManagerClass.check_all_loop entries = Py.Ok sell_signals
    /\ forall stock_code sell_signal,
        In (stock_code, sell_signal) sell_signals
        <-> exists position,
            In (stock_code, position) entries
            /\ PositionManager.check_sell_conditions position = Py.Ok (Some sell_signal).
Proof.
  induction 1 as [|[code p] entries Hp _ (sigs & Hloop & IH)].
  - exists []. split; [reflexivity|]. intros code sig. split; [intros []|].
    intros (p & [] & _).
  - cbn [PositionManagerClass.check_all_loop]. cbn [snd] in Hp.
    destruct (check_sell_conditions_ok p Hp) as (sig0 & E). rewrite E, Hloop.
    cbn [mbind result_bind Py.bind].
    destruct sig0 as [sig0|]; eexists; (split; [reflexivity|]); intros code' sig'.
    + split.
      * intros [[= <- <-]|H]; [exists p; split; [now left|exact E]|].
        apply IH in H as (p' & Hin & Hc). exists p'. split; [now right|exact Hc].
      * intros (p' & [[= <- <-]|Hin] & Hc).
        -- rewrite E in Hc. injection Hc as <-. now left.
        -- right. apply IH. eauto.
    + rewrite IH. split.
      * intros (p' & Hin & Hc). exists p'. split; [now right|exact Hc].
      * intros (p' & [[= <- <-]|Hin] & Hc); [rewrite E in Hc; discriminate|eauto].
Qed.

Lemma position_step_trailing_high (calculate_profit_rate : Q -> Q -> Q)
    (self : PositionManagerClass.t) (call : PositionCall) :
  positive_price call = true ->
  (forall stock_code position,
      PositionManagerClass.positions self !! stock_code = Some position ->
      trailing_high_positive position) ->
  forall stock_code position,
    PositionManagerClass.positions (position_step calculate_profit_rate self call)
    !! stock_code = Some position ->
    trailing_high_positive position.
Proof.
  intros Hcall Hinv.
  destruct call as [code stage price quantity amount|code price|code|code|sl tt ts];
    cbn [position_step].
  - unfold PositionManagerClass.add_position.
    set (p0 := match PositionManagerClass.positions self !! code with
               | Some position => position
               | None => PositionManager.init code
               end).
    assert (H0 : trailing_high_positive p0).
    { subst p0. destruct (PositionManagerClass.positions self !! code) eqn:E.
      - now apply (Hinv code).
      - intros H. discriminate. }
    set (p1 := PositionManagerClass.set_trailing_sell_rate _ _).
    assert (H1 : trailing_high_positive p1) by (subst p1; destruct p0; exact H0).
    clearbody p1.
    destruct (PositionManager.add_buy_stage _ p1) as [p2|] eqn:E; cbn [fst];
      intros k p; cbn; (destruct (decide (k = code)) as [->|Hne];
        [rewrite lookup_insert_eq; intros [= <-]
        |rewrite lookup_insert_ne by congruence; apply Hinv]).
    + revert E. destruct p1.
      unfold PositionManager.add_buy_stage, PositionManager.calculate_weighted_avg_price.
      destruct (Py.gtb _ 0); [destruct (Py.div _ _); cbn; [|discriminate]|];
        intros [= <-]; exact H1.
    + destruct p1. exact H1.
  - unfold PositionManagerClass.update_position.
    destruct (PositionManagerClass.positions self !! code) as [p|] eqn:E; [|exact Hinv].
    rewrite (surjective_pairing (PositionManager.update_position _ _ _)).
    rewrite fst_update_position. cbn [fst]. intros k p'. cbn.
    destruct (decide (k = code)) as [->|Hne].
    + rewrite lookup_insert_eq. intros [= <-] Hact.
      apply update_current_price_high in Hact. cbn in Hcall. apply gtb_iff in Hcall.
      eapply Qlt_le_trans; eauto.
    + rewrite lookup_insert_ne by congruence. apply Hinv.
  - unfold PositionManagerClass.remove_position.
    destruct (bool_decide _); [|exact Hinv]. cbn. intros k p H.
    apply lookup_delete_Some in H as [_ H]. now apply (Hinv k).
  - unfold PositionManagerClass.force_sell_position, PositionManagerClass.remove_position.
    destruct (bool_decide _); [|exact Hinv]. cbn. intros k p H.
    apply lookup_delete_Some in H as [_ H]. now apply (Hinv k).
  - intros k p. cbn. rewrite lookup_fmap.
    destruct (PositionManagerClass.positions self !! k) as [p0|] eqn:E; [|discriminate].
    cbn. intros [= <-]. pose proof (Hinv _ _ E) as H0.
    destruct p0. destruct sl, tt, ts; exact H0.
Qed.

(** X12. While positions are updated at positive prices only,
    [check_all_positions] never falls into its exception branch, and it
    lists exactly the positions whose own check signals a sale, each with
    its signal. *)
Theorem check_all_positions_complete (calculate_profit_rate : Q -> Q -> Q)
    (calls : list PositionCall) (stock_code sell_signal : string) :
  forallb positive_price calls = true ->
  In (stock_code, sell_signal)
     (PositionManagerClass.check_all_positions
        (position_run calculate_profit_rate calls PositionManagerClass.init))
  <-> exists position,
      PositionManagerClass.get_position stock_code
        (position_run calculate_profit_rate calls PositionManagerClass.init)
      = Some position
      /\ PositionManager.check_sell_conditions position = Py.Ok (Some sell_signal).
Proof.
  intros Hcalls.
  assert (Hinv : forall self,
             (forall k p, PositionManagerClass.positions self !! k = Some p ->
                          trailing_high_positive p) ->
             forall k p,
               PositionManagerClass.positions
                 (position_run calculate_profit_rate calls self) !! k = Some p ->
               trailing_high_positive p).
  { induction calls as [|call calls IH]; intros self Hself; [exact Hself|].
    cbn in Hcalls. apply andb_true_iff in Hcalls as [Hcall Hcalls].
    apply (IH Hcalls). now apply position_step_trailing_high. }
  specialize (Hinv PositionManagerClass.init).
  set (m := position_run calculate_profit_rate calls PositionManagerClass.init) in *.
  assert (Hm : forall k p, PositionManagerClass.positions m !! k = Some p ->
                           trailing_high_positive p).
  { apply Hinv. intros k p. cbn. now rewrite lookup_empty. }
  unfold PositionManagerClass.check_all_positions, PositionManagerClass.get_position.
  destruct (check_all_loop_ok (map_to_list (PositionManagerClass.positions m)))
    as (sigs & -> & Hsigs).
  { apply List.Forall_forall. intros [k p] Hin.
    apply list_elem_of_In, elem_of_map_to_list in Hin. now apply (Hm k). }
  rewrite Hsigs. split; intros (p & Hp & Hc); exists p; (split; [|exact Hc]).
  - now apply list_elem_of_In, elem_of_map_to_list in Hp.
  - now apply list_elem_of_In, elem_of_map_to_list.
Qed.

Lemma check_all_positions_complete_witness :
  In ("005930", PositionManager.TRAILING_SELL)
     (PositionManagerClass.check_all_positions
        (position_run Spec.calculate_profit_rate
           [AddPosition "005930" STAGE_1 10000 10 100000;
            UpdatePosition "005930" 10200; UpdatePosition "005930" 10098]
           PositionManagerClass.init)).
Proof.
  apply (check_all_positions_complete Spec.calculate_profit_rate
           [AddPosition "005930" STAGE_1 10000 10 100000;
            UpdatePosition "005930" 10200; UpdatePosition "005930" 10098]
           "005930" PositionManager.TRAILING_SELL); [reflexivity|].
  eexists. split; vm_compute; reflexivity.
Defined.

(** ** The daily statistics of the risk manager *)

Lemma record_trade_same_day (today : Z) (trade : TradeArgs) (self : RiskManagerClass.t) :
  RiskManagerClass.daily_stats_date self = today ->
  let self' :=
    RiskManagerClass.record_trade today (trade_type trade) (trade_stock_code trade)
                                  (trade_amount trade) (trade_profit trade) self in
  RiskManagerClass.daily_stats_date self' = today
  /\ RiskManager.daily_stats_total_profit (RiskManagerClass.manager self')
     == RiskManager.daily_stats_total_profit (RiskManagerClass.manager self)
        + sum_profit (List.filter is_sell [trade])
  /\ RiskManagerClass.daily_stats_total_loss self'
     == RiskManagerClass.daily_stats_total_loss self
        + sum_loss (List.filter is_sell [trade])
  /\ RiskManagerClass.daily_stats_trade_count self'
     = (RiskManagerClass.daily_stats_trade_count self + 1)%Z
  /\ RiskManagerClass.daily_stats_buy_count self'
     = (RiskManagerClass.daily_stats_buy_count self
        + Z.of_nat (List.length (List.filter is_buy [trade])))%Z
  /\ RiskManagerClass.daily_stats_sell_count self'
     = (RiskManagerClass.daily_stats_sell_count self
        + Z.of_nat (List.length (List.filter is_sell [trade])))%Z
  /\ RiskManagerClass.trade_history self'
     = RiskManagerClass.trade_history self
       ++ [{| RiskManagerClass.date := today;
              RiskManagerClass.type := trade_type trade;
              RiskManagerClass.stock_code := trade_stock_code trade;
              RiskManagerClass.amount := trade_amount trade;
              RiskManagerClass.profit := trade_profit trade |}]
  /\ RiskManager.daily_loss_limit (RiskManagerClass.manager self')
     = RiskManager.daily_loss_limit (RiskManagerClass.manager self).
Proof.
  intros Hdate. cbv zeta.
  unfold RiskManagerClass.record_trade, RiskManagerClass.update_daily_stats.
  cbn [RiskManagerClass.daily_stats_date]. rewrite Hdate, Z.eqb_refl. cbn [negb].
  unfold is_sell, is_buy. cbn [List.filter].
  destruct (String.eqb (trade_type trade) "BUY") eqn:Eb.
  - apply String.eqb_eq in Eb. rewrite Eb. cbn.
    repeat split; try lia; ring.
  - destruct (String.eqb (trade_type trade) "SELL") eqn:Es.
    + destruct (Py.gtb (trade_profit trade) 0) eqn:Eg; cbn -[Py.gtb]; rewrite ?Eg;
        unfold Py.abs; repeat split; try lia; try ring.
    + cbn. repeat split; try lia; ring.
Qed.

Lemma record_trades_same_day (today : Z) (trades : list TradeArgs) :
  forall self,
    RiskManagerClass.daily_stats_date self = today ->
    RiskManagerClass.daily_stats_date (record_trades today trades self) = today
    /\ RiskManager.daily_stats_total_profit
         (RiskManagerClass.manager (record_trades today trades self))
       == RiskManager.daily_stats_total_profit (RiskManagerClass.manager self)
          + sum_profit (List.filter is_sell trades)
    /\ RiskManagerClass.daily_stats_total_loss (record_trades today trades self)
       == RiskManagerClass.daily_stats_total_loss self
          + sum_loss (List.filter is_sell trades)
    /\ RiskManagerClass.daily_stats_trade_count (record_trades today trades self)
       = (RiskManagerClass.daily_stats_trade_count self
          + Z.of_nat (List.length trades))%Z
    /\ RiskManagerClass.daily_stats_buy_count (record_trades today trades self)
       = (RiskManagerClass.daily_stats_buy_count self
          + Z.of_nat (List.length (List.filter is_buy trades)))%Z
    /\ RiskManagerClass.daily_stats_sell_count (record_trades today trades self)
       = (RiskManagerClass.daily_stats_sell_count self
          + Z.of_nat (List.length (List.filter is_sell trades)))%Z
    /\ List.length (RiskManagerClass.trade_history (record_trades today trades self))
       = (List.length (RiskManagerClass.trade_history self) + List.length trades)%nat
    /\ RiskManager.daily_loss_limit
         (RiskManagerClass.manager (record_trades today trades self))
       = RiskManager.daily_loss_limit (RiskManagerClass.manager self).
Proof.
  induction trades as [|trade trades IH]; intros self Hdate.
  - cbn. repeat split; try assumption; try lia; try ring.
  - change (record_trades today (trade :: trades) self)
      with (record_trades today trades
              (RiskManagerClass.record_trade today (trade_type trade)
                 (trade_stock_code trade) (trade_amount trade) (trade_profit trade) self)).
    destruct (record_trade_same_day today trade self Hdate)
      as (H0 & H1 & H2 & H3 & H4 & H5 & H6 & H7).
    destruct (IH _ H0) as (I0 & I1 & I2 & I3 & I4 & I5 & I6 & I7).
    split; [exact I0|].
    split; [rewrite I1, H1; unfold is_sell; cbn [List.filter];
            destruct (String.eqb (trade_type trade) "SELL");
            unfold sum_profit; cbn [List.fold_right]; ring|].
    split; [rewrite I2, H2; unfold is_sell; cbn [List.filter];
            destruct (String.eqb (trade_type trade) "SELL");
            unfold sum_loss; cbn [List.fold_right]; ring|].
    split; [rewrite I3, H3; cbn [List.length]; lia|].
    split; [rewrite I4, H4; unfold is_buy; cbn [List.filter];
            destruct (String.eqb (trade_type trade) "BUY"); cbn [List.length]; lia|].
    split; [rewrite I5, H5; unfold is_sell; cbn [List.filter];
            destruct (String.eqb (trade_type trade) "SELL"); cbn [List.length]; lia|].
    split; [rewrite I6, H6, List.length_app; cbn [List.length]; lia|].
    congruence.
Qed.

Lemma sum_loss_nonnegative (trades : list TradeArgs) : 0 <= sum_loss trades.
Proof.
  induction trades as [|trade trades IH]; [apply Qle_refl|].
  unfold sum_loss in *. cbn [List.fold_right].
  pose proof (Qabs_nonneg (trade_profit trade)) as Habs.
  destruct (Py.gtb _ 0); lra.
Qed.

(** X13. The daily statistics after any sequence of trades recorded on the
    day the manager was created: the total profit is the sum of the profits
    of the SELL trades, gains and losses alike; the total loss is the sum of
    the absolute values of the SELL profits that are not positive, and is
    never negative; the three counters count all trades, the BUY trades and
    the SELL trades; a trade of any other type is counted in [trade_count]
    only; the history holds one record per trade. *)
Theorem daily_stats_accounting (today : Z) (trades : list TradeArgs) :
  let self := record_trades today trades (RiskManagerClass.init today) in
  RiskManager.daily_stats_total_profit (RiskManagerClass.manager self)
  == sum_profit (List.filter is_sell trades)
  /\ RiskManagerClass.daily_stats_total_loss self == sum_loss (List.filter is_sell trades)
  /\ 0 <= RiskManagerClass.daily_stats_total_loss self
  /\ RiskManagerClass.daily_stats_trade_count self = Z.of_nat (List.length trades)
  /\ RiskManagerClass.daily_stats_buy_count self
     = Z.of_nat (List.length (List.filter is_buy trades))
  /\ RiskManagerClass.daily_stats_sell_count self
     = Z.of_nat (List.length (List.filter is_sell trades))
  /\ List.length (RiskManagerClass.trade_history self) = List.length trades.
Proof.
  cbv zeta.
  destruct (record_trades_same_day today trades (RiskManagerClass.init today) eq_refl)
    as (_ & H1 & H2 & H3 & H4 & H5 & H6 & _).
  cbn in H1, H2, H3, H4, H5, H6.
  pose proof (sum_loss_nonnegative (List.filter is_sell trades)) as Hn.
  split; [lra|]. split; [lra|]. split; [lra|].
  repeat split; lia.
Qed.

(** X14. The daily statistics cover the trades of the current day only.
    The first trade recorded on another day than the one of the statistics
    resets them, so that after the trades of a day and then at least one
    trade of another day the totals and the counters are those of the trades
    of the second day, while the history keeps the records of both. *)
Theorem daily_stats_new_day (day1 day2 : Z) (trades1 trades2 : list TradeArgs) :
  day1 <> day2 ->
  trades2 <> [] ->
  let self :=
    record_trades day2 trades2 (record_trades day1 trades1 (RiskManagerClass.init day1)) in
  RiskManagerClass.daily_stats_date self = day2
  /\ RiskManager.daily_stats_total_profit (RiskManagerClass.manager self)
     == sum_profit (List.filter is_sell trades2)
  /\ RiskManagerClass.daily_stats_total_loss self == sum_loss (List.filter is_sell trades2)
  /\ RiskManagerClass.daily_stats_trade_count self = Z.of_nat (List.length trades2)
  /\ RiskManagerClass.daily_stats_sell_count self
     = Z.of_nat (List.length (List.filter is_sell trades2))
  /\ List.length (RiskManagerClass.trade_history self)
     = (List.length trades1 + List.length trades2)%nat.
Proof.
  intros Hday Hne. cbv zeta.
  destruct (record_trades_same_day day1 trades1 (RiskManagerClass.init day1) eq_refl)
    as (D0 & _ & _ & _ & _ & _ & D6 & _).
  set (s1 := record_trades day1 trades1 (RiskManagerClass.init day1)) in *.
  cbn in D6. destruct trades2 as [|trade trades2]; [contradiction|].
  change (record_trades day2 (trade :: trades2) s1)
    with (record_trades day2 trades2
            (RiskManagerClass.record_trade day2 (trade_type trade)
               (trade_stock_code trade) (trade_amount trade) (trade_profit trade) s1)).
  set (s1' := {| RiskManagerClass.manager :=
                   RiskManagerClass.set_total_profit 0.0 (RiskManagerClass.manager s1);
                 RiskManagerClass.daily_stats_date := day2;
                 RiskManagerClass.daily_stats_total_loss := 0.0;
                 RiskManagerClass.daily_stats_trade_count := 0;
                 RiskManagerClass.daily_stats_buy_count := 0;
                 RiskManagerClass.daily_stats_sell_count := 0;
                 RiskManagerClass.trade_history := RiskManagerClass.trade_history s1 |}).
  assert (E : RiskManagerClass.record_trade day2 (trade_type trade)
                (trade_stock_code trade) (trade_amount trade) (trade_profit trade) s1
              = RiskManagerClass.record_trade day2 (trade_type trade)
                  (trade_stock_code trade) (trade_amount trade) (trade_profit trade) s1').
  { unfold RiskManagerClass.record_trade, RiskManagerClass.update_daily_stats.
    cbn [RiskManagerClass.daily_stats_date]. rewrite D0, Z.eqb_refl.
    replace (day1 =? day2)%Z with false by (symmetry; now apply Z.eqb_neq).
    reflexivity. }
  rewrite E.
  destruct (record_trades_same_day day2 (trade :: trades2) s1' eq_refl)
    as (H0 & H1 & H2 & H3 & _ & H5 & H6 & _).
  change (record_trades day2 (trade :: trades2) s1')
    with (record_trades day2 trades2
            (RiskManagerClass.record_trade day2 (trade_type trade)
               (trade_stock_code trade) (trade_amount trade) (trade_profit trade) s1'))
    in *.
  cbn [s1' RiskManagerClass.manager RiskManagerClass.daily_stats_total_loss
       RiskManagerClass.daily_stats_trade_count RiskManagerClass.daily_stats_sell_count
       RiskManagerClass.trade_history RiskManagerClass.set_total_profit
       RiskManager.daily_stats_total_profit] in H1, H2, H3, H5, H6.
  split; [exact H0|]. split; [rewrite H1; ring|]. split; [rewrite H2; ring|].
  split; [exact H3|]. split; [exact H5|]. rewrite H6, D6. reflexivity.
Qed.

Lemma daily_stats_new_day_witness :
  RiskManager.daily_stats_total_profit
    (RiskManagerClass.manager
       (record_trades 2
          [{| trade_type := "SELL"; trade_stock_code := "005930";
              trade_amount := 100000; trade_profit := 1500 |}]
          (record_trades 1
             [{| trade_type := "SELL"; trade_stock_code := "005930";
                 trade_amount := 100000; trade_profit := -3000 |}]
             (RiskManagerClass.init 1))))
  == 1500.
Proof.
  pose proof (daily_stats_new_day 1 2
                [{| trade_type := "SELL"; trade_stock_code := "005930";
                    trade_amount := 100000; trade_profit := -3000 |}]
                [{| trade_type := "SELL"; trade_stock_code := "005930";
                    trade_amount := 100000; trade_profit := 1500 |}]) as H.
  cbv zeta in H. destruct H as (_ & H & _); [lia|discriminate|].
  rewrite H. vm_compute. reflexivity.
Defined.

(** ** The risk score *)

(** X15. The risk score is never above 100, and with a number of rise days
    and a number of positions that are not negative it is never below 0.
    When the day is at a loss and the daily loss limit is zero, the division
    raises and the score is 100. *)
Theorem calculate_risk_score_bounds (self : RiskManager.t) (rise_days : Z) (rise_rate : Q)
    (current_positions : Z) :
  RiskManagerClass.calculate_risk_score self rise_days rise_rate current_positions <= 100
  /\ ((0 <= rise_days)%Z -> (0 <= current_positions)%Z ->
      0 <= RiskManagerClass.calculate_risk_score self rise_days rise_rate
             current_positions)
  /\ (RiskManager.daily_stats_total_profit self < 0 ->
      RiskManager.daily_loss_limit self == 0 ->
      RiskManagerClass.calculate_risk_score self rise_days rise_rate current_positions
      = 100).
Proof.
  unfold RiskManagerClass.calculate_risk_score.
  set (score := _ + inject_Z (Z.min (current_positions * 2) 20)).
  assert (Hscore : (0 <= rise_days)%Z -> (0 <= current_positions)%Z -> 0 <= score).
  { intros Hd Hp. subst score.
    assert (H1 : 0 <= inject_Z (Z.min (rise_days * 8) 40))
      by (change 0 with (inject_Z 0); rewrite <- Zle_Qle; lia).
    assert (H2 : 0 <= inject_Z (Z.min (current_positions * 2) 20))
      by (change 0 with (inject_Z 0); rewrite <- Zle_Qle; lia).
    repeat match goal with |- context [if ?x then _ else _] => destruct x end; lra. }
  clearbody score.
  split; [|split].
  - destruct (Py.ltb _ 0); [destruct (Py.div _ _)|]; try apply Q.le_min_r. apply Qle_refl.
  - intros Hd Hp. specialize (Hscore Hd Hp).
    destruct (Py.ltb _ 0); [destruct (Py.div _ _) as [q|]|].
    + pose proof (Qabs_nonneg q) as Hq. unfold Py.abs.
      apply Q.min_glb; [|lra].
      assert (0 <= Qmin (Qabs q * 10) 10) by (apply Q.min_glb; lra). lra.
    + lra.
    + apply Q.min_glb; lra.
  - intros Hloss Hzero. apply ltb_iff in Hloss. rewrite Hloss.
    unfold Py.div. apply Qeq_bool_iff in Hzero. now rewrite Hzero.
Qed.

Lemma calculate_risk_score_bounds_witness :
  0 <= RiskManagerClass.calculate_risk_score RiskManager.init 3 75 4.
Proof.
  apply (calculate_risk_score_bounds RiskManager.init 3 75 4); lia.
Defined.

(** ** Stopping for the day *)

Lemma check_entry_allowed_loss_limit (self : RiskManager.t) (rise_days : Z) (rise_rate : Q)
    (amount current_positions : Z) :
  RiskManager.daily_stats_total_profit self <= RiskManager.daily_loss_limit self ->
  fst (RiskManager.check_entry_allowed self rise_days rise_rate amount current_positions)
  = false.
Proof.
  intros H. apply leb_iff in H. unfold RiskManager.check_entry_allowed.
  repeat match goal with
         | |- context [if ?x then _ else _] => destruct x eqn:?
         end; try reflexivity; congruence.
Qed.

(** A trade that is not a sale, recorded on the day of the statistics,
    leaves the total profit and the settings of the manager as they are. *)
Lemma record_trades_without_sale (today : Z) (trades : list TradeArgs) :
  forall self,
    RiskManagerClass.daily_stats_date self = today ->
    forallb (fun trade => negb (is_sell trade)) trades = true ->
    RiskManagerClass.daily_stats_date (record_trades today trades self) = today
    /\ RiskManagerClass.manager (record_trades today trades self)
       = RiskManagerClass.manager self.
Proof.
  induction trades as [|trade trades IH]; intros self Hdate Hno; [now split|].
  cbn [forallb] in Hno. apply andb_true_iff in Hno as [Hone Hno].
  change (record_trades today (trade :: trades) self)
    with (record_trades today trades
            (RiskManagerClass.record_trade today (trade_type trade)
               (trade_stock_code trade) (trade_amount trade) (trade_profit trade) self)).
  assert (Hstep : RiskManagerClass.daily_stats_date
                    (RiskManagerClass.record_trade today (trade_type trade)
                       (trade_stock_code trade) (trade_amount trade)
                       (trade_profit trade) self) = today
                  /\ RiskManagerClass.manager
                       (RiskManagerClass.record_trade today (trade_type trade)
                          (trade_stock_code trade) (trade_amount trade)
                          (trade_profit trade) self)
                     = RiskManagerClass.manager self).
  { unfold RiskManagerClass.record_trade, RiskManagerClass.update_daily_stats.
    cbn [RiskManagerClass.daily_stats_date]. rewrite Hdate, Z.eqb_refl. cbn [negb].
    unfold is_sell in Hone. apply negb_true_iff in Hone. rewrite Hone.
    destruct (String.eqb (trade_type trade) "BUY"); now split. }
  destruct Hstep as (Hd & Hm). destruct (IH _ Hd Hno) as (Hd' & Hm').
  split; [exact Hd' | now rewrite Hm'].
Qed.

(** X16. The loss limit is tested on the total profit that the manager
    holds.  When that total is at or below the daily loss limit,
    [should_stop_trading] stops trading at any hour with the loss limit as
    its reason, the first of its tests, and [calculate_position_size] allows
    no entry, whatever the rise, the base amount and the number of
    positions; trades recorded on the same day that are not sales change
    neither the total nor the limit, so the stop stays.  The total is the
    float that [update_daily_stats] has accumulated, which can differ in its
    last bit from the decimal sum of the profits recorded. *)
Theorem loss_limit_stops_the_day (today hour : Z) (self : RiskManagerClass.t)
    (trades : list TradeArgs) (base_amount : Q) (rise_days : Z) (rise_rate : Q)
    (current_positions : Z) :
  RiskManager.daily_stats_total_profit (RiskManagerClass.manager self)
  <= RiskManager.daily_loss_limit (RiskManagerClass.manager self) ->
  RiskManagerClass.daily_stats_date self = today ->
  forallb (fun trade => negb (is_sell trade)) trades = true ->
  let self' := record_trades today trades self in
  RiskManagerClass.manager self' = RiskManagerClass.manager self
  /\ RiskManagerClass.should_stop_trading hour self'
     = (true,
        RiskManagerClass.LossLimitReached
          (RiskManager.daily_stats_total_profit (RiskManagerClass.manager self)))
  /\ RiskManager.allowed
       (RiskManager.calculate_position_size (RiskManagerClass.manager self') base_amount
          rise_days rise_rate current_positions)
     = false.
Proof.
  intros Hlimit Hdate Hno. cbv zeta.
  destruct (record_trades_without_sale today trades self Hdate Hno) as (_ & Hm).
  split; [exact Hm|].
  unfold RiskManagerClass.should_stop_trading. rewrite Hm.
  pose proof Hlimit as Hb. apply leb_iff in Hb. rewrite Hb.
  split; [reflexivity|].
  unfold RiskManager.calculate_position_size.
  pose proof (check_entry_allowed_loss_limit (RiskManagerClass.manager self) rise_days
                rise_rate
                (Py.int (base_amount
                         * (RiskManager.get_day_ratio (RiskManagerClass.manager self)
                              rise_days
                            * RiskManager.get_rise_rate_ratio
                                (RiskManagerClass.manager self) rise_rate
                            * RiskManager.get_position_ratio current_positions)))
                current_positions Hlimit) as Hgate.
  destruct (RiskManager.check_entry_allowed _ _ _ _ _) as [allowed reason].
  cbn in Hgate |- *. exact Hgate.
Qed.

Lemma loss_limit_stops_the_day_witness :
  fst (RiskManagerClass.should_stop_trading 10
         (record_trades 1
            [{| trade_type := "BUY"; trade_stock_code := "035420";
                trade_amount := 300000; trade_profit := 0 |}]
            (record_trades 1
               [{| trade_type := "SELL"; trade_stock_code := "005930";
                   trade_amount := 1000000; trade_profit := -120000 |};
                {| trade_type := "SELL"; trade_stock_code := "000660";
                   trade_amount := 300000; trade_profit := -80000 |}]
               (RiskManagerClass.init 1))))
  = true.
Proof.
  pose proof (loss_limit_stops_the_day 1 10
                (record_trades 1
                   [{| trade_type := "SELL"; trade_stock_code := "005930";
                       trade_amount := 1000000; trade_profit := -120000 |};
                    {| trade_type := "SELL"; trade_stock_code := "000660";
                       trade_amount := 300000; trade_profit := -80000 |}]
                   (RiskManagerClass.init 1))
                [{| trade_type := "BUY"; trade_stock_code := "035420";
                    trade_amount := 300000; trade_profit := 0 |}]
                200000 1 30 0) as H.
  cbv zeta in H. destruct H as (_ & H & _).
  - vm_compute. discriminate.
  - reflexivity.
  - reflexivity.
  - rewrite H. reflexivity.
Defined.

(** ** The trade history *)

Lemma filter_length_split {A : Type} (f : A -> bool) (xs : list A) :
  (List.length (List.filter f xs) + List.length (List.filter (fun x => negb (f x)) xs))%nat
  = List.length xs.
Proof.
  induction xs as [|x xs IH]; [reflexivity|].
  cbn [List.filter]. destruct (f x); cbn [negb List.length]; lia.
Qed.

Lemma filter_filter_same {A : Type} (f : A -> bool) (xs : list A) :
  List.filter f (List.filter f xs) = List.filter f xs.
Proof.
  induction xs as [|x xs IH]; [reflexivity|].
  cbn [List.filter]. destruct (f x) eqn:E; [|exact IH].
  cbn [List.filter]. now rewrite E, IH.
Qed.

(** X17. [cleanup_old_trades] returns the number of trades dated before the
    cutoff day, keeps the other trades in their order, and is idempotent: a
    second cleanup with the same cutoff removes nothing. *)
Theorem cleanup_old_trades_count (today days : Z) (self : RiskManagerClass.t) :
  let cutoff_date := (today - days)%Z in
  let self' := fst (RiskManagerClass.cleanup_old_trades today days self) in
  snd (RiskManagerClass.cleanup_old_trades today days self)
  = Z.of_nat (List.length
                (List.filter (fun trade => (RiskManagerClass.date trade <? cutoff_date)%Z)
                             (RiskManagerClass.trade_history self)))
  /\ List.Forall (fun trade => (cutoff_date <= RiskManagerClass.date trade)%Z)
                 (RiskManagerClass.trade_history self')
  /\ (Z.of_nat (List.length (RiskManagerClass.trade_history self'))
      + snd (RiskManagerClass.cleanup_old_trades today days self))%Z
     = Z.of_nat (List.length (RiskManagerClass.trade_history self))
  /\ RiskManagerClass.cleanup_old_trades today days self' = (self', 0%Z).
Proof.
  cbv zeta. unfold RiskManagerClass.cleanup_old_trades.
  cbn [fst snd RiskManagerClass.trade_history RiskManagerClass.manager
       RiskManagerClass.daily_stats_date RiskManagerClass.daily_stats_total_loss
       RiskManagerClass.daily_stats_trade_count RiskManagerClass.daily_stats_buy_count
       RiskManagerClass.daily_stats_sell_count].
  set (keep := fun trade => (RiskManagerClass.date trade >=? today - days)%Z).
  pose proof (filter_length_split keep (RiskManagerClass.trade_history self)) as Hsplit.
  assert (Hold : List.filter (fun x => negb (keep x)) (RiskManagerClass.trade_history self)
                 = List.filter
                     (fun trade => (RiskManagerClass.date trade <? today - days)%Z)
                     (RiskManagerClass.trade_history self)).
  { apply List.filter_ext. intros trade. subst keep. cbn. lia. }
  rewrite Hold in Hsplit.
  split; [lia|]. split.
  - apply List.Forall_forall. intros trade Hin. apply List.filter_In in Hin as [_ Hin].
    subst keep. cbn in Hin. lia.
  - split; [lia|]. rewrite filter_filter_same. f_equal. lia.
Qed.

Lemma last_n_app_three {A : Type} (xs : list A) (a b c : A) :
  exists front,
    RiskManagerClass.last_n 5 (xs ++ [a; b; c]) = front ++ [a; b; c]
    /\ (List.length front <= 2)%nat.
Proof.
  unfold RiskManagerClass.last_n. rewrite List.length_app. cbn [List.length].
  destruct (5 <=? List.length xs + 3)%nat eqn:E.
  - apply Nat.leb_le in E.
    exists (List.skipn (List.length xs + 3 - 5) xs). split.
    + rewrite List.skipn_app.
      replace (List.length xs + 3 - 5 - List.length xs)%nat with 0%nat by lia.
      reflexivity.
    + rewrite List.length_skipn. lia.
  - apply Nat.leb_gt in E. exists xs. split; [reflexivity|lia].
Qed.

(** X18. The second rule of [should_stop_trading] looks at the last five
    records of the history, purchases included, and fires on three losses
    among them, consecutive or not: once three trades without a loss have
    been recorded after any history, it does not fire, whatever losses came
    before. *)
Theorem repeated_losses_window (today hour : Z) (self : RiskManagerClass.t)
    (a b c : TradeArgs) :
  0 <= trade_profit a -> 0 <= trade_profit b -> 0 <= trade_profit c ->
  snd (RiskManagerClass.should_stop_trading hour
         (record_trades today [a; b; c] self))
  <> RiskManagerClass.RepeatedLosses.
Proof.
  intros Ha Hb Hc.
  assert (Hhist : forall s t,
             RiskManagerClass.trade_history
               (RiskManagerClass.record_trade today (trade_type t) (trade_stock_code t)
                  (trade_amount t) (trade_profit t) s)
             = RiskManagerClass.trade_history s
               ++ [{| RiskManagerClass.date := today;
                      RiskManagerClass.type := trade_type t;
                      RiskManagerClass.stock_code := trade_stock_code t;
                      RiskManagerClass.amount := trade_amount t;
                      RiskManagerClass.profit := trade_profit t |}]).
  { intros s t. unfold RiskManagerClass.record_trade, RiskManagerClass.update_daily_stats.
    repeat match goal with
           | |- context [if ?x then _ else _] => destruct x
           end; reflexivity. }
  unfold RiskManagerClass.should_stop_trading.
  destruct (Py.leb _ _); [discriminate|].
  cbn [record_trades List.fold_left]. rewrite !Hhist, <- !List.app_assoc.
  cbn [List.app].
  match goal with
  | |- context [RiskManagerClass.last_n 5 (?xs ++ [?x; ?y; ?z])] =>
      destruct (last_n_app_three xs x y z) as (front & -> & Hfront)
  end.
  rewrite List.filter_app. cbn [List.filter RiskManagerClass.profit].
  replace (Py.ltb (trade_profit a) 0) with false
    by (symmetry; now apply ltb_false_iff).
  replace (Py.ltb (trade_profit b) 0) with false
    by (symmetry; now apply ltb_false_iff).
  replace (Py.ltb (trade_profit c) 0) with false
    by (symmetry; now apply ltb_false_iff).
  rewrite List.app_nil_r.
  pose proof (List.filter_length_le
                (fun trade => Py.ltb (RiskManagerClass.profit trade) 0) front) as Hle.
  replace (3 <=? List.length (List.filter _ front))%nat with false
    by (symmetry; apply Nat.leb_gt; lia).
  rewrite andb_false_r. destruct (hour =? 15)%Z; discriminate.
Qed.

Lemma repeated_losses_window_witness :
  snd (RiskManagerClass.should_stop_trading 10
         (record_trades 1
            [{| trade_type := "BUY"; trade_stock_code := "000660";
                trade_amount := 300000; trade_profit := 0 |};
             {| trade_type := "BUY"; trade_stock_code := "035420";
                trade_amount := 300000; trade_profit := 0 |};
             {| trade_type := "BUY"; trade_stock_code := "005380";
                trade_amount := 300000; trade_profit := 0 |}]
            (record_trades 1
               [{| trade_type := "SELL"; trade_stock_code := "005930";
                   trade_amount := 100000; trade_profit := -1000 |};
                {| trade_type := "SELL"; trade_stock_code := "005930";
                   trade_amount := 100000; trade_profit := -1000 |};
                {| trade_type := "SELL"; trade_stock_code := "005930";
                   trade_amount := 100000; trade_profit := -1000 |}]
               (RiskManagerClass.init 1))))
  <> RiskManagerClass.RepeatedLosses.
Proof.
  apply (repeated_losses_window 1 10); vm_compute; discriminate.
Defined.

Lemma last_n_app_five {A : Type} (xs : list A) (a b c d e : A) :
  RiskManagerClass.last_n 5 (xs ++ [a; b; c; d; e]) = [a; b; c; d; e].
Proof.
  unfold RiskManagerClass.last_n. rewrite List.length_app. cbn [List.length].
  replace (5 <=? List.length xs + 5)%nat with true by (symmetry; apply Nat.leb_le; lia).
  rewrite List.skipn_app.
  replace (List.length xs + 5 - 5 - List.length xs)%nat with 0%nat by lia.
  replace (List.length xs + 5 - 5)%nat with (List.length xs) by lia.
  now rewrite List.skipn_all.
Qed.

(** X19. The losses that stop trading need not be consecutive: three
    losing trades among the last five records fire the second rule of
    [should_stop_trading] whatever the two records between them are, as
    long as the loss limit of the first rule is not reached. *)
Theorem repeated_losses_not_consecutive (today hour : Z) (self : RiskManagerClass.t)
    (loss1 other1 loss2 other2 loss3 : TradeArgs) :
  trade_profit loss1 < 0 -> trade_profit loss2 < 0 -> trade_profit loss3 < 0 ->
  let self' := record_trades today [loss1; other1; loss2; other2; loss3] self in
  RiskManager.daily_loss_limit (RiskManagerClass.manager self')
  < RiskManager.daily_stats_total_profit (RiskManagerClass.manager self') ->
  RiskManagerClass.should_stop_trading hour self' = (true, RiskManagerClass.RepeatedLosses).
Proof.
  intros H1 H2 H3 self' Hlimit.
  assert (Hhist : forall s t,
             RiskManagerClass.trade_history
               (RiskManagerClass.record_trade today (trade_type t) (trade_stock_code t)
                  (trade_amount t) (trade_profit t) s)
             = RiskManagerClass.trade_history s
               ++ [{| RiskManagerClass.date := today;
                      RiskManagerClass.type := trade_type t;
                      RiskManagerClass.stock_code := trade_stock_code t;
                      RiskManagerClass.amount := trade_amount t;
                      RiskManagerClass.profit := trade_profit t |}]).
  { intros s t. unfold RiskManagerClass.record_trade, RiskManagerClass.update_daily_stats.
    repeat match goal with
           | |- context [if ?x then _ else _] => destruct x
           end; reflexivity. }
  unfold RiskManagerClass.should_stop_trading.
  apply leb_false_iff in Hlimit. rewrite Hlimit.
  subst self'. cbn [record_trades List.fold_left]. rewrite !Hhist, <- !List.app_assoc.
  cbn [List.app]. rewrite last_n_app_five.
  cbn [List.filter RiskManagerClass.profit].
  apply ltb_iff in H1, H2, H3. rewrite H1, H2, H3.
  destruct (Py.ltb (trade_profit other1) 0), (Py.ltb (trade_profit other2) 0); reflexivity.
Qed.

Lemma repeated_losses_not_consecutive_witness :
  RiskManagerClass.should_stop_trading 10
    (record_trades 1
       [{| trade_type := "SELL"; trade_stock_code := "005930";
           trade_amount := 100000; trade_profit := -1000 |};
        {| trade_type := "BUY"; trade_stock_code := "000660";
           trade_amount := 300000; trade_profit := 0 |};
        {| trade_type := "SELL"; trade_stock_code := "000660";
           trade_amount := 300000; trade_profit := -2000 |};
        {| trade_type := "SELL"; trade_stock_code := "035420";
           trade_amount := 300000; trade_profit := 5000 |};
        {| trade_type := "SELL"; trade_stock_code := "005380";
           trade_amount := 300000; trade_profit := -1500 |}]
       (RiskManagerClass.init 1))
  = (true, RiskManagerClass.RepeatedLosses).
Proof.
  apply (repeated_losses_not_consecutive 1 10 (RiskManagerClass.init 1)
           {| trade_type := "SELL"; trade_stock_code := "005930";
              trade_amount := 100000; trade_profit := -1000 |}
           {| trade_type := "BUY"; trade_stock_code := "000660";
              trade_amount := 300000; trade_profit := 0 |}
           {| trade_type := "SELL"; trade_stock_code := "000660";
              trade_amount := 300000; trade_profit := -2000 |}
           {| trade_type := "SELL"; trade_stock_code := "035420";
              trade_amount := 300000; trade_profit := 5000 |}
           {| trade_type := "SELL"; trade_stock_code := "005380";
              trade_amount := 300000; trade_profit := -1500 |});
    vm_compute; reflexivity.
Defined.

(** ** The size of a position against its base amount *)

Lemma ratios_in_unit_lookup (d : gmap Z Q) (k : Z) (v : Q) :
  ratios_in_unit d = true -> d !! k = Some v -> 0 <= v <= 1.
Proof.
  unfold ratios_in_unit. rewrite forallb_forall. intros Hall Hk.
  assert (Hin : In v (RiskManager.values d)).
  { unfold RiskManager.values. apply list_elem_of_In, list_elem_of_fmap.
    exists (k, v). split; [reflexivity|]. now apply elem_of_map_to_list. }
  apply Hall in Hin. apply andb_true_iff in Hin as [H0 H1].
  split; now apply leb_iff.
Qed.

Lemma day_ratio_loop_lookup (d : gmap Z Q) (keys : list Z) (rise_days : Z) (v : Q) :
  RiskManager.day_ratio_loop d keys rise_days = Some v -> exists k, d !! k = Some v.
Proof.
  induction keys as [|k keys IH]; cbn; [discriminate|].
  destruct (rise_days <=? k)%Z; eauto.
Qed.

Lemma rise_ratio_loop_lookup (d : gmap Z Q) (keys : list Z) (rise_rate v : Q) :
  RiskManager.rise_ratio_loop d keys rise_rate = Some v -> exists k, d !! k = Some v.
Proof.
  induction keys as [|k keys IH]; cbn; [discriminate|].
  destruct (Py.ltb _ _); eauto.
Qed.

Lemma get_day_ratio_in_unit (self : RiskManager.t) (rise_days : Z) :
  ratios_in_unit (RiskManager.position_ratios self) = true ->
  0 <= RiskManager.get_day_ratio self rise_days <= 1.
Proof.
  intros Hunit. unfold RiskManager.get_day_ratio.
  destruct (RiskManager.day_ratio_loop _ _ _) as [v|] eqn:E; cbn.
  - apply day_ratio_loop_lookup in E as (k & Hk). eapply ratios_in_unit_lookup; eauto.
  - split; discriminate.
Qed.

Lemma get_rise_rate_ratio_in_unit (self : RiskManager.t) (rise_rate : Q) :
  ratios_in_unit (RiskManager.rise_rate_ratios self) = true ->
  0 <= RiskManager.get_rise_rate_ratio self rise_rate <= 1.
Proof.
  intros Hunit. unfold RiskManager.get_rise_rate_ratio.
  destruct (RiskManager.rise_ratio_loop _ _ _) as [v|] eqn:E.
  - apply rise_ratio_loop_lookup in E as (k & Hk). eapply ratios_in_unit_lookup; eauto.
  - destruct (Py.min_list _) as [m|] eqn:Em; cbn.
    + apply min_list_least in Em as [Hin _].
      unfold ratios_in_unit in Hunit. rewrite forallb_forall in Hunit.
      apply Hunit in Hin. apply andb_true_iff in Hin as [H0 H1].
      split; now apply leb_iff.
    + split; discriminate.
Qed.

Lemma get_position_ratio_in_unit (current_positions : Z) :
  0 <= RiskManager.get_position_ratio current_positions <= 1.
Proof.
  unfold RiskManager.get_position_ratio.
  repeat match goal with |- context [if ?x then _ else _] => destruct x end;
    split; discriminate.
Qed.

(** X20. With ratio tables whose entries lie between 0 and 1, as the
    default tables do, the final ratio lies between 0 and 1, and for a base
    amount that is not negative the final amount is an integer between 0
    and the base amount: sizing only ever scales a position down. *)
Theorem position_size_within_base (self : RiskManager.t) (base_amount : Q)
    (rise_days : Z) (rise_rate : Q) (current_positions : Z) :
  ratios_in_unit (RiskManager.position_ratios self) = true ->
  ratios_in_unit (RiskManager.rise_rate_ratios self) = true ->
  0 <= base_amount ->
  let size :=
    RiskManager.calculate_position_size self base_amount rise_days rise_rate
                                        current_positions in
  0 <= RiskManager.final_ratio size <= 1
  /\ (0 <= RiskManager.final_amount size)%Z
  /\ inject_Z (RiskManager.final_amount size) <= base_amount.
Proof.
  intros Hdays Hrates Hbase. cbv zeta.
  unfold RiskManager.calculate_position_size.
  destruct (RiskManager.check_entry_allowed _ _ _ _ _) as [allowed reason].
  cbn [RiskManager.final_ratio RiskManager.final_amount].
  pose proof (get_day_ratio_in_unit self rise_days Hdays) as [D0 D1].
  pose proof (get_rise_rate_ratio_in_unit self rise_rate Hrates) as [R0 R1].
  pose proof (get_position_ratio_in_unit current_positions) as [P0 P1].
  set (d := RiskManager.get_day_ratio self rise_days) in *.
  set (r := RiskManager.get_rise_rate_ratio self rise_rate) in *.
  set (p := RiskManager.get_position_ratio current_positions) in *.
  assert (Hdr : 0 <= d * r <= 1).
  { split; [now apply Qmult_le_0_compat|].
    apply Qle_trans with (1 * r); [|lra].
    apply Qmult_le_compat_r; assumption. }
  assert (Hratio : 0 <= d * r * p <= 1).
  { split; [apply Qmult_le_0_compat; tauto|].
    apply Qle_trans with (1 * p); [|lra].
    apply Qmult_le_compat_r; tauto. }
  split; [exact Hratio|].
  assert (Hx : 0 <= base_amount * (d * r * p) <= base_amount).
  { split; [apply Qmult_le_0_compat; tauto|].
    apply Qle_trans with (base_amount * 1); [|lra].
    rewrite (Qmult_comm base_amount (d * r * p)), (Qmult_comm base_amount 1).
    apply Qmult_le_compat_r; tauto. }
  unfold Py.int. destruct Hx as [Hx0 Hx1].
  pose proof Hx0 as Hb. apply Qle_bool_iff in Hb. rewrite Hb.
  split.
  - change 0%Z with (Qfloor 0). now apply Qfloor_resp_le.
  - eapply Qle_trans; [apply Qfloor_le|exact Hx1].
Qed.

Lemma position_size_within_base_witness :
  inject_Z (RiskManager.final_amount
              (RiskManager.calculate_position_size RiskManager.init 200000 3 75 4))
  <= 200000.
Proof.
  apply (position_size_within_base RiskManager.init 200000 3 75 4);
    vm_compute; (reflexivity || discriminate).
Defined.

(** ** The waiting counter of the engine *)

Lemma all_waiting_days_fresh_iff (self : Engine.TumepokEngine) :
  all_waiting_days_fresh self = true
  <-> forall k t, Engine.tracking_stocks self !! k = Some t -> waiting_days_fresh t = true.
Proof.
  unfold all_waiting_days_fresh. rewrite forallb_forall. split.
  - intros H k t Hk. apply (H (k, t)). now apply list_elem_of_In, elem_of_map_to_list.
  - intros H [k t] Hin. apply list_elem_of_In, elem_of_map_to_list in Hin. now apply (H k).
Qed.

Lemma execute_stop_loss_other (env : Engine.Env) (k stock_code : string)
    (self : Engine.TumepokEngine) :
  k <> stock_code ->
  Engine.tracking_stocks (Engine.execute_stop_loss env stock_code self) !! k
  = Engine.tracking_stocks self !! k.
Proof.
  intros Hk. unfold Engine.execute_stop_loss.
  destruct (Engine.positions self !! stock_code) as [position|].
  - destruct (_ <=? _)%Z; [reflexivity|].
    destruct (Engine.PositionDict.stop_loss_executed position); [reflexivity|].
    cbn [Engine.tracking_stocks Engine.set_positions Engine.set_tracking_stocks].
    rewrite lookup_alter_ne by congruence.
    destruct (Engine.has_order_queue env);
      [|destruct (Engine.has_queue_manager env); [destruct (Engine.manager_delivers env)|]];
      reflexivity.
  - cbn. now rewrite lookup_delete_ne by congruence.
Qed.

Lemma check_buy_conditions_other (env : Engine.Env) (k stock_code : string)
    (self : Engine.TumepokEngine) :
  k <> stock_code ->
  Engine.tracking_stocks (Engine.check_buy_conditions env stock_code self) !! k
  = Engine.tracking_stocks self !! k.
Proof.
  intros Hk. unfold Engine.check_buy_conditions.
  destruct (Engine.buy_decision env stock_code self) as [|buy_stage recorded];
    [reflexivity|].
  destruct recorded; cbn; [|reflexivity]. now rewrite lookup_alter_ne by congruence.
Qed.

Lemma review_buy_other (env : Engine.Env) (k stock_code : string) (current_price : Q)
    (self : Engine.TumepokEngine) :
  k <> stock_code ->
  Engine.tracking_stocks (Engine.review_buy env stock_code current_price self) !! k
  = Engine.tracking_stocks self !! k.
Proof.
  intros Hk. unfold Engine.review_buy.
  destruct (negb _); [now apply check_buy_conditions_other|reflexivity].
Qed.

Lemma store_other (k stock_code : string) (tracking_info : Engine.TrackingDict.t)
    (self : Engine.TumepokEngine) :
  k <> stock_code ->
  Engine.tracking_stocks (Engine.store stock_code tracking_info self) !! k
  = Engine.tracking_stocks self !! k.
Proof. intros Hk. unfold Engine.store. cbn. now rewrite lookup_insert_ne by congruence. Qed.

(** A tick writes the record of its own symbol only. *)
Lemma update_tracking_stock_other (env : Engine.Env) (k stock_code : string)
    (current_price : Q) (change_rate high_price : option Q)
    (self : Engine.TumepokEngine) :
  k <> stock_code ->
  Engine.tracking_stocks
    (Engine.update_tracking_stock env stock_code current_price change_rate high_price self)
  !! k
  = Engine.tracking_stocks self !! k.
Proof.
  intros Hk. unfold Engine.update_tracking_stock.
  destruct (Engine.tracking_stocks self !! stock_code) as [ti|]; [|reflexivity].
  destruct (Engine.update_high _ _ _) as [ti2 high_updated].
  destruct (Engine._get_target_drop_rates env _) as [target_drops|];
    [|now apply store_other].
  repeat match goal with
         | |- context [if ?x then _ else _] => destruct x
         end;
    rewrite ?review_buy_other, ?execute_stop_loss_other by exact Hk;
    now apply store_other.
Qed.

Lemma update_high_status (current_price : Q) (high_price : option Q)
    (tracking_info : Engine.TrackingDict.t) :
  Engine.TrackingDict.status (fst (Engine.update_high current_price high_price tracking_info))
  = Engine.TrackingDict.status tracking_info
  /\ Engine.TrackingDict.waiting_days
       (fst (Engine.update_high current_price high_price tracking_info))
     = Engine.TrackingDict.waiting_days tracking_info
  /\ Engine.TrackingDict.high_price tracking_info
     <= Engine.TrackingDict.high_price
          (fst (Engine.update_high current_price high_price tracking_info)).
Proof.
  unfold Engine.update_high.
  repeat match goal with
         | |- context [match ?x with _ => _ end] => destruct x eqn:?
         end; cbn; repeat split; try apply Qle_refl;
    repeat match goal with
           | H : (_ && _)%bool = true |- _ => apply andb_true_iff in H as [? ?]
           | H : Py.gtb _ _ = true |- _ => apply gtb_iff in H
           end; now apply Qlt_le_weak.
Qed.

Lemma update_tracking_stock_fresh (env : Engine.Env) (stock_code : string)
    (current_price : Q) (change_rate high_price : option Q)
    (self : Engine.TumepokEngine) (tracking_info tracking_info' : Engine.TrackingDict.t) :
  Engine.tracking_stocks self !! stock_code = Some tracking_info ->
  waiting_days_fresh tracking_info = true ->
  Engine.tracking_stocks
    (Engine.update_tracking_stock env stock_code current_price change_rate high_price self)
  !! stock_code = Some tracking_info' ->
  waiting_days_fresh tracking_info' = true.
Proof.
  intros Hti Hfresh. unfold Engine.update_tracking_stock. rewrite Hti.
  set (ti1 := match change_rate with Some _ => _ | None => _ end).
  assert (H1 : waiting_days_fresh ti1 = true)
    by (subst ti1; destruct change_rate; exact Hfresh).
  clearbody ti1.
  pose proof (update_high_status current_price high_price ti1) as (Hst & Hwd & _).
  destruct (Engine.update_high current_price high_price ti1) as [ti2 high_updated].
  cbn [fst] in Hst, Hwd.
  assert (H2 : waiting_days_fresh ti2 = true)
    by (unfold waiting_days_fresh in *; now rewrite Hst, Hwd).
  clear Hst Hwd H1.
  set (ti3 := if high_updated then _ else ti2).
  assert (H3 : waiting_days_fresh ti3 = true) by (subst ti3; now destruct high_updated).
  clearbody ti3.
  set (drop_rate := if Py.gtb (Engine.TrackingDict.high_price ti3) 0 then _ else 0).
  set (ti4 := Engine.TrackingDict.set_cumulative_rise_rate _ _).
  assert (H4 : waiting_days_fresh ti4 = true) by exact H3.
  assert (Hkeep : forall t st, st <> Engine.TRACKING -> waiting_days_fresh t = true ->
                               waiting_days_fresh (Engine.TrackingDict.set_status st t) = true).
  { intros t st Hne Ht. unfold waiting_days_fresh in *. cbn.
    apply andb_true_iff in Ht as [Ht _]. rewrite Ht. now destruct st. }
  assert (Hkeep' : forall t stages, waiting_days_fresh t = true ->
                     waiting_days_fresh (Engine.TrackingDict.set_bought_stages stages t)
                     = true) by (intros t stages Ht; exact Ht).
  clearbody ti4 drop_rate.
  destruct (Engine._get_target_drop_rates env _) as [target_drops|].
  2:{ rewrite store_lookup. now intros [= <-]. }
  destruct (Py.gtb drop_rate _).
  { destruct (bool_decide _).
    - destruct (negb _).
      + intros H. apply execute_stop_loss_same in H as (t & Ht & [-> | ->]);
          rewrite store_lookup in Ht; injection Ht as <-;
          first [assumption | now apply Hkeep].
      + rewrite store_lookup. now intros [= <-].
    - rewrite store_lookup. intros [= <-]. now apply Hkeep. }
  destruct (_ && _).
  { intros H. apply review_buy_same in H as (t & Ht & [-> | (stages & ->)]);
      rewrite store_lookup in Ht; injection Ht as <-;
      [|apply Hkeep']; now apply Hkeep. }
  destruct (Engine.Status_eqb _ _) eqn:Est.
  - assert (Hwd : default 0%Z (Engine.TrackingDict.waiting_days ti4) = 0%Z).
    { unfold waiting_days_fresh in H4. rewrite Est in H4.
      apply andb_true_iff in H4 as [_ H4]. lia. }
    cbn [Engine.TrackingDict.waiting_days Engine.TrackingDict.set_status].
    rewrite Hwd. destruct (0 + 1 >=? 3)%Z eqn:E3; [discriminate E3|].
    rewrite store_lookup. now intros [= <-].
  - rewrite store_lookup. now intros [= <-].
Qed.

Lemma engine_step_fresh (env : Engine.Env) (call : EngineCall)
    (self : Engine.TumepokEngine) :
  all_waiting_days_fresh self = true ->
  all_waiting_days_fresh (engine_step env self call) = true.
Proof.
  rewrite !all_waiting_days_fresh_iff. intros Hinv k t.
  destruct call as [stock_code current_price change_rate high_price|stock_code];
    cbn [engine_step]; destruct (decide (k = stock_code)) as [->|Hk].
  - destruct (Engine.tracking_stocks self !! stock_code) as [ti|] eqn:Hti.
    + apply (update_tracking_stock_fresh env stock_code current_price change_rate
               high_price self ti t Hti). now apply (Hinv stock_code).
    + unfold Engine.update_tracking_stock. rewrite Hti. now rewrite Hti.
  - rewrite update_tracking_stock_other by exact Hk. apply Hinv.
  - intros H. apply execute_stop_loss_same in H as (ti & Hti & [-> | ->]).
    + now apply (Hinv stock_code).
    + pose proof (Hinv _ _ Hti) as Hf. unfold waiting_days_fresh in *. cbn.
      apply andb_true_iff in Hf as [Hf _]. now rewrite Hf.
  - rewrite execute_stop_loss_other by exact Hk. apply Hinv.
Qed.

(** X21. The waiting counter of the engine never reaches the three days
    that force a waiting symbol to READY.  A tick raises the counter only
    while the record is TRACKING, and a record becomes TRACKING only in a
    tick that has just reset the counter to 0: from records created with
    the counter on 0, over any sequence of ticks and stop-loss calls, the
    counter of every record is at most 1. *)
Theorem engine_waiting_days_bounded (env : Engine.Env) (calls : list EngineCall)
    (self : Engine.TumepokEngine) (stock_code : string)
    (tracking_info : Engine.TrackingDict.t) :
  all_waiting_days_fresh self = true ->
  Engine.tracking_stocks (engine_run env calls self) !! stock_code = Some tracking_info ->
  (default 0 (Engine.TrackingDict.waiting_days tracking_info) <= 1)%Z.
Proof.
  intros Hinv.
  assert (Hrun : all_waiting_days_fresh (engine_run env calls self) = true).
  { revert self Hinv. induction calls as [|call calls IH]; intros self Hinv; [exact Hinv|].
    apply IH. now apply engine_step_fresh. }
  intros Hk.
  pose proof (proj1 (all_waiting_days_fresh_iff _) Hrun _ _ Hk) as Hf.
  unfold waiting_days_fresh in Hf. apply andb_true_iff in Hf as [Hf _]. lia.
Qed.

Lemma engine_waiting_days_bounded_witness :
  exists tracking_info,
    Engine.tracking_stocks
      (engine_run scenario_env
         [Tick "005930" 14400 None None; Tick "005930" 14300 None None;
          Tick "005930" 14350 None None; Tick "005930" 14300 None None]
         scenario_engine)
    !! "005930" = Some tracking_info
    /\ (default 0 (Engine.TrackingDict.waiting_days tracking_info) <= 1)%Z.
Proof.
  eexists. split; [vm_compute; reflexivity|].
  eapply (engine_waiting_days_bounded scenario_env
            [Tick "005930" 14400 None None; Tick "005930" 14300 None None;
             Tick "005930" 14350 None None; Tick "005930" 14300 None None]
            scenario_engine "005930"); vm_compute; reflexivity.
Defined.

(** ** The stop-loss test of the engine's sell check *)

(** X22. For a tracked symbol whose record has no [rise_start_price] and
    whose position has no [first_buy_price] (no code of the engine writes
    either key), the stop-loss test of [check_sell_conditions] measures the
    drop of the current price from itself, which is 0: when the maximum drop
    it compares with is not negative the check never signals STOP_LOSS, at
    any price, and answers what its trailing block answers. *)
Theorem check_sell_conditions_no_stop_loss (env : Engine.Env) (stock_code : string)
    (position : Engine.PositionDict.t) (self : Engine.TumepokEngine)
    (tracking_info : Engine.TrackingDict.t) :
  Engine.tracking_stocks self !! stock_code = Some tracking_info ->
  Engine.TrackingDict.rise_start_price tracking_info = None ->
  Engine.PositionDict.first_buy_price position = None ->
  0 <= match Engine.config env with
       | Some cfg =>
           default 25.0
             (Engine.calculate_target_drop_range cfg
                (default 0 (Engine.TrackingDict.cumulative_rise_rate tracking_info)))
       | None => 25.0
       end ->
  snd (Engine.check_sell_conditions env stock_code position self) <> Some Engine.STOP_LOSS
  /\ Engine.check_sell_conditions env stock_code position self
     = match Engine.config env with
       | Some cfg => Engine.trailing_stop_block cfg position
       | None => (position, None)
       end.
Proof.
  intros Hti Hstart Hfirst Hmax.
  assert (Hsig : Engine.stop_loss_signal env stock_code position self = false).
  { unfold Engine.stop_loss_signal. rewrite Hti, Hstart, Hfirst. cbn [default].
    destruct (Py.gtb (Engine.PositionDict.current_price position) 0) eqn:Epos;
      [|reflexivity].
    apply gtb_iff in Epos. apply gtb_false_iff.
    set (p := Engine.PositionDict.current_price position) in *.
    assert (Hzero : (p - p) / p * 100 == 0).
    { field. intros E. rewrite E in Epos. now apply Qlt_irrefl in Epos. }
    rewrite Hzero. exact Hmax. }
  unfold Engine.check_sell_conditions. rewrite Hsig. split; [|reflexivity].
  destruct (Engine.config env) as [cfg|]; cbn [snd]; [|discriminate].
  unfold Engine.trailing_stop_block.
  repeat match goal with
         | |- context [match ?x with _ => _ end] => destruct x
         end; cbn [snd]; discriminate.
Qed.

Lemma check_sell_conditions_no_stop_loss_witness :
  snd (Engine.check_sell_conditions scenario_env "005930"
         (Engine.PositionDict.set_profit_rate (-50)
            (Engine.PositionDict.set_current_price 6500 scenario_held_position))
         scenario_held_engine)
  <> Some Engine.STOP_LOSS.
Proof.
  eapply (check_sell_conditions_no_stop_loss scenario_env "005930" _ scenario_held_engine).
  - vm_compute. reflexivity.
  - reflexivity.
  - reflexivity.
  - vm_compute. discriminate.
Defined.

(** ** The high and the rise-day counter of the engine *)

Lemma engine_update_high_cases (current_price : Q) (high_price : option Q)
    (tracking_info : Engine.TrackingDict.t) :
  (exists v,
      Engine.update_high current_price high_price tracking_info
      = (Engine.TrackingDict.set_high_price v tracking_info, true)
      /\ Engine.TrackingDict.high_price tracking_info < v)
  \/ Engine.update_high current_price high_price tracking_info = (tracking_info, false).
Proof.
  unfold Engine.update_high.
  repeat match goal with
         | |- context [match ?x with _ => _ end] => destruct x eqn:?
         end;
    repeat match goal with
           | H : (_ && _)%bool = true |- _ => apply andb_true_iff in H as [? ?]
           | H : Py.gtb _ _ = true |- _ => apply gtb_iff in H
           end;
    first [now right | left; eexists; split; [reflexivity|assumption]].
Qed.

(** X23. One tick of the engine on a tracked symbol: the high of the record
    does not decrease, and the rise-day counter counts the ticks that raise
    the high: it goes up by one when the high goes up, on every such tick of
    a day, and stays as it is otherwise. *)
Theorem update_tracking_stock_counts_highs (env : Engine.Env) (stock_code : string)
    (current_price : Q) (change_rate high_price : option Q)
    (self : Engine.TumepokEngine) (tracking_info tracking_info' : Engine.TrackingDict.t) :
  Engine.tracking_stocks self !! stock_code = Some tracking_info ->
  Engine.tracking_stocks
    (Engine.update_tracking_stock env stock_code current_price change_rate high_price self)
  !! stock_code = Some tracking_info' ->
  (Engine.TrackingDict.high_price tracking_info
   < Engine.TrackingDict.high_price tracking_info'
   /\ Engine.TrackingDict.rise_days tracking_info'
      = (Engine.TrackingDict.rise_days tracking_info + 1)%Z)
  \/ (Engine.TrackingDict.high_price tracking_info'
      = Engine.TrackingDict.high_price tracking_info
      /\ Engine.TrackingDict.rise_days tracking_info'
         = Engine.TrackingDict.rise_days tracking_info).
Proof.
  intros Hti. unfold Engine.update_tracking_stock. rewrite Hti.
  set (ti1 := match change_rate with Some _ => _ | None => _ end).
  assert (H1 : Engine.TrackingDict.high_price ti1 = Engine.TrackingDict.high_price tracking_info
               /\ Engine.TrackingDict.rise_days ti1
                  = Engine.TrackingDict.rise_days tracking_info)
    by (subst ti1; destruct change_rate; split; reflexivity).
  destruct H1 as [<- <-]. clearbody ti1.
  set (P := fun t : Engine.TrackingDict.t =>
              (Engine.TrackingDict.high_price ti1 < Engine.TrackingDict.high_price t
               /\ Engine.TrackingDict.rise_days t
                  = (Engine.TrackingDict.rise_days ti1 + 1)%Z)
              \/ (Engine.TrackingDict.high_price t = Engine.TrackingDict.high_price ti1
                  /\ Engine.TrackingDict.rise_days t = Engine.TrackingDict.rise_days ti1)).
  intros H; change (P tracking_info'); revert H.
  assert (H3 : forall ti2 high_updated,
             Engine.update_high current_price high_price ti1 = (ti2, high_updated) ->
             P (if high_updated
                then Engine.TrackingDict.set_status Engine.TRACKING
                       (Engine.TrackingDict.set_waiting_days (Some 0%Z)
                          (Engine.TrackingDict.set_rise_days
                             (Engine.TrackingDict.rise_days ti2 + 1)%Z ti2))
                else ti2)).
  { intros ti2 hu E.
    destruct (engine_update_high_cases current_price high_price ti1)
      as [(v & E' & Hv)|E']; rewrite E' in E; injection E as <- <-.
    - left. cbn. split; [exact Hv|reflexivity].
    - right. split; reflexivity. }
  destruct (Engine.update_high current_price high_price ti1) as [ti2 high_updated].
  specialize (H3 ti2 high_updated eq_refl).
  set (ti3 := if high_updated then _ else ti2) in *.
  set (drop_rate := if Py.gtb (Engine.TrackingDict.high_price ti3) 0 then _ else 0).
  set (ti4 := Engine.TrackingDict.set_cumulative_rise_rate _ _).
  assert (H4 : P ti4) by exact H3.
  assert (Hkeep : forall t st, P t -> P (Engine.TrackingDict.set_status st t))
    by (intros [] ?; auto).
  assert (Hkeep' : forall t st, P t -> P (Engine.TrackingDict.set_bought_stages st t))
    by (intros [] ?; auto).
  assert (Hkeep'' : forall t wd, P t -> P (Engine.TrackingDict.set_waiting_days wd t))
    by (intros [] ?; auto).
  clearbody ti4 drop_rate P. clearbody ti3.
  destruct (Engine._get_target_drop_rates env _) as [target_drops|].
  2:{ rewrite store_lookup. intros [= <-]; auto. }
  destruct (Py.gtb drop_rate _).
  { destruct (bool_decide _).
    - destruct (negb _).
      + intros H. apply execute_stop_loss_same in H as (t & Ht & [-> | ->]);
          rewrite store_lookup in Ht; injection Ht as <-; auto.
      + rewrite store_lookup. intros [= <-]; auto.
    - rewrite store_lookup. intros [= <-]; auto. }
  destruct (_ && _).
  { intros H. apply review_buy_same in H as (t & Ht & [-> | (stages & ->)]);
      rewrite store_lookup in Ht; injection Ht as <-; auto. }
  destruct (Engine.Status_eqb _ _).
  - destruct (_ >=? 3)%Z.
    + intros H. apply review_buy_same in H as (t & Ht & [-> | (stages & ->)]);
        rewrite store_lookup in Ht; injection Ht as <-; auto.
    + rewrite store_lookup. intros [= <-]; auto.
  - rewrite store_lookup. intros [= <-]; auto.
Qed.

Lemma update_tracking_stock_counts_highs_witness :
  exists tracking_info tracking_info',
    Engine.tracking_stocks scenario_engine !! "005930" = Some tracking_info
    /\ Engine.tracking_stocks
         (Engine.update_tracking_stock scenario_env "005930" 14600 None None
                                       scenario_engine)
       !! "005930" = Some tracking_info'
    /\ ((Engine.TrackingDict.high_price tracking_info
         < Engine.TrackingDict.high_price tracking_info'
         /\ Engine.TrackingDict.rise_days tracking_info'
            = (Engine.TrackingDict.rise_days tracking_info + 1)%Z)
        \/ (Engine.TrackingDict.high_price tracking_info'
            = Engine.TrackingDict.high_price tracking_info
            /\ Engine.TrackingDict.rise_days tracking_info'
               = Engine.TrackingDict.rise_days tracking_info)).
Proof.
  eexists _, _. split; [vm_compute; reflexivity|]. split; [vm_compute; reflexivity|].
  eapply (update_tracking_stock_counts_highs scenario_env "005930" 14600 None None
            scenario_engine); vm_compute; reflexivity.
Defined.

(** ** The signal path over the records of the rise tracker *)


(** ** The support conditions *)

Lemma bonus_comparison (count required : Z) :
  (0 <= count <= 3)%Z ->
  Py.geb (Qmin 3 (inject_Z count + 0.5)) (inject_Z required)
  = Py.geb (inject_Z count) (inject_Z required).
Proof.
  intros Hcount.
  assert (Hcases : count = 0%Z \/ count = 1%Z \/ count = 2%Z \/ count = 3%Z) by lia.
  unfold Py.geb.
  destruct Hcases as [-> | [-> | [-> | ->]]]; vm_compute Qmin;
    unfold Qle_bool; cbn [Qnum Qden inject_Z];
    match goal with
    | |- (?a <=? ?b)%Z = (?c <=? ?d)%Z =>
        destruct (Z.leb_spec a b), (Z.leb_spec c d); try reflexivity; lia
    end.
Qed.

(** X25. The count of satisfied support conditions is a whole number
    between 0 and 3, and the bonus of 0.5 that a confirmed condition search
    adds to it, capped at 3, never changes whether a whole number of
    required conditions is met: the comparison of the count with any integer
    requirement gives the same answer with and without the bonus, on the
    same three flags. *)
Theorem confirmation_bonus_is_idle (market : SupportAnalyzer.Market)
    (self : SupportAnalyzer.t) (stock_code : string) (current_price : Q)
    (required_conditions : Z) :
  let plain :=
    SupportAnalyzer.check_all_conditions market self stock_code current_price false in
  let confirmed :=
    SupportAnalyzer.check_all_conditions market self stock_code current_price true in
  (exists count : Z,
      (0 <= count <= 3)%Z /\ SupportAnalyzer.satisfied_count plain = inject_Z count)
  /\ SupportAnalyzer.rsi_oversold confirmed = SupportAnalyzer.rsi_oversold plain
  /\ SupportAnalyzer.support_level confirmed = SupportAnalyzer.support_level plain
  /\ SupportAnalyzer.volume_dried confirmed = SupportAnalyzer.volume_dried plain
  /\ Py.geb (SupportAnalyzer.satisfied_count confirmed) (inject_Z required_conditions)
     = Py.geb (SupportAnalyzer.satisfied_count plain) (inject_Z required_conditions).
Proof.
  cbv zeta. unfold SupportAnalyzer.check_all_conditions.
  cbn [SupportAnalyzer.satisfied_count SupportAnalyzer.rsi_oversold
       SupportAnalyzer.support_level SupportAnalyzer.volume_dried].
  set (count := SupportAnalyzer.count_true _).
  assert (Hcount : (0 <= count <= 3)%Z).
  { subst count. unfold SupportAnalyzer.count_true.
    destruct (SupportAnalyzer.check_rsi_oversold _ _ _),
             (fst (SupportAnalyzer.check_support_level _ _ _ _)),
             (SupportAnalyzer.check_volume_dried _ _ _); cbn; lia. }
  clearbody count.
  split; [now exists count|]. repeat split. now apply bonus_comparison.
Qed.

(** ** The RSI *)

Lemma sum_nonnegative (xs : list Q) :
  List.Forall (fun x => 0 <= x) xs -> 0 <= SupportAnalyzer.sum xs.
Proof.
  induction 1 as [|x xs Hx _ IH]; [apply Qle_refl|].
  unfold SupportAnalyzer.sum in *. cbn [List.fold_right]. lra.
Qed.

Lemma Forall_skipn {A : Type} (P : A -> Prop) (n : nat) (xs : list A) :
  List.Forall P xs -> List.Forall P (List.skipn n xs).
Proof.
  intros H. apply List.Forall_forall. intros x Hin.
  rewrite List.Forall_forall in H. apply H.
  rewrite <- (List.firstn_skipn n xs). apply List.in_or_app. now right.
Qed.

Lemma rolling_mean_last_nonnegative (period : nat) (xs : list Q) :
  List.Forall (fun x => 0 <= x) xs -> 0 <= SupportAnalyzer.rolling_mean_last period xs.
Proof.
  intros H. unfold SupportAnalyzer.rolling_mean_last.
  pose proof (sum_nonnegative _ (Forall_skipn _ (List.length xs - period) _ H)) as Hs.
  destruct period as [|p].
  - unfold Qdiv. cbn. rewrite Qmult_0_r. apply Qle_refl.
  - apply Qle_shift_div_l.
    + change 0 with (inject_Z 0). rewrite <- Zlt_Qlt. lia.
    + lra.
Qed.

(** X26. The RSI lies between 0 and 100 on every series of prices, and is
    the default 50 when the series has no more values than the period. *)
Theorem calculate_rsi_bounds (prices : list Q) (period : nat) :
  0 <= SupportAnalyzer.calculate_rsi prices period <= 100
  /\ ((List.length prices <= period)%nat ->
      SupportAnalyzer.calculate_rsi prices period = 50.0).
Proof.
  unfold SupportAnalyzer.calculate_rsi. split.
  - destruct (_ <? _)%nat; [split; discriminate|].
    set (gain := List.map (fun d => if Py.gtb d 0 then d else 0)
                          (SupportAnalyzer.diff prices)).
    set (loss := List.map (fun d => - (if Py.ltb d 0 then d else 0))
                          (SupportAnalyzer.diff prices)).
    assert (Hgain : 0 <= SupportAnalyzer.rolling_mean_last period gain).
    { apply rolling_mean_last_nonnegative. subst gain.
      apply List.Forall_forall. intros x Hin. apply List.in_map_iff in Hin as (d & <- & _).
      destruct (Py.gtb d 0) eqn:E; [|apply Qle_refl].
      apply gtb_iff in E. now apply Qlt_le_weak. }
    assert (Hloss : 0 <= SupportAnalyzer.rolling_mean_last period loss).
    { apply rolling_mean_last_nonnegative. subst loss.
      apply List.Forall_forall. intros x Hin. apply List.in_map_iff in Hin as (d & <- & _).
      destruct (Py.ltb d 0) eqn:E; [|discriminate].
      apply ltb_iff in E. lra. }
    set (g := SupportAnalyzer.rolling_mean_last period gain) in *.
    set (l := SupportAnalyzer.rolling_mean_last period loss) in *.
    clearbody g l. clear gain loss.
    destruct (Py.eqb l 0) eqn:El.
    { destruct (Py.eqb g 0); split; discriminate. }
    assert (Hl : 0 < l).
    { apply Qle_lteq in Hloss as [Hl|Hl]; [exact Hl|].
      symmetry in Hl. apply Qeq_bool_iff in Hl. unfold Py.eqb in El. congruence. }
    assert (Hrs : 0 <= g / l) by (apply Qle_shift_div_l; [exact Hl|lra]).
    assert (Hd : 0 < 1 + g / l) by lra.
    assert (H0 : 0 <= 100 / (1 + g / l)) by (apply Qle_shift_div_l; [exact Hd|lra]).
    assert (H1 : 100 / (1 + g / l) <= 100) by (apply Qle_shift_div_r; [exact Hd|lra]).
    split; lra.
  - intros Hlen.
    replace (List.length prices <? period + 1)%nat with true
      by (symmetry; apply Nat.ltb_lt; lia).
    reflexivity.
Qed.

(** ** The support levels *)

Lemma min_list_is_Some (vs : list Q) : vs <> [] -> exists m, Py.min_list vs = Some m.
Proof. destruct vs; [congruence|]. intros _. eexists. reflexivity. Qed.

Lemma slice_length {A : Type} (a b : nat) (xs : list A) :
  (b <= List.length xs)%nat -> List.length (SupportAnalyzer.slice a b xs) = (b - a)%nat.
Proof.
  intros H. unfold SupportAnalyzer.slice.
  rewrite List.length_firstn, List.length_skipn. lia.
Qed.

Lemma leb_min_list (x m : Q) (vs : list Q) :
  Py.min_list vs = Some m ->
  Py.leb x m = true <-> List.Forall (fun v => x <= v) vs.
Proof.
  intros Hm. apply min_list_least in Hm as [Hin Hleast]. rewrite leb_iff. split.
  - intros Hx. apply List.Forall_forall. intros v Hv.
    eapply Qle_trans; [exact Hx|now apply Hleast].
  - intros Hall. rewrite List.Forall_forall in Hall. now apply Hall.
Qed.

(** The loop of [find_support_levels] inside the data: it does not raise,
    and it collects the lows of the bars that pass its two tests. *)
Lemma support_loop_spec (data : list SupportAnalyzer.Bar) (lookback : nat) :
  (1 <= lookback)%nat ->
  forall count i,
    (lookback <= i)%nat ->
    (i + count + lookback <= List.length data)%nat ->
    exists levels,
      SupportAnalyzer.support_loop data lookback count i = Py.Ok levels
      /\ forall level,
          In level levels
          <-> exists j bar,
              (i <= j < i + count)%nat
              /\ List.nth_error data j = Some bar
              /\ SupportAnalyzer.low bar = level
              /\ List.Forall (fun v => level <= v)
                   (SupportAnalyzer.slice (j - lookback) j
                      (List.map SupportAnalyzer.low data))
              /\ List.Forall (fun v => level <= v)
                   (SupportAnalyzer.slice (j + 1) (j + lookback + 1)
                      (List.map SupportAnalyzer.low data))
              /\ SupportAnalyzer.is_valid_support_level data j lookback = true.
Proof.
  intros Hlookback. induction count as [|count IH]; intros i Hi Hlen.
  - exists []. split; [reflexivity|]. intros level. split; [intros []|].
    intros (j & bar & Hj & _). lia.
  - cbn [SupportAnalyzer.support_loop].
    set (lows := List.map SupportAnalyzer.low data).
    assert (Hlows : List.length lows = List.length data) by apply List.length_map.
    destruct (min_list_is_Some (SupportAnalyzer.slice (i - lookback) i lows))
      as (left_min & Eleft).
    { intros E. apply (f_equal (@List.length Q)) in E.
      rewrite slice_length in E by lia. cbn in E. lia. }
    destruct (min_list_is_Some (SupportAnalyzer.slice (i + 1) (i + lookback + 1) lows))
      as (right_min & Eright).
    { intros E. apply (f_equal (@List.length Q)) in E.
      rewrite slice_length in E by lia. cbn in E. lia. }
    destruct (List.nth_error data i) as [bar|] eqn:Ebar.
    2:{ apply List.nth_error_None in Ebar. lia. }
    assert (Elow : List.nth_error lows i = Some (SupportAnalyzer.low bar))
      by (subst lows; now rewrite List.nth_error_map, Ebar).
    rewrite Eleft, Eright, Elow.
    destruct (IH (S i)) as (rest & -> & Hrest); [lia|lia|].
    cbn [mbind result_bind Py.bind].
    assert (Hhere : Py.leb (SupportAnalyzer.low bar) left_min
                    && Py.leb (SupportAnalyzer.low bar) right_min
                    && SupportAnalyzer.is_valid_support_level data i lookback = true
                    <-> List.Forall (fun v => SupportAnalyzer.low bar <= v)
                          (SupportAnalyzer.slice (i - lookback) i lows)
                        /\ List.Forall (fun v => SupportAnalyzer.low bar <= v)
                             (SupportAnalyzer.slice (i + 1) (i + lookback + 1) lows)
                        /\ SupportAnalyzer.is_valid_support_level data i lookback = true).
    { rewrite !andb_true_iff, (leb_min_list _ _ _ Eleft), (leb_min_list _ _ _ Eright).
      tauto. }
    assert (Hsplit : forall level,
               (exists j bar',
                   (i <= j < i + S count)%nat
                   /\ List.nth_error data j = Some bar'
                   /\ SupportAnalyzer.low bar' = level
                   /\ List.Forall (fun v => level <= v)
                        (SupportAnalyzer.slice (j - lookback) j lows)
                   /\ List.Forall (fun v => level <= v)
                        (SupportAnalyzer.slice (j + 1) (j + lookback + 1) lows)
                   /\ SupportAnalyzer.is_valid_support_level data j lookback = true)
               <-> (SupportAnalyzer.low bar = level
                    /\ List.Forall (fun v => level <= v)
                         (SupportAnalyzer.slice (i - lookback) i lows)
                    /\ List.Forall (fun v => level <= v)
                         (SupportAnalyzer.slice (i + 1) (i + lookback + 1) lows)
                    /\ SupportAnalyzer.is_valid_support_level data i lookback = true)
                   \/ In level rest).
    { intros level. rewrite Hrest. split.
      - intros (j & bar' & Hj & Hbar' & Hrest').
        destruct (decide (j = i)) as [->|Hne].
        + left. rewrite Ebar in Hbar'. injection Hbar' as <-. exact Hrest'.
        + right. exists j, bar'. split; [lia|]. split; [exact Hbar'|exact Hrest'].
      - intros [H|(j & bar' & Hj & H)].
        + exists i, bar. split; [lia|]. split; [exact Ebar|exact H].
        + exists j, bar'. split; [lia|exact H]. }
    destruct (_ && _ && _) eqn:Ecur; eexists; (split; [reflexivity|]); intros level;
      rewrite Hsplit.
    + pose proof (proj1 Hhere eq_refl) as Hcur. split.
      * intros [<-|Hin]; [left; split; [reflexivity|exact Hcur]|now right].
      * intros [[<- _]|Hin]; [now left|now right].
    + split; [now right|]. intros [[<- H]|Hin]; [|exact Hin].
      apply Hhere in H. discriminate.
Qed.

(** X27. The support levels of a series of bars, for a look-back of at
    least one bar.  A level is returned exactly when it is the low of a bar
    that has [lookback] bars on either side, is at or below the low of each
    of these bars, and passes the bounce test; a series of at most twice the
    look-back yields no level at all. *)
Theorem find_support_levels_spec (data : list SupportAnalyzer.Bar) (lookback : nat)
    (level : Q) :
  (1 <= lookback)%nat ->
  (In level (SupportAnalyzer.find_support_levels data lookback)
   <-> exists i bar,
       (lookback <= i)%nat
       /\ (i + lookback < List.length data)%nat
       /\ List.nth_error data i = Some bar
       /\ SupportAnalyzer.low bar = level
       /\ List.Forall (fun v => level <= v)
            (SupportAnalyzer.slice (i - lookback) i (List.map SupportAnalyzer.low data))
       /\ List.Forall (fun v => level <= v)
            (SupportAnalyzer.slice (i + 1) (i + lookback + 1)
               (List.map SupportAnalyzer.low data))
       /\ SupportAnalyzer.is_valid_support_level data i lookback = true)
  /\ ((List.length data <= 2 * lookback)%nat ->
      SupportAnalyzer.find_support_levels data lookback = []).
Proof.
  intros Hlookback. unfold SupportAnalyzer.find_support_levels.
  destruct (List.length data <? lookback)%nat eqn:Eshort.
  { apply Nat.ltb_lt in Eshort. split; [|reflexivity].
    split; [intros []|]. intros (i & bar & Hi & Hlen & _). lia. }
  apply Nat.ltb_ge in Eshort.
  destruct (Nat.le_gt_cases (List.length data) (2 * lookback)) as [Hle|Hgt].
  - replace (List.length data - lookback - lookback)%nat with 0%nat by lia.
    cbn. split; [|reflexivity]. split; [intros []|].
    intros (i & bar & Hi & Hlen & _). lia.
  - destruct (support_loop_spec data lookback Hlookback
                (List.length data - lookback - lookback) lookback)
      as (levels & -> & Hlevels); [lia|lia|].
    split; [|lia]. rewrite Hlevels. split.
    + intros (j & bar & Hj & H). exists j, bar. split; [lia|]. split; [lia|exact H].
    + intros (i & bar & Hi & Hlen & H). exists i, bar. split; [lia|exact H].
Qed.

Lemma find_support_levels_spec_witness :
  (1 <= 1)%nat /\ In 9700 (SupportAnalyzer.find_support_levels scenario_bars 1).
Proof.
  split; [lia|].
  apply (find_support_levels_spec scenario_bars 1 9700); [lia|].
  eexists 1%nat, _. split; [lia|]. split; [cbn; lia|]. split; [reflexivity|].
  split; [reflexivity|].
  split; [repeat constructor; apply Qle_bool_imp_le; reflexivity|].
  split; [repeat constructor; apply Qle_bool_imp_le; reflexivity|].
  vm_compute. reflexivity.
Defined.

(** ** The buy stage of a tracked symbol *)

Lemma get_buy_stage_answer (rnd : Q -> Q) (current_price : Q)
    (self : RiseTracker.TrackingInfo) :
  ~ RiseTracker.start_price self == 0 ->
  exists answer,
    RiseTracker.get_buy_stage rnd current_price self = Py.Ok answer
    /\ (answer <> WAIT -> RiseTracker.status self = "READY").
Proof.
  intros Hs. unfold RiseTracker.get_buy_stage.
  assert (Hzero : Qeq_bool (RiseTracker.start_price self) 0 = false).
  { apply not_true_iff_false. intros H. apply Qeq_bool_iff in H. contradiction. }
  destruct (String.eqb (RiseTracker.status self) "READY") eqn:E; cbn [negb].
  - apply String.eqb_eq in E.
    unfold RiseTracker.buy_stage_drop_rate, Py.fdiv. rewrite Hzero.
    cbn [mbind result_bind Py.bind].
    repeat match goal with
           | |- context [if ?x then _ else _] => destruct x
           end; eexists; (split; [reflexivity|]); intros _; exact E.
  - exists WAIT. split; [reflexivity|]. intros H. now contradiction H.
Qed.

(** X28. [RiseTracker.get_buy_stage] catches no exception, and
    [TrackingInfo.get_buy_stage] divides by the start price: on a tracker
    filled through [add_stock] the call never raises, and it answers a stage
    other than WAIT and NOT_TRACKING only for a symbol that
    [get_ready_stocks] lists, whatever the rounding of its arithmetic. *)
Theorem tracker_get_buy_stage_returns (rnd : Q -> Q) (matrix : list MatrixRow)
    (max_tracking_stocks : Z) (calls : list TrackerCall) (stock_code : string)
    (current_price : Q) :
  exists answer,
    RiseTrackerClass.get_buy_stage rnd stock_code current_price
      (tracker_run matrix calls (RiseTrackerClass.init max_tracking_stocks))
    = Py.Ok answer
    /\ (answer <> WAIT -> answer <> "NOT_TRACKING" ->
        In stock_code
           (RiseTrackerClass.get_ready_stocks
              (tracker_run matrix calls (RiseTrackerClass.init max_tracking_stocks)))).
Proof.
  pose proof (tracker_run_ok matrix calls _ (init_tracker_ok matrix max_tracking_stocks))
    as Hok.
  set (self := tracker_run matrix calls (RiseTrackerClass.init max_tracking_stocks)) in *.
  unfold RiseTrackerClass.get_buy_stage.
  destruct (RiseTrackerClass.tracking_stocks self !! stock_code) as [ti|] eqn:E.
  - destruct (Hok _ _ E) as (_ & Hs & _).
    destruct (get_buy_stage_answer rnd current_price ti Hs) as (answer & -> & Hready).
    exists answer. split; [reflexivity|]. intros Hwait _. specialize (Hready Hwait).
    unfold RiseTrackerClass.get_ready_stocks.
    apply list_elem_of_In, list_elem_of_fmap. exists (stock_code, ti).
    split; [reflexivity|]. apply list_elem_of_In, List.filter_In. split.
    + now apply list_elem_of_In, elem_of_map_to_list.
    + cbn. rewrite Hready. reflexivity.
  - exists "NOT_TRACKING". split; [reflexivity|]. intros _ H. now contradiction H.
Qed.

(** ** The sell orders of the engine *)















(** Two market sales of the same shares.  The trailing stop of the held
    position signals at 13,300 and [execute_sell_order] sends the sale of
    the ten shares; ten seconds later the price is 12,300, past the
    stop-loss line of the tracked symbol: [update_position] sends nothing,
    its flag being set, while [update_tracking_stock] runs
    [execute_stop_loss], which queues a second sale of the ten shares. *)
Example stop_loss_sale_after_sell_order :
  let final :=
    sell_run scenario_env Spec.calculate_profit_rate
      ({| tick_time := 100; tick_stock_code := "005930"; tick_price := 13300;
          tick_change_rate := 0; tick_high_price := 0;
          tick_transport := EngineSell.Delivered; tick_admitted := false |}
       :: scenario_later_ticks)
      scenario_selling in
  EngineSell.sell_orders final = [("005930", 10%Z, Engine.TRAILING_SELL)]
  /\ Engine.sent (EngineSell.engine final) = [Engine.StopLossQueued "005930" 10].
Proof.
  split; vm_compute; reflexivity.
Qed.
